(** * go-workers: the simple dispatcher

    A shallow embedding of [dispatcher.SimpleDispatcher] (result collector,
    dispatch loop, task runner, notification channel, shutdown) and of the
    generated [TaskStatus] enumeration, with the properties of the
    dispatcher's design checked against it.

    Goroutines are embedded as atomic blocks of a labelled transition
    system over the shared dispatcher state; what the outside world decides
    (the wall clock, the outcome of a task function, which ready branch a
    [select] takes) is an input of the block concerned. *)

From Stdlib Require Import ZArith String List Lia Bool.
From stdpp Require Import base option list strings pretty.

Import ListNotations.
Local Open Scope string_scope.
Local Open Scope list_scope.
Local Open Scope Z_scope.

(** ** The generated enumeration [TaskStatus] (task_status_enumer.go) *)

Module TaskStatusEnum.

Definition _TaskStatusName : string :=
  "UndefinedWaitProcessSuccessFailRepeatWaitCancel".

Definition _TaskStatusIndex : list Z := [0; 9; 13; 20; 27; 31; 41; 47].

(** [_TaskStatusName[lo:hi]] *)
Definition slice (s : string) (lo hi : Z) : string :=
  substring (Z.to_nat lo) (Z.to_nat (hi - lo)) s.

Definition index_at (i : Z) : Z :=
  nth (Z.to_nat i) _TaskStatusIndex 0.

(** [func (i TaskStatus) String() string] *)
Definition String (i : Z) : string :=
  if (i <? 0) || (i >=? Z.of_nat (length _TaskStatusIndex) - 1)
  then "TaskStatus(" +:+ pretty i +:+ ")"
  else slice _TaskStatusName (index_at i) (index_at (i + 1)).

Definition _TaskStatusValues : list Z := [0; 1; 2; 3; 4; 5; 6].

Definition _TaskStatusNameToValueMap : list (string * Z) :=
  [ (slice _TaskStatusName 0 9, 0);
    (slice _TaskStatusName 9 13, 1);
    (slice _TaskStatusName 13 20, 2);
    (slice _TaskStatusName 20 27, 3);
    (slice _TaskStatusName 27 31, 4);
    (slice _TaskStatusName 31 41, 5);
    (slice _TaskStatusName 41 47, 6) ].

Fixpoint map_lookup (s : string) (m : list (string * Z)) : option Z :=
  match m with
  | [] => None
  | (k, v) :: m' => if String.eqb k s then Some v else map_lookup s m'
  end.

(** [func TaskStatusString(s string) (TaskStatus, error)]: the error is
    rendered by its message. *)
Definition TaskStatusString (s : string) : Z * option string :=
  match map_lookup s _TaskStatusNameToValueMap with
  | Some val => (val, None)
  | None => (0, Some (s +:+ " does not belong to TaskStatus values"))
  end.

Definition TaskStatusValues : list Z := _TaskStatusValues.

(** [func (i TaskStatus) IsATaskStatus() bool] *)
Definition IsATaskStatus (i : Z) : bool :=
  existsb (fun v => i =? v) _TaskStatusValues.

End TaskStatusEnum.

(** ** Statuses *)

(** The constants of [workers.TaskStatus]; their values are the ones the
    generated enumeration maps their trimmed names to. *)
Definition TaskStatusUndefined : Z := 0.
Definition TaskStatusWait : Z := 1.
Definition TaskStatusProcess : Z := 2.
Definition TaskStatusSuccess : Z := 3.
Definition TaskStatusFail : Z := 4.
Definition TaskStatusRepeatWait : Z := 5.
Definition TaskStatusCancel : Z := 6.

(** Modelled from the spec: the constants of [workers.WorkerStatus] are
    declared in a file that is not embedded here.  The spec gives a worker the
    statuses Wait, Process and Cancel; they are numbered the way the
    generated [TaskStatus] enumeration numbers its own, after a leading
    Undefined. *)
Definition WorkerStatusUndefined : Z := 0.
Definition WorkerStatusWait : Z := 1.
Definition WorkerStatusProcess : Z := 2.
Definition WorkerStatusCancel : Z := 3.

(** Modelled from the spec: the constants of [workers.DispatcherStatus],
    likewise (Wait, Process, Cancel). *)
Definition DispatcherStatusUndefined : Z := 0.
Definition DispatcherStatusWait : Z := 1.
Definition DispatcherStatusProcess : Z := 2.
Definition DispatcherStatusCancel : Z := 3.

(** [workers.Status] is the interface through which a constant of any of
    the three enumerations reaches [SetStatus] and [IsStatus]; the embedded
    [StatusItemBase] keeps only its [Int64()] (the dispatcher reads it back
    with [StatusInt64()]), so a status is its [Z] here. *)
Abbreviation Status := Z (only parsing).

(** ** Go values, errors and contexts *)

(** What an [interface{}] result or a recovered panic value can hold. *)
Inductive value :=
| VNil
| VInt (n : Z)
| VString (s : string).

(** The errors the dispatcher handles: the two sentinels of package
    [context], errors built by [errors.New], and the error of a manager's
    rejected [Push] (the dispatcher only logs or returns it). *)
Inductive error :=
| Canceled
| DeadlineExceeded
| errors_New (msg : string)
| PushRejected.

Definition Error (e : error) : string :=
  match e with
  | Canceled => "context canceled"
  | DeadlineExceeded => "context deadline exceeded"
  | errors_New msg => msg
  | PushRejected => "push rejected"
  end.

Definition error_eqb (a b : error) : bool :=
  match a, b with
  | Canceled, Canceled | DeadlineExceeded, DeadlineExceeded
  | PushRejected, PushRejected => true
  | errors_New x, errors_New y => String.eqb x y
  | _, _ => false
  end.

(** A [context.Context] is rendered by its [Err()]: [None] while it is not
    done.  A cancellation or a deadline only takes effect on a context that
    is not done yet. *)
Definition Context := option error.

Definition ctx_finish (e : error) (c : Context) : Context :=
  match c with
  | None => Some e
  | Some _ => c
  end.

(** A context derived by [context.WithTimeout] (with its deadline) or by
    [context.WithCancel] (without one). *)
Record Derived := mkDerived {
  dc_err : Context;
  dc_deadline : option Z
}.

Definition dc_finish (e : error) (c : Derived) : Derived :=
  mkDerived (ctx_finish e (dc_err c)) (dc_deadline c).

(** A 64-bit signed integer after an addition. *)
Definition wrap64 (z : Z) : Z := (z + 2 ^ 63) mod 2 ^ 64 - 2 ^ 63.

(** ** Tasks, workers and their manager items *)

(** Items live on a heap and are shared by address. *)
Abbreviation ptr := nat (only parsing).

(** What the dispatcher reads of a [workers.Task]. *)
Record Task := mkTask {
  task_Id : string;
  task_Repeats : Z;          (* int64 *)
  task_RepeatInterval : Z;   (* time.Duration *)
  task_Timeout : Z           (* time.Duration *)
}.

(** What the dispatcher reads of a [workers.Worker]. *)
Record Worker := mkWorker {
  worker_Id : string
}.

(** Modelled from the spec: [manager.TasksManagerItem] is declared in
    package manager, which is not embedded here.  The fields are the
    mutable state the spec gives a task (status, attempts, allow_start_at,
    first_started_at, last_started_at) and the cancel handle the dispatcher
    sets: the index of the context derived for the running attempt.  The
    dispatcher compares [Attempts()] with the int64 [Repeats()], so the
    counter is an int64. *)
Record TasksManagerItem := mkTasksManagerItem {
  ti_task : Task;
  ti_status : Status;
  ti_attempts : Z;                 (* int64 *)
  ti_allowStartAt : option Z;
  ti_firstStartedAt : option Z;
  ti_lastStartedAt : option Z;
  ti_cancel : option nat
}.

(** Modelled from the spec: [manager.WorkersManagerItem], likewise (status,
    created_at, current_task, cancel handle). *)
Record WorkersManagerItem := mkWorkersManagerItem {
  wi_worker : Worker;
  wi_status : Status;
  wi_createdAt : Z;
  wi_task : option Task;
  wi_cancel : option nat
}.

(** Modelled from the spec: [manager.NewTasksManagerItem], a task that was
    never attempted ([attempts] 0, no time stamp). *)
Definition NewTasksManagerItem (t : Task) (st : Status) : TasksManagerItem :=
  mkTasksManagerItem t st 0 None None None None.

(** Modelled from the spec: [manager.NewWorkersManagerItem]; [now] is the
    clock reading that becomes created_at. *)
Definition NewWorkersManagerItem (now : Z) (w : Worker) (st : Status)
  : WorkersManagerItem :=
  mkWorkersManagerItem w st now None None.

Definition ti_SetStatus (st : Status) (it : TasksManagerItem) :=
  mkTasksManagerItem (ti_task it) st (ti_attempts it) (ti_allowStartAt it)
    (ti_firstStartedAt it) (ti_lastStartedAt it) (ti_cancel it).
Definition ti_SetAttempts (n : Z) (it : TasksManagerItem) :=
  mkTasksManagerItem (ti_task it) (ti_status it) n (ti_allowStartAt it)
    (ti_firstStartedAt it) (ti_lastStartedAt it) (ti_cancel it).
Definition ti_SetAllowStartAt (t : Z) (it : TasksManagerItem) :=
  mkTasksManagerItem (ti_task it) (ti_status it) (ti_attempts it) (Some t)
    (ti_firstStartedAt it) (ti_lastStartedAt it) (ti_cancel it).
Definition ti_SetFirstStartedAt (t : Z) (it : TasksManagerItem) :=
  mkTasksManagerItem (ti_task it) (ti_status it) (ti_attempts it)
    (ti_allowStartAt it) (Some t) (ti_lastStartedAt it) (ti_cancel it).
Definition ti_SetLastStartedAt (t : Z) (it : TasksManagerItem) :=
  mkTasksManagerItem (ti_task it) (ti_status it) (ti_attempts it)
    (ti_allowStartAt it) (ti_firstStartedAt it) (Some t) (ti_cancel it).
Definition ti_SetCancel (c : option nat) (it : TasksManagerItem) :=
  mkTasksManagerItem (ti_task it) (ti_status it) (ti_attempts it)
    (ti_allowStartAt it) (ti_firstStartedAt it) (ti_lastStartedAt it) c.

Definition wi_SetStatus (st : Status) (it : WorkersManagerItem) :=
  mkWorkersManagerItem (wi_worker it) st (wi_createdAt it) (wi_task it)
    (wi_cancel it).
Definition wi_SetTask (t : option Task) (it : WorkersManagerItem) :=
  mkWorkersManagerItem (wi_worker it) (wi_status it) (wi_createdAt it) t
    (wi_cancel it).
Definition wi_SetCancel (c : option nat) (it : WorkersManagerItem) :=
  mkWorkersManagerItem (wi_worker it) (wi_status it) (wi_createdAt it)
    (wi_task it) c.

(** ** Managers *)

(** Modelled from the spec: the managers behind [workers.Manager] are
    declared in package manager, which is not embedded here.  A manager
    knows the items it manages ([GetAll], [GetById], [Remove]) and, among
    them, the ones that wait to be pulled; an item that was pulled stays
    managed (the dispatcher finds a running task or worker by id to cancel
    it, and calls [Remove] on an item it had pulled). *)
Record Manager := mkManager {
  m_items : list ptr;
  m_queue : list ptr
}.

Definition NewManager : Manager := mkManager [] [].

Definition mem (p : ptr) (l : list ptr) : bool := bool_decide (p ∈ l).

Definition without (p : ptr) (l : list ptr) : list ptr :=
  filter (fun q => q <> p) l.

(** Modelled from the spec: push(t) is idempotent on id, push(w) inserts if
    not present.  [same_id p q] tells whether the items at [p] and [q] carry
    the same id.  A push is rejected when the item already waits or when
    another managed item has its id; otherwise the item is managed and
    waits behind the ones that wait already. *)
Definition Push (same_id : ptr -> ptr -> bool) (p : ptr) (m : Manager)
  : Manager * option error :=
  if mem p (m_queue m)
     || existsb (fun q => bool_decide (q <> p) && same_id q p) (m_items m)
  then (m, Some PushRejected)
  else (mkManager (if mem p (m_items m) then m_items m else m_items m ++ [p])
                  (m_queue m ++ [p]),
        None).

(** Modelled from the spec: remove(t). *)
Definition Remove (p : ptr) (m : Manager) : Manager :=
  mkManager (without p (m_items m)) (without p (m_queue m)).

(** Modelled from the spec: all(). *)
Definition GetAll (m : Manager) : list ptr := m_items m.

(** Modelled from the spec: get_by_id. *)
Definition GetById (has_id : ptr -> bool) (m : Manager) : option ptr :=
  find has_id (m_items m).

(** Modelled from the spec: pull() of the task queue returns one pending
    task whose allow_start_at is not in the future, the oldest enqueued
    first, and none when no pending task is eligible. *)
Definition PullFirst (eligible : ptr -> bool) (m : Manager)
  : option ptr * Manager :=
  match find eligible (m_queue m) with
  | Some p => (Some p, mkManager (m_items m) (without p (m_queue m)))
  | None => (None, m)
  end.

(** The best element of a list under a total preorder given as [before]. *)
Fixpoint first_by (before : ptr -> ptr -> bool) (l : list ptr) : option ptr :=
  match l with
  | [] => None
  | p :: l' =>
      match first_by before l' with
      | Some q => Some (if before p q then p else q)
      | None => Some p
      end
  end.

(** Modelled from the spec: pull() of the worker pool removes and returns
    one idle worker, the one created first, ties broken by id; only workers
    in Wait are eligible. *)
Definition PullOldest (eligible : ptr -> bool) (before : ptr -> ptr -> bool)
    (m : Manager) : option ptr * Manager :=
  match first_by before (filter eligible (m_queue m)) with
  | Some p => (Some p, mkManager (m_items m) (without p (m_queue m)))
  | None => (None, m)
  end.

(** ** The dispatcher *)

(** What [listeners.AsyncTrigger] is handed, in the order of the calls. *)
Inductive Event :=
| EventDispatcherStatusChanged (status last : Status)
| EventWorkerAdd (w : ptr)
| EventWorkerRemove (w : ptr)
| EventWorkerStatusChanged (w : ptr) (status last : Status)
| EventTaskAdd (t : ptr)
| EventTaskRemove (t : ptr)
| EventTaskStatusChanged (t : ptr) (status last : Status)
| EventTaskExecuteStart (t w : ptr)
| EventTaskExecuteStop (t w : ptr) (result : value) (err : option error).

(** [SimpleDispatcherResult], the result envelope. *)
Record SimpleDispatcherResult := mkResult {
  workerItem : ptr;
  taskItem : ptr;
  result : value;
  err : option error;
  cancel : bool
}.

(** [SimpleDispatcher].  [ctx] is the root context made by
    [context.WithCancel]; [ctxs] holds the contexts [doRunTask] derives from
    it, one per attempt, at the index the cancel handles refer to.
    [allowExecuteTasks] is the number of signals buffered in the channel of
    that name; [results] is unbuffered and has no state of its own. *)
Record SimpleDispatcher := mkDispatcher {
  wg : Z;
  status : Status;
  ctx : Context;
  ctxs : list Derived;
  workers : Manager;
  tasks : Manager;
  workerItems : list WorkersManagerItem;
  taskItems : list TasksManagerItem;
  listeners : list Event;
  allowExecuteTasks : nat
}.

(** [make(chan struct{}, 1)] in [NewSimpleDispatcherWithContext]. *)
Definition allowExecuteTasks_cap : nat := 1.

Definition set_wg (n : Z) (d : SimpleDispatcher) :=
  mkDispatcher n (status d) (ctx d) (ctxs d) (workers d) (tasks d)
    (workerItems d) (taskItems d) (listeners d) (allowExecuteTasks d).
Definition set_status (st : Status) (d : SimpleDispatcher) :=
  mkDispatcher (wg d) st (ctx d) (ctxs d) (workers d) (tasks d)
    (workerItems d) (taskItems d) (listeners d) (allowExecuteTasks d).
Definition set_ctx (c : Context) (cs : list Derived) (d : SimpleDispatcher) :=
  mkDispatcher (wg d) (status d) c cs (workers d) (tasks d)
    (workerItems d) (taskItems d) (listeners d) (allowExecuteTasks d).
Definition set_workers (m : Manager) (d : SimpleDispatcher) :=
  mkDispatcher (wg d) (status d) (ctx d) (ctxs d) m (tasks d)
    (workerItems d) (taskItems d) (listeners d) (allowExecuteTasks d).
Definition set_tasks (m : Manager) (d : SimpleDispatcher) :=
  mkDispatcher (wg d) (status d) (ctx d) (ctxs d) (workers d) m
    (workerItems d) (taskItems d) (listeners d) (allowExecuteTasks d).
Definition set_workerItems (h : list WorkersManagerItem) (d : SimpleDispatcher) :=
  mkDispatcher (wg d) (status d) (ctx d) (ctxs d) (workers d) (tasks d)
    h (taskItems d) (listeners d) (allowExecuteTasks d).
Definition set_taskItems (h : list TasksManagerItem) (d : SimpleDispatcher) :=
  mkDispatcher (wg d) (status d) (ctx d) (ctxs d) (workers d) (tasks d)
    (workerItems d) h (listeners d) (allowExecuteTasks d).
Definition set_allowExecuteTasks (n : nat) (d : SimpleDispatcher) :=
  mkDispatcher (wg d) (status d) (ctx d) (ctxs d) (workers d) (tasks d)
    (workerItems d) (taskItems d) (listeners d) n.

(** [d.listeners.AsyncTrigger(d.Context(), ...)]: the call returns at once;
    the event is appended to what the listeners were handed. *)
Definition AsyncTrigger (e : Event) (d : SimpleDispatcher) :=
  mkDispatcher (wg d) (status d) (ctx d) (ctxs d) (workers d) (tasks d)
    (workerItems d) (taskItems d) (listeners d ++ [e]) (allowExecuteTasks d).

(** *** Items through the heap *)

(** The addresses the dispatcher handles always hold an item; an address
    that holds none reads as the zero value and is left alone by an
    update. *)

Definition task_status (p : ptr) (d : SimpleDispatcher) : Status :=
  from_option ti_status TaskStatusUndefined (taskItems d !! p).
Definition worker_status (p : ptr) (d : SimpleDispatcher) : Status :=
  from_option wi_status WorkerStatusUndefined (workerItems d !! p).

(** [item.IsStatus(status)] *)
Definition task_IsStatus (p : ptr) (st : Status) (d : SimpleDispatcher) : bool :=
  task_status p d =? st.
Definition worker_IsStatus (p : ptr) (st : Status) (d : SimpleDispatcher) : bool :=
  worker_status p d =? st.

(** [d.IsStatus(status)] *)
Definition IsStatus (st : Status) (d : SimpleDispatcher) : bool :=
  status d =? st.

Definition task_update (f : TasksManagerItem -> TasksManagerItem) (p : ptr)
    (d : SimpleDispatcher) : SimpleDispatcher :=
  set_taskItems (alter f p (taskItems d)) d.
Definition worker_update (f : WorkersManagerItem -> WorkersManagerItem) (p : ptr)
    (d : SimpleDispatcher) : SimpleDispatcher :=
  set_workerItems (alter f p (workerItems d)) d.

Definition task_same_id (d : SimpleDispatcher) (p q : ptr) : bool :=
  match taskItems d !! p, taskItems d !! q with
  | Some a, Some b => String.eqb (task_Id (ti_task a)) (task_Id (ti_task b))
  | _, _ => false
  end.
Definition worker_same_id (d : SimpleDispatcher) (p q : ptr) : bool :=
  match workerItems d !! p, workerItems d !! q with
  | Some a, Some b => String.eqb (worker_Id (wi_worker a)) (worker_Id (wi_worker b))
  | _, _ => false
  end.

(** A pending task is eligible when its allow_start_at, if set, is not in
    the future. *)
Definition task_eligible (now : Z) (d : SimpleDispatcher) (p : ptr) : bool :=
  match taskItems d !! p with
  | Some it =>
      match ti_allowStartAt it with
      | Some t => t <=? now
      | None => true
      end
  | None => false
  end.

Definition worker_eligible (d : SimpleDispatcher) (p : ptr) : bool :=
  worker_IsStatus p WorkerStatusWait d.

(** Created first, ties broken by id. *)
Definition worker_before (d : SimpleDispatcher) (p q : ptr) : bool :=
  match workerItems d !! p, workerItems d !! q with
  | Some a, Some b =>
      (wi_createdAt a <? wi_createdAt b)
      || ((wi_createdAt a =? wi_createdAt b)
          && String.leb (worker_Id (wi_worker a)) (worker_Id (wi_worker b)))
  | _, _ => true
  end.

(** [d.tasks.Push], [d.tasks.Pull], [d.tasks.Remove] and the same on
    [d.workers]. *)
Definition tasks_Push (p : ptr) (d : SimpleDispatcher)
  : SimpleDispatcher * option error :=
  let '(m, e) := Push (task_same_id d) p (tasks d) in (set_tasks m d, e).
Definition workers_Push (p : ptr) (d : SimpleDispatcher)
  : SimpleDispatcher * option error :=
  let '(m, e) := Push (worker_same_id d) p (workers d) in (set_workers m d, e).
Definition tasks_Pull (now : Z) (d : SimpleDispatcher)
  : option ptr * SimpleDispatcher :=
  let '(o, m) := PullFirst (task_eligible now d) (tasks d) in (o, set_tasks m d).
Definition workers_Pull (d : SimpleDispatcher) : option ptr * SimpleDispatcher :=
  let '(o, m) := PullOldest (worker_eligible d) (worker_before d) (workers d) in
  (o, set_workers m d).
Definition tasks_Remove (p : ptr) (d : SimpleDispatcher) : SimpleDispatcher :=
  set_tasks (Remove p (tasks d)) d.
Definition workers_Remove (p : ptr) (d : SimpleDispatcher) : SimpleDispatcher :=
  set_workers (Remove p (workers d)) d.

(** [d.setStatusDispatcher(status)] *)
Definition setStatusDispatcher (st : Status) (d : SimpleDispatcher)
  : SimpleDispatcher :=
  let last := status d in
  AsyncTrigger (EventDispatcherStatusChanged st last) (set_status st d).

(** [d.setStatusWorker(worker, status)] *)
Definition setStatusWorker (w : ptr) (st : Status) (d : SimpleDispatcher)
  : SimpleDispatcher :=
  let last := worker_status w d in
  AsyncTrigger (EventWorkerStatusChanged w st last)
    (worker_update (wi_SetStatus st) w d).

(** [d.setStatusTask(task, status)] *)
Definition setStatusTask (t : ptr) (st : Status) (d : SimpleDispatcher)
  : SimpleDispatcher :=
  let last := task_status t d in
  AsyncTrigger (EventTaskStatusChanged t st last)
    (task_update (ti_SetStatus st) t d).

(** *** The notification channel *)

(** A send on a channel that buffers [len] of at most [cap] values: [None]
    when the sender has to wait for a receiver. *)
Definition chan_send (cap len : nat) : option nat :=
  if (len <? cap)%nat then Some (S len) else None.

(** A receive: [None] when the receiver has to wait for a sender. *)
Definition chan_recv (len : nat) : option nat :=
  match len with
  | O => None
  | S n => Some n
  end.

(** The condition of [notifyAllowExecuteTasks]. *)
Definition notify_check (d : SimpleDispatcher) : bool :=
  IsStatus DispatcherStatusProcess d && (allowExecuteTasks d =? 0)%nat.

(** Its send, [d.allowExecuteTasks <- struct{}{}]. *)
Definition notify_send (d : SimpleDispatcher) : option SimpleDispatcher :=
  n ← chan_send allowExecuteTasks_cap (allowExecuteTasks d);
  Some (set_allowExecuteTasks n d).

(** [d.notifyAllowExecuteTasks()], run without another goroutine between the
    check and the send; [None] when the caller is left waiting. *)
Definition notifyAllowExecuteTasks (d : SimpleDispatcher)
  : option SimpleDispatcher :=
  if notify_check d then notify_send d else Some d.

(** *** The result collector *)

Definition task_Task (t : ptr) (d : SimpleDispatcher) : option Task :=
  ti_task <$> taskItems d !! t.
Definition task_Repeats_of (t : ptr) (d : SimpleDispatcher) : Z :=
  from_option (fun it => task_Repeats (ti_task it)) 0 (taskItems d !! t).
Definition task_RepeatInterval_of (t : ptr) (d : SimpleDispatcher) : Z :=
  from_option (fun it => task_RepeatInterval (ti_task it)) 0 (taskItems d !! t).
Definition task_Timeout_of (t : ptr) (d : SimpleDispatcher) : Z :=
  from_option (fun it => task_Timeout (ti_task it)) 0 (taskItems d !! t).
Definition task_Attempts (t : ptr) (d : SimpleDispatcher) : Z :=
  from_option ti_attempts 0 (taskItems d !! t).

(** The worker's share of the collector, lines 478-485. *)
Definition collect_worker (r : SimpleDispatcherResult) (d : SimpleDispatcher)
  : SimpleDispatcher :=
  let d := worker_update (wi_SetTask None) (workerItem r) d in
  if negb (cancel r) || negb (worker_IsStatus (workerItem r) WorkerStatusCancel d)
  then
    let d := setStatusWorker (workerItem r) WorkerStatusWait d in
    fst (workers_Push (workerItem r) d)
  else d.

(** The retry decision, line 494. *)
Definition retry_allowed (t : ptr) (d : SimpleDispatcher) : bool :=
  let repeats := task_Repeats_of t d in
  (repeats <? 0) || (task_Attempts t d <? repeats).

(** The task's share of the collector, lines 487-507; [now] is what
    [time.Now()] returns. *)
Definition collect_task (now : Z) (r : SimpleDispatcherResult)
    (d : SimpleDispatcher) : SimpleDispatcher :=
  if negb (cancel r) && negb (task_IsStatus (taskItem r) TaskStatusCancel d)
  then
    let d :=
      match err r with
      | Some _ => setStatusTask (taskItem r) TaskStatusFail d
      | None => setStatusTask (taskItem r) TaskStatusSuccess d
      end in
    if retry_allowed (taskItem r) d
    then
      let repeatInterval := task_RepeatInterval_of (taskItem r) d in
      let d :=
        if repeatInterval >? 0
        then task_update (ti_SetAllowStartAt (now + repeatInterval)) (taskItem r) d
        else d in
      let d := setStatusTask (taskItem r) TaskStatusRepeatWait d in
      fst (tasks_Push (taskItem r) d)
    else tasks_Remove (taskItem r) d
  else d.

(** What [doResultCollector] does with one envelope received from
    [d.results], lines 471-510. *)
Definition doResultCollector_result (now : Z) (r : SimpleDispatcherResult)
    (d : SimpleDispatcher) : option SimpleDispatcher :=
  let d := task_update (ti_SetCancel None) (taskItem r) d in
  let d := worker_update (wi_SetCancel None) (workerItem r) d in
  if IsStatus DispatcherStatusCancel d then Some d
  else
    let d := collect_worker r d in
    let d := collect_task now r d in
    let d := AsyncTrigger
               (EventTaskExecuteStop (taskItem r) (workerItem r) (result r) (err r)) d in
    notifyAllowExecuteTasks d.

(** *** The dispatch step *)

(** One pass of the loop of [doExecuteTasks], lines 543-562: the pair it
    hands to [go d.doRunTask] when it goes on, [None] when it returns. *)
Definition doExecuteTasks_pass (now : Z) (d : SimpleDispatcher)
  : SimpleDispatcher * option (ptr * ptr) :=
  let '(pullWorker, d) := workers_Pull d in
  let '(pullTask, d) := tasks_Pull now d in
  match pullWorker, pullTask with
  | Some w, Some t =>
      let d := AsyncTrigger (EventTaskExecuteStart t w) d in
      (d, Some (w, t))
  | _, _ =>
      let d := match pullWorker with
               | Some w => (workers_Push w d).1
               | None => d
               end in
      let d := match pullTask with
               | Some t => (tasks_Push t d).1
               | None => d
               end in
      (d, None)
  end.

(** The loop, with the pairs launched in the order of the launches.  The
    loop has no bound of its own in the source; [fuel] bounds the passes,
    and [None] is a loop that did not return within them. *)
Fixpoint doExecuteTasks_loop (fuel : nat) (now : Z) (d : SimpleDispatcher)
  : option (SimpleDispatcher * list (ptr * ptr)) :=
  match fuel with
  | O => None
  | S fuel' =>
      match doExecuteTasks_pass now d with
      | (d, Some launch) =>
          '(d, launched) ← doExecuteTasks_loop fuel' now d;
          Some (d, launch :: launched)
      | (d, None) => Some (d, [])
      end
  end.

(** [d.doExecuteTasks()] *)
Definition doExecuteTasks (fuel : nat) (now : Z) (d : SimpleDispatcher)
  : option (SimpleDispatcher * list (ptr * ptr)) :=
  if negb (IsStatus DispatcherStatusProcess d) then Some (d, [])
  else doExecuteTasks_loop fuel now d.

(** *** Running a task *)

(** The cancel function of the derived context [k]. *)
Definition ctxCancel_derived (k : nat) (d : SimpleDispatcher) : SimpleDispatcher :=
  set_ctx (ctx d) (alter (dc_finish Canceled) k (ctxs d)) d.

(** The root context ends with [e]: by [d.ctxCancel()] ([Canceled]) or
    because the parent it was derived from is done; the contexts derived
    from it that are not done yet end with it. *)
Definition ctx_done (e : error) (d : SimpleDispatcher) : SimpleDispatcher :=
  match ctx d with
  | None => set_ctx (Some e) (dc_finish e <$> ctxs d) d
  | Some _ => d
  end.

(** [doRunTask] up to its [select], lines 567-599: returns the index of the
    context derived for the attempt.  [now] is the reading of the clock;
    the derived context starts with the [Err()] of the root context. *)
Definition doRunTask_start (now : Z) (w t : ptr) (d : SimpleDispatcher)
  : nat * SimpleDispatcher :=
  let d := set_wg (wg d + 1) d in
  let task := task_Task t d in
  let d := worker_update (wi_SetTask task) w d in
  let d := setStatusWorker w WorkerStatusProcess d in
  let d := task_update (ti_SetAttempts (wrap64 (task_Attempts t d + 1))) t d in
  let d := setStatusTask t TaskStatusProcess d in
  let d := if task_Attempts t d =? 1
           then task_update (ti_SetFirstStartedAt now) t d
           else d in
  let d := task_update (ti_SetLastStartedAt now) t d in
  let timeout := task_Timeout_of t d in
  let derived := if timeout >? 0
                 then mkDerived (ctx d) (Some (now + timeout))
                 else mkDerived (ctx d) None in
  let k := length (ctxs d) in
  let d := set_ctx (ctx d) (ctxs d ++ [derived]) d in
  let d := task_update (ti_SetCancel (Some k)) t d in
  let d := worker_update (wi_SetCancel (Some k)) w d in
  (k, d).

(** How a call of [workerItem.Worker().RunTask(ctx, task)] ends. *)
Inductive RunTaskOutcome :=
| Returned (result : value) (err : option error)
| Panicked (v : value).

(** The goroutine of lines 601-621: what it sends on [done], if anything.
    [recover()] hands back the panic value; a nil one sends nothing. *)
Definition run_goroutine (w t : ptr) (o : RunTaskOutcome)
  : option SimpleDispatcherResult :=
  match o with
  | Returned res e => Some (mkResult w t res e false)
  | Panicked VNil => None
  | Panicked v => Some (mkResult w t v (Some (errors_New "Panic recovered")) false)
  end.

(** The two cases of the [select] of lines 623-637. *)
Inductive SelectCase :=
| CaseCtxDone
| CaseDone.

(** The envelope a case sends on [d.results]; [None] when the case is not
    ready.  [done] is what the buffered channel of that name holds. *)
Definition doRunTask_select (c : SelectCase) (k : nat) (w t : ptr)
    (done : option SimpleDispatcherResult) (d : SimpleDispatcher)
  : option SimpleDispatcherResult :=
  match c with
  | CaseCtxDone =>
      e ← (ctxs d !! k) ≫= dc_err;
      Some (mkResult w t VNil (Some e) (error_eqb e Canceled))
  | CaseDone => done
  end.

(** The deferred calls of [doRunTask]: [ctxCancel()], then [d.wg.Done()]. *)
Definition doRunTask_exit (k : nat) (d : SimpleDispatcher) : SimpleDispatcher :=
  let d := ctxCancel_derived k d in
  set_wg (wg d - 1) d.

(** *** The public operations *)

(** Modelled from the spec: the item's [Cancel()] signals the context of the
    attempt in flight, if there is one. *)
Definition item_Cancel (c : option nat) (d : SimpleDispatcher) : SimpleDispatcher :=
  match c with
  | Some k => ctxCancel_derived k d
  | None => d
  end.

Definition task_has_id (id : string) (d : SimpleDispatcher) (p : ptr) : bool :=
  match taskItems d !! p with
  | Some it => String.eqb (task_Id (ti_task it)) id
  | None => false
  end.
Definition worker_has_id (id : string) (d : SimpleDispatcher) (p : ptr) : bool :=
  match workerItems d !! p with
  | Some it => String.eqb (worker_Id (wi_worker it)) id
  | None => false
  end.

(** [d.AddWorker(worker)]; [now] is the clock reading of the new item. *)
Definition AddWorker (now : Z) (worker : Worker) (d : SimpleDispatcher)
  : option (SimpleDispatcher * option error) :=
  let item := length (workerItems d) in
  let d := set_workerItems
             (workerItems d ++ [NewWorkersManagerItem now worker WorkerStatusWait]) d in
  match workers_Push item d with
  | (d, Some e) => Some (d, Some e)
  | (d, None) =>
      let d := AsyncTrigger (EventWorkerAdd item) d in
      d ← notifyAllowExecuteTasks d;
      Some (d, None)
  end.

(** [d.RemoveWorker(worker)] *)
Definition RemoveWorker (worker : Worker) (d : SimpleDispatcher)
  : SimpleDispatcher :=
  match GetById (worker_has_id (worker_Id worker) d) (workers d) with
  | Some item =>
      let d := setStatusWorker item WorkerStatusCancel d in
      let d := item_Cancel ((workerItems d !! item) ≫= wi_cancel) d in
      let d := worker_update (wi_SetTask None) item d in
      let d := workers_Remove item d in
      AsyncTrigger (EventWorkerRemove item) d
  | None => d
  end.

(** [d.AddTask(task)] *)
Definition AddTask (task : Task) (d : SimpleDispatcher)
  : option (SimpleDispatcher * option error) :=
  let item := length (taskItems d) in
  let d := set_taskItems
             (taskItems d ++ [NewTasksManagerItem task TaskStatusWait]) d in
  match tasks_Push item d with
  | (d, Some e) => Some (d, Some e)
  | (d, None) =>
      let d := AsyncTrigger (EventTaskAdd item) d in
      d ← notifyAllowExecuteTasks d;
      Some (d, None)
  end.

(** [d.RemoveTask(task)] *)
Definition RemoveTask (task : Task) (d : SimpleDispatcher) : SimpleDispatcher :=
  match GetById (task_has_id (task_Id task) d) (tasks d) with
  | Some item =>
      let d := setStatusTask item TaskStatusCancel d in
      let d := item_Cancel ((taskItems d !! item) ≫= ti_cancel) d in
      let d := tasks_Remove item d in
      AsyncTrigger (EventTaskRemove item) d
  | None => d
  end.

(** [d.Cancel()]: [d.ctxCancel()], then [d.ctx.Err()]. *)
Definition Cancel (d : SimpleDispatcher) : SimpleDispatcher * option error :=
  let d := ctx_done Canceled d in
  (d, ctx d).

(** [NewSimpleDispatcherWithContext(ctx)]; the root context is derived from
    [parent] and is done from the start when [parent] is. *)
Definition NewSimpleDispatcherWithContext (parent : Context) : SimpleDispatcher :=
  let d := mkDispatcher 0 DispatcherStatusUndefined None []
             NewManager NewManager [] [] [] 0 in
  let d := setStatusDispatcher DispatcherStatusWait d in
  set_ctx parent [] d.

(** [NewSimpleDispatcher()], on [context.Background()]. *)
Definition NewSimpleDispatcher : SimpleDispatcher :=
  NewSimpleDispatcherWithContext None.

(** *** Run *)

(** [Run] up to [<-d.ctx.Done()], lines 302-310: the error it returns at
    once, or the state in which it starts to wait ([go d.doResultCollector()]
    and [go d.doDispatch()] are goroutines of the system below). *)
Definition Run_enter (d : SimpleDispatcher)
  : option (SimpleDispatcher * option error) :=
  if negb (IsStatus DispatcherStatusWait d)
  then Some (d, Some (errors_New "Dispatcher is running"))
  else
    let d := setStatusDispatcher DispatcherStatusProcess d in
    d ← notifyAllowExecuteTasks d;
    Some (d, None).

(** [Run] from the moment [d.ctx] is done up to [d.wg.Wait()], lines
    313-321. *)
Definition Run_cancel (d : SimpleDispatcher) : SimpleDispatcher :=
  let d := setStatusDispatcher DispatcherStatusCancel d in
  let d := foldl (fun d w => setStatusWorker w WorkerStatusCancel d) d
             (GetAll (workers d)) in
  foldl (fun d t => setStatusTask t WorkerStatusCancel d) d (GetAll (tasks d)).

(** [Run] after [d.wg.Wait()], lines 324-326; [None] while the wait group is
    not at zero. *)
Definition Run_return (d : SimpleDispatcher)
  : option (SimpleDispatcher * option error) :=
  if wg d =? 0
  then Some (setStatusDispatcher DispatcherStatusWait d, None)
  else None.

(** ** The dispatcher and its goroutines as a transition system *)

(** The goroutine of [doResultCollector]: started by [go], at its [select],
    holding an envelope it received from [d.results], or returned. *)
Inductive CollectorState :=
| CollectorSpawned
| CollectorSelect
| CollectorHolds (r : SimpleDispatcherResult)
| CollectorExited.

(** The goroutine of [doDispatch]. *)
Inductive DispatchState :=
| DispatchSpawned
| DispatchSelect
| DispatchExited.

(** Where a call of [Run] stands. *)
Inductive RunState :=
| RunNotCalled
| RunAwaitsCtx
| RunAwaitsWg
| RunReturned.

(** A call of [doRunTask] that waits at its [select]: its items, the index
    of its context, whether the task function has ended and what [done]
    holds. *)
Record Attempt := mkAttempt {
  at_worker : ptr;
  at_task : ptr;
  at_ctx : nat;
  at_ended : bool;
  at_done : option SimpleDispatcherResult
}.

Record System := mkSystem {
  shared : SimpleDispatcher;
  run : RunState;
  collector : option CollectorState;
  dispatch : option DispatchState;
  spawned : list (ptr * ptr);       (* go d.doRunTask(w, t), not started yet *)
  inflight : list Attempt
}.

Definition with_shared (d : SimpleDispatcher) (s : System) : System :=
  mkSystem d (run s) (collector s) (dispatch s) (spawned s) (inflight s).

Definition initial (parent : Context) : System :=
  mkSystem (NewSimpleDispatcherWithContext parent) RunNotCalled None None [] [].

Definition int64 (z : Z) : Prop := - 2 ^ 63 <= z < 2 ^ 63.

Definition goroutine_free {A} (g : option A) (exited : A) : Prop :=
  g = None \/ g = Some exited.

(** One atomic block of one goroutine.  The clock readings, the outcome of
    a task function, the case a [select] takes and the moment a context
    ends come from outside. *)
Inductive step : System -> System -> Prop :=
| step_AddWorker s now w d' e :
    AddWorker now w (shared s) = Some (d', e) ->
    step s (with_shared d' s)
| step_RemoveWorker s w :
    step s (with_shared (RemoveWorker w (shared s)) s)
| step_AddTask s t d' e :
    int64 (task_Repeats t) ->
    AddTask t (shared s) = Some (d', e) ->
    step s (with_shared d' s)
| step_RemoveTask s t :
    step s (with_shared (RemoveTask t (shared s)) s)
| step_Cancel s :
    step s (with_shared (fst (Cancel (shared s))) s)
| step_parent_done s e :
    e = Canceled \/ e = DeadlineExceeded ->
    step s (with_shared (ctx_done e (shared s)) s)
| step_deadline s k c deadline now :
    ctxs (shared s) !! k = Some c ->
    dc_deadline c = Some deadline ->
    deadline <= now ->
    step s (with_shared
              (set_ctx (ctx (shared s))
                 (alter (dc_finish DeadlineExceeded) k (ctxs (shared s)))
                 (shared s)) s)
| step_Run_enter s d' :
    run s = RunNotCalled \/ run s = RunReturned ->
    goroutine_free (collector s) CollectorExited ->
    goroutine_free (dispatch s) DispatchExited ->
    Run_enter (shared s) = Some (d', None) ->
    step s (mkSystem d' RunAwaitsCtx (Some CollectorSpawned) (Some DispatchSpawned)
              (spawned s) (inflight s))
| step_Run_cancel s :
    run s = RunAwaitsCtx ->
    ctx (shared s) <> None ->
    step s (mkSystem (Run_cancel (shared s)) RunAwaitsWg (collector s) (dispatch s)
              (spawned s) (inflight s))
| step_Run_return s d' e :
    run s = RunAwaitsWg ->
    Run_return (shared s) = Some (d', e) ->
    step s (mkSystem d' RunReturned (collector s) (dispatch s)
              (spawned s) (inflight s))
| step_collector_begin s :
    collector s = Some CollectorSpawned ->
    step s (mkSystem (set_wg (wg (shared s) + 1) (shared s)) (run s)
              (Some CollectorSelect) (dispatch s) (spawned s) (inflight s))
| step_collector_exit s :
    collector s = Some CollectorSelect ->
    ctx (shared s) <> None ->
    step s (mkSystem (set_wg (wg (shared s) - 1) (shared s)) (run s)
              (Some CollectorExited) (dispatch s) (spawned s) (inflight s))
| step_collector_result s now r d' :
    collector s = Some (CollectorHolds r) ->
    doResultCollector_result now r (shared s) = Some d' ->
    step s (mkSystem d' (run s) (Some CollectorSelect) (dispatch s)
              (spawned s) (inflight s))
| step_dispatch_begin s :
    dispatch s = Some DispatchSpawned ->
    step s (mkSystem (set_wg (wg (shared s) + 1) (shared s)) (run s)
              (collector s) (Some DispatchSelect) (spawned s) (inflight s))
| step_dispatch_exit s :
    dispatch s = Some DispatchSelect ->
    ctx (shared s) <> None ->
    step s (mkSystem (set_wg (wg (shared s) - 1) (shared s)) (run s)
              (collector s) (Some DispatchExited) (spawned s) (inflight s))
| step_dispatch_signal s now fuel n d' launched :
    dispatch s = Some DispatchSelect ->
    chan_recv (allowExecuteTasks (shared s)) = Some n ->
    doExecuteTasks fuel now (set_allowExecuteTasks n (shared s)) = Some (d', launched) ->
    step s (mkSystem d' (run s) (collector s) (dispatch s)
              (spawned s ++ launched) (inflight s))
| step_dispatch_tick s now fuel d' launched :
    dispatch s = Some DispatchSelect ->
    doExecuteTasks fuel now (shared s) = Some (d', launched) ->
    step s (mkSystem d' (run s) (collector s) (dispatch s)
              (spawned s ++ launched) (inflight s))
| step_doRunTask_start s now i w t k d' :
    spawned s !! i = Some (w, t) ->
    doRunTask_start now w t (shared s) = (k, d') ->
    step s (mkSystem d' (run s) (collector s) (dispatch s)
              (delete i (spawned s))
              (inflight s ++ [mkAttempt w t k false None]))
| step_goroutine s i a o :
    inflight s !! i = Some a ->
    at_ended a = false ->
    step s (mkSystem (shared s) (run s) (collector s) (dispatch s) (spawned s)
              (<[i := mkAttempt (at_worker a) (at_task a) (at_ctx a) true
                        (run_goroutine (at_worker a) (at_task a) o)]> (inflight s)))
| step_doRunTask_send s i a c r :
    inflight s !! i = Some a ->
    doRunTask_select c (at_ctx a) (at_worker a) (at_task a) (at_done a) (shared s)
      = Some r ->
    collector s = Some CollectorSelect ->
    step s (mkSystem (doRunTask_exit (at_ctx a) (shared s)) (run s)
              (Some (CollectorHolds r)) (dispatch s) (spawned s)
              (delete i (inflight s))).

(** The states reached from a new dispatcher in [n] blocks. *)
Inductive reach (parent : Context) : nat -> System -> Prop :=
| reach_init : reach parent 0 (initial parent)
| reach_step n s s' : reach parent n s -> step s s' -> reach parent (S n) s'.

Definition reachable (s : System) : Prop := exists parent n, reach parent n s.

(** *** Two callers of [notifyAllowExecuteTasks] side by side *)

(** Where a call of [notifyAllowExecuteTasks] stands: before its check,
    between the check and the send, or returned. *)
Inductive NotifyPc :=
| NotifyAtCheck
| NotifyAtSend
| NotifyReturned.

(** One operation of the caller at [pc]: [None] when the caller cannot move
    (its send waits for a receiver, or it has returned). *)
Definition notify_op (pc : NotifyPc) (d : SimpleDispatcher)
  : option (NotifyPc * SimpleDispatcher) :=
  match pc with
  | NotifyAtCheck =>
      Some (if notify_check d then NotifyAtSend else NotifyReturned, d)
  | NotifyAtSend => d' ← notify_send d; Some (NotifyReturned, d')
  | NotifyReturned => None
  end.

(** A schedule names, operation by operation, which of the callers moves;
    [None] when it names a caller that cannot move. *)
Fixpoint notify_run (schedule : list nat) (pcs : list NotifyPc)
    (d : SimpleDispatcher) : option (list NotifyPc * SimpleDispatcher) :=
  match schedule with
  | [] => Some (pcs, d)
  | i :: schedule' =>
      pc ← pcs !! i;
      '(pc', d') ← notify_op pc d;
      notify_run schedule' (<[i := pc']> pcs) d'
  end.

(** A caller is blocked when it stands at its send and the send has to
    wait. *)
Definition notify_blocked (pc : NotifyPc) (d : SimpleDispatcher) : bool :=
  match pc with
  | NotifyAtSend => bool_decide (notify_send d = None)
  | _ => false
  end.

(** The status changes of the task at [p] among the events handed to the
    listeners, as pairs (new status, last status), oldest first. *)
Definition task_status_changes (p : ptr) (l : list Event)
  : list (Status * Status) :=
  omap (fun e => match e with
                 | EventTaskStatusChanged t st last =>
                     if decide (t = p) then Some (st, last) else None
                 | _ => None
                 end) l.

(** The same for the worker at [p]. *)
Definition worker_status_changes (p : ptr) (l : list Event)
  : list (Status * Status) :=
  omap (fun e => match e with
                 | EventWorkerStatusChanged w st last =>
                     if decide (w = p) then Some (st, last) else None
                 | _ => None
                 end) l.

(** ** What the properties are stated with *)

(** What the collector is claimed to do with the task of an envelope [r]
    received at time [now] in state [d], where [it] is the task's item and
    [d'] the state the collector leaves. *)
Definition task_settled (now : Z) (r : SimpleDispatcherResult)
    (d : SimpleDispatcher) (it : TasksManagerItem) (d' : SimpleDispatcher)
  : Prop :=
  let p := taskItem r in
  let verdict := match err r with
                 | Some _ => TaskStatusFail
                 | None => TaskStatusSuccess
                 end in
  let repeats := task_Repeats (ti_task it) in
  let interval := task_RepeatInterval (ti_task it) in
  if (repeats <? 0) || (ti_attempts it <? repeats)
  then
    task_status_changes p (listeners d')
    = task_status_changes p (listeners d)
      ++ [(verdict, ti_status it); (TaskStatusRepeatWait, verdict)]
    /\ taskItems d' !! p
       = Some (mkTasksManagerItem (ti_task it) TaskStatusRepeatWait
                 (ti_attempts it)
                 (if interval >? 0 then Some (now + interval)
                  else ti_allowStartAt it)
                 (ti_firstStartedAt it) (ti_lastStartedAt it) None)
    /\ tasks d' = (Push (task_same_id d) p (tasks d)).1
  else
    task_status_changes p (listeners d')
    = task_status_changes p (listeners d) ++ [(verdict, ti_status it)]
    /\ taskItems d' !! p = Some (ti_SetStatus verdict (ti_SetCancel None it))
    /\ tasks d' = Remove p (tasks d).

(** What the collector does with the worker of an envelope [r], where [wi]
    is the worker's item in state [d] and [d'] the state the collector
    leaves. *)
Definition worker_settled (r : SimpleDispatcherResult) (d : SimpleDispatcher)
    (wi : WorkersManagerItem) (d' : SimpleDispatcher) : Prop :=
  let w := workerItem r in
  if cancel r && (wi_status wi =? WorkerStatusCancel)
  then
    worker_status_changes w (listeners d') = worker_status_changes w (listeners d)
    /\ workerItems d' !! w
       = Some (mkWorkersManagerItem (wi_worker wi) (wi_status wi)
                 (wi_createdAt wi) None None)
    /\ workers d' = workers d
  else
    worker_status_changes w (listeners d')
    = worker_status_changes w (listeners d) ++ [(WorkerStatusWait, wi_status wi)]
    /\ workerItems d' !! w
       = Some (mkWorkersManagerItem (wi_worker wi) WorkerStatusWait
                 (wi_createdAt wi) None None)
    /\ workers d' = (Push (worker_same_id d) w (workers d)).1.

(** One call of [doRunTask] from its first line to its last with nothing
    else in between: [o] is how the task function has ended by the time of
    the [select] ([None]: it has not), [c] the case the [select] takes.  The
    envelope sent on [d.results] and the state after the deferred calls;
    [None] when the case is not ready. *)
Definition doRunTask (now : Z) (w t : ptr) (o : option RunTaskOutcome)
    (c : SelectCase) (d : SimpleDispatcher)
  : option (SimpleDispatcherResult * SimpleDispatcher) :=
  let '(k, d) := doRunTask_start now w t d in
  let done := o ≫= run_goroutine w t in
  r ← doRunTask_select c k w t done d;
  Some (r, doRunTask_exit k d).

Definition state_of (o : option (SimpleDispatcher * option error))
  : SimpleDispatcher :=
  match o with
  | Some (d, _) => d
  | None => NewSimpleDispatcher
  end.

Definition sample_worker : Worker := mkWorker "w1".

(** One worker and one task with [repeats], [interval] and [timeout] added
    to a new dispatcher, and [Run] entered. *)
Definition sample_started (repeats interval timeout : Z) : SimpleDispatcher :=
  let d := state_of (AddWorker 100 sample_worker NewSimpleDispatcher) in
  let d := state_of (AddTask (mkTask "t1" repeats interval timeout) d) in
  state_of (Run_enter d).

(** The same after one dispatch step and the start of [doRunTask] on the
    pair it launched. *)
Definition sample_running (repeats interval timeout : Z) : SimpleDispatcher :=
  let d := sample_started repeats interval timeout in
  let d := from_option fst d (doExecuteTasks 2 200 d) in
  (doRunTask_start 201 0 0 d).2.

(** The running sample after the deadline of its attempt has passed. *)
Definition sample_timed_out : SimpleDispatcher :=
  let d := sample_running 1 0 5 in
  set_ctx (ctx d) (alter (dc_finish DeadlineExceeded) 0%nat (ctxs d)) d.

(** Why an attempt fails. *)
Inductive Cause :=
| FunctionError (res : value) (e : error)
| FunctionPanic (v : value)
| TimeoutElapsed
| ContextCancelled.

(** The case of the [select] of [doRunTask] a cause arrives by. *)
Definition cause_case (cz : Cause) : SelectCase :=
  match cz with
  | FunctionError _ _ | FunctionPanic _ => CaseDone
  | TimeoutElapsed | ContextCancelled => CaseCtxDone
  end.

(** [cause_at cz k w t done d]: at the [select] of the attempt of task [t]
    on worker [w] with context [k], the cause [cz] has occurred: the task
    function has returned an error or panicked ([done] holds what its
    goroutine sent), or the context has ended with the deadline or a
    cancellation. *)
Definition cause_at (cz : Cause) (k : nat) (w t : ptr)
    (done : option SimpleDispatcherResult) (d : SimpleDispatcher) : Prop :=
  match cz with
  | FunctionError res e => done = run_goroutine w t (Returned res (Some e))
  | FunctionPanic v => v <> VNil /\ done = run_goroutine w t (Panicked v)
  | TimeoutElapsed => (ctxs d !! k) ≫= dc_err = Some DeadlineExceeded
  | ContextCancelled => (ctxs d !! k) ≫= dc_err = Some Canceled
  end.

(** What the collector makes of the task's status for a cause: a
    cancellation leaves it alone; every other cause sets Fail, and then
    RepeatWait when a retry is left. *)
Definition cause_settled (cz : Cause) (t : ptr) (d : SimpleDispatcher)
    (it : TasksManagerItem) (d' : SimpleDispatcher) : Prop :=
  match cz with
  | ContextCancelled =>
      task_status_changes t (listeners d') = task_status_changes t (listeners d)
      /\ task_status t d' = ti_status it
  | _ =>
      if (task_Repeats (ti_task it) <? 0)
         || (ti_attempts it <? task_Repeats (ti_task it))
      then
        task_status_changes t (listeners d')
        = task_status_changes t (listeners d)
          ++ [(TaskStatusFail, ti_status it); (TaskStatusRepeatWait, TaskStatusFail)]
        /\ task_status t d' = TaskStatusRepeatWait
      else
        task_status_changes t (listeners d')
        = task_status_changes t (listeners d) ++ [(TaskStatusFail, ti_status it)]
        /\ task_status t d' = TaskStatusFail
  end.

(** The sample after [doDispatch] has taken the signal out of the channel. *)
Definition sample_drained : SimpleDispatcher :=
  set_allowExecuteTasks 0 (sample_started 1 0 0).

(** What the loop of [doExecuteTasks] returns with: the item pulled alone
    is pushed back, the worker first. *)
Definition push_back (pullWorker pullTask : option ptr) (d : SimpleDispatcher)
  : SimpleDispatcher :=
  let d := match pullWorker with
           | Some w => (workers_Push w d).1
           | None => d
           end in
  match pullTask with
  | Some t => (tasks_Push t d).1
  | None => d
  end.

(** The dispatch step in the words of the spec: it repeatedly tries to pull
    a worker and a task; if both are available it launches the execution
    and goes on; if at most one is available, that one is pushed back and
    the loop exits. *)
Inductive dispatch_run (now : Z)
  : SimpleDispatcher -> list (ptr * ptr) -> SimpleDispatcher -> Prop :=
| dispatch_launch d w d1 t d2 launched d' :
    workers_Pull d = (Some w, d1) ->
    tasks_Pull now d1 = (Some t, d2) ->
    dispatch_run now (AsyncTrigger (EventTaskExecuteStart t w) d2) launched d' ->
    dispatch_run now d ((w, t) :: launched) d'
| dispatch_exit d pullWorker d1 pullTask d2 :
    workers_Pull d = (pullWorker, d1) ->
    tasks_Pull now d1 = (pullTask, d2) ->
    pullWorker = None \/ pullTask = None ->
    dispatch_run now d [] (push_back pullWorker pullTask d2).

(** What never changes of an item but by [doRunTask]: its task, its
    attempts counter and its first start. *)
Definition key (it : TasksManagerItem) : Task * Z * option Z :=
  (ti_task it, ti_attempts it, ti_firstStartedAt it).

Definition keys (d : SimpleDispatcher) : list (Task * Z * option Z) :=
  key <$> taskItems d.

(** The tasks that wait for a pull. *)
Definition queue (d : SimpleDispatcher) : list ptr := m_queue (tasks d).

(** The item [doRunTask] leaves when it starts an attempt at [now] with the
    derived context [k]. *)
Definition start_item (now : Z) (k : nat) (it : TasksManagerItem)
  : TasksManagerItem :=
  let n := wrap64 (ti_attempts it + 1) in
  mkTasksManagerItem (ti_task it) TaskStatusProcess n (ti_allowStartAt it)
    (if n =? 1 then Some now else ti_firstStartedAt it) (Some now) (Some k).

(** The task a collector holds the envelope of. *)
Definition held (s : System) : list ptr :=
  match collector s with
  | Some (CollectorHolds r) => [taskItem r]
  | _ => []
  end.

(** The tasks that wait or are on their way through an attempt. *)
Definition live (s : System) : list ptr :=
  queue (shared s) ++ (spawned s).*2 ++ (at_task <$> inflight s) ++ held s.

(** The tasks that wait for an attempt to start. *)
Definition startable (s : System) : list ptr :=
  queue (shared s) ++ (spawned s).*2.

(** The bound of the attempts of a task with [repeats >= 0]. *)
Definition bounded (x : Task * Z * option Z) : Prop :=
  int64 (task_Repeats x.1.1)
  /\ (0 <= task_Repeats x.1.1 -> 0 <= x.1.2 <= Z.max 1 (task_Repeats x.1.1)).

(** Below the bound: one more attempt stays within it. *)
Definition may_start (x : Task * Z * option Z) : Prop :=
  0 <= task_Repeats x.1.1 -> x.1.2 < Z.max 1 (task_Repeats x.1.1).

Record Inv (s : System) : Prop := mkInv {
  inv_nodup : NoDup (live s);
  inv_valid : forall t, t ∈ live s -> (t < length (keys (shared s)))%nat;
  inv_bounded : forall t x, keys (shared s) !! t = Some x -> bounded x;
  inv_startable : forall t x,
    t ∈ startable s -> keys (shared s) !! t = Some x -> may_start x;
  inv_done : forall a r,
    a ∈ inflight s -> at_done a = Some r -> taskItem r = at_task a
}.

(** What the start of an attempt at [now] makes of a key. *)
Definition start_key (now : Z) (x : Task * Z * option Z) : Task * Z * option Z :=
  let n := wrap64 (x.1.2 + 1) in
  (x.1.1, n, if n =? 1 then Some now else x.2).

(** How a block changes the keys: not at all, by a new item that was never
    attempted, or by the start of an attempt of one task. *)
Inductive keys_change (old new : list (Task * Z * option Z)) : Prop :=
| keys_same : new = old -> keys_change old new
| keys_added t : new = old ++ [(t, 0, None)] -> keys_change old new
| keys_started now t :
    new !! t = start_key now <$> old !! t ->
    (forall q, q <> t -> new !! q = old !! q) ->
    keys_change old new.

(** After [n] blocks a counter is between 0 and [n], and it is 0 exactly
    when the first start is unset. *)
Definition counted (n : nat) (x : Task * Z * option Z) : Prop :=
  0 <= x.1.2 <= Z.of_nat n /\ (x.1.2 = 0 <-> x.2 = None).

(** One worker and one task with [repeats = 0] are added, [Run] is entered,
    the dispatch loop starts, takes the signal and runs the dispatch step,
    and [doRunTask] starts the attempt of the pair it launched. *)
Definition sample_system : System :=
  let d := state_of (AddWorker 100 sample_worker NewSimpleDispatcher) in
  let d := state_of (AddTask (mkTask "t1" 0 0 0) d) in
  let d := state_of (Run_enter d) in
  let d := set_wg (wg d + 1) d in
  let d := from_option fst d (doExecuteTasks 2 200 (set_allowExecuteTasks 0 d)) in
  let d := (doRunTask_start 201 0 0 d).2 in
  mkSystem d RunAwaitsCtx (Some CollectorSpawned) (Some DispatchSelect) []
    [mkAttempt 0 0 0 false None].

(** *** The start of an attempt, statement by statement *)

(** Modelled from the spec: [item.Metadata()] of a task item, with those of
    the keys the spec lists for a task that the fields of the item give
    (id, status, attempts, first_started_at, last_started_at). *)
Record TaskMetadata := mkTaskMetadata {
  md_id : string;
  md_status : Status;
  md_attempts : Z;
  md_firstStartedAt : option Z;
  md_lastStartedAt : option Z
}.

Definition ti_Metadata (it : TasksManagerItem) : TaskMetadata :=
  mkTaskMetadata (task_Id (ti_task it)) (ti_status it) (ti_attempts it)
    (ti_firstStartedAt it) (ti_lastStartedAt it).

(** The [item.Metadata()] that [setStatusTask] hands to [AsyncTrigger] next
    to its event, lines 660-663: it is read after [SetStatus]. *)
Definition setStatusTask_Metadata (t : ptr) (st : Status)
    (d : SimpleDispatcher) : option TaskMetadata :=
  ti_Metadata <$> taskItems (task_update (ti_SetStatus st) t d) !! t.

(** [doRunTask] from line 567 to line 575: the state in which it calls
    [d.setStatusTask] at line 576. *)
Definition doRunTask_at_576 (w t : ptr) (d : SimpleDispatcher)
  : SimpleDispatcher :=
  let d := set_wg (wg d + 1) d in
  let task := task_Task t d in
  let d := worker_update (wi_SetTask task) w d in
  let d := setStatusWorker w WorkerStatusProcess d in
  task_update (ti_SetAttempts (wrap64 (task_Attempts t d + 1))) t d.

(** [doRunTask] from line 567 to line 576: the state in which it reads the
    clock at line 578. *)
Definition doRunTask_at_578 (w t : ptr) (d : SimpleDispatcher)
  : SimpleDispatcher :=
  setStatusTask t TaskStatusProcess (doRunTask_at_576 w t d).

(** [doRunTask] from line 578 to line 599. *)
Definition doRunTask_from_578 (now : Z) (w t : ptr) (d : SimpleDispatcher)
  : nat * SimpleDispatcher :=
  let d := if task_Attempts t d =? 1
           then task_update (ti_SetFirstStartedAt now) t d
           else d in
  let d := task_update (ti_SetLastStartedAt now) t d in
  let timeout := task_Timeout_of t d in
  let derived := if timeout >? 0
                 then mkDerived (ctx d) (Some (now + timeout))
                 else mkDerived (ctx d) None in
  let k := length (ctxs d) in
  let d := set_ctx (ctx d) (ctxs d ++ [derived]) d in
  let d := task_update (ti_SetCancel (Some k)) t d in
  let d := worker_update (wi_SetCancel (Some k)) w d in
  (k, d).

(** The attempts counter and the first start of the task items, write by
    write.  Three places of the source write them: [AddTask] makes an item
    with the counter at 0 and no first start, line 575 adds one to the
    counter, lines 579-581 stamp the first start when the counter is 1;
    every other operation, of any goroutine, leaves both alone.  [cw_open]
    holds the items whose [doRunTask] stands between line 575 and line 582.
    An item is handed to [doRunTask] after it was pulled from the queue, and
    goes back to the queue after the envelope of that call, so line 575 is
    not run for an item that is there. *)
Record Counters := mkCounters {
  cw_items : list (Z * option Z);
  cw_open : list ptr
}.

Inductive Write :=
| WriteNew
| Write575 (t : ptr)
| Write580 (now : Z) (t : ptr)
| WriteOther.

Definition write (op : Write) (c : Counters) : option Counters :=
  match op with
  | WriteNew => Some (mkCounters (cw_items c ++ [(0, None)]) (cw_open c))
  | Write575 t =>
      if mem t (cw_open c) then None
      else
        x ← cw_items c !! t;
        Some (mkCounters (<[t := (wrap64 (x.1 + 1), x.2)]> (cw_items c))
                (t :: cw_open c))
  | Write580 now t =>
      if mem t (cw_open c)
      then
        x ← cw_items c !! t;
        Some (mkCounters
                (<[t := (x.1, if x.1 =? 1 then Some now else x.2)]> (cw_items c))
                (without t (cw_open c)))
      else None
  | WriteOther => Some c
  end.

Definition writes (l : list Write) : option Counters :=
  foldl (fun o op => o ≫= write op) (Some (mkCounters [] [])) l.

(** The counter and the first start of an item. *)
Definition counter_of (x : Task * Z * option Z) : Z * option Z := (x.1.2, x.2).

(** The sample system before [doRunTask] starts: the pair is launched. *)
Definition sample_launched : System :=
  let d := state_of (AddWorker 100 sample_worker NewSimpleDispatcher) in
  let d := state_of (AddTask (mkTask "t1" 0 0 0) d) in
  let d := state_of (Run_enter d) in
  let d := set_wg (wg d + 1) d in
  let d := from_option fst d (doExecuteTasks 2 200 (set_allowExecuteTasks 0 d)) in
  mkSystem d RunAwaitsCtx (Some CollectorSpawned) (Some DispatchSelect)
    [(0%nat, 0%nat)] [].

(** The invariant of the writes: after [n] writes. *)
Record Written (n : nat) (c : Counters) : Prop := mkWritten {
  wr_nodup : NoDup (cw_open c);
  wr_range : forall t x, cw_items c !! t = Some x -> 0 <= x.1 <= Z.of_nat n;
  wr_zero : forall t x, cw_items c !! t = Some x -> x.1 = 0 -> x.2 = None;
  wr_unset : forall t x, cw_items c !! t = Some x -> x.2 = None ->
             x.1 = 0 \/ (x.1 = 1 /\ t ∈ cw_open c);
  wr_open : forall t x, cw_items c !! t = Some x -> t ∈ cw_open c -> 1 <= x.1;
  wr_valid : forall t, t ∈ cw_open c -> (t < length (cw_items c))%nat
}.

(** ** What the further properties are stated with *)

(** The pairs (worker, task) of the [TaskExecuteStart] events among the
    events handed to the listeners, oldest first. *)
Definition started (l : list Event) : list (ptr * ptr) :=
  omap (fun e => match e with
                 | EventTaskExecuteStart t w => Some (w, t)
                 | _ => None
                 end) l.

(** The same for the [TaskExecuteStop] events. *)
Definition stopped (l : list Event) : list (ptr * ptr) :=
  omap (fun e => match e with
                 | EventTaskExecuteStop t w _ _ => Some (w, t)
                 | _ => None
                 end) l.

(** Derived contexts of which some have been cancelled. *)
Definition only_cancels (l l' : list Derived) : Prop :=
  Forall2 (fun c c' => c' = c \/ c' = dc_finish Canceled c) l l'.

(** An operation that leaves the wait group, the status, the root context
    and the executions reported to the listeners alone, ends a derived
    context only by cancelling it, and frees no item. *)
Record Quiet (d d' : SimpleDispatcher) : Prop := mkQuiet {
  quiet_wg : wg d' = wg d;
  quiet_status : status d' = status d;
  quiet_ctx : ctx d' = ctx d;
  quiet_ctxs : only_cancels (ctxs d) (ctxs d');
  quiet_started : started (listeners d') = started (listeners d);
  quiet_stopped : stopped (listeners d') = stopped (listeners d);
  quiet_workerItems : (length (workerItems d) <= length (workerItems d'))%nat;
  quiet_taskItems : (length (taskItems d) <= length (taskItems d'))%nat
}.

(** The worker and the task of an attempt. *)
Definition pair_of (a : Attempt) : ptr * ptr := (at_worker a, at_task a).

(** The worker and the task of the envelope the collector holds. *)
Definition held_pair (s : System) : list (ptr * ptr) :=
  match collector s with
  | Some (CollectorHolds r) => [(workerItem r, taskItem r)]
  | _ => []
  end.

(** The goroutines that stand between their [d.wg.Add(1)] and their
    [d.wg.Done()]: the collector and the dispatch loop once they have begun,
    and the calls of [doRunTask] that wait at their [select]. *)
Definition registered (s : System) : Z :=
  (match collector s with
   | Some CollectorSelect | Some (CollectorHolds _) => 1
   | _ => 0
   end)
  + (match dispatch s with
     | Some DispatchSelect => 1
     | _ => 0
     end)
  + Z.of_nat (length (inflight s)).

(** The status [Run] has given the dispatcher by the place it stands at. *)
Definition status_of_run (r : RunState) : Status :=
  match r with
  | RunNotCalled | RunReturned => DispatcherStatusWait
  | RunAwaitsCtx => DispatcherStatusProcess
  | RunAwaitsWg => DispatcherStatusCancel
  end.

(** A derived context that ended with its deadline has one, unless the
    root context [root] ended with the deadline of its parent. *)
Definition deadline_justified (root : Context) (c : Derived) : Prop :=
  dc_err c = Some DeadlineExceeded ->
  dc_deadline c <> None \/ root = Some DeadlineExceeded.

(** What holds of the wait group, the status, the reported executions and
    the contexts in every state of a run. *)
Record Accounted (s : System) : Prop := mkAccounted {
  acc_wg : wg (shared s) = registered s;
  acc_status : status (shared s) = status_of_run (run s);
  acc_pairs :
    stopped (listeners (shared s)) ++ spawned s ++ (pair_of <$> inflight s)
      ++ held_pair s
    ⊆+ started (listeners (shared s));
  acc_done : forall a r,
    a ∈ inflight s -> at_done a = Some r ->
    workerItem r = at_worker a /\ taskItem r = at_task a;
  acc_root :
    ctx (shared s) <> None ->
    Forall (fun c => dc_err c <> None) (ctxs (shared s));
  acc_deadline : Forall (deadline_justified (ctx (shared s))) (ctxs (shared s));
  acc_handles : forall a,
    a ∈ inflight s -> (at_ctx a < length (ctxs (shared s)))%nat
}.

(** The workers that wait in the pool. *)
Definition pool (d : SimpleDispatcher) : list ptr := m_queue (workers d).

(** The worker of the envelope the collector holds. *)
Definition held_worker (s : System) : list ptr :=
  match collector s with
  | Some (CollectorHolds r) => [workerItem r]
  | _ => []
  end.

(** The workers on their way through an execution. *)
Definition busy (s : System) : list ptr :=
  (spawned s).*1 ++ (at_worker <$> inflight s) ++ held_worker s.

Record Pooled (s : System) : Prop := mkPooled {
  pooled_nodup : NoDup (pool (shared s) ++ busy s);
  pooled_valid : forall w,
    w ∈ pool (shared s) ++ busy s -> (w < length (workerItems (shared s)))%nat
}.

(** One worker and one task with a timeout of 5: the attempt starts at 201,
    and its deadline passes at 206. *)
Definition sample_timed_out_system : System :=
  let d := state_of (AddWorker 100 sample_worker NewSimpleDispatcher) in
  let d := state_of (AddTask (mkTask "t1" 1 0 5) d) in
  let d := state_of (Run_enter d) in
  let d := set_wg (wg d + 1) d in
  let d := from_option fst d (doExecuteTasks 2 200 (set_allowExecuteTasks 0 d)) in
  let d := (doRunTask_start 201 0 0 d).2 in
  let d := set_ctx (ctx d) (alter (dc_finish DeadlineExceeded) 0%nat (ctxs d)) d in
  mkSystem d RunAwaitsCtx (Some CollectorSpawned) (Some DispatchSelect) []
    [mkAttempt 0 0 0 false None].

(** The status changes of the dispatcher among the events handed to the
    listeners, as pairs (new status, last status), oldest first. *)
Definition dispatcher_status_changes (l : list Event) : list (Status * Status) :=
  omap (fun e => match e with
                 | EventDispatcherStatusChanged st last => Some (st, last)
                 | _ => None
                 end) l.

(** The status a list of status changes leads to from [s], each change
    replacing the status the one before it set; [None] when a change names
    a last status that is not the one it replaces. *)
Fixpoint replay (s : Status) (l : list (Status * Status)) : option Status :=
  match l with
  | [] => Some s
  | (new, last) :: l' => if last =? s then replay new l' else None
  end.

(** The listeners have been told of every status: the changes reported for
    an item lead from the status it was made with, Wait, to the one it has,
    and likewise for the dispatcher, made in Undefined; nothing was reported
    of an address that holds no item; and the managers hold items only. *)
Record Logged (d : SimpleDispatcher) : Prop := mkLogged {
  log_task : forall p it,
    taskItems d !! p = Some it ->
    replay TaskStatusWait (task_status_changes p (listeners d))
    = Some (ti_status it);
  log_task_above : forall p,
    (length (taskItems d) <= p)%nat -> task_status_changes p (listeners d) = [];
  log_worker : forall p wi,
    workerItems d !! p = Some wi ->
    replay WorkerStatusWait (worker_status_changes p (listeners d))
    = Some (wi_status wi);
  log_worker_above : forall p,
    (length (workerItems d) <= p)%nat ->
    worker_status_changes p (listeners d) = [];
  log_dispatcher :
    replay DispatcherStatusUndefined (dispatcher_status_changes (listeners d))
    = Some (status d);
  log_tasks : forall p,
    p ∈ m_items (tasks d) ++ m_queue (tasks d) ->
    (p < length (taskItems d))%nat;
  log_workers : forall p,
    p ∈ m_items (workers d) ++ m_queue (workers d) ->
    (p < length (workerItems d))%nat
}.

(** *** Two callers of [Run] side by side *)

(** Where a call of [Run] stands at its entry, lines 302-306: before the
    test of the status, between the test and [setStatusDispatcher], past
    the store, or returned with the error. *)
Inductive RunEntry :=
| EntryAtCheck
| EntryAtStore
| EntryAccepted
| EntryRefused.

(** One operation of the caller at [pc]: [None] when the caller has no
    operation of the entry left. *)
Definition Run_op (pc : RunEntry) (d : SimpleDispatcher)
  : option (RunEntry * SimpleDispatcher) :=
  match pc with
  | EntryAtCheck =>
      Some (if negb (IsStatus DispatcherStatusWait d)
            then EntryRefused else EntryAtStore, d)
  | EntryAtStore =>
      Some (EntryAccepted, setStatusDispatcher DispatcherStatusProcess d)
  | EntryAccepted | EntryRefused => None
  end.

(** A schedule names, operation by operation, which of the callers moves. *)
Fixpoint Run_run (schedule : list nat) (pcs : list RunEntry)
    (d : SimpleDispatcher) : option (list RunEntry * SimpleDispatcher) :=
  match schedule with
  | [] => Some (pcs, d)
  | i :: schedule' =>
      pc ← pcs !! i;
      '(pc', d') ← Run_op pc d;
      Run_run schedule' (<[i := pc']> pcs) d'
  end.

(** *** Two callers of [setStatusTask] side by side *)

(** Where a call of [setStatusTask] stands, lines 660-663: before it reads
    the status, with the status it read before its store, before its
    trigger, or returned. *)
Inductive SetStatusPc :=
| SetAtRead
| SetAtStore (last : Status)
| SetAtTrigger (last : Status)
| SetReturned.

(** One operation of a call that sets the task at [t] to [st]: [None] when
    the call has returned. *)
Definition setStatusTask_op (t : ptr) (st : Status) (pc : SetStatusPc)
    (d : SimpleDispatcher) : option (SetStatusPc * SimpleDispatcher) :=
  match pc with
  | SetAtRead => Some (SetAtStore (task_status t d), d)
  | SetAtStore last =>
      Some (SetAtTrigger last, task_update (ti_SetStatus st) t d)
  | SetAtTrigger last =>
      Some (SetReturned, AsyncTrigger (EventTaskStatusChanged t st last) d)
  | SetReturned => None
  end.

(** A schedule names, operation by operation, which of the calls moves; a
    call is the status it sets and where it stands. *)
Fixpoint setStatusTask_run (schedule : list nat) (t : ptr)
    (calls : list (Status * SetStatusPc)) (d : SimpleDispatcher)
  : option (list (Status * SetStatusPc) * SimpleDispatcher) :=
  match schedule with
  | [] => Some (calls, d)
  | i :: schedule' =>
      c ← calls !! i;
      '(pc', d') ← setStatusTask_op t c.1 c.2 d;
      setStatusTask_run schedule' t (<[i := (c.1, pc')]> calls) d'
  end.

(** [d.GetTasks()]: the tasks of the managed items, in the order of
    [GetAll]. *)
Definition GetTasks (d : SimpleDispatcher) : list Task :=
  omap (fun p => ti_task <$> taskItems d !! p) (GetAll (tasks d)).

(** [d.GetWorkers()] *)
Definition GetWorkers (d : SimpleDispatcher) : list Worker :=
  omap (fun p => wi_worker <$> workerItems d !! p) (GetAll (workers d)).

(** ** The worker of package [worker] *)

Module worker.

(** The constants of package [worker], numbered by [iota]. *)
Definition WorkerStatusWait : Z := 0.

Definition WorkerStatusProcess : Z := 1.

Definition WorkerStatusBusy : Z := 2.

(** Package [task] is not among the embedded files.  The worker compares
    the status of a task with [TaskStatusRepeatWait] and sets five others;
    they are kept apart by name, next to the status of a task that was
    never processed. *)
Inductive TaskStatus :=
| TaskStatusWait
| TaskStatusProcess
| TaskStatusRepeatWait
| TaskStatusSuccess
| TaskStatusFail
| TaskStatusFailByTimeout
| TaskStatusKill.

(** What the worker reads and writes of a [task.Tasker], through its
    getters and setters. *)
Record Tasker := mkTasker {
  t_status : TaskStatus;
  t_attempts : Z;              (* int64 *)
  t_repeats : Z;               (* int64 *)
  t_duration : Z;              (* time.Duration *)
  t_timeout : Z;               (* time.Duration *)
  t_lastError : value;         (* interface{} *)
  t_startedAt : option Z;
  t_finishedAt : option Z
}.

Definition SetStatus (st : TaskStatus) (t : Tasker) : Tasker :=
  mkTasker st (t_attempts t) (t_repeats t) (t_duration t) (t_timeout t)
    (t_lastError t) (t_startedAt t) (t_finishedAt t).

Definition SetAttempts (n : Z) (t : Tasker) : Tasker :=
  mkTasker (t_status t) n (t_repeats t) (t_duration t) (t_timeout t)
    (t_lastError t) (t_startedAt t) (t_finishedAt t).

Definition SetRepeats (n : Z) (t : Tasker) : Tasker :=
  mkTasker (t_status t) (t_attempts t) n (t_duration t) (t_timeout t)
    (t_lastError t) (t_startedAt t) (t_finishedAt t).

Definition SetDuration (n : Z) (t : Tasker) : Tasker :=
  mkTasker (t_status t) (t_attempts t) (t_repeats t) n (t_timeout t)
    (t_lastError t) (t_startedAt t) (t_finishedAt t).

Definition SetLastError (v : value) (t : Tasker) : Tasker :=
  mkTasker (t_status t) (t_attempts t) (t_repeats t) (t_duration t)
    (t_timeout t) v (t_startedAt t) (t_finishedAt t).

Definition SetStartedAt (now : Z) (t : Tasker) : Tasker :=
  mkTasker (t_status t) (t_attempts t) (t_repeats t) (t_duration t)
    (t_timeout t) (t_lastError t) (Some now) (t_finishedAt t).

Definition SetFinishedAt (now : Z) (t : Tasker) : Tasker :=
  mkTasker (t_status t) (t_attempts t) (t_repeats t) (t_duration t)
    (t_timeout t) (t_lastError t) (t_startedAt t) (Some now).

(** The shared fields of a [Workman].  A channel of capacity 1 is the
    values that wait in it: a count for a [chan bool] that only ever carries
    [true], a list for [newTask], whose values are tasks by address or
    [nil].  [wg] is the counter of the [sync.WaitGroup]. *)
Record Workman := mkWorkman {
  status : Z;                        (* int64 *)
  task : option ptr;                 (* task.Tasker, [None] for nil *)
  kill : nat;
  newTask : list (option ptr);
  killTask : nat;
  wg : Z
}.

(** [NewWorkmanWithClock] *)
Definition NewWorkman : Workman :=
  mkWorkman WorkerStatusWait None 0 [] 0 0.

Definition GetStatus (m : Workman) : Z := status m.

Definition GetTask (m : Workman) : option ptr := task m.

Definition setStatus (st : Z) (m : Workman) : Workman :=
  mkWorkman st (task m) (kill m) (newTask m) (killTask m) (wg m).

Definition setTask (t : option ptr) (m : Workman) : Workman :=
  mkWorkman (status m) t (kill m) (newTask m) (killTask m) (wg m).

Definition set_kill (n : nat) (m : Workman) : Workman :=
  mkWorkman (status m) (task m) n (newTask m) (killTask m) (wg m).

Definition set_newTask (l : list (option ptr)) (m : Workman) : Workman :=
  mkWorkman (status m) (task m) (kill m) l (killTask m) (wg m).

Definition set_killTask (n : nat) (m : Workman) : Workman :=
  mkWorkman (status m) (task m) (kill m) (newTask m) n (wg m).

Definition wg_Add (n : Z) (m : Workman) : Workman :=
  mkWorkman (status m) (task m) (kill m) (newTask m) (killTask m) (wg m + n).

(** [m.Reset()] *)
Definition Reset (m : Workman) : Workman := setTask None m.

(** The test [Run] begins with: the error it returns at once, if any. *)
Definition Run_refuses (m : Workman) : option error :=
  if negb (GetStatus m =? WorkerStatusWait)
  then Some (errors_New "Worker is running")
  else None.

(** The test of [Kill]: [None] when it goes on to [m.kill <- true] (and
    then returns nil), else the error it returns. *)
Definition Kill_refuses (m : Workman) : option error :=
  if negb (GetStatus m =? WorkerStatusWait)
  then None
  else Some (errors_New "Worker isn't running").

(** The beginning of [processTask], up to the call of [executeTask]. *)
Definition processTask_begin (now : Z) (t : Tasker) : Tasker :=
  let t := SetStartedAt now t in
  let t := SetLastError VNil t in
  let t := match t_status t with
           | TaskStatusRepeatWait => t
           | _ => SetAttempts 0 t
           end in
  let t := SetStatus TaskStatusProcess t in
  SetAttempts (wrap64 (t_attempts t + 1)) t.

(** The three channels a call of [executeTask] makes, each of capacity 1. *)
Record Execution := mkExecution {
  resultChan : option (Z * Z * value);   (* newRepeats, newDuration, err *)
  errorChan : option value;
  quitChan : nat
}.

Definition NewExecution : Execution := mkExecution None None 0.

Definition set_resultChan (r : option (Z * Z * value)) (x : Execution) :=
  mkExecution r (errorChan x) (quitChan x).

Definition set_errorChan (v : option value) (x : Execution) :=
  mkExecution (resultChan x) v (quitChan x).

Definition set_quitChan (n : nat) (x : Execution) :=
  mkExecution (resultChan x) (errorChan x) n.

(** The cases of the [select] of [executeTask]. *)
Definition on_result (r : Z * Z * value) (t : Tasker) : Tasker :=
  let t := SetStatus TaskStatusSuccess t in
  let t := SetRepeats (fst (fst r)) t in
  let t := SetDuration (snd (fst r)) t in
  match snd r with
  | VNil => t
  | err => SetLastError err t
  end.

Definition on_error (err : value) (t : Tasker) : Tasker :=
  SetLastError err (SetStatus TaskStatusFail t).

Definition on_killTask (t : Tasker) : Tasker := SetStatus TaskStatusKill t.

Definition on_timer (t : Tasker) : Tasker :=
  SetStatus TaskStatusFailByTimeout t.

(** Where a goroutine inside [Run] stands. *)
Inductive RunPc :=
| Run_enter                  (* at the test of GetStatus() *)
| Run_setProcess             (* at m.setStatus(WorkerStatusProcess) *)
| Run_select                 (* at the select *)
| Run_setBusy (t : option ptr)   (* t received: at m.setStatus(WorkerStatusBusy) *)
| Run_setTask (t : option ptr)   (* at m.setTask(t) *)
| Run_go                     (* at m.wg.Add(1); go m.processTask() *)
| Run_ifBusy                 (* kill received: at the test of GetStatus() *)
| Run_killTask               (* at m.killTask <- true *)
| Run_Wait                   (* at m.wg.Wait() *)
| Run_deferred               (* return nil: at the deferred setStatus *)
| Run_done.                  (* at m.done <- m *)

(** Where a goroutine of [processTask] stands. *)
Inductive ProcPc :=
| Proc_begin                 (* at t := m.GetTask() *)
| Proc_executeTask           (* at m.executeTask() *)
| Proc_select (t : ptr) (e : nat) (timeout : Z)  (* at its select *)
| Proc_setWait               (* at m.setStatus(WorkerStatusWait) *)
| Proc_kill                  (* at m.kill <- true *)
| Proc_Done.                 (* at the deferred m.wg.Done() *)

(** Where the goroutine [executeTask] starts stands; [e] is the execution
    whose channels it holds. *)
Inductive FnPc :=
| Fn_call (t : ptr) (e : nat)          (* inside the function of the task *)
| Fn_deferred (t : ptr) (e : nat) (p : option value)
                             (* at the deferred function; [p] is the value
                                of the panic, if the function panicked *)
| Fn_Done.                   (* at m.wg.Done() *)

(** A worker, the tasks and executions on the heap, and the goroutines:
    the ones inside [Run], the callers of [Kill] at [m.kill <- true], the
    ones of [processTask] and of the functions.  [reported] counts the
    workers received from [done]; [panicked] is set by a nil task. *)
Record System := mkSystem {
  m : Workman;
  heap : list Tasker;
  execs : list Execution;
  runs : list RunPc;
  killers : nat;
  procs : list ProcPc;
  fns : list FnPc;
  reported : nat;
  panicked : bool
}.

Definition initial : System := mkSystem NewWorkman [] [] [] 0 [] [] 0 false.

Definition set_m (x : Workman) (s : System) : System :=
  mkSystem x (heap s) (execs s) (runs s) (killers s) (procs s) (fns s)
    (reported s) (panicked s).

Definition set_heap (x : list Tasker) (s : System) : System :=
  mkSystem (m s) x (execs s) (runs s) (killers s) (procs s) (fns s)
    (reported s) (panicked s).

Definition set_execs (x : list Execution) (s : System) : System :=
  mkSystem (m s) (heap s) x (runs s) (killers s) (procs s) (fns s)
    (reported s) (panicked s).

Definition set_runs (x : list RunPc) (s : System) : System :=
  mkSystem (m s) (heap s) (execs s) x (killers s) (procs s) (fns s)
    (reported s) (panicked s).

Definition set_killers (x : nat) (s : System) : System :=
  mkSystem (m s) (heap s) (execs s) (runs s) x (procs s) (fns s)
    (reported s) (panicked s).

Definition set_procs (x : list ProcPc) (s : System) : System :=
  mkSystem (m s) (heap s) (execs s) (runs s) (killers s) x (fns s)
    (reported s) (panicked s).

Definition set_fns (x : list FnPc) (s : System) : System :=
  mkSystem (m s) (heap s) (execs s) (runs s) (killers s) (procs s) x
    (reported s) (panicked s).

Definition set_reported (x : nat) (s : System) : System :=
  mkSystem (m s) (heap s) (execs s) (runs s) (killers s) (procs s) (fns s)
    x (panicked s).

(** A nil task is dereferenced: the program stops. *)
Definition panic (s : System) : System :=
  mkSystem (m s) (heap s) (execs s) (runs s) (killers s) (procs s) (fns s)
    (reported s) true.

(** The cases of the [select] of [executeTask]. *)
Inductive Case := case_resultChan | case_errorChan | case_killTask | case_timer.

(** One step of one goroutine.  The client makes a task, sets the status of
    one, starts [Run] in a goroutine, calls [Kill], [SendTask] or [Reset],
    or receives from [done]; [i] tells which goroutine of its kind moves,
    [now] is what the clock reads. *)
Inductive Action :=
| new_task (tk : Tasker)
| task_SetStatus (t : ptr) (st : TaskStatus)
| go_Run
| call_Kill
| Kill_send
| call_SendTask (t : option ptr)
| call_Reset
| recv_done (i : nat)
| Run_next (i : nat)
| Run_case_newTask (i : nat)
| Run_case_kill (i : nat)
| Proc_next (i : nat) (now : Z)
| Proc_case (i : nat) (c : Case)
| Fn_return (i : nat) (newRepeats newDuration : Z) (err : value)
| Fn_panic (i : nat) (v : value)
| Fn_next (i : nat) (now : Z).

Definition Run_at (i : nat) (pc : RunPc) (s : System) : System :=
  set_runs (<[i := pc]> (runs s)) s.

Definition Proc_at (i : nat) (pc : ProcPc) (s : System) : System :=
  set_procs (<[i := pc]> (procs s)) s.

Definition Fn_at (i : nat) (pc : FnPc) (s : System) : System :=
  set_fns (<[i := pc]> (fns s)) s.

(** [Run], from where goroutine [i] stands to its next shared operation. *)
Definition Run_step (i : nat) (pc : RunPc) (s : System) : option System :=
  match pc with
  | Run_enter =>
      match Run_refuses (m s) with
      | Some _ => Some (set_runs (delete i (runs s)) s)
      | None => Some (Run_at i Run_setProcess s)
      end
  | Run_setProcess =>
      Some (Run_at i Run_select (set_m (setStatus WorkerStatusProcess (m s)) s))
  | Run_select => None
  | Run_setBusy t =>
      Some (Run_at i (Run_setTask t)
              (set_m (setStatus WorkerStatusBusy (m s)) s))
  | Run_setTask t =>
      Some (Run_at i Run_go (set_m (setTask t (m s)) s))
  | Run_go =>
      Some (Run_at i Run_select
              (set_procs (procs s ++ [Proc_begin]) (set_m (wg_Add 1 (m s)) s)))
  | Run_ifBusy =>
      if GetStatus (m s) =? WorkerStatusBusy
      then Some (Run_at i Run_killTask s)
      else Some (Run_at i Run_Wait s)
  | Run_killTask =>
      match killTask (m s) with
      | O => Some (Run_at i Run_Wait (set_m (set_killTask 1 (m s)) s))
      | S _ => None
      end
  | Run_Wait =>
      if wg (m s) =? 0 then Some (Run_at i Run_deferred s) else None
  | Run_deferred =>
      Some (Run_at i Run_done (set_m (setStatus WorkerStatusWait (m s)) s))
  | Run_done => None
  end.

(** [processTask], and [executeTask] inside it, outside the [select].  The
    setters of the task between two operations on the worker are one
    step. *)
Definition Proc_step (i : nat) (now : Z) (pc : ProcPc) (s : System)
  : option System :=
  match pc with
  | Proc_begin =>
      match GetTask (m s) with
      | None => Some (panic s)
      | Some t =>
          tk ← heap s !! t;
          Some (Proc_at i Proc_executeTask
                  (set_heap (<[t := processTask_begin now tk]> (heap s)) s))
      end
  | Proc_executeTask =>
      match GetTask (m s) with
      | None => Some (panic s)
      | Some t =>
          tk ← heap s !! t;
          Some (Proc_at i (Proc_select t (length (execs s)) (t_timeout tk))
                  (set_fns (fns s ++ [Fn_call t (length (execs s))])
                     (set_execs (execs s ++ [NewExecution])
                        (set_m (wg_Add 1 (m s)) s))))
      end
  | Proc_select _ _ _ => None
  | Proc_setWait =>
      Some (Proc_at i Proc_kill (set_m (setStatus WorkerStatusWait (m s)) s))
  | Proc_kill =>
      match kill (m s) with
      | O => Some (Proc_at i Proc_Done (set_m (set_kill 1 (m s)) s))
      | S _ => None
      end
  | Proc_Done =>
      Some (set_procs (delete i (procs s)) (set_m (wg_Add (-1) (m s)) s))
  end.

(** The [select] of [executeTask]: the timer is there for a positive
    timeout only. *)
Definition Proc_select_step (i : nat) (c : Case) (t : ptr) (e : nat)
    (timeout : Z) (s : System) : option System :=
  tk ← heap s !! t;
  x ← execs s !! e;
  match c with
  | case_resultChan =>
      r ← resultChan x;
      Some (Proc_at i Proc_setWait
              (set_heap (<[t := on_result r tk]> (heap s))
                 (set_execs (<[e := set_resultChan None x]> (execs s)) s)))
  | case_errorChan =>
      err ← errorChan x;
      Some (Proc_at i Proc_setWait
              (set_heap (<[t := on_error err tk]> (heap s))
                 (set_execs (<[e := set_errorChan None x]> (execs s)) s)))
  | case_killTask =>
      match killTask (m s), quitChan x with
      | S k, O =>
          Some (Proc_at i Proc_setWait
                  (set_heap (<[t := on_killTask tk]> (heap s))
                     (set_execs (<[e := set_quitChan 1 x]> (execs s))
                        (set_m (set_killTask k (m s)) s))))
      | _, _ => None
      end
  | case_timer =>
      match quitChan x with
      | O =>
          if 0 <? timeout
          then Some (Proc_at i Proc_setWait
                       (set_heap (<[t := on_timer tk]> (heap s))
                          (set_execs (<[e := set_quitChan 1 x]> (execs s)) s)))
          else None
      | S _ => None
      end
  end.

(** The goroutine of the function, after the function: the deferred
    function sets the finish time, hands a panic's value over when
    [recover()] is not nil, and leaves the wait group. *)
Definition Fn_step (i : nat) (now : Z) (pc : FnPc) (s : System)
  : option System :=
  match pc with
  | Fn_call _ _ => None
  | Fn_deferred t e p =>
      tk ← heap s !! t;
      x ← execs s !! e;
      let s := set_heap (<[t := SetFinishedAt now tk]> (heap s)) s in
      match p with
      | None | Some VNil => Some (Fn_at i Fn_Done s)
      | Some err =>
          match errorChan x with
          | None =>
              Some (Fn_at i Fn_Done
                      (set_execs (<[e := set_errorChan (Some err) x]> (execs s)) s))
          | Some _ => None
          end
      end
  | Fn_Done =>
      Some (set_fns (delete i (fns s)) (set_m (wg_Add (-1) (m s)) s))
  end.

Definition step (a : Action) (s : System) : option System :=
  if panicked s then None else
  match a with
  | new_task tk => Some (set_heap (heap s ++ [tk]) s)
  | task_SetStatus t st => Some (set_heap (alter (SetStatus st) t (heap s)) s)
  | go_Run => Some (set_runs (runs s ++ [Run_enter]) s)
  | call_Kill =>
      match Kill_refuses (m s) with
      | Some _ => Some s
      | None => Some (set_killers (S (killers s)) s)
      end
  | Kill_send =>
      match killers s, kill (m s) with
      | S k, O => Some (set_killers k (set_m (set_kill 1 (m s)) s))
      | _, _ => None
      end
  | call_SendTask t =>
      match newTask (m s) with
      | [] => Some (set_m (set_newTask [t] (m s)) s)
      | _ :: _ => None
      end
  | call_Reset => Some (set_m (Reset (m s)) s)
  | recv_done i =>
      match runs s !! i with
      | Some Run_done =>
          Some (set_reported (S (reported s))
                  (set_runs (delete i (runs s)) s))
      | _ => None
      end
  | Run_next i => pc ← runs s !! i; Run_step i pc s
  | Run_case_newTask i =>
      match runs s !! i, newTask (m s) with
      | Some Run_select, t :: l =>
          Some (Run_at i (Run_setBusy t) (set_m (set_newTask l (m s)) s))
      | _, _ => None
      end
  | Run_case_kill i =>
      match runs s !! i, kill (m s) with
      | Some Run_select, S k =>
          Some (Run_at i Run_ifBusy (set_m (set_kill k (m s)) s))
      | _, _ => None
      end
  | Proc_next i now => pc ← procs s !! i; Proc_step i now pc s
  | Proc_case i c =>
      match procs s !! i with
      | Some (Proc_select t e timeout) => Proc_select_step i c t e timeout s
      | _ => None
      end
  | Fn_return i r d err =>
      match fns s !! i with
      | Some (Fn_call t e) =>
          x ← execs s !! e;
          match resultChan x with
          | None =>
              Some (Fn_at i (Fn_deferred t e None)
                      (set_execs (<[e := set_resultChan (Some (r, d, err)) x]>
                                    (execs s)) s))
          | Some _ => None
          end
      | _ => None
      end
  | Fn_panic i v =>
      match fns s !! i with
      | Some (Fn_call t e) => Some (Fn_at i (Fn_deferred t e (Some v)) s)
      | _ => None
      end
  | Fn_next i now => pc ← fns s !! i; Fn_step i now pc s
  end.

(** The steps of a list, one after the other. *)
Definition exec (l : list Action) (s : System) : option System :=
  foldl (fun o a => o ≫= step a) (Some s) l.

Definition reach (s : System) : Prop := exists l, exec l initial = Some s.

(** How [Dispatcher.Run] uses a worker: for a task to execute,
    [d.runWorker(worker)] and then [worker.SendTask(t)]; for a worker
    received from [done], [w.GetTask()] and later [w.Reset()], and only then
    [t.SetStatus(task.TaskStatusRepeatWait)] for a task to repeat.  It never
    calls [Kill].  [Sent] and [Reported] remember the task and what it was
    when it was sent. *)
Inductive Client :=
| Idle
| Started
| Sent (t : ptr) (before : Tasker)
| Reported (t : ptr) (before : Tasker).

(** The steps that use allows, and the client after them. *)
Definition client (a : Action) (c : Client) (s : System) : option Client :=
  match a with
  | go_Run => match c with Idle => Some Started | _ => None end
  | call_SendTask t =>
      match c, t with
      | Started, Some t => before ← heap s !! t; Some (Sent t before)
      | _, _ => None
      end
  | recv_done _ =>
      match c with Sent t before => Some (Reported t before) | _ => None end
  | call_Reset => match c with Reported _ _ => Some Idle | _ => None end
  | task_SetStatus _ _ => match c with Idle => Some Idle | _ => None end
  | call_Kill | Kill_send => None
  | _ => Some c
  end.

Definition used_step (a : Action) (cs : Client * System)
  : option (Client * System) :=
  c' ← client a (fst cs) (snd cs);
  s' ← step a (snd cs);
  Some (c', s').

Definition used_exec (l : list Action) (cs : Client * System)
  : option (Client * System) :=
  foldl (fun o a => o ≫= used_step a) (Some cs) l.

Definition used_reach (c : Client) (s : System) : Prop :=
  exists l, used_exec l (Idle, initial) = Some (c, s).

(** The attempts counter [processTask] leaves: one more for a task that
    waited for a repeat, 1 for any other. *)
Definition expected_attempts (before : Tasker) : Z :=
  match t_status before with
  | TaskStatusRepeatWait => wrap64 (t_attempts before + 1)
  | _ => 1
  end.

(** A task between the beginning of [processTask] and the [select]. *)
Record Begun (before tk : Tasker) : Prop := mkBegun {
  begun_status : t_status tk = TaskStatusProcess;
  begun_attempts : t_attempts tk = expected_attempts before;
  begun_timeout : t_timeout tk = t_timeout before;
  begun_repeats : t_repeats tk = t_repeats before;
  begun_duration : t_duration tk = t_duration before;
  begun_started : t_startedAt tk <> None
}.

(** A task after the [select]. *)
Record Decided (before tk : Tasker) : Prop := mkDecided {
  decided_status :
    t_status tk = TaskStatusSuccess \/ t_status tk = TaskStatusFail
    \/ t_status tk = TaskStatusFailByTimeout;
  decided_timer :
    t_status tk = TaskStatusFailByTimeout -> 0 < t_timeout before;
  decided_attempts : t_attempts tk = expected_attempts before;
  decided_timeout : t_timeout tk = t_timeout before;
  decided_repeats :
    t_status tk <> TaskStatusSuccess ->
    t_repeats tk = t_repeats before /\ t_duration tk = t_duration before;
  decided_started : t_startedAt tk <> None
}.

(** [Run] before its first [select]. *)
Inductive Entering : list RunPc -> Z -> Prop :=
| entering_enter : Entering [Run_enter] WorkerStatusWait
| entering_setProcess : Entering [Run_setProcess] WorkerStatusWait
| entering_select : Entering [Run_select] WorkerStatusProcess.

(** The goroutine of the function of task [t], or what it left. *)
Inductive Fok (t : ptr) (tk : Tasker) : list FnPc -> Prop :=
| fok_call e : Fok t tk [Fn_call t e]
| fok_deferred e p : Fok t tk [Fn_deferred t e p]
| fok_Done : t_finishedAt tk <> None -> Fok t tk [Fn_Done]
| fok_gone : t_finishedAt tk <> None -> Fok t tk [].

(** [Run], the [kill] channel and [processTask] once [processTask] has sent
    its signal. *)
Inductive Winding : list RunPc -> nat -> list ProcPc -> Prop :=
| winding_sent : Winding [Run_select] 1 [Proc_Done]
| winding_sent_gone : Winding [Run_select] 1 []
| winding_ifBusy : Winding [Run_ifBusy] 0 [Proc_Done]
| winding_ifBusy_gone : Winding [Run_ifBusy] 0 []
| winding_Wait : Winding [Run_Wait] 0 [Proc_Done]
| winding_Wait_gone : Winding [Run_Wait] 0 [].

(** [Run] after [wg.Wait()]. *)
Inductive Returning : list RunPc -> Prop :=
| returning_deferred : Returning [Run_deferred]
| returning_done : Returning [Run_done].

(** The states the worker is in under that use, by where its client
    stands. *)
Inductive Cycle : Client -> System -> Prop :=
| cy_Idle ot h x r :
    Cycle Idle
      (mkSystem (mkWorkman WorkerStatusWait ot 0 [] 0 0) h x [] 0 [] [] r false)
| cy_Started rl st ot h x r :
    Entering rl st ->
    Cycle Started
      (mkSystem (mkWorkman st ot 0 [] 0 0) h x rl 0 [] [] r false)
| cy_queued t before rl st ot h x r :
    Entering rl st ->
    h !! t = Some before ->
    Cycle (Sent t before)
      (mkSystem (mkWorkman st ot 0 [Some t] 0 0) h x rl 0 [] [] r false)
| cy_setBusy t before ot h x r :
    h !! t = Some before ->
    Cycle (Sent t before)
      (mkSystem (mkWorkman WorkerStatusProcess ot 0 [] 0 0) h x
         [Run_setBusy (Some t)] 0 [] [] r false)
| cy_setTask t before ot h x r :
    h !! t = Some before ->
    Cycle (Sent t before)
      (mkSystem (mkWorkman WorkerStatusBusy ot 0 [] 0 0) h x
         [Run_setTask (Some t)] 0 [] [] r false)
| cy_go t before h x r :
    h !! t = Some before ->
    Cycle (Sent t before)
      (mkSystem (mkWorkman WorkerStatusBusy (Some t) 0 [] 0 0) h x
         [Run_go] 0 [] [] r false)
| cy_begin t before h x r :
    h !! t = Some before ->
    Cycle (Sent t before)
      (mkSystem (mkWorkman WorkerStatusBusy (Some t) 0 [] 0 1) h x
         [Run_select] 0 [Proc_begin] [] r false)
| cy_executeTask t before tk h x r :
    h !! t = Some tk ->
    Begun before tk ->
    Cycle (Sent t before)
      (mkSystem (mkWorkman WorkerStatusBusy (Some t) 0 [] 0 1) h x
         [Run_select] 0 [Proc_executeTask] [] r false)
| cy_select t before tk e fl n h x r :
    h !! t = Some tk ->
    Begun before tk ->
    Fok t tk fl ->
    n = 1 + Z.of_nat (length fl) ->
    Cycle (Sent t before)
      (mkSystem (mkWorkman WorkerStatusBusy (Some t) 0 [] 0 n) h x
         [Run_select] 0 [Proc_select t e (t_timeout before)] fl r false)
| cy_setWait t before tk fl n h x r :
    h !! t = Some tk ->
    Decided before tk ->
    Fok t tk fl ->
    n = 1 + Z.of_nat (length fl) ->
    Cycle (Sent t before)
      (mkSystem (mkWorkman WorkerStatusBusy (Some t) 0 [] 0 n) h x
         [Run_select] 0 [Proc_setWait] fl r false)
| cy_kill t before tk fl n h x r :
    h !! t = Some tk ->
    Decided before tk ->
    Fok t tk fl ->
    n = 1 + Z.of_nat (length fl) ->
    Cycle (Sent t before)
      (mkSystem (mkWorkman WorkerStatusWait (Some t) 0 [] 0 n) h x
         [Run_select] 0 [Proc_kill] fl r false)
| cy_winding t before tk rl k pl fl n h x r :
    h !! t = Some tk ->
    Decided before tk ->
    Fok t tk fl ->
    Winding rl k pl ->
    n = Z.of_nat (length pl + length fl) ->
    Cycle (Sent t before)
      (mkSystem (mkWorkman WorkerStatusWait (Some t) k [] 0 n) h x
         rl 0 pl fl r false)
| cy_returning t before tk rl h x r :
    h !! t = Some tk ->
    Decided before tk ->
    t_finishedAt tk <> None ->
    Returning rl ->
    Cycle (Sent t before)
      (mkSystem (mkWorkman WorkerStatusWait (Some t) 0 [] 0 0) h x
         rl 0 [] [] r false)
| cy_Reported t before tk h x r :
    h !! t = Some tk ->
    Decided before tk ->
    t_finishedAt tk <> None ->
    Cycle (Reported t before)
      (mkSystem (mkWorkman WorkerStatusWait (Some t) 0 [] 0 0) h x
         [] 0 [] [] r false).

(** The goroutines the wait group counts. *)
Definition alive (s : System) : Z :=
  Z.of_nat (length (procs s) + length (fns s)).

(** A task that waited for a repeat, and one turn of the worker with it. *)
Definition sample_task : Tasker :=
  mkTasker TaskStatusRepeatWait 2 5 0 10 (VString "boom") None None.

Definition sample_trace : list Action :=
  [ new_task sample_task; go_Run; Run_next 0; Run_next 0;
    call_SendTask (Some 0%nat); Run_case_newTask 0; Run_next 0; Run_next 0;
    Run_next 0; Proc_next 0 100; Proc_next 0 100 ].

Definition sample_finish : list Action :=
  [ Fn_return 0 4 7 VNil; Proc_case 0 case_resultChan; Fn_next 0 130;
    Fn_next 0 130; Proc_next 0 140; Proc_next 0 140; Proc_next 0 140;
    Run_case_kill 0; Run_next 0; Run_next 0; Run_next 0; recv_done 0 ].

Definition sample_busy : System :=
  Eval vm_compute in
    match exec sample_trace initial with Some s => s | None => initial end.

Definition sample_reported : System :=
  Eval vm_compute in
    match exec (sample_trace ++ sample_finish) initial with
    | Some s => s
    | None => initial
    end.

End worker.

(** ** The dispatcher of package [dispatcher] *)

Module dispatcher.

(** The constants of package [dispatcher], numbered by [iota]. *)
Definition DispatcherStatusWait : Z := 0.

Definition DispatcherStatusProcess : Z := 1.

(** The shared fields of a [Dispatcher].  Packages [collection] and [task]
    are not among the embedded files: a collection of tasks is the list of
    what was pushed and not taken out, [d.workers] is its [Len()], and a
    task is what [worker.Tasker] holds of it.  [doneTask] tells whether the
    channel is set; [quit], of capacity 1, is the values that wait in it. *)
Record Dispatcher := mkDispatcher {
  status : Z;                  (* int64 *)
  workersBusy : Z;             (* int *)
  workers : nat;
  tasks : list ptr;
  waitTasks : list ptr;
  doneTask : bool;
  quit : nat;
  wg : Z
}.

(** [NewDispatcherWithClock] *)
Definition NewDispatcher : Dispatcher :=
  mkDispatcher DispatcherStatusWait 0 0 [] [] false 0 0.

Definition setStatus (st : Z) (x : Dispatcher) : Dispatcher :=
  mkDispatcher st (workersBusy x) (workers x) (tasks x) (waitTasks x)
    (doneTask x) (quit x) (wg x).

Definition set_workersBusy (n : Z) (x : Dispatcher) : Dispatcher :=
  mkDispatcher (status x) n (workers x) (tasks x) (waitTasks x)
    (doneTask x) (quit x) (wg x).

Definition set_workers (n : nat) (x : Dispatcher) : Dispatcher :=
  mkDispatcher (status x) (workersBusy x) n (tasks x) (waitTasks x)
    (doneTask x) (quit x) (wg x).

Definition set_tasks (l : list ptr) (x : Dispatcher) : Dispatcher :=
  mkDispatcher (status x) (workersBusy x) (workers x) l (waitTasks x)
    (doneTask x) (quit x) (wg x).

Definition set_waitTasks (l : list ptr) (x : Dispatcher) : Dispatcher :=
  mkDispatcher (status x) (workersBusy x) (workers x) (tasks x) l
    (doneTask x) (quit x) (wg x).

(** [d.SetTaskDoneChannel(c)] *)
Definition SetTaskDoneChannel (c : bool) (x : Dispatcher) : Dispatcher :=
  mkDispatcher (status x) (workersBusy x) (workers x) (tasks x) (waitTasks x)
    c (quit x) (wg x).

Definition set_quit (n : nat) (x : Dispatcher) : Dispatcher :=
  mkDispatcher (status x) (workersBusy x) (workers x) (tasks x) (waitTasks x)
    (doneTask x) n (wg x).

Definition wg_Add (n : Z) (x : Dispatcher) : Dispatcher :=
  mkDispatcher (status x) (workersBusy x) (workers x) (tasks x) (waitTasks x)
    (doneTask x) (quit x) (wg x + n).

(** The test [Run] begins with. *)
Definition Run_refuses (x : Dispatcher) : option error :=
  if status x =? DispatcherStatusProcess
  then Some (errors_New "Dispatcher is running")
  else None.

(** The test of [Kill]: [None] when it goes on to [d.quit <- true]. *)
Definition Kill_refuses (x : Dispatcher) : option error :=
  if status x =? DispatcherStatusProcess
  then None
  else Some (errors_New "Dispatcher isn't running").

(** The function [add] of [AddTask], up to its send: the task joins
    [d.tasks] and is to be sent on [newQueue] when the dispatcher is in
    Process, and joins [d.waitTasks] otherwise. *)
Definition add (t : ptr) (x : Dispatcher) : Dispatcher * bool :=
  if status x =? DispatcherStatusProcess
  then (set_tasks (tasks x ++ [t]) x, true)
  else (set_waitTasks (waitTasks x ++ [t]) x, false).

(** The test of the [doneWorker] case for another attempt. *)
Definition repeat_wanted (tk : worker.Tasker) : bool :=
  (worker.t_repeats tk =? -1)
  || (worker.t_attempts tk <? worker.t_repeats tk).

(** Where the goroutine [Run] starts for the quota stands:
    [for { d.executeQueue <- <-d.newQueue; <-d.allowProcessing }]. *)
Inductive FlowPc :=
| Flow_newQueue
| Flow_executeQueue (t : ptr)
| Flow_allowProcessing.

(** A caller of [AddTask], or the goroutine it starts for a positive
    duration: at the timer, or at [d.newQueue <- t]. *)
Inductive AdderPc :=
| Add_timer (t : ptr)
| Add_send (t : ptr).

(** Where the call of [Run] stands. *)
Inductive MainPc :=
| Main_none                  (* no call under way *)
| Main_setProcess            (* at d.setStatus(DispatcherStatusProcess) *)
| Main_waitTasks             (* at the test of d.waitTasks.Len() > 0 *)
| Main_add (t : ptr)         (* in d.AddTask of that loop: at d.newQueue <- t *)
| Main_select                (* at the select *)
| Main_allow                 (* at d.allowProcessing <- true *)
| Main_doneTask (t : ptr)    (* doneWorker case: at d.doneTask <- t *)
| Main_repeats (t : ptr)     (* at repeats := t.GetRepeats() *)
| Main_repeat (t : ptr)      (* in d.AddTask(t): at d.newQueue <- t *)
| Main_busy                  (* at d.workersBusy-- *)
| Main_Wait.                 (* quit case: at d.wg.Wait() *)

(** A dispatcher, the tasks on the heap and the goroutines: the call of
    [Run], the quota goroutines, the callers of [AddTask] and of [Kill] at
    their sends.  [running] is the tasks sent to workers that are not back
    on [doneWorker]; [leaving] counts the goroutines of [runWorker] at their
    [d.wg.Done()]; [panicked] is set when a worker is taken from no
    workers. *)
Record System := mkSystem {
  d : Dispatcher;
  heap : list worker.Tasker;
  main : MainPc;
  flows : list FlowPc;
  adders : list AdderPc;
  killers : nat;
  running : list ptr;
  leaving : nat;
  panicked : bool
}.

Definition initial : System :=
  mkSystem NewDispatcher [] Main_none [] [] 0 [] 0 false.

Definition set_d (x : Dispatcher) (s : System) : System :=
  mkSystem x (heap s) (main s) (flows s) (adders s) (killers s) (running s)
    (leaving s) (panicked s).

Definition set_heap (x : list worker.Tasker) (s : System) : System :=
  mkSystem (d s) x (main s) (flows s) (adders s) (killers s) (running s)
    (leaving s) (panicked s).

Definition set_main (x : MainPc) (s : System) : System :=
  mkSystem (d s) (heap s) x (flows s) (adders s) (killers s) (running s)
    (leaving s) (panicked s).

Definition set_flows (x : list FlowPc) (s : System) : System :=
  mkSystem (d s) (heap s) (main s) x (adders s) (killers s) (running s)
    (leaving s) (panicked s).

Definition set_adders (x : list AdderPc) (s : System) : System :=
  mkSystem (d s) (heap s) (main s) (flows s) x (killers s) (running s)
    (leaving s) (panicked s).

Definition set_killers (x : nat) (s : System) : System :=
  mkSystem (d s) (heap s) (main s) (flows s) (adders s) x (running s)
    (leaving s) (panicked s).

Definition set_running (x : list ptr) (s : System) : System :=
  mkSystem (d s) (heap s) (main s) (flows s) (adders s) (killers s) x
    (leaving s) (panicked s).

Definition set_leaving (x : nat) (s : System) : System :=
  mkSystem (d s) (heap s) (main s) (flows s) (adders s) (killers s)
    (running s) x (panicked s).

Definition panic (s : System) : System :=
  mkSystem (d s) (heap s) (main s) (flows s) (adders s) (killers s)
    (running s) (leaving s) true.

(** [d.AddTask(t)] up to its send, by the call of [Run]: [next] is where
    [Run] goes on when it does not send, [send] where it sends. *)
Definition Main_AddTask (t : ptr) (next send : MainPc) (s : System)
  : option System :=
  tk ← heap s !! t;
  if 0 <? worker.t_duration tk
  then Some (set_main next (set_adders (adders s ++ [Add_timer t]) s))
  else
    let (x, sends) := add t (d s) in
    Some (set_main (if sends then send else next) (set_d x s)).

(** The call of [Run], from where it stands to its next shared operation,
    outside its sends, its receives and [d.waitTasks.Pop()]. *)
Definition Main_step (s : System) : option System :=
  match main s with
  | Main_setProcess =>
      Some (set_main Main_waitTasks
              (set_flows (flows s ++ [Flow_newQueue])
                 (set_d (setStatus DispatcherStatusProcess (d s)) s)))
  | Main_waitTasks =>
      match waitTasks (d s) with
      | [] => Some (set_main Main_select s)
      | _ :: _ => None
      end
  | Main_repeats t =>
      tk ← heap s !! t;
      if repeat_wanted tk
      then Main_AddTask t Main_busy (Main_repeat t)
             (set_heap
                (<[t := worker.SetStatus worker.TaskStatusRepeatWait tk]>
                   (heap s)) s)
      else Some (set_main Main_busy s)
  | Main_busy =>
      let n := wrap64 (workersBusy (d s) - 1) in
      Some (set_main
              (if n =? Z.of_nat (workers (d s)) - 1
               then Main_allow else Main_select)
              (set_d (set_workersBusy n (d s)) s))
  | Main_Wait =>
      if wg (d s) =? 0
      then Some (set_main Main_none
                   (set_d (setStatus DispatcherStatusWait (d s)) s))
      else None
  | _ => None
  end.

(** One step of one goroutine.  A client makes a task, calls [AddWorker],
    [AddTask], [SetTaskDoneChannel], [Kill] or [Run], or receives from
    [doneTask]; a timer of [AddTask] fires; a send meets its receive on
    [newQueue], [executeQueue], [allowProcessing] or [doneWorker], where
    [tk] is what the worker left of its task; [Run] takes the signal from
    [quit]; a goroutine of [runWorker] ends. *)
Inductive Action :=
| new_task (tk : worker.Tasker)
| call_AddWorker
| call_AddTask (t : ptr)
| timer_fires (i : nat)
| call_SetTaskDoneChannel (c : bool)
| recv_doneTask
| call_Kill
| Kill_send
| call_Run
| Main_next
| Main_Pop (i : nat)
| newQueue_adder (i j : nat)
| newQueue_main (j : nat)
| executeQueue (j : nat)
| allowProcessing (j : nat)
| doneWorker (i : nat) (tk : worker.Tasker)
| quit_recv
| runWorker_Done.

Definition step (a : Action) (s : System) : option System :=
  if panicked s then None else
  match a with
  | new_task tk => Some (set_heap (heap s ++ [tk]) s)
  | call_AddWorker => Some (set_d (set_workers (S (workers (d s))) (d s)) s)
  | call_AddTask t =>
      tk ← heap s !! t;
      if 0 <? worker.t_duration tk
      then Some (set_adders (adders s ++ [Add_timer t]) s)
      else
        let (x, sends) := add t (d s) in
        Some (set_adders (if sends then adders s ++ [Add_send t] else adders s)
                (set_d x s))
  | timer_fires i =>
      match adders s !! i with
      | Some (Add_timer t) =>
          let (x, sends) := add t (d s) in
          Some (set_adders (if sends then <[i := Add_send t]> (adders s)
                            else delete i (adders s))
                  (set_d x s))
      | _ => None
      end
  | call_SetTaskDoneChannel c => Some (set_d (SetTaskDoneChannel c (d s)) s)
  | recv_doneTask =>
      match main s with
      | Main_doneTask t => Some (set_main (Main_repeats t) s)
      | _ => None
      end
  | call_Kill =>
      match Kill_refuses (d s) with
      | Some _ => Some s
      | None => Some (set_killers (S (killers s)) s)
      end
  | Kill_send =>
      match killers s, quit (d s) with
      | S k, O => Some (set_killers k (set_d (set_quit 1 (d s)) s))
      | _, _ => None
      end
  | call_Run =>
      match Run_refuses (d s), main s with
      | Some _, _ => Some s
      | None, Main_none => Some (set_main Main_setProcess s)
      | None, _ => None
      end
  | Main_next => Main_step s
  | Main_Pop i =>
      match main s, waitTasks (d s) !! i with
      | Main_waitTasks, Some t =>
          Main_AddTask t Main_waitTasks (Main_add t)
            (set_d (set_waitTasks (delete i (waitTasks (d s))) (d s)) s)
      | _, _ => None
      end
  | newQueue_adder i j =>
      match adders s !! i, flows s !! j with
      | Some (Add_send t), Some Flow_newQueue =>
          Some (set_flows (<[j := Flow_executeQueue t]> (flows s))
                  (set_adders (delete i (adders s)) s))
      | _, _ => None
      end
  | newQueue_main j =>
      match flows s !! j with
      | Some Flow_newQueue =>
          match main s with
          | Main_add t =>
              Some (set_flows (<[j := Flow_executeQueue t]> (flows s))
                      (set_main Main_waitTasks s))
          | Main_repeat t =>
              Some (set_flows (<[j := Flow_executeQueue t]> (flows s))
                      (set_main Main_busy s))
          | _ => None
          end
      | _ => None
      end
  | executeQueue j =>
      match main s, flows s !! j with
      | Main_select, Some (Flow_executeQueue t) =>
          match workers (d s) with
          | O => Some (panic s)
          | S _ =>
              let n := wrap64 (workersBusy (d s) + 1) in
              Some (set_main
                      (if n <? Z.of_nat (workers (d s))
                       then Main_allow else Main_select)
                      (set_flows (<[j := Flow_allowProcessing]> (flows s))
                         (set_running (running s ++ [t])
                            (set_d (set_workersBusy n (wg_Add 1 (d s))) s))))
          end
      | _, _ => None
      end
  | allowProcessing j =>
      match main s, flows s !! j with
      | Main_allow, Some Flow_allowProcessing =>
          Some (set_main Main_select
                  (set_flows (<[j := Flow_newQueue]> (flows s)) s))
      | _, _ => None
      end
  | doneWorker i tk =>
      match main s, running s !! i with
      | Main_select, Some t =>
          _ ← heap s !! t;
          Some (set_main (if doneTask (d s) then Main_doneTask t
                          else Main_repeats t)
                  (set_leaving (S (leaving s))
                     (set_running (delete i (running s))
                        (set_heap (<[t := tk]> (heap s))
                           (set_d (set_tasks (without t (tasks (d s))) (d s))
                              s)))))
      | _, _ => None
      end
  | quit_recv =>
      match main s, quit (d s) with
      | Main_select, S k =>
          Some (set_main Main_Wait (set_d (set_quit k (d s)) s))
      | _, _ => None
      end
  | runWorker_Done =>
      match leaving s with
      | S k => Some (set_leaving k (set_d (wg_Add (-1) (d s)) s))
      | O => None
      end
  end.

Definition exec (l : list Action) (s : System) : option System :=
  foldl (fun o a => o ≫= step a) (Some s) l.

Definition reach (s : System) : Prop := exists l, exec l initial = Some s.

(** Whether a quota goroutine waits for a task. *)
Definition is_free (f : FlowPc) : bool :=
  match f with
  | Flow_newQueue => true
  | _ => false
  end.

(** The quota goroutines that wait for a task. *)
Definition free (s : System) : nat :=
  length (filter (fun f => is_free f = true) (flows s)).

(** Whether [AddTask] sends the task at once: its duration is not
    positive. *)
Definition is_immediate (h : list worker.Tasker) (t : ptr) : bool :=
  match h !! t with
  | Some tk => negb (0 <? worker.t_duration tk)
  | None => false
  end.

(** The tasks of [l] that [AddTask] sends at once. *)
Definition immediate (h : list worker.Tasker) (l : list ptr) : nat :=
  length (filter (fun t => is_immediate h t = true) l).

(** Whether the call of [Run] is before its [select]. *)
Definition draining (pc : MainPc) : bool :=
  match pc with
  | Main_setProcess | Main_waitTasks | Main_add _ => true
  | _ => false
  end.

(** [Run] before its [select], with more waiting tasks to send at once
    than quota goroutines to take them, the one [Run] starts included. *)
Definition Blocked (s : System) : Prop :=
  match main s with
  | Main_setProcess =>
      status (d s) <> DispatcherStatusProcess
      /\ (2 + free s <= immediate (heap s) (waitTasks (d s)))%nat
  | Main_waitTasks =>
      status (d s) = DispatcherStatusProcess
      /\ (1 + free s <= immediate (heap s) (waitTasks (d s)))%nat
  | Main_add _ =>
      status (d s) = DispatcherStatusProcess
      /\ (free s <= immediate (heap s) (waitTasks (d s)))%nat
  | _ => False
  end.

(** While a call of [Run] is past its [setStatus], the status is Process. *)
Definition Processing (s : System) : Prop :=
  match main s with
  | Main_none | Main_setProcess => True
  | _ => status (d s) = DispatcherStatusProcess
  end.

(** The [doneWorker] case with task [t] to send again at once, and no quota
    goroutine to take it. *)
Definition Repeating (t : ptr) (s : System) : Prop :=
  free s = 0%nat
  /\ match main s with
     | Main_repeats t' =>
         t' = t /\ status (d s) = DispatcherStatusProcess
         /\ exists tk, heap s !! t = Some tk /\ repeat_wanted tk = true
                       /\ worker.t_duration tk <= 0
     | Main_repeat t' => t' = t
     | _ => False
     end.

(** Two tasks added before [Run], with one worker. *)
Definition sample_two_waiting : System :=
  Eval vm_compute in
    match exec [ new_task worker.sample_task; new_task worker.sample_task;
                 call_AddWorker; call_AddTask 0; call_AddTask 1 ] initial with
    | Some s => s
    | None => initial
    end.

(** One worker, at work on the only task. *)
Definition sample_saturated : System :=
  Eval vm_compute in
    match exec [ new_task worker.sample_task; call_AddWorker; call_Run;
                 Main_next; Main_next; call_AddTask 0; newQueue_adder 0 0;
                 executeQueue 0 ] initial with
    | Some s => s
    | None => initial
    end.

End dispatcher.

(** * Properties *)

(** ** Reading the fields of a state after an operation *)

Ltac dsimpl1 :=
  unfold IsStatus, task_IsStatus, worker_IsStatus, task_status, worker_status,
    task_Task, task_Repeats_of, task_RepeatInterval_of, task_Timeout_of,
    task_Attempts, retry_allowed in *;
  cbn [setStatusTask setStatusWorker setStatusDispatcher tasks_Remove
       workers_Remove ctxCancel_derived AsyncTrigger task_update worker_update
       set_wg set_status set_ctx set_workers set_tasks
       set_workerItems set_taskItems set_allowExecuteTasks
       wg status ctx ctxs workers tasks workerItems taskItems listeners
       allowExecuteTasks] in *.

Ltac dsimpl := dsimpl1; dsimpl1; dsimpl1.

Lemma task_status_changes_app p l k :
  task_status_changes p (l ++ k)
  = task_status_changes p l ++ task_status_changes p k.
Proof. apply omap_app. Qed.

Lemma worker_status_changes_app p l k :
  worker_status_changes p (l ++ k)
  = worker_status_changes p l ++ worker_status_changes p k.
Proof. apply omap_app. Qed.

Lemma Push_ext f g p m :
  (forall q, f q p = g q p) -> Push f p m = Push g p m.
Proof.
  intros E. unfold Push.
  replace (existsb (fun q => bool_decide (q <> p) && f q p) (m_items m))
    with (existsb (fun q => bool_decide (q <> p) && g q p) (m_items m)); [done|].
  induction (m_items m) as [|q l IH]; [done|]. cbn. by rewrite IH, E.
Qed.

(** A push leaves the item waiting unless another managed item has its id. *)
Lemma Push_queued f p m :
  (forall q, q ∈ m_items m -> q <> p -> f q p = false) ->
  p ∈ m_queue (Push f p m).1.
Proof.
  intros Hid. unfold Push, mem.
  assert (existsb (fun q => bool_decide (q <> p) && f q p) (m_items m) = false) as ->.
  { apply not_true_is_false. intros H. apply existsb_exists in H as (q & Hq & Hb).
    apply andb_prop in Hb as [Hne Hf]. apply bool_decide_eq_true in Hne.
    rewrite Hid in Hf; [done| by apply list_elem_of_In | done]. }
  rewrite orb_false_r. case_bool_decide as Hq; cbn; [done|].
  apply elem_of_app. right. constructor.
Qed.

Lemma Remove_gone p m :
  (p ∉ m_items (Remove p m)) /\ (p ∉ m_queue (Remove p m)).
Proof.
  unfold Remove, without. cbn. split; rewrite list_elem_of_filter; by intros [].
Qed.

Lemma task_same_id_ext d d' :
  ti_task <$> taskItems d = ti_task <$> taskItems d' ->
  forall p q, task_same_id d p q = task_same_id d' p q.
Proof.
  intros E p q. unfold task_same_id.
  assert (forall x, ti_task <$> taskItems d !! x = ti_task <$> taskItems d' !! x) as L.
  { intros x. by rewrite <- !list_lookup_fmap, E. }
  generalize (L p) (L q).
  destruct (taskItems d !! p), (taskItems d' !! p),
    (taskItems d !! q), (taskItems d' !! q); cbn; intros; simplify_eq;
    congruence.
Qed.

Lemma fmap_alter_same {A B} (g : A -> B) (f : A -> A) i (l : list A) :
  (forall x, g (f x) = g x) -> g <$> alter f i l = g <$> l.
Proof.
  intros E. apply list_eq. intros j. rewrite !list_lookup_fmap.
  destruct (decide (i = j)) as [->|Hne].
  - rewrite list_lookup_alter_eq. destruct (l !! j); cbn; [by rewrite E|done].
  - by rewrite list_lookup_alter_ne.
Qed.

(** What [notifyAllowExecuteTasks], run in one piece, does: it returns, and
    changes at most the number of buffered signals. *)
Lemma notifyAllowExecuteTasks_returns d :
  exists n, notifyAllowExecuteTasks d = Some (set_allowExecuteTasks n d)
            /\ (n = allowExecuteTasks d \/ (allowExecuteTasks d = 0 /\ n = 1))%nat.
Proof.
  unfold notifyAllowExecuteTasks, notify_check, notify_send, chan_send,
    allowExecuteTasks_cap.
  destruct (IsStatus _ d); cbn.
  - destruct (allowExecuteTasks d) as [|n] eqn:E; cbn.
    + exists 1%nat. auto.
    + exists (S n). destruct d; cbn in *; subst. auto.
  - exists (allowExecuteTasks d). destruct d; auto.
Qed.

(** ** The result collector *)

Lemma workers_Push_frame p d :
  let d' := (workers_Push p d).1 in
  wg d' = wg d /\ status d' = status d /\ ctx d' = ctx d /\ ctxs d' = ctxs d
  /\ tasks d' = tasks d /\ workerItems d' = workerItems d
  /\ taskItems d' = taskItems d /\ listeners d' = listeners d
  /\ allowExecuteTasks d' = allowExecuteTasks d
  /\ workers d' = (Push (worker_same_id d) p (workers d)).1.
Proof. unfold workers_Push. destruct (Push _ _ _). cbn. auto 12. Qed.

Lemma tasks_Push_frame p d :
  let d' := (tasks_Push p d).1 in
  wg d' = wg d /\ status d' = status d /\ ctx d' = ctx d /\ ctxs d' = ctxs d
  /\ workers d' = workers d /\ workerItems d' = workerItems d
  /\ taskItems d' = taskItems d /\ listeners d' = listeners d
  /\ allowExecuteTasks d' = allowExecuteTasks d
  /\ tasks d' = (Push (task_same_id d) p (tasks d)).1.
Proof. unfold tasks_Push. destruct (Push _ _ _). cbn. auto 12. Qed.

(** The worker's share leaves the tasks alone. *)
Lemma collect_worker_frame r d :
  let d' := collect_worker r d in
  wg d' = wg d /\ status d' = status d /\ ctx d' = ctx d /\ ctxs d' = ctxs d
  /\ tasks d' = tasks d /\ taskItems d' = taskItems d
  /\ allowExecuteTasks d' = allowExecuteTasks d
  /\ forall p, task_status_changes p (listeners d')
               = task_status_changes p (listeners d).
Proof.
  unfold collect_worker.
  destruct (negb (cancel r) || _).
  - match goal with |- context [workers_Push ?w ?x] =>
      destruct (workers_Push_frame w x) as (E1&E2&E3&E4&E5&E6&E7&E8&E9&E10) end.
    cbn zeta in *. rewrite E1, E2, E3, E4, E5, E7, E8, E9. clear.
    dsimpl. repeat split; try done.
    intros p. rewrite task_status_changes_app. cbn. by rewrite app_nil_r.
  - dsimpl. auto 10.
Qed.

(** The task's share, for an envelope and a task that are not cancelled. *)
Lemma collect_task_spec now r d it :
  cancel r = false ->
  taskItems d !! taskItem r = Some it ->
  ti_status it <> TaskStatusCancel ->
  let p := taskItem r in
  let verdict := match err r with
                 | Some _ => TaskStatusFail
                 | None => TaskStatusSuccess
                 end in
  let repeats := task_Repeats (ti_task it) in
  let interval := task_RepeatInterval (ti_task it) in
  let d' := collect_task now r d in
  wg d' = wg d /\ status d' = status d /\ ctx d' = ctx d /\ ctxs d' = ctxs d
  /\ workers d' = workers d /\ workerItems d' = workerItems d
  /\ allowExecuteTasks d' = allowExecuteTasks d
  /\ (forall q, q <> p -> taskItems d' !! q = taskItems d !! q)
  /\ if (repeats <? 0) || (ti_attempts it <? repeats)
     then
       listeners d' = listeners d
                      ++ [EventTaskStatusChanged p verdict (ti_status it);
                          EventTaskStatusChanged p TaskStatusRepeatWait verdict]
       /\ taskItems d' !! p
          = Some (mkTasksManagerItem (ti_task it) TaskStatusRepeatWait
                    (ti_attempts it)
                    (if interval >? 0 then Some (now + interval)
                     else ti_allowStartAt it)
                    (ti_firstStartedAt it) (ti_lastStartedAt it) (ti_cancel it))
       /\ tasks d' = (Push (task_same_id d) p (tasks d)).1
     else
       listeners d' = listeners d
                      ++ [EventTaskStatusChanged p verdict (ti_status it)]
       /\ taskItems d' !! p = Some (ti_SetStatus verdict it)
       /\ tasks d' = Remove p (tasks d).
Proof.
  intros Hc Hit Hst p verdict repeats interval.
  unfold collect_task. fold p in Hit |- *. rewrite Hc. cbn [negb andb].
  unfold task_IsStatus, task_status. rewrite Hit. cbn [from_option].
  assert ((ti_status it =? TaskStatusCancel) = false) as -> by lia.
  cbn [negb].
  set (d1 := match err r with
             | Some _ => setStatusTask p TaskStatusFail d
             | None => setStatusTask p TaskStatusSuccess d
             end).
  assert (d1 = setStatusTask p verdict d) as -> by (subst d1 verdict; by destruct (err r)).
  assert (taskItems (setStatusTask p verdict d) !! p = Some (ti_SetStatus verdict it)) as H1.
  { dsimpl. by rewrite list_lookup_alter_eq, Hit. }
  unfold retry_allowed, task_Repeats_of, task_Attempts, task_RepeatInterval_of.
  rewrite H1. cbn [from_option ti_SetStatus ti_task ti_attempts].
  fold repeats. fold interval.
  destruct ((repeats <? 0) || (ti_attempts it <? repeats)).
  - match goal with |- context [tasks_Push p ?x] =>
      destruct (tasks_Push_frame p x) as (E1&E2&E3&E4&E5&E6&E7&E8&E9&E10);
      set (d2 := x) in * end.
    cbn zeta in *. rewrite E1, E2, E3, E4, E5, E6, E7, E8, E9, E10.
    clear E1 E2 E3 E4 E5 E6 E7 E8 E9 E10.
    assert (ti_task <$> taskItems d2 = ti_task <$> taskItems d) as Eid.
    { subst d2. destruct (interval >? 0); dsimpl;
        rewrite ?fmap_alter_same; done. }
    rewrite (Push_ext _ (task_same_id d)) by (intros; by apply task_same_id_ext).
    clear Eid. subst d2. destruct (interval >? 0); dsimpl;
      rewrite ?list_lookup_alter_eq, ?Hit; cbn [from_option fmap option_fmap option_map ti_SetStatus ti_status];
      (repeat split; try done;
       [ intros q Hq; by rewrite ?list_lookup_alter_ne by done
       | by rewrite <- app_assoc ]).
  - dsimpl. rewrite Hit. cbn. repeat split; try done.
    intros q Hq. by rewrite list_lookup_alter_ne.
Qed.

(** The state in which the collector looks at the worker and the task of an
    envelope: both cancel handles cleared. *)
Lemma collector_prefix_frame r d :
  let d1 := worker_update (wi_SetCancel None) (workerItem r)
              (task_update (ti_SetCancel None) (taskItem r) d) in
  status d1 = status d /\ tasks d1 = tasks d /\ workers d1 = workers d
  /\ listeners d1 = listeners d
  /\ taskItems d1 = alter (ti_SetCancel None) (taskItem r) (taskItems d)
  /\ workerItems d1 = alter (wi_SetCancel None) (workerItem r) (workerItems d).
Proof. dsimpl. auto 10. Qed.

Lemma doResultCollector_result_task now r d it :
  IsStatus DispatcherStatusCancel d = false ->
  cancel r = false ->
  taskItems d !! taskItem r = Some it ->
  ti_status it <> TaskStatusCancel ->
  exists d', doResultCollector_result now r d = Some d'
             /\ task_settled now r d it d'.
Proof.
  intros Hd Hc Hit Hst. unfold doResultCollector_result.
  destruct (collector_prefix_frame r d) as (P1 & P2 & P3 & P4 & P5 & P6).
  set (d1 := worker_update _ _ _) in *. cbn zeta in *.
  unfold IsStatus in *. rewrite P1, Hd.
  destruct (collect_worker_frame r d1) as (W1 & W2 & W3 & W4 & W5 & W6 & W7 & W8).
  set (d2 := collect_worker r d1) in *. cbn zeta in *.
  assert (taskItems d2 !! taskItem r = Some (ti_SetCancel None it)) as Hit2.
  { by rewrite W6, P5, list_lookup_alter_eq, Hit. }
  destruct (collect_task_spec now r d2 _ Hc Hit2 Hst)
    as (T1 & T2 & T3 & T4 & T5 & T6 & T7 & T8 & T9).
  set (d3 := collect_task now r d2) in *.
  match goal with |- context [notifyAllowExecuteTasks ?x] =>
    destruct (notifyAllowExecuteTasks_returns x) as (n & -> & _) end.
  eexists. split; [reflexivity|].
  unfold task_settled. cbn [ti_SetCancel ti_task ti_attempts ti_status
    ti_allowStartAt ti_firstStartedAt ti_lastStartedAt ti_cancel] in T9 |- *.
  destruct (_ || _); destruct T9 as (L & I & Q); dsimpl;
    rewrite task_status_changes_app, L, task_status_changes_app, W8, P4;
    cbn; destruct (decide (taskItem r = taskItem r)); try done;
    rewrite app_nil_r; repeat split; try done.
  - rewrite Q, W5, P2. f_equal. apply Push_ext. intros q.
    apply task_same_id_ext. rewrite W6, P5. by apply fmap_alter_same.
  - by rewrite Q, W5, P2.
Qed.

(** C1.  An envelope that is not a cancellation, for a task that is not
    cancelled, processed while the dispatcher is not in Cancel: the task's
    status is set to Fail when the envelope carries an error and to Success
    otherwise; then, when repeats is negative or attempts is below repeats,
    allow_start_at becomes now + repeat_interval if that interval is
    positive, the status is set to RepeatWait and the task is pushed to the
    queue; otherwise the task is removed from the queue. *)
Theorem collector_settles_task now r d it :
  IsStatus DispatcherStatusCancel d = false ->
  cancel r = false ->
  taskItems d !! taskItem r = Some it ->
  ti_status it <> TaskStatusCancel ->
  exists d', doResultCollector_result now r d = Some d'
             /\ task_settled now r d it d'.
Proof. apply doResultCollector_result_task. Qed.

(** The task's share leaves the workers alone. *)
Lemma collect_task_frame now r d :
  let d' := collect_task now r d in
  wg d' = wg d /\ status d' = status d /\ ctx d' = ctx d /\ ctxs d' = ctxs d
  /\ workers d' = workers d /\ workerItems d' = workerItems d
  /\ allowExecuteTasks d' = allowExecuteTasks d
  /\ forall p, worker_status_changes p (listeners d')
               = worker_status_changes p (listeners d).
Proof.
  unfold collect_task.
  destruct (negb (cancel r) && _); [|cbn zeta; auto 10].
  set (d1 := match err r with
             | Some _ => setStatusTask (taskItem r) TaskStatusFail d
             | None => setStatusTask (taskItem r) TaskStatusSuccess d
             end).
  assert (wg d1 = wg d /\ status d1 = status d /\ ctx d1 = ctx d
          /\ ctxs d1 = ctxs d /\ workers d1 = workers d
          /\ workerItems d1 = workerItems d
          /\ allowExecuteTasks d1 = allowExecuteTasks d
          /\ forall p, worker_status_changes p (listeners d1)
                       = worker_status_changes p (listeners d))
    as (A1 & A2 & A3 & A4 & A5 & A6 & A7 & A8).
  { subst d1. destruct (err r); dsimpl; repeat split; try done;
      intros p; rewrite worker_status_changes_app; cbn; by rewrite app_nil_r. }
  clearbody d1. destruct (retry_allowed _ d1).
  - match goal with |- context [tasks_Push ?p ?x] =>
      destruct (tasks_Push_frame p x) as (E1&E2&E3&E4&E5&E6&E7&E8&E9&E10) end.
    cbn zeta in *. rewrite E1, E2, E3, E4, E5, E6, E8, E9.
    destruct (_ >? 0); dsimpl; repeat split; try done;
      intros p; rewrite worker_status_changes_app; cbn; by rewrite app_nil_r.
  - cbn zeta. dsimpl. auto 10.
Qed.

Lemma worker_same_id_ext d d' :
  wi_worker <$> workerItems d = wi_worker <$> workerItems d' ->
  forall p q, worker_same_id d p q = worker_same_id d' p q.
Proof.
  intros E p q. unfold worker_same_id.
  assert (forall x, wi_worker <$> workerItems d !! x
                    = wi_worker <$> workerItems d' !! x) as L.
  { intros x. by rewrite <- !list_lookup_fmap, E. }
  generalize (L p) (L q).
  destruct (workerItems d !! p), (workerItems d' !! p),
    (workerItems d !! q), (workerItems d' !! q); cbn; intros; simplify_eq;
    congruence.
Qed.

Lemma collect_worker_spec r d wi :
  workerItems d !! workerItem r = Some wi ->
  let w := workerItem r in
  let d' := collect_worker r d in
  if cancel r && (wi_status wi =? WorkerStatusCancel)
  then
    listeners d' = listeners d
    /\ workerItems d' !! w = Some (wi_SetTask None wi)
    /\ workers d' = workers d
  else
    listeners d' = listeners d
                   ++ [EventWorkerStatusChanged w WorkerStatusWait (wi_status wi)]
    /\ workerItems d' !! w = Some (wi_SetStatus WorkerStatusWait (wi_SetTask None wi))
    /\ workers d' = (Push (worker_same_id d) w (workers d)).1.
Proof.
  intros Hw w d'. subst d'. unfold collect_worker. fold w in Hw |- *.
  assert (worker_IsStatus w WorkerStatusCancel
            (worker_update (wi_SetTask None) w d)
          = (wi_status wi =? WorkerStatusCancel)) as ->.
  { dsimpl. by rewrite list_lookup_alter_eq, Hw. }
  rewrite <- negb_andb.
  destruct (cancel r && _); cbn [negb].
  - dsimpl. by rewrite list_lookup_alter_eq, Hw.
  - match goal with |- context [workers_Push w ?x] =>
      destruct (workers_Push_frame w x) as (E1&E2&E3&E4&E5&E6&E7&E8&E9&E10);
      set (d2 := x) in * end.
    cbn zeta in *. rewrite E6, E8, E10.
    assert (wi_worker <$> workerItems d2 = wi_worker <$> workerItems d) as Eid.
    { subst d2. dsimpl. by rewrite !fmap_alter_same. }
    rewrite (Push_ext _ (worker_same_id d)) by (intros; by apply worker_same_id_ext).
    subst d2. dsimpl. by rewrite !list_lookup_alter_eq, Hw.
Qed.

(** ** The worker of an envelope *)

Lemma doResultCollector_result_worker now r d wi :
  IsStatus DispatcherStatusCancel d = false ->
  workerItems d !! workerItem r = Some wi ->
  exists d', doResultCollector_result now r d = Some d'
             /\ worker_settled r d wi d'.
Proof.
  intros Hd Hw. unfold doResultCollector_result.
  destruct (collector_prefix_frame r d) as (P1 & P2 & P3 & P4 & P5 & P6).
  set (d1 := worker_update _ _ _) in *. cbn zeta in *.
  unfold IsStatus in *. rewrite P1, Hd.
  assert (workerItems d1 !! workerItem r = Some (wi_SetCancel None wi)) as Hw1.
  { by rewrite P6, list_lookup_alter_eq, Hw. }
  pose proof (collect_worker_spec r d1 _ Hw1) as W. cbn zeta in W.
  set (d2 := collect_worker r d1) in *.
  destruct (collect_task_frame now r d2) as (T1 & T2 & T3 & T4 & T5 & T6 & T7 & T8).
  set (d3 := collect_task now r d2) in *. cbn zeta in *.
  match goal with |- context [notifyAllowExecuteTasks ?x] =>
    destruct (notifyAllowExecuteTasks_returns x) as (n & -> & _) end.
  eexists. split; [reflexivity|].
  unfold worker_settled.
  cbn [wi_SetCancel wi_SetTask wi_SetStatus wi_worker wi_status wi_createdAt
       wi_task wi_cancel] in W |- *.
  destruct (cancel r && _); destruct W as (L & I & Q); dsimpl;
    rewrite worker_status_changes_app, T8, L, ?worker_status_changes_app, P4;
    cbn; rewrite ?app_nil_r, T6, T5, I, Q, P3;
    destruct (decide (workerItem r = workerItem r)); try done;
    repeat split; try done.
  f_equal. apply Push_ext. intros q.
  apply worker_same_id_ext. rewrite P6. by apply fmap_alter_same.
Qed.

(** C5, as the code has it.  An envelope processed while the dispatcher is
    not in Cancel: the worker's current task (and cancel handle) is cleared;
    unless the envelope is a cancellation and the worker's status is Cancel,
    the worker's status is set to Wait and the worker is pushed to the pool.
    A worker in Cancel is left in Cancel and out of the pool on a
    cancellation envelope only. *)
Theorem collector_settles_worker now r d wi :
  IsStatus DispatcherStatusCancel d = false ->
  workerItems d !! workerItem r = Some wi ->
  exists d', doResultCollector_result now r d = Some d'
             /\ worker_settled r d wi d'.
Proof. apply doResultCollector_result_worker. Qed.

Lemma collector_settles_worker_witness :
  exists d',
    doResultCollector_result 300 (mkResult 0 0 VNil (Some Canceled) true)
      (sample_running 1 0 0) = Some d'
    /\ worker_settled (mkResult 0 0 VNil (Some Canceled) true)
         (sample_running 1 0 0)
         (mkWorkersManagerItem sample_worker WorkerStatusProcess 100
            (Some (mkTask "t1" 1 0 0)) (Some 0%nat)) d'.
Proof.
  apply (collector_settles_worker 300 (mkResult 0 0 VNil (Some Canceled) true)
           (sample_running 1 0 0)); vm_compute; reflexivity.
Defined.

(** C5, as stated, fails.  A worker removed while its task runs is in
    Cancel and out of the pool; when the task function returns before the
    cancellation is seen, the envelope is not a cancellation, and the
    collector sets the worker to Wait and pushes it to the pool again.  The
    same happens to a worker that [RemoveWorker] has marked Cancel and not
    removed yet. *)
Lemma cancelled_worker_is_reused :
  let r := mkResult 0 0 (VString "ok") None false in
  (let d := doRunTask_exit 0 (RemoveWorker sample_worker (sample_running 1 0 0)) in
   doRunTask_select CaseDone 0 0 0
     (run_goroutine 0 0 (Returned (VString "ok") None)) d = Some r
   /\ IsStatus DispatcherStatusCancel d = false
   /\ worker_status 0 d = WorkerStatusCancel
   /\ mem 0 (m_items (workers d)) = false
   /\ exists d', doResultCollector_result 300 r d = Some d'
                 /\ worker_status 0 d' = WorkerStatusWait
                 /\ mem 0 (m_queue (workers d')) = true)
  /\ (let d := setStatusWorker 0 WorkerStatusCancel (sample_running 1 0 0) in
      IsStatus DispatcherStatusCancel d = false
      /\ worker_status 0 d = WorkerStatusCancel
      /\ mem 0 (m_items (workers d)) = true
      /\ exists d', doResultCollector_result 300 r d = Some d'
                    /\ worker_status 0 d' = WorkerStatusWait
                    /\ mem 0 (m_queue (workers d')) = true).
Proof.
  cbn zeta. split.
  - repeat split; try (vm_compute; reflexivity).
    eexists. split; [vm_compute; reflexivity|]. split; vm_compute; reflexivity.
  - repeat split; try (vm_compute; reflexivity).
    eexists. split; [vm_compute; reflexivity|]. split; vm_compute; reflexivity.
Qed.

(** ** The collector on the sample states *)

Lemma collector_settles_task_witness :
  exists d',
    doResultCollector_result 300
      (mkResult 0 0 VNil (Some (errors_New "boom")) false)
      (sample_running 3 5 0) = Some d'
    /\ task_settled 300 (mkResult 0 0 VNil (Some (errors_New "boom")) false)
         (sample_running 3 5 0)
         (mkTasksManagerItem (mkTask "t1" 3 5 0) TaskStatusProcess 1 None
            (Some 201) (Some 201) (Some 0%nat)) d'.
Proof.
  apply (collector_settles_task 300
           (mkResult 0 0 VNil (Some (errors_New "boom")) false)
           (sample_running 3 5 0)); vm_compute; (reflexivity || discriminate).
Defined.

(** The sample task with [repeats = 1] whose function returns a result and
    no error: the task ends in Success and leaves the manager, the worker is
    back in the pool in Wait, and the listeners are told of the stop. *)
Example sample_success :
  exists r d',
    doRunTask 201 0 0 (Some (Returned (VString "ok") None)) CaseDone
      (from_option fst NewSimpleDispatcher
         (doExecuteTasks 2 200 (sample_started 1 0 0)))
    = Some (r, doRunTask_exit 0 (sample_running 1 0 0))
    /\ doResultCollector_result 300 r (doRunTask_exit 0 (sample_running 1 0 0))
       = Some d'
    /\ task_status 0 d' = TaskStatusSuccess
    /\ task_Attempts 0 d' = 1
    /\ tasks d' = mkManager [] []
    /\ worker_status 0 d' = WorkerStatusWait
    /\ workers d' = mkManager [0%nat] [0%nat]
    /\ last (listeners d')
       = Some (EventTaskExecuteStop 0 0 (VString "ok") None).
Proof.
  eexists _, _. split; [vm_compute; reflexivity|].
  split; [vm_compute; reflexivity|]. repeat split; vm_compute; reflexivity.
Qed.

(** The sample task with [repeats = 3] and a repeat interval of 5 whose
    first attempt returns an error: the status passes through Fail to
    RepeatWait, the task waits again, and is not eligible before 305. *)
Example sample_retry :
  exists d',
    doResultCollector_result 300
      (mkResult 0 0 VNil (Some (errors_New "boom")) false)
      (doRunTask_exit 0 (sample_running 3 5 0)) = Some d'
    /\ task_status_changes 0 (listeners d')
       = [(TaskStatusProcess, TaskStatusWait); (TaskStatusFail, TaskStatusProcess);
          (TaskStatusRepeatWait, TaskStatusFail)]
    /\ tasks d' = mkManager [0%nat] [0%nat]
    /\ (tasks_Pull 304 d').1 = None
    /\ (tasks_Pull 305 d').1 = Some 0%nat.
Proof.
  eexists. split; [vm_compute; reflexivity|]. repeat split; vm_compute; reflexivity.
Qed.

(** A pushed task waits in the queue, a removed one is not managed any
    more. *)
Lemma task_settled_queue now r d it d' :
  task_settled now r d it d' ->
  (forall q, q ∈ m_items (tasks d) -> q <> taskItem r ->
             task_same_id d q (taskItem r) = false) ->
  if (task_Repeats (ti_task it) <? 0)
     || (ti_attempts it <? task_Repeats (ti_task it))
  then taskItem r ∈ m_queue (tasks d')
  else (taskItem r ∉ m_items (tasks d')) /\ (taskItem r ∉ m_queue (tasks d')).
Proof.
  unfold task_settled. intros H Hid.
  destruct (_ || _); destruct H as (_ & _ & ->).
  - by apply Push_queued.
  - apply Remove_gone.
Qed.

(** ** Panics *)

Lemma doRunTask_start_ctx now w t d k d' :
  doRunTask_start now w t d = (k, d') ->
  k = length (ctxs d)
  /\ wg d' = wg d + 1
  /\ ctx d' = ctx d
  /\ exists deadline, ctxs d' = ctxs d ++ [mkDerived (ctx d) deadline].
Proof.
  unfold doRunTask_start. cbv zeta.
  destruct (task_Attempts _ _ =? 1), (task_Timeout_of _ _ >? 0);
    intros [= <- <-]; dsimpl; eauto 10.
Qed.

(** C8, as the code has it.  A task function that panics with a non-nil
    value: the panic is recovered, and the goroutine puts one envelope on
    [done], whose error is the synthesized error with message
    "Panic recovered" (capital P) and whose result value is the recovered
    value.  [doRunTask] sends one envelope and returns.  While the context
    of the attempt is not done, only the [done] case of its [select] is
    ready and the envelope sent is that one.  When the [select] takes
    [ctx.Done()], the context of the attempt being done (timeout or
    cancellation), the envelope sent is the one of the context, whatever
    [done] holds: the error of the context, the cancel flag set exactly for
    [context.Canceled], and no result value.  Whichever case is taken, the
    envelope is one of these two. *)
Theorem panic_is_recovered w t v :
  v <> VNil ->
  run_goroutine w t (Panicked v)
  = Some (mkResult w t v (Some (errors_New "Panic recovered")) false)
  /\ (forall now d,
        ctx d = None ->
        doRunTask now w t (Some (Panicked v)) CaseCtxDone d = None
        /\ exists d',
             doRunTask now w t (Some (Panicked v)) CaseDone d
             = Some (mkResult w t v (Some (errors_New "Panic recovered")) false,
                     d')
             /\ wg d' = wg d)
  /\ (forall k d,
        (ctxs d !! k) ≫= dc_err = None ->
        doRunTask_select CaseCtxDone k w t (run_goroutine w t (Panicked v)) d
        = None
        /\ doRunTask_select CaseDone k w t (run_goroutine w t (Panicked v)) d
           = Some (mkResult w t v (Some (errors_New "Panic recovered")) false))
  /\ (forall k e d done,
        (ctxs d !! k) ≫= dc_err = Some e ->
        doRunTask_select CaseCtxDone k w t done d
        = Some (mkResult w t VNil (Some e) (error_eqb e Canceled)))
  /\ (forall c k d r,
        doRunTask_select c k w t (run_goroutine w t (Panicked v)) d = Some r ->
        (c = CaseDone
         /\ r = mkResult w t v (Some (errors_New "Panic recovered")) false)
        \/ (c = CaseCtxDone
            /\ exists e, (ctxs d !! k) ≫= dc_err = Some e
                         /\ r = mkResult w t VNil (Some e)
                                  (error_eqb e Canceled))).
Proof.
  intros Hv.
  assert (run_goroutine w t (Panicked v)
          = Some (mkResult w t v (Some (errors_New "Panic recovered")) false))
    as Hg by (by destruct v).
  split; [done|]. split; [|split; [|split]].
  - intros now d Hctx. unfold doRunTask.
    destruct (doRunTask_start now w t d) as [k d1] eqn:E.
    apply doRunTask_start_ctx in E as (-> & Hwg & Hc & dl & Hcs).
    split.
    + unfold doRunTask_select. rewrite Hcs, lookup_app_r, Nat.sub_diag by lia.
      cbn. by rewrite Hctx.
    + eexists. cbn [mbind option_bind doRunTask_select]. rewrite Hg.
      split; [done|]. unfold doRunTask_exit. dsimpl. lia.
  - intros k d Hk. rewrite Hg. cbn. by rewrite Hk.
  - intros k e d done Hk. cbn. by rewrite Hk.
  - intros c k d r. rewrite Hg. destruct c; cbn.
    + destruct (ctxs d !! k ≫= dc_err) as [e|] eqn:E; [|done]. cbn.
      intros [= <-]. right. eauto.
    + intros [= <-]. by left.
Qed.

Lemma panic_is_recovered_witness :
  run_goroutine 0 0 (Panicked (VString "boom"))
  = Some (mkResult 0 0 (VString "boom")
            (Some (errors_New "Panic recovered")) false)
  /\ (doRunTask 201 0 0 (Some (Panicked (VString "boom"))) CaseCtxDone
        (sample_started 1 0 0) = None
      /\ exists d',
           doRunTask 201 0 0 (Some (Panicked (VString "boom"))) CaseDone
             (sample_started 1 0 0)
           = Some (mkResult 0 0 (VString "boom")
                     (Some (errors_New "Panic recovered")) false, d')
           /\ wg d' = wg (sample_started 1 0 0))
  /\ (doRunTask_select CaseCtxDone 0 0 0
        (run_goroutine 0 0 (Panicked (VString "boom"))) (sample_running 1 0 5)
      = None
      /\ doRunTask_select CaseDone 0 0 0
           (run_goroutine 0 0 (Panicked (VString "boom")))
           (sample_running 1 0 5)
         = Some (mkResult 0 0 (VString "boom")
                   (Some (errors_New "Panic recovered")) false))
  /\ doRunTask_select CaseCtxDone 0 0 0
       (run_goroutine 0 0 (Panicked (VString "boom"))) sample_timed_out
     = Some (mkResult 0 0 VNil (Some DeadlineExceeded)
               (error_eqb DeadlineExceeded Canceled))
  /\ ((CaseCtxDone = CaseDone
       /\ mkResult 0 0 VNil (Some DeadlineExceeded) false
          = mkResult 0 0 (VString "boom")
              (Some (errors_New "Panic recovered")) false)
      \/ (CaseCtxDone = CaseCtxDone
          /\ exists e, (ctxs sample_timed_out !! 0%nat) ≫= dc_err = Some e
                       /\ mkResult 0 0 VNil (Some DeadlineExceeded) false
                          = mkResult 0 0 VNil (Some e) (error_eqb e Canceled))).
Proof.
  pose proof (panic_is_recovered 0%nat 0%nat (VString "boom")
                ltac:(discriminate)) as (H1 & H2 & H3 & H4 & H5).
  split; [exact H1|]. split; [|split; [|split]].
  - apply H2. vm_compute. reflexivity.
  - apply H3. vm_compute. reflexivity.
  - apply H4. vm_compute. reflexivity.
  - apply (H5 CaseCtxDone 0%nat sample_timed_out). vm_compute. reflexivity.
Defined.

(** C8, as stated, fails: the message of the synthesized error is
    "Panic recovered", not "panic recovered"; when the deadline of the
    attempt passes before the panic, the one envelope sent is the one of
    the deadline, with no result value; and a panic with a nil value puts
    nothing on [done], so that no envelope is sent while the context is not
    done. *)
Lemma panic_envelope_differs :
  (exists r d',
     doRunTask 201 0 0 (Some (Panicked (VString "boom"))) CaseDone
       (sample_started 1 0 0) = Some (r, d')
     /\ result r = VString "boom"
     /\ (Error <$> err r) = Some "Panic recovered"
     /\ (Error <$> err r) <> Some "panic recovered")
  /\ doRunTask_select CaseCtxDone 0 0 0
       (run_goroutine 0 0 (Panicked (VString "boom"))) sample_timed_out
     = Some (mkResult 0 0 VNil (Some DeadlineExceeded) false)
  /\ run_goroutine 0 0 (Panicked VNil) = None
  /\ doRunTask 201 0 0 (Some (Panicked VNil)) CaseDone (sample_started 1 0 0)
     = None
  /\ doRunTask 201 0 0 (Some (Panicked VNil)) CaseCtxDone
       (sample_started 1 0 0)
     = None.
Proof.
  split; [|repeat split; vm_compute; reflexivity].
  eexists _, _. split; [vm_compute; reflexivity|].
  repeat split; discriminate.
Qed.

(** ** Cancel *)

(** C10, as the code has it.  [Cancel] returns a non-nil error, the [Err()]
    of the root context after the cancellation: [Canceled] when the context
    was not done before, and otherwise the error it had ended with (the one
    of its parent). *)
Theorem Cancel_returns_error d :
  exists e, (Cancel d).2 = Some e
            /\ ctx (Cancel d).1 = Some e
            /\ match ctx d with
               | None => e = Canceled
               | Some e0 => e = e0
               end.
Proof.
  unfold Cancel, ctx_done. destruct (ctx d) as [e0|] eqn:E; cbn.
  - exists e0. by rewrite E.
  - by exists Canceled.
Qed.

(** C10, as stated, fails: on a dispatcher made with a parent context whose
    deadline has passed, [Cancel] returns [DeadlineExceeded]. *)
Lemma Cancel_after_parent_deadline :
  (Cancel (NewSimpleDispatcherWithContext (Some DeadlineExceeded))).2
  = Some DeadlineExceeded
  /\ (Cancel (ctx_done DeadlineExceeded NewSimpleDispatcher)).2
     = Some DeadlineExceeded
  /\ Some DeadlineExceeded <> Some Canceled.
Proof. repeat split; discriminate. Qed.

(** ** The status a failed attempt ends with *)

Lemma doRunTask_select_cause cz k w t done d :
  cause_at cz k w t done d ->
  exists r, doRunTask_select (cause_case cz) k w t done d = Some r
            /\ taskItem r = t
            /\ match cz with
               | ContextCancelled => cancel r = true
               | _ => cancel r = false /\ err r <> None
               end.
Proof.
  destruct cz as [res e|v| |]; cbn.
  - intros ->. eexists. by cbn.
  - intros [Hv ->]. destruct v; try done; eexists; by cbn.
  - intros ->. eexists. by cbn.
  - intros ->. eexists. by cbn.
Qed.

(** A cancellation envelope: the collector leaves the task's status alone. *)
Lemma doResultCollector_result_cancelled now r d it :
  IsStatus DispatcherStatusCancel d = false ->
  cancel r = true ->
  taskItems d !! taskItem r = Some it ->
  exists d', doResultCollector_result now r d = Some d'
             /\ task_status_changes (taskItem r) (listeners d')
                = task_status_changes (taskItem r) (listeners d)
             /\ taskItems d' !! taskItem r = Some (ti_SetCancel None it)
             /\ tasks d' = tasks d.
Proof.
  intros Hd Hc Hit. unfold doResultCollector_result.
  destruct (collector_prefix_frame r d) as (P1 & P2 & P3 & P4 & P5 & P6).
  set (d1 := worker_update _ _ _) in *. cbn zeta in *.
  unfold IsStatus in *. rewrite P1, Hd.
  destruct (collect_worker_frame r d1) as (W1 & W2 & W3 & W4 & W5 & W6 & W7 & W8).
  set (d2 := collect_worker r d1) in *. cbn zeta in *.
  unfold collect_task. rewrite Hc. cbn [negb andb].
  match goal with |- context [notifyAllowExecuteTasks ?x] =>
    destruct (notifyAllowExecuteTasks_returns x) as (n & -> & _) end.
  eexists. split; [reflexivity|]. dsimpl.
  rewrite task_status_changes_app, W8, P4, W6, P5, W5, P2. cbn.
  rewrite app_nil_r, list_lookup_alter_eq, Hit. done.
Qed.

(** C3, as the code has it.  The collector classifies an attempt by its
    envelope: an error returned by the task function, a recovered panic and
    a deadline that passed ([DeadlineExceeded], an envelope that is not a
    cancellation) all set the task's status to Fail, followed by RepeatWait
    when a retry is left; a cancelled context ([Canceled]) makes the
    collector leave the status as it is. *)
Theorem failure_sets_Fail cz now k w t done d0 d it :
  cause_at cz k w t done d0 ->
  IsStatus DispatcherStatusCancel d = false ->
  taskItems d !! t = Some it ->
  ti_status it <> TaskStatusCancel ->
  exists r d',
    doRunTask_select (cause_case cz) k w t done d0 = Some r
    /\ doResultCollector_result now r d = Some d'
    /\ cause_settled cz t d it d'.
Proof.
  intros Hcz Hd Hit Hst.
  destruct (doRunTask_select_cause _ _ _ _ _ _ Hcz) as (r & Hr & <- & Hk).
  exists r.
  assert (cz = ContextCancelled \/ (cancel r = false /\ err r <> None
            /\ cause_settled cz (taskItem r) d it
               = cause_settled TimeoutElapsed (taskItem r) d it))
    as [-> | (Hc & He & Hs)].
  { destruct cz; auto; right; destruct Hk; done. }
  - destruct (doResultCollector_result_cancelled now r d it Hd Hk Hit)
      as (d' & Hd' & L & I & _).
    exists d'. repeat split; try done. unfold task_status. by rewrite I.
  - destruct (doResultCollector_result_task now r d it Hd Hc Hit Hst)
      as (d' & Hd' & S).
    exists d'. repeat split; try done. rewrite Hs. clear Hs.
    unfold task_settled in S. unfold cause_settled, task_status.
    destruct (err r); [|done].
    destruct (_ || _); destruct S as (L & I & _); by rewrite L, I.
Qed.

Lemma failure_sets_Fail_witness :
  exists r d',
    doRunTask_select (cause_case TimeoutElapsed) 0 0 0 None sample_timed_out
    = Some r
    /\ doResultCollector_result 300 r (doRunTask_exit 0 sample_timed_out)
       = Some d'
    /\ cause_settled TimeoutElapsed 0 (doRunTask_exit 0 sample_timed_out)
         (mkTasksManagerItem (mkTask "t1" 1 0 5) TaskStatusProcess 1 None
            (Some 201) (Some 201) (Some 0%nat)) d'.
Proof.
  apply (failure_sets_Fail TimeoutElapsed 300 0 0 0 None sample_timed_out
           (doRunTask_exit 0 sample_timed_out));
    vm_compute; (reflexivity || discriminate).
Defined.

(** No value of [TaskStatus] is rendered "FailByTimeout". *)
Lemma TaskStatus_has_no_FailByTimeout i :
  TaskStatusEnum.String i <> "FailByTimeout".
Proof.
  unfold TaskStatusEnum.String.
  destruct ((i <? 0) || _) eqn:E.
  - discriminate.
  - apply orb_false_elim in E as [E1 E2]. cbn in E2.
    apply Z.ltb_ge in E1. rewrite Z.geb_leb in E2. apply Z.leb_gt in E2.
    assert (i = 0 \/ i = 1 \/ i = 2 \/ i = 3 \/ i = 4 \/ i = 5 \/ i = 6)
      as [->|[->|[->|[->|[->|[->| ->]]]]]] by lia;
      vm_compute; discriminate.
Qed.

(** C3, as stated, fails: when the timeout of a task elapses, the envelope
    carries [DeadlineExceeded] and is not a cancellation, and the collector
    sets the status Fail, as for any other error. *)
Lemma timeout_ends_in_Fail :
  exists r d',
    doRunTask_select CaseCtxDone 0 0 0 None sample_timed_out = Some r
    /\ err r = Some DeadlineExceeded
    /\ cancel r = false
    /\ doResultCollector_result 300 r (doRunTask_exit 0 sample_timed_out)
       = Some d'
    /\ task_status 0 d' = TaskStatusFail
    /\ TaskStatusEnum.String (task_status 0 d') = "Fail"
    /\ TaskStatusEnum.String (task_status 0 d') <> "FailByTimeout".
Proof.
  eexists _, _. split; [vm_compute; reflexivity|].
  do 2 (split; [reflexivity|]). split; [vm_compute; reflexivity|].
  split; [vm_compute; reflexivity|]. split; [vm_compute; reflexivity|].
  apply TaskStatus_has_no_FailByTimeout.
Qed.

(** ** The notification channel *)

(** Run in one piece, a notification never waits, leaves at most one signal
    in the channel, and a second one changes nothing. *)
Lemma notifyAllowExecuteTasks_coalesces d :
  (allowExecuteTasks d <= allowExecuteTasks_cap)%nat ->
  exists d', notifyAllowExecuteTasks d = Some d'
             /\ (allowExecuteTasks d' <= allowExecuteTasks_cap)%nat
             /\ notifyAllowExecuteTasks d' = Some d'.
Proof.
  intros Hc. unfold notifyAllowExecuteTasks, notify_check, notify_send,
    chan_send, allowExecuteTasks_cap in *.
  unfold IsStatus. destruct (status d =? _) eqn:E; cbn.
  - destruct (allowExecuteTasks d) as [|n] eqn:El; cbn.
    + eexists. split; [reflexivity|]. cbn. rewrite E. by cbn.
    + eexists. split; [reflexivity|]. by rewrite E, El.
  - eexists. split; [reflexivity|]. by rewrite E.
Qed.

(** C9 at the failing input.  Two goroutines call
    [notifyAllowExecuteTasks] while the channel is empty; both make the
    check before either sends.  The first send fills the channel, and the
    second caller stands at its send and has to wait for a receiver. *)
Theorem notify_second_sender_waits :
  exists d',
    notify_run [0; 1; 0]%nat [NotifyAtCheck; NotifyAtCheck] sample_drained
    = Some ([NotifyReturned; NotifyAtSend], d')
    /\ allowExecuteTasks d' = allowExecuteTasks_cap
    /\ notify_blocked NotifyAtSend d' = true
    /\ notify_op NotifyAtSend d' = None.
Proof.
  eexists. split; [vm_compute; reflexivity|].
  repeat split; vm_compute; reflexivity.
Qed.

(** ** Shutdown *)

Lemma foldl_setStatusTask_frame st l d :
  let d' := foldl (fun d t => setStatusTask t st d) d l in
  wg d' = wg d /\ status d' = status d /\ ctx d' = ctx d /\ ctxs d' = ctxs d
  /\ workers d' = workers d /\ tasks d' = tasks d
  /\ workerItems d' = workerItems d
  /\ allowExecuteTasks d' = allowExecuteTasks d
  /\ length (taskItems d') = length (taskItems d).
Proof.
  revert d. induction l as [|t l IH]; intros d; cbn [foldl]; [auto 10|].
  destruct (IH (setStatusTask t st d)) as (?&?&?&?&?&?&?&?&?).
  cbn zeta in *. dsimpl. rewrite length_alter in *. auto 10.
Qed.

Lemma foldl_setStatusTask_status st l d p :
  p ∈ l -> (p < length (taskItems d))%nat ->
  task_status p (foldl (fun d t => setStatusTask t st d) d l) = st.
Proof.
  revert d. induction l as [|t l IH]; intros d Hp Hlen; [by inversion Hp|].
  cbn [foldl].
  destruct (decide (p ∈ l)) as [Hin|Hnin].
  - apply IH; [done|]. dsimpl. by rewrite length_alter.
  - assert (p = t) as -> by (inversion Hp; done).
    clear IH Hp. revert d Hlen.
    assert (forall d, task_status t d = st ->
              task_status t (foldl (fun d t => setStatusTask t st d) d l) = st) as K.
    { induction l as [|u l IH]; intros d Hd; [done|]. cbn [foldl].
      apply IH; [intros ?; apply Hnin; by right|].
      dsimpl. destruct (decide (u = t)) as [->|Hne].
      - exfalso. apply Hnin. by left.
      - by rewrite list_lookup_alter_ne. }
    intros d Hlen. apply K. dsimpl. rewrite list_lookup_alter_eq.
    destruct (lookup_lt_is_Some_2 (taskItems d) t Hlen) as [x ->]. done.
Qed.

Lemma foldl_setStatusWorker_frame st l d :
  let d' := foldl (fun d w => setStatusWorker w st d) d l in
  wg d' = wg d /\ status d' = status d /\ ctx d' = ctx d /\ ctxs d' = ctxs d
  /\ workers d' = workers d /\ tasks d' = tasks d
  /\ taskItems d' = taskItems d
  /\ allowExecuteTasks d' = allowExecuteTasks d
  /\ length (workerItems d') = length (workerItems d).
Proof.
  revert d. induction l as [|t l IH]; intros d; cbn [foldl]; [auto 10|].
  destruct (IH (setStatusWorker t st d)) as (?&?&?&?&?&?&?&?&?).
  cbn zeta in *. dsimpl. rewrite length_alter in *. auto 10.
Qed.

Lemma foldl_setStatusWorker_status st l d p :
  p ∈ l -> (p < length (workerItems d))%nat ->
  worker_status p (foldl (fun d w => setStatusWorker w st d) d l) = st.
Proof.
  revert d. induction l as [|t l IH]; intros d Hp Hlen; [by inversion Hp|].
  cbn [foldl].
  destruct (decide (p ∈ l)) as [Hin|Hnin].
  - apply IH; [done|]. dsimpl. by rewrite length_alter.
  - assert (p = t) as -> by (inversion Hp; done).
    clear IH Hp. revert d Hlen.
    assert (forall d, worker_status t d = st ->
              worker_status t (foldl (fun d w => setStatusWorker w st d) d l) = st) as K.
    { induction l as [|u l IH]; intros d Hd; [done|]. cbn [foldl].
      apply IH; [intros ?; apply Hnin; by right|].
      dsimpl. destruct (decide (u = t)) as [->|Hne].
      - exfalso. apply Hnin. by left.
      - by rewrite list_lookup_alter_ne. }
    intros d Hlen. apply K. dsimpl. rewrite list_lookup_alter_eq.
    destruct (lookup_lt_is_Some_2 (workerItems d) t Hlen) as [x ->]. done.
Qed.

(** What [Run] does once the root context is done: the dispatcher is in
    Cancel, every managed worker carries [WorkerStatusCancel], and every
    managed task carries the same constant, the one of the workers. *)
Lemma Run_cancel_marks d :
  let d' := Run_cancel d in
  status d' = DispatcherStatusCancel
  /\ wg d' = wg d /\ workers d' = workers d /\ tasks d' = tasks d
  /\ (forall w, w ∈ GetAll (workers d) -> (w < length (workerItems d))%nat ->
                worker_status w d' = WorkerStatusCancel)
  /\ (forall t, t ∈ GetAll (tasks d) -> (t < length (taskItems d))%nat ->
                task_status t d' = WorkerStatusCancel).
Proof.
  unfold Run_cancel. cbn zeta.
  set (d1 := setStatusDispatcher DispatcherStatusCancel d).
  assert (status d1 = DispatcherStatusCancel /\ wg d1 = wg d
          /\ workers d1 = workers d /\ tasks d1 = tasks d
          /\ workerItems d1 = workerItems d /\ taskItems d1 = taskItems d)
    as (A1 & A2 & A3 & A4 & A5 & A6) by (subst d1; dsimpl; auto 10).
  clearbody d1.
  destruct (foldl_setStatusWorker_frame WorkerStatusCancel (GetAll (workers d1)) d1)
    as (B1 & B2 & B3 & B4 & B5 & B6 & B7 & B8 & B9).
  pose proof (foldl_setStatusWorker_status WorkerStatusCancel (GetAll (workers d1)) d1)
    as BS.
  set (d2 := foldl _ d1 (GetAll (workers d1))) in *. cbn zeta in *. clearbody d2.
  destruct (foldl_setStatusTask_frame WorkerStatusCancel (GetAll (tasks d2)) d2)
    as (C1 & C2 & C3 & C4 & C5 & C6 & C7 & C8 & C9).
  pose proof (foldl_setStatusTask_status WorkerStatusCancel (GetAll (tasks d2)) d2)
    as CS.
  set (d3 := foldl _ d2 (GetAll (tasks d2))) in *. cbn zeta in *. clearbody d3.
  repeat split; try congruence.
  - intros w Hw Hlen. unfold worker_status. rewrite C7.
    apply BS; [by rewrite A3 | by rewrite A5].
  - intros t Ht Hlen. apply CS; [by rewrite B6, A4 | by rewrite B7, A6].
Qed.

(** With the wait group at zero [Run] sets the status back to Wait and
    returns nil. *)
Lemma Run_return_Wait d :
  wg d = 0 ->
  exists d', Run_return d = Some (d', None) /\ status d' = DispatcherStatusWait.
Proof. intros H. unfold Run_return. rewrite H. cbn. eauto. Qed.

(** C4 at the failing input.  One worker and one task, [Run] entered, the
    root context cancelled: [Run] sets the dispatcher and the worker to
    Cancel, and hands the task the constant of the workers; the task's
    status is not [TaskStatusCancel], and reads as Success. *)
Theorem Run_cancel_task_status :
  let d' := Run_cancel (ctx_done Canceled (sample_started 1 0 0)) in
  IsStatus DispatcherStatusCancel d' = true
  /\ worker_IsStatus 0 WorkerStatusCancel d' = true
  /\ task_status 0 d' = WorkerStatusCancel
  /\ task_IsStatus 0 TaskStatusCancel d' = false
  /\ TaskStatusEnum.String (task_status 0 d') = "Success"
  /\ task_IsStatus 0 TaskStatusCancel
       (RemoveTask (mkTask "t1" 1 0 0) (sample_started 1 0 0)) = true.
Proof. cbn zeta. repeat split; vm_compute; reflexivity. Qed.

(** ** The dispatch step *)

Lemma set_workers_same d : set_workers (workers d) d = d.
Proof. by destruct d. Qed.

Lemma set_tasks_same d : set_tasks (tasks d) d = d.
Proof. by destruct d. Qed.

Lemma first_by_elem before l p : first_by before l = Some p -> p ∈ l.
Proof.
  revert p. induction l as [|q l IH]; intros p; cbn; [done|].
  destruct (first_by before l) as [x|]; intros [= <-].
  - destruct (before q x); [by left|right; by apply IH].
  - by left.
Qed.

Lemma first_by_None before l : first_by before l = None -> l = [].
Proof. destruct l as [|q l]; cbn; [done|]. by destruct (first_by before l). Qed.

Lemma without_shorter p l : p ∈ l -> (length (without p l) < length l)%nat.
Proof.
  unfold without. induction l as [|x l IH]; intros H; [by inversion H|].
  rewrite filter_cons. pose proof (length_filter (fun q => q <> p) l).
  destruct (decide (x <> p)) as [Hne|Heq]; cbn; [|lia].
  assert (p ∈ l) by (inversion H; [done|done]). specialize (IH ltac:(done)). lia.
Qed.

(** A pull that succeeds takes a waiting, eligible item out of the queue and
    leaves everything else. *)
Lemma workers_Pull_Some d w d1 :
  workers_Pull d = (Some w, d1) ->
  w ∈ m_queue (workers d) /\ worker_eligible d w = true
  /\ d1 = set_workers (mkManager (m_items (workers d))
                         (without w (m_queue (workers d)))) d.
Proof.
  unfold workers_Pull, PullOldest.
  destruct (first_by _ _) as [p|] eqn:E; intros [= <- <-].
  apply first_by_elem, list_elem_of_filter in E as [He Hin].
  repeat split; [done|]. by apply Is_true_true.
Qed.

Lemma workers_Pull_None d d1 :
  workers_Pull d = (None, d1) ->
  d1 = d /\ forall w, w ∈ m_queue (workers d) -> worker_eligible d w = false.
Proof.
  unfold workers_Pull, PullOldest.
  destruct (first_by _ _) as [p|] eqn:E; intros [= <-].
  split; [apply set_workers_same|].
  apply first_by_None in E. intros w Hw.
  destruct (worker_eligible d w) eqn:Ew; [|done].
  assert (w ∈ filter (fun p => worker_eligible d p) (m_queue (workers d))) as H.
  { apply list_elem_of_filter. split; [by apply Is_true_true|done]. }
  rewrite E in H. by inversion H.
Qed.

Lemma tasks_Pull_Some now d t d1 :
  tasks_Pull now d = (Some t, d1) ->
  t ∈ m_queue (tasks d) /\ task_eligible now d t = true
  /\ d1 = set_tasks (mkManager (m_items (tasks d))
                       (without t (m_queue (tasks d)))) d.
Proof.
  unfold tasks_Pull, PullFirst.
  destruct (find _ _) as [p|] eqn:E; intros [= <- <-].
  apply find_some in E as [Hin He]. by apply list_elem_of_In in Hin.
Qed.

Lemma tasks_Pull_None now d d1 :
  tasks_Pull now d = (None, d1) ->
  d1 = d /\ forall t, t ∈ m_queue (tasks d) -> task_eligible now d t = false.
Proof.
  unfold tasks_Pull, PullFirst.
  destruct (find _ _) as [p|] eqn:E; intros [= <-].
  split; [apply set_tasks_same|].
  intros t Ht. apply (find_none _ _ E). by apply list_elem_of_In.
Qed.

(** Conversely, a pull fails when no waiting item is eligible. *)
Lemma workers_Pull_fails d :
  (forall w, w ∈ m_queue (workers d) -> worker_eligible d w = false) ->
  (workers_Pull d).1 = None.
Proof.
  intros H. unfold workers_Pull, PullOldest.
  destruct (first_by _ _) as [p|] eqn:E; [|done].
  apply first_by_elem, list_elem_of_filter in E as [He Hin].
  rewrite (H p Hin) in He. done.
Qed.

Lemma tasks_Pull_fails now d :
  (forall t, t ∈ m_queue (tasks d) -> task_eligible now d t = false) ->
  (tasks_Pull now d).1 = None.
Proof.
  intros H. unfold tasks_Pull, PullFirst.
  destruct (find _ _) as [p|] eqn:E; [|done].
  apply find_some in E as [Hin He]. apply list_elem_of_In in Hin.
  rewrite (H p Hin) in He. done.
Qed.

Lemma doExecuteTasks_pass_launch now d d' w t :
  doExecuteTasks_pass now d = (d', Some (w, t)) ->
  exists d1 d2,
    workers_Pull d = (Some w, d1) /\ tasks_Pull now d1 = (Some t, d2)
    /\ d' = AsyncTrigger (EventTaskExecuteStart t w) d2.
Proof.
  unfold doExecuteTasks_pass.
  destruct (workers_Pull d) as [[w0|] d1] eqn:Ew;
    destruct (tasks_Pull now d1) as [[t0|] d2] eqn:Et;
    intros H; simplify_eq. eexists _, _. split; [reflexivity|]. by split.
Qed.

Lemma doExecuteTasks_pass_exit now d d' :
  doExecuteTasks_pass now d = (d', None) ->
  exists pullWorker d1 pullTask d2,
    workers_Pull d = (pullWorker, d1) /\ tasks_Pull now d1 = (pullTask, d2)
    /\ (pullWorker = None \/ pullTask = None)
    /\ d' = push_back pullWorker pullTask d2.
Proof.
  unfold doExecuteTasks_pass, push_back.
  destruct (workers_Pull d) as [[w0|] d1] eqn:Ew;
    destruct (tasks_Pull now d1) as [[t0|] d2] eqn:Et;
    intros H; simplify_eq; eexists _, _, _, _;
    (split; [reflexivity|]); (split; [done|]); split; auto.
Qed.

(** The loop follows the spec's dispatch step. *)
Lemma doExecuteTasks_loop_run fuel now d d' launched :
  doExecuteTasks_loop fuel now d = Some (d', launched) ->
  dispatch_run now d launched d'.
Proof.
  revert d d' launched. induction fuel as [|fuel IH]; intros d d' launched; [done|].
  cbn [doExecuteTasks_loop].
  destruct (doExecuteTasks_pass now d) as [d1 [[w t]|]] eqn:E.
  - destruct (doExecuteTasks_loop fuel now d1) as [[d2 l]|] eqn:El; [|done].
    cbn. intros [= <- <-].
    apply doExecuteTasks_pass_launch in E as (da & db & Hw & Ht & ->).
    eapply dispatch_launch; eauto.
  - intros [= <- <-].
    apply doExecuteTasks_pass_exit in E as (ow & da & ot & db & Hw & Ht & Hor & ->).
    eapply dispatch_exit; eauto.
Qed.

(** Every launch takes a worker out of the pool, so the loop returns within
    as many passes as workers wait, and one more. *)
Lemma doExecuteTasks_loop_returns fuel now d :
  (length (m_queue (workers d)) < fuel)%nat ->
  exists d' launched, doExecuteTasks_loop fuel now d = Some (d', launched).
Proof.
  revert d. induction fuel as [|fuel IH]; intros d Hlen; [lia|].
  cbn [doExecuteTasks_loop].
  destruct (doExecuteTasks_pass now d) as [d1 [[w t]|]] eqn:E; [|eauto].
  apply doExecuteTasks_pass_launch in E as (da & db & Hw & Ht & ->).
  apply workers_Pull_Some in Hw as (Hin & _ & ->).
  apply tasks_Pull_Some in Ht as (_ & _ & ->).
  apply without_shorter in Hin.
  destruct (IH (AsyncTrigger (EventTaskExecuteStart t w)
                  (set_tasks
                     (mkManager (m_items (tasks (set_workers
                        (mkManager (m_items (workers d))
                           (without w (m_queue (workers d)))) d)))
                        (without t (m_queue (tasks (set_workers
                           (mkManager (m_items (workers d))
                              (without w (m_queue (workers d)))) d)))))
                     (set_workers
                        (mkManager (m_items (workers d))
                           (without w (m_queue (workers d)))) d))))
    as (d' & l & ->); [cbn; lia|].
  cbn. eauto.
Qed.

Lemma doExecuteTasks_loop_fuel fuel fuel' now d x :
  doExecuteTasks_loop fuel now d = Some x ->
  (fuel <= fuel')%nat ->
  doExecuteTasks_loop fuel' now d = Some x.
Proof.
  revert fuel' d x. induction fuel as [|fuel IH]; intros fuel' d x; [done|].
  destruct fuel' as [|fuel']; [lia|]. cbn [doExecuteTasks_loop].
  destruct (doExecuteTasks_pass now d) as [d1 [[w t]|]]; [|done].
  destruct (doExecuteTasks_loop fuel now d1) as [y|] eqn:E; [|done].
  intros H Hle. rewrite (IH fuel' d1 y E) by lia. done.
Qed.

Lemma worker_eligible_ext d d' w :
  workerItems d = workerItems d' -> worker_eligible d w = worker_eligible d' w.
Proof.
  intros E. unfold worker_eligible, worker_IsStatus, worker_status. by rewrite E.
Qed.

Lemma task_eligible_ext now d d' t :
  taskItems d = taskItems d' -> task_eligible now d t = task_eligible now d' t.
Proof. intros E. unfold task_eligible. by rewrite E. Qed.

(** The loop returns only when a worker and a task cannot both be had. *)
Lemma dispatch_run_exit now d launched d' :
  dispatch_run now d launched d' ->
  (workers_Pull d').1 = None \/ (tasks_Pull now d').1 = None.
Proof.
  induction 1 as [| d ow d1 ot d2 Hw Ht Hor]; [done|].
  destruct Hor as [-> | ->].
  - left. apply workers_Pull_None in Hw as [-> Hnone].
    apply workers_Pull_fails. unfold push_back.
    assert (workers d2 = workers d /\ workerItems d2 = workerItems d) as [Em Ei].
    { destruct ot as [t|].
      - apply tasks_Pull_Some in Ht as (_ & _ & ->). done.
      - apply tasks_Pull_None in Ht as [-> _]. done. }
    destruct ot as [t|].
    + destruct (tasks_Push_frame t d2) as (_&_&_&_&E5&E6&_). cbn zeta in *.
      rewrite E5, Em. intros w Hin.
      rewrite (worker_eligible_ext _ d) by congruence. auto.
    + rewrite Em. intros w Hin.
      rewrite (worker_eligible_ext _ d) by congruence. auto.
  - right. apply tasks_Pull_None in Ht as [-> Hnone].
    apply tasks_Pull_fails. unfold push_back.
    destruct ow as [w|]; [|done].
    destruct (workers_Push_frame w d1) as (_&_&_&_&E5&_&E7&_). cbn zeta in *.
    rewrite E5. intros t Hin.
    rewrite (task_eligible_ext _ _ d1) by congruence. auto.
Qed.

(** C6.  A run of the dispatch step returns; when the dispatcher is in
    Process it is the spec's loop: it pulls a worker and a task, launches
    the execution of the pair and goes on while both pulls succeed, and
    when at most one succeeds it pushes that item back and returns, so that
    at the return a worker and a task cannot both be pulled.  When the
    dispatcher is not in Process the step returns at once. *)
Theorem doExecuteTasks_dispatches now d :
  exists d' launched,
    (forall fuel, (length (m_queue (workers d)) < fuel)%nat ->
                  doExecuteTasks fuel now d = Some (d', launched))
    /\ if IsStatus DispatcherStatusProcess d
       then dispatch_run now d launched d'
            /\ ((workers_Pull d').1 = None \/ (tasks_Pull now d').1 = None)
       else d' = d /\ launched = [].
Proof.
  unfold doExecuteTasks. destruct (IsStatus DispatcherStatusProcess d); cbn [negb].
  - destruct (doExecuteTasks_loop_returns (S (length (m_queue (workers d)))) now d)
      as (d' & launched & H); [lia|].
    exists d', launched. split.
    + intros fuel Hf. eapply doExecuteTasks_loop_fuel; [exact H|lia].
    + pose proof (doExecuteTasks_loop_run _ _ _ _ _ H) as R.
      split; [done|]. by eapply dispatch_run_exit.
  - by exists d, [].
Qed.

(** Two workers and one task: the dispatch step launches the older worker
    with the task, pulls the other worker alone, pushes it back and returns. *)
Example sample_dispatch_spare_worker :
  let d := state_of (AddWorker 150 (mkWorker "w2") (sample_started 1 0 0)) in
  exists d',
    doExecuteTasks 3 200 d = Some (d', [(0%nat, 0%nat)])
    /\ workers d' = mkManager [0%nat; 1%nat] [1%nat]
    /\ tasks d' = mkManager [0%nat] []
    /\ last (listeners d') = Some (EventTaskExecuteStart 0 0).
Proof.
  cbn zeta. eexists. split; [vm_compute; reflexivity|].
  repeat split; vm_compute; reflexivity.
Qed.

(** One worker and two tasks: the second task is pulled alone and pushed
    back. *)
Example sample_dispatch_spare_task :
  let d := state_of (AddTask (mkTask "t2" 1 0 0) (sample_started 1 0 0)) in
  exists d',
    doExecuteTasks 2 200 d = Some (d', [(0%nat, 0%nat)])
    /\ workers d' = mkManager [0%nat] []
    /\ tasks d' = mkManager [0%nat; 1%nat] [1%nat].
Proof.
  cbn zeta. eexists. split; [vm_compute; reflexivity|].
  repeat split; vm_compute; reflexivity.
Qed.

(** ** Attempts over a whole run *)

Lemma keys_task_update f p d :
  (forall it, key (f it) = key it) -> keys (task_update f p d) = keys d.
Proof. intros H. unfold keys. dsimpl. by apply fmap_alter_same. Qed.

Lemma keys_setStatusTask p st d : keys (setStatusTask p st d) = keys d.
Proof. unfold keys. dsimpl. by apply fmap_alter_same. Qed.

Lemma notifyAllowExecuteTasks_tasks d d' :
  notifyAllowExecuteTasks d = Some d' ->
  taskItems d' = taskItems d /\ tasks d' = tasks d.
Proof.
  destruct (notifyAllowExecuteTasks_returns d) as (n & -> & _).
  by intros [= <-].
Qed.

Lemma AddWorker_tasks now w d d' e :
  AddWorker now w d = Some (d', e) ->
  taskItems d' = taskItems d /\ tasks d' = tasks d.
Proof.
  unfold AddWorker.
  match goal with |- context [workers_Push ?p ?x] =>
    destruct (workers_Push_frame p x) as (_&_&_&_&E5&_&E7&_);
    destruct (workers_Push p x) as [d1 [e1|]] end; cbn zeta in *; cbn [fst] in *.
  - intros [= <- <-]. by rewrite E5, E7.
  - destruct (notifyAllowExecuteTasks _) as [d2|] eqn:N; [|done].
    cbn. intros [= <- <-]. apply notifyAllowExecuteTasks_tasks in N as [-> ->].
    dsimpl. by rewrite E5, E7.
Qed.

Lemma item_Cancel_tasks c d :
  taskItems (item_Cancel c d) = taskItems d /\ tasks (item_Cancel c d) = tasks d.
Proof. by destruct c. Qed.

Lemma RemoveWorker_tasks w d :
  taskItems (RemoveWorker w d) = taskItems d /\ tasks (RemoveWorker w d) = tasks d.
Proof.
  unfold RemoveWorker. destruct (GetById _ _) as [item|]; [|done].
  match goal with |- context [item_Cancel ?c ?x] =>
    destruct (item_Cancel_tasks c x) as [E1 E2]; set (d1 := item_Cancel c x) in * end.
  clearbody d1. dsimpl. done.
Qed.

Lemma AddTask_tasks t d d' e :
  AddTask t d = Some (d', e) ->
  taskItems d' = taskItems d ++ [NewTasksManagerItem t TaskStatusWait]
  /\ (queue d' = queue d \/ queue d' = queue d ++ [length (taskItems d)]).
Proof.
  unfold AddTask, tasks_Push, queue.
  match goal with |- context [Push ?f ?p ?m] =>
    assert (m_queue (Push f p m).1 = m_queue m
            \/ m_queue (Push f p m).1 = m_queue m ++ [p]) as Hq
      by (unfold Push; destruct (_ || _); cbn; auto);
    destruct (Push f p m) as [m1 [e1|]] end; cbn [fst] in *.
  - intros [= <- <-]. by dsimpl.
  - destruct (notifyAllowExecuteTasks _) as [d2|] eqn:N; [|done].
    cbn. intros [= <- <-]. apply notifyAllowExecuteTasks_tasks in N as [-> ->].
    by dsimpl.
Qed.

Lemma RemoveTask_tasks t d :
  keys (RemoveTask t d) = keys d
  /\ (queue (RemoveTask t d) = queue d
      \/ exists p, queue (RemoveTask t d) = without p (queue d)).
Proof.
  unfold RemoveTask. destruct (GetById _ _) as [item|]; [|auto].
  match goal with |- context [item_Cancel ?c ?x] =>
    destruct (item_Cancel_tasks c x) as [E1 E2]; set (d1 := item_Cancel c x) in * end.
  clearbody d1. unfold keys, queue. dsimpl. rewrite E1, E2. split.
  - by apply fmap_alter_same.
  - right. by exists item.
Qed.

Lemma Run_enter_tasks d d' e :
  Run_enter d = Some (d', e) ->
  taskItems d' = taskItems d /\ tasks d' = tasks d.
Proof.
  unfold Run_enter. destruct (negb _); [by intros [= <- <-]|].
  destruct (notifyAllowExecuteTasks _) as [d2|] eqn:N; [|done].
  cbn. intros [= <- <-]. by apply notifyAllowExecuteTasks_tasks in N as [-> ->].
Qed.

Lemma foldl_setStatusTask_keys st l d :
  keys (foldl (fun d t => setStatusTask t st d) d l) = keys d.
Proof.
  revert d. induction l as [|t l IH]; intros d; cbn [foldl]; [done|].
  by rewrite IH, keys_setStatusTask.
Qed.

Lemma Run_cancel_tasks d :
  keys (Run_cancel d) = keys d /\ tasks (Run_cancel d) = tasks d.
Proof.
  split; [|apply Run_cancel_marks].
  unfold Run_cancel. cbn zeta. rewrite foldl_setStatusTask_keys.
  match goal with |- context [foldl ?f ?x ?l] =>
    destruct (foldl_setStatusWorker_frame WorkerStatusCancel l x)
      as (_&_&_&_&_&_&E&_) end.
  cbn zeta in E. unfold keys. by rewrite E.
Qed.

Lemma Run_return_tasks d d' e :
  Run_return d = Some (d', e) ->
  taskItems d' = taskItems d /\ tasks d' = tasks d.
Proof. unfold Run_return. destruct (wg d =? 0); by intros [= <- <-]. Qed.

Lemma retry_allowed_keys p d d' :
  keys d = keys d' -> retry_allowed p d = retry_allowed p d'.
Proof.
  intros E. unfold retry_allowed, task_Repeats_of, task_Attempts.
  assert (key <$> taskItems d !! p = key <$> taskItems d' !! p) as H.
  { unfold keys in E. by rewrite <- !list_lookup_fmap, E. }
  destruct (taskItems d !! p) as [a|], (taskItems d' !! p) as [b|];
    cbn in *; try done.
  injection H as H1 H2 H3. by rewrite H1, H2.
Qed.

Lemma Push_queue f p m :
  m_queue (Push f p m).1 = m_queue m
  \/ (m_queue (Push f p m).1 = m_queue m ++ [p] /\ p ∉ m_queue m).
Proof.
  unfold Push, mem. case_bool_decide; cbn; [auto|].
  destruct (existsb _ _); cbn; auto.
Qed.

(** The task's share of the collector on the queue: the task of the
    envelope is appended only when a retry is allowed. *)
Lemma collect_task_tasks now r d :
  let d' := collect_task now r d in
  keys d' = keys d
  /\ (queue d' = queue d
      \/ queue d' = without (taskItem r) (queue d)
      \/ (queue d' = queue d ++ [taskItem r] /\ (taskItem r ∉ queue d)
          /\ retry_allowed (taskItem r) d = true)).
Proof.
  unfold collect_task. destruct (negb (cancel r) && _); [|cbn zeta; auto].
  set (d1 := match err r with
             | Some _ => setStatusTask (taskItem r) TaskStatusFail d
             | None => setStatusTask (taskItem r) TaskStatusSuccess d
             end).
  assert (keys d1 = keys d /\ tasks d1 = tasks d) as [K1 Q1].
  { subst d1. destruct (err r); by rewrite keys_setStatusTask. }
  clearbody d1. rewrite (retry_allowed_keys _ d1 d K1).
  destruct (retry_allowed (taskItem r) d) eqn:R; cbn zeta.
  - match goal with |- context [tasks_Push ?p ?x] =>
      destruct (tasks_Push_frame p x) as (_&_&_&_&_&_&E7&_&_&E10);
      set (d2 := x) in * end.
    cbn zeta in *.
    assert (keys d2 = keys d /\ tasks d2 = tasks d) as [K2 Q2].
    { subst d2. rewrite keys_setStatusTask.
      destruct (_ >? 0); [|done]. by rewrite keys_task_update. }
    clearbody d2. unfold keys, queue in *. rewrite E7, E10, K2, Q2. split; [done|].
    destruct (Push_queue (task_same_id d2) (taskItem r) (tasks d)) as [->|[-> ?]];
      auto.
  - unfold keys, queue in *. dsimpl. rewrite Q1. auto.
Qed.

Lemma doResultCollector_result_tasks now r d d' :
  doResultCollector_result now r d = Some d' ->
  keys d' = keys d
  /\ (queue d' = queue d
      \/ queue d' = without (taskItem r) (queue d)
      \/ (queue d' = queue d ++ [taskItem r] /\ (taskItem r ∉ queue d)
          /\ retry_allowed (taskItem r) d = true)).
Proof.
  unfold doResultCollector_result.
  set (d1 := worker_update _ _ _).
  assert (keys d1 = keys d /\ tasks d1 = tasks d) as [K1 Q1].
  { subst d1. unfold keys. dsimpl. split; [|done]. by apply fmap_alter_same. }
  clearbody d1. destruct (IsStatus _ d1).
  { intros [= <-]. unfold queue. rewrite Q1. auto. }
  destruct (collect_worker_frame r d1) as (_&_&_&_&W5&W6&_).
  set (d2 := collect_worker r d1) in *. cbn zeta in *. clearbody d2.
  destruct (collect_task_tasks now r d2) as [K3 Q3].
  set (d3 := collect_task now r d2) in *. cbn zeta in *. clearbody d3.
  intros N. apply notifyAllowExecuteTasks_tasks in N as [Ei Et].
  assert (keys d2 = keys d) as K2 by (unfold keys in *; by rewrite W6).
  rewrite (retry_allowed_keys _ d2 d K2) in Q3.
  unfold keys, queue in *. cbn [AsyncTrigger taskItems tasks] in *.
  rewrite Ei, Et, K3, K2. rewrite W5, Q1 in Q3. done.
Qed.

Lemma without_submseteq p l : without p l ⊆+ l.
Proof. apply sublist_submseteq, sublist_filter. Qed.

Lemma without_cons_submseteq p l : p ∈ l -> p :: without p l ⊆+ l.
Proof.
  unfold without. induction l as [|x l IH]; intros H; [by inversion H|].
  rewrite filter_cons. destruct (decide (x <> p)) as [Hne|Heq].
  - assert (p ∈ l) as Hin by (inversion H; done).
    etrans; [apply Permutation_submseteq, Permutation_swap|].
    apply submseteq_skip. by apply IH.
  - assert (x = p) as -> by (destruct (decide (x = p)); done).
    apply submseteq_skip, without_submseteq.
Qed.

(** The dispatch step on the tasks: no item changes, and the tasks that
    wait afterwards together with the launched ones are among those that
    waited before, each once. *)
Lemma dispatch_run_tasks now d launched d' :
  dispatch_run now d launched d' ->
  taskItems d' = taskItems d
  /\ queue d' ++ launched.*2 ⊆+ queue d.
Proof.
  induction 1 as [d w d1 t d2 launched d' Hw Ht Hrun [IHi IHq]
                 | d ow d1 ot d2 Hw Ht Hor].
  - apply workers_Pull_Some in Hw as (_ & _ & ->).
    apply tasks_Pull_Some in Ht as (Hin & _ & ->).
    unfold queue in *. dsimpl. split; [done|].
    cbn [fmap list_fmap snd].
    etrans; [apply Permutation_submseteq; symmetry; apply Permutation_middle|].
    etrans; [apply submseteq_skip, IHq|]. by apply without_cons_submseteq.
  - assert (taskItems d1 = taskItems d /\ tasks d1 = tasks d) as [Ei1 Et1].
    { destruct ow as [w|].
      - apply workers_Pull_Some in Hw as (_ & _ & ->). done.
      - apply workers_Pull_None in Hw as [-> _]. done. }
    cbn [fmap list_fmap]. rewrite app_nil_r. unfold push_back.
    set (d3 := match ow with Some w => (workers_Push w d2).1 | None => d2 end).
    assert (taskItems d3 = taskItems d2 /\ tasks d3 = tasks d2) as [Ei3 Et3].
    { subst d3. destruct ow as [w|]; [|done].
      destruct (workers_Push_frame w d2) as (_&_&_&_&E5&_&E7&_). done. }
    clearbody d3. destruct ot as [t|].
    + apply tasks_Pull_Some in Ht as (Hin & _ & ->).
      destruct (tasks_Push_frame t d3) as (_&_&_&_&_&_&E7&_&_&E10).
      cbn zeta in *. unfold queue. rewrite E7, E10, Ei3, Et3. cbn.
      split; [done|]. rewrite Et1 in *.
      match goal with |- context [Push ?f t ?m] =>
        destruct (Push_queue f t m) as [->|[-> _]] end; cbn.
      * apply without_submseteq.
      * etrans; [apply Permutation_submseteq; symmetry; apply Permutation_cons_append|].
        by apply without_cons_submseteq.
    + apply tasks_Pull_None in Ht as [-> _]. unfold queue.
      by rewrite Ei3, Et3, Ei1, Et1.
Qed.

Lemma doExecuteTasks_tasks fuel now d d' launched :
  doExecuteTasks fuel now d = Some (d', launched) ->
  taskItems d' = taskItems d
  /\ queue d' ++ launched.*2 ⊆+ queue d.
Proof.
  unfold doExecuteTasks. destruct (negb _).
  - intros [= <- <-]. cbn. by rewrite app_nil_r.
  - intros H. by eapply dispatch_run_tasks, doExecuteTasks_loop_run.
Qed.

Lemma doRunTask_start_tasks now w t d k d' :
  doRunTask_start now w t d = (k, d') ->
  tasks d' = tasks d
  /\ taskItems d' !! t = start_item now k <$> taskItems d !! t
  /\ (forall q, q <> t -> taskItems d' !! q = taskItems d !! q)
  /\ length (taskItems d') = length (taskItems d).
Proof.
  unfold doRunTask_start. cbv zeta.
  set (c := task_Attempts t _ =? 1).
  assert (c = (wrap64 (task_Attempts t d + 1) =? 1)
             && bool_decide (is_Some (taskItems d !! t))
          \/ (c = (0 =? 1) /\ taskItems d !! t = None)) as Hc.
  { subst c. dsimpl. rewrite !list_lookup_alter_eq.
    destruct (taskItems d !! t); cbn; [left; by rewrite andb_true_r|right; done]. }
  clearbody c.
  destruct c, (task_Timeout_of _ _ >? 0); intros [= <- <-]; dsimpl;
    rewrite ?length_alter, ?list_lookup_alter_eq;
    (split; [done|]); (split; [|split; [intros q Hq; by rewrite ?list_lookup_alter_ne by done|done]]);
    unfold start_item; destruct (taskItems d !! t) as [it|] eqn:E; cbn in *;
    try done; destruct Hc as [Hc|[Hc ?]]; try done;
    rewrite ?andb_true_r in Hc; by rewrite <- ?Hc.
Qed.

Lemma doRunTask_exit_tasks k d :
  taskItems (doRunTask_exit k d) = taskItems d
  /\ tasks (doRunTask_exit k d) = tasks d.
Proof. unfold doRunTask_exit. by dsimpl. Qed.

Lemma doRunTask_select_task c k w t done d r :
  doRunTask_select c k w t done d = Some r ->
  (forall r', done = Some r' -> taskItem r' = t) ->
  taskItem r = t.
Proof.
  destruct c; cbn; [|by auto].
  destruct (ctxs d !! k ≫= dc_err); cbn; [|done]. by intros [= <-].
Qed.

Lemma run_goroutine_task w t o r :
  run_goroutine w t o = Some r -> taskItem r = t.
Proof.
  destruct o as [res e|v]; cbn; [by intros [= <-]|].
  destruct v; intros H; by simplify_eq.
Qed.

(** *** The invariant *)

Lemma submseteq_NoDup {A} (l k : list A) : l ⊆+ k -> NoDup k -> NoDup l.
Proof.
  intros H Hk. apply submseteq_sublist_l in H as (l2 & Hsub & Hperm).
  eapply sublist_NoDup; [|exact Hsub]. by rewrite Hperm.
Qed.

(** A block that changes no attempts counter keeps the invariant when the
    live tasks only move or leave, and a task only becomes startable while
    it is below its bound. *)
Lemma Inv_preserved s s' :
  Inv s ->
  keys (shared s') = keys (shared s) ->
  live s' ⊆+ live s ->
  (forall t, t ∈ startable s' ->
     t ∈ startable s
     \/ exists x, keys (shared s) !! t = Some x /\ may_start x) ->
  (forall a r, a ∈ inflight s' -> at_done a = Some r -> taskItem r = at_task a) ->
  Inv s'.
Proof.
  intros [I1 I2 I3 I4 I5] K L S D. constructor.
  - by eapply submseteq_NoDup.
  - intros t Ht. rewrite K. apply I2. by eapply elem_of_submseteq.
  - intros t x. rewrite K. apply I3.
  - intros t x Ht. rewrite K. intros Hx.
    destruct (S t Ht) as [Hs|(y & Hy & My)]; [by eapply I4|]. by simplify_eq.
  - done.
Qed.

Lemma wrap64_small z : int64 z -> wrap64 z = z.
Proof.
  unfold int64, wrap64. intros H.
  rewrite Z.mod_small by lia. lia.
Qed.

Lemma keys_of_taskItems d d' : taskItems d' = taskItems d -> keys d' = keys d.
Proof. unfold keys. by intros ->. Qed.

Lemma queue_of_tasks d d' : tasks d' = tasks d -> queue d' = queue d.
Proof. unfold queue. by intros ->. Qed.

(** Blocks that touch neither the attempts counters nor the queue. *)
Lemma Inv_same_tasks s d' r c dsp :
  Inv s ->
  keys d' = keys (shared s) ->
  queue d' = queue (shared s) ->
  match c with Some (CollectorHolds r) => [taskItem r] | _ => [] end = held s ->
  Inv (mkSystem d' r c dsp (spawned s) (inflight s)).
Proof.
  intros I K Q H. apply (Inv_preserved s); [done|done| | |by destruct I].
  - unfold live, held at 1. cbn. by rewrite Q, H.
  - intros t. unfold startable. cbn. rewrite Q. auto.
Qed.

Lemma Inv_initial parent : Inv (initial parent).
Proof.
  constructor; cbn.
  - constructor.
  - intros t H. by inversion H.
  - intros t x H. by rewrite lookup_nil in H.
  - intros t x H. by inversion H.
  - intros a r H. by inversion H.
Qed.

Lemma Inv_AddTask s t d' e :
  Inv s ->
  int64 (task_Repeats t) ->
  AddTask t (shared s) = Some (d', e) ->
  Inv (with_shared d' s).
Proof.
  intros [I1 I2 I3 I4 I5] Ht H. apply AddTask_tasks in H as [Hi Hq].
  assert (keys d' = keys (shared s) ++ [(t, 0, None)]) as K.
  { unfold keys. by rewrite Hi, fmap_app. }
  assert (length (keys (shared s)) = length (taskItems (shared s))) as Hlen.
  { unfold keys. by rewrite length_fmap. }
  assert (forall q x, keys d' !! q = Some x ->
            keys (shared s) !! q = Some x
            \/ (q = length (keys (shared s)) /\ x = (t, 0, None))) as Hkey.
  { intros q x. rewrite K. intros Hx.
    apply lookup_app_Some in Hx as [Hx|[Hge Hx]]; [by left|right].
    apply list_lookup_singleton_Some in Hx as [Hx <-]. split; [lia|done]. }
  assert (live (with_shared d' s) ⊆+ length (keys (shared s)) :: live s) as Hlive.
  { unfold live. cbn. destruct Hq as [-> | ->].
    - apply submseteq_cons. done.
    - rewrite Hlen, <- app_assoc. cbn.
      apply Permutation_submseteq. symmetry. apply Permutation_middle. }
  constructor; cbn.
  - eapply submseteq_NoDup; [exact Hlive|]. apply NoDup_cons. split; [|done].
    intros Hin. apply I2 in Hin. lia.
  - intros q Hin. rewrite K, length_app. cbn.
    eapply elem_of_submseteq in Hin; [|exact Hlive].
    apply elem_of_cons in Hin as [->|Hin]; [lia|]. apply I2 in Hin. lia.
  - intros q x Hx. apply Hkey in Hx as [Hx|[-> ->]]; [by eapply I3|].
    split; cbn; [done|lia].
  - intros q x Hin Hx. apply Hkey in Hx as [Hx|[-> ->]].
    + apply (I4 q x); [|done]. unfold startable in *. cbn in Hin.
      destruct Hq as [Hq|Hq]; rewrite Hq in Hin; [done|].
      rewrite <- app_assoc in Hin. apply elem_of_app in Hin as [Hin|Hin];
        [apply elem_of_app; by left|].
      apply elem_of_cons in Hin as [->|Hin]; [|apply elem_of_app; by right].
      apply lookup_lt_Some in Hx. lia.
    + unfold may_start. cbn. lia.
  - done.
Qed.

Lemma Inv_doRunTask_start s now i w t k d' :
  Inv s ->
  spawned s !! i = Some (w, t) ->
  doRunTask_start now w t (shared s) = (k, d') ->
  Inv (mkSystem d' (run s) (collector s) (dispatch s) (delete i (spawned s))
         (inflight s ++ [mkAttempt w t k false None])).
Proof.
  intros [I1 I2 I3 I4 I5] Hi H.
  apply doRunTask_start_tasks in H as (Ht & Hat & Hne & Hlen).
  set (s' := mkSystem _ _ _ _ _ _).
  assert (queue d' = queue (shared s)) as Q by (by apply queue_of_tasks).
  assert (live s ≡ₚ t :: startable s' ++ (at_task <$> inflight s) ++ held s) as P.
  { unfold live, startable, s'. cbn. rewrite Q.
    rewrite (delete_Permutation (spawned s) i (w, t) Hi) at 1. cbn.
    solve_Permutation. }
  assert (live s' ≡ₚ live s) as P'.
  { rewrite P. unfold live, startable, s', held. cbn. rewrite fmap_app. cbn.
    solve_Permutation. }
  assert (t ∉ startable s') as Hnot.
  { rewrite P in I1. apply NoDup_cons in I1 as [Hn _].
    intros Hin. apply Hn. apply elem_of_app. by left. }
  assert (t ∈ startable s) as Hst.
  { unfold startable. apply elem_of_app. right.
    apply list_elem_of_fmap. exists (w, t). split; [done|].
    by eapply list_elem_of_lookup_2. }
  assert (forall q, q <> t -> keys d' !! q = keys (shared s) !! q) as Kne.
  { intros q Hq. unfold keys. rewrite !list_lookup_fmap. by rewrite Hne. }
  assert (length (keys d') = length (keys (shared s))) as Klen.
  { unfold keys. by rewrite !length_fmap. }
  constructor.
  - by rewrite P'.
  - intros q Hq. cbn. rewrite Klen. apply I2. by rewrite <- P'.
  - intros q x. cbn. destruct (decide (q = t)) as [->|Hq]; [|rewrite Kne by done; apply I3].
    unfold keys at 1. rewrite list_lookup_fmap, Hat.
    destruct (taskItems (shared s) !! t) as [it|] eqn:E; [|done].
    cbn. intros [= <-].
    assert (keys (shared s) !! t = Some (key it)) as Hk.
    { unfold keys. by rewrite list_lookup_fmap, E. }
    pose proof (I3 _ _ Hk) as [B1 B2]. pose proof (I4 _ _ Hst Hk) as M.
    unfold may_start, bounded, int64 in *. cbn in *. split; [done|].
    intros Hrep. specialize (B2 Hrep). specialize (M Hrep).
    rewrite wrap64_small by (unfold int64; lia). lia.
  - intros q x Hq. cbn. destruct (decide (q = t)) as [->|Hne'].
    { done. }
    rewrite Kne by done. apply I4.
    unfold startable in *. cbn in Hq. rewrite Q in Hq.
    apply elem_of_app in Hq as [Hq|Hq]; apply elem_of_app; [by left|right].
    rewrite list_fmap_delete in Hq. by eapply list_elem_of_delete_inv.
  - intros a r Ha. cbn in Ha. apply elem_of_app in Ha as [Ha|Ha]; [by apply I5|].
    apply list_elem_of_singleton in Ha as ->. done.
Qed.

Lemma Inv_collector_result s now r d' :
  Inv s ->
  collector s = Some (CollectorHolds r) ->
  doResultCollector_result now r (shared s) = Some d' ->
  Inv (mkSystem d' (run s) (Some CollectorSelect) (dispatch s)
         (spawned s) (inflight s)).
Proof.
  intros I Hc H. apply doResultCollector_result_tasks in H as [K Q].
  assert (held s = [taskItem r]) as Hh by (unfold held; by rewrite Hc).
  apply (Inv_preserved s); [done|done| | |by destruct I].
  - unfold live. cbn. rewrite Hh. unfold held. cbn.
    destruct Q as [-> | [-> | [-> _]]].
    + solve_submseteq.
    + etrans; [|apply submseteq_app; [apply (without_submseteq (taskItem r))|reflexivity]].
      solve_submseteq.
    + solve_submseteq.
  - intros t. unfold startable. cbn. intros Ht.
    destruct Q as [Q | [Q | (Q & _ & R)]]; rewrite Q in Ht.
    + by left.
    + left. apply elem_of_app in Ht as [Ht|Ht]; apply elem_of_app; [left|by right].
      by eapply elem_of_submseteq, without_submseteq.
    + rewrite <- app_assoc in Ht. apply elem_of_app in Ht as [Ht|Ht];
        [left; apply elem_of_app; by left|].
      apply elem_of_cons in Ht as [->|Ht]; [right|left; apply elem_of_app; by right].
      unfold retry_allowed, task_Repeats_of, task_Attempts in R.
      destruct (taskItems (shared s) !! taskItem r) as [it|] eqn:E; [|done].
      cbn in R. exists (key it). split.
      * unfold keys. by rewrite list_lookup_fmap, E.
      * unfold may_start. cbn. lia.
Qed.

Lemma Inv_dispatch s d0 fuel now d' launched :
  Inv s ->
  keys d0 = keys (shared s) ->
  queue d0 = queue (shared s) ->
  doExecuteTasks fuel now d0 = Some (d', launched) ->
  Inv (mkSystem d' (run s) (collector s) (dispatch s)
         (spawned s ++ launched) (inflight s)).
Proof.
  intros I K0 Q0 H. apply doExecuteTasks_tasks in H as [Hi Hq].
  rewrite Q0 in Hq.
  apply (Inv_preserved s); [done|cbn; by rewrite (keys_of_taskItems d0 d') | |
                            |by destruct I].
  - unfold live, held. cbn. rewrite fmap_app.
    etrans; [|apply submseteq_app; [exact Hq|reflexivity]].
    solve_submseteq.
  - intros t. unfold startable. cbn. rewrite fmap_app. intros Ht. left.
    rewrite (Permutation_app_comm ((spawned s).*2)), app_assoc in Ht.
    apply elem_of_app in Ht as [Ht|Ht]; apply elem_of_app; [left|by right].
    by eapply elem_of_submseteq.
Qed.

Lemma ctx_done_tasks e d :
  taskItems (ctx_done e d) = taskItems d /\ tasks (ctx_done e d) = tasks d.
Proof. unfold ctx_done. by destruct (ctx d). Qed.

Lemma Inv_RemoveTask s t : Inv s -> Inv (with_shared (RemoveTask t (shared s)) s).
Proof.
  intros I. destruct (RemoveTask_tasks t (shared s)) as [K Q].
  apply (Inv_preserved s); [done|done| | |by destruct I].
  - unfold live, held. cbn. destruct Q as [-> | [p ->]]; [done|].
    apply submseteq_app; [apply without_submseteq|done].
  - intros q. unfold startable. cbn. intros Hq. left.
    destruct Q as [Q | [p Q]]; rewrite Q in Hq; [done|].
    apply elem_of_app in Hq as [Hq|Hq]; apply elem_of_app; [left|by right].
    by eapply elem_of_submseteq, without_submseteq.
Qed.

Lemma Inv_goroutine s i a o :
  Inv s ->
  inflight s !! i = Some a ->
  Inv (mkSystem (shared s) (run s) (collector s) (dispatch s) (spawned s)
         (<[i := mkAttempt (at_worker a) (at_task a) (at_ctx a) true
                   (run_goroutine (at_worker a) (at_task a) o)]> (inflight s))).
Proof.
  intros I Hi. apply (Inv_preserved s); [done|done| | |].
  - unfold live, held. cbn. rewrite list_fmap_insert. cbn.
    rewrite (list_insert_id (at_task <$> inflight s) i (at_task a)); [done|].
    by rewrite list_lookup_fmap, Hi.
  - intros t. unfold startable. cbn. auto.
  - intros b r Hb. cbn in Hb.
    apply list_elem_of_lookup in Hb as [j Hj].
    apply list_lookup_insert_Some in Hj as [(_ & <- & _)|[_ Hj]].
    + cbn. apply run_goroutine_task.
    + destruct I as [_ _ _ _ I5]. apply I5. by eapply list_elem_of_lookup_2.
Qed.

Lemma Inv_doRunTask_send s i a c r :
  Inv s ->
  inflight s !! i = Some a ->
  doRunTask_select c (at_ctx a) (at_worker a) (at_task a) (at_done a) (shared s)
    = Some r ->
  collector s = Some CollectorSelect ->
  Inv (mkSystem (doRunTask_exit (at_ctx a) (shared s)) (run s)
         (Some (CollectorHolds r)) (dispatch s) (spawned s)
         (delete i (inflight s))).
Proof.
  intros I Hi Hr Hc.
  assert (a ∈ inflight s) as Ha by (by eapply list_elem_of_lookup_2).
  assert (taskItem r = at_task a) as Hr'.
  { eapply doRunTask_select_task; [exact Hr|]. intros r' Hd.
    destruct I as [_ _ _ _ I5]. by apply I5. }
  destruct (doRunTask_exit_tasks (at_ctx a) (shared s)) as [Ei Et].
  apply (Inv_preserved s); [done|by apply keys_of_taskItems| | |].
  - unfold live, held. cbn. rewrite Hc, Hr', (queue_of_tasks _ _ Et).
    rewrite (delete_Permutation (inflight s) i a Hi) at 2. cbn.
    solve_submseteq.
  - intros t. unfold startable. cbn. rewrite (queue_of_tasks _ _ Et). auto.
  - intros b r0 Hb. cbn in Hb. destruct I as [_ _ _ _ I5]. apply I5.
    by eapply list_elem_of_delete_inv.
Qed.

(** Every block keeps the invariant. *)
Lemma Inv_step s s' : Inv s -> step s s' -> Inv s'.
Proof.
  intros I St. destruct St; unfold with_shared.
  - match goal with H : AddWorker _ _ _ = _ |- _ =>
      apply AddWorker_tasks in H as [Ei Et] end.
    apply (Inv_same_tasks s);
      [done|by apply keys_of_taskItems|by apply queue_of_tasks|try done].
  - destruct (RemoveWorker_tasks w (shared s)) as [Ei Et].
    apply (Inv_same_tasks s);
      [done|by apply keys_of_taskItems|by apply queue_of_tasks|try done].
  - by eapply (Inv_AddTask s).
  - by apply (Inv_RemoveTask s).
  - destruct (ctx_done_tasks Canceled (shared s)) as [Ei Et].
    apply (Inv_same_tasks s);
      [done|by apply keys_of_taskItems|by apply queue_of_tasks|try done].
  - destruct (ctx_done_tasks e (shared s)) as [Ei Et].
    apply (Inv_same_tasks s);
      [done|by apply keys_of_taskItems|by apply queue_of_tasks|try done].
  - by apply (Inv_same_tasks s).
  - match goal with H : Run_enter _ = _ |- _ =>
      apply Run_enter_tasks in H as [Ei Et] end.
    apply (Inv_same_tasks s);
      [done|by apply keys_of_taskItems|by apply queue_of_tasks|try done].
    unfold held. by match goal with H : goroutine_free (collector s) _ |- _ =>
      destruct H as [-> | ->] end.
  - destruct (Run_cancel_tasks (shared s)) as [K Et].
    apply (Inv_same_tasks s); [done|done|by apply queue_of_tasks|done].
  - match goal with H : Run_return _ = _ |- _ =>
      apply Run_return_tasks in H as [Ei Et] end.
    apply (Inv_same_tasks s);
      [done|by apply keys_of_taskItems|by apply queue_of_tasks|try done].
  - apply (Inv_same_tasks s); [done|done|done|]. unfold held.
    by match goal with H : collector s = _ |- _ => rewrite H end.
  - apply (Inv_same_tasks s); [done|done|done|]. unfold held.
    by match goal with H : collector s = _ |- _ => rewrite H end.
  - by eapply (Inv_collector_result s).
  - by apply (Inv_same_tasks s).
  - by apply (Inv_same_tasks s).
  - by eapply (Inv_dispatch s (set_allowExecuteTasks n (shared s))).
  - by eapply (Inv_dispatch s (shared s)).
  - by eapply (Inv_doRunTask_start s).
  - by apply (Inv_goroutine s).
  - by eapply (Inv_doRunTask_send s).
Qed.

Lemma Inv_reach parent n s : reach parent n s -> Inv s.
Proof.
  induction 1 as [|n s s' _ IH St]; [apply Inv_initial|by eapply Inv_step].
Qed.

(** *** The attempts counter and the first start *)

Lemma step_keys s s' :
  step s s' -> keys_change (keys (shared s)) (keys (shared s')).
Proof.
  destruct 1; unfold with_shared; cbn [shared].
  - apply keys_same, keys_of_taskItems. by eapply AddWorker_tasks.
  - apply keys_same, keys_of_taskItems, RemoveWorker_tasks.
  - match goal with H : AddTask _ _ = _ |- _ =>
      apply AddTask_tasks in H as [Hi _] end.
    apply (keys_added _ _ t). unfold keys. by rewrite Hi, fmap_app.
  - apply keys_same, RemoveTask_tasks.
  - apply keys_same, keys_of_taskItems, ctx_done_tasks.
  - apply keys_same, keys_of_taskItems, ctx_done_tasks.
  - by apply keys_same.
  - apply keys_same, keys_of_taskItems. by eapply Run_enter_tasks.
  - apply keys_same, Run_cancel_tasks.
  - apply keys_same, keys_of_taskItems. by eapply Run_return_tasks.
  - by apply keys_same.
  - by apply keys_same.
  - apply keys_same. by eapply doResultCollector_result_tasks.
  - by apply keys_same.
  - by apply keys_same.
  - apply keys_same, keys_of_taskItems.
    match goal with H : doExecuteTasks _ _ _ = _ |- _ =>
      apply doExecuteTasks_tasks in H as [-> _] end. done.
  - apply keys_same, keys_of_taskItems. by eapply doExecuteTasks_tasks.
  - match goal with H : doRunTask_start _ _ _ _ = _ |- _ =>
      apply doRunTask_start_tasks in H as (_ & Hat & Hne & _) end.
    apply (keys_started _ _ now t); unfold keys.
    + rewrite !list_lookup_fmap, Hat.
      by destruct (taskItems (shared s) !! t).
    + intros q Hq. by rewrite !list_lookup_fmap, Hne.
  - by apply keys_same.
  - apply keys_same, keys_of_taskItems, doRunTask_exit_tasks.
Qed.

Lemma counted_reach parent n s :
  reach parent n s ->
  Z.of_nat n < 2 ^ 63 ->
  forall t x, keys (shared s) !! t = Some x -> counted n x.
Proof.
  induction 1 as [|n s s' R IH St]; intros Hn t x.
  - cbn. by rewrite lookup_nil.
  - assert (forall q y, keys (shared s) !! q = Some y -> counted n y) as IH'
      by (apply IH; lia).
    assert (forall y, counted n y -> counted (S n) y) as Hmono.
    { intros y [H1 H2]. split; [lia|done]. }
    destruct (step_keys _ _ St) as [-> | u -> | now u Hu Hne].
    + intros Hx. eauto.
    + intros Hx. apply lookup_app_Some in Hx as [Hx|[_ Hx]]; [eauto|].
      apply list_lookup_singleton_Some in Hx as [_ <-].
      split; cbn; [lia|done].
    + destruct (decide (t = u)) as [->|Htu]; [|rewrite Hne by done; eauto].
      rewrite Hu. destruct (keys (shared s) !! u) as [y|] eqn:E; [|done].
      cbn. intros [= <-]. destruct (IH' _ _ E) as [H1 H2].
      unfold counted, start_key. cbn.
      rewrite wrap64_small by (unfold int64; lia).
      split; [lia|]. split; [lia|].
      destruct (y.1.2 + 1 =? 1) eqn:E1; [done|].
      intros Hnone. apply H2 in Hnone. lia.
Qed.

(** *** A sample run *)

Lemma step_to s s' s'' : step s s' -> s' = s'' -> step s s''.
Proof. by intros H <-. Qed.

Lemma sample_system_reach : reach None 6 sample_system.
Proof.
  eapply reach_step; [eapply reach_step; [eapply reach_step; [eapply reach_step;
    [eapply reach_step; [eapply reach_step; [apply reach_init|]|]|]|]|]|].
  - eapply (step_AddWorker _ 100 sample_worker). vm_compute. reflexivity.
  - eapply (step_AddTask _ (mkTask "t1" 0 0 0)); [|vm_compute; reflexivity].
    unfold int64. cbn. lia.
  - eapply step_Run_enter; [by left|by left|by left|vm_compute; reflexivity].
  - eapply step_dispatch_begin. reflexivity.
  - eapply (step_dispatch_signal _ 200 2); [reflexivity| |];
      vm_compute; reflexivity.
  - eapply step_to;
      [eapply (step_doRunTask_start _ 201 0 0 0); vm_compute; reflexivity|].
    vm_compute. reflexivity.
Qed.

(** C2, as the code has it.  Over a whole run, the attempts counter of a
    task with [repeats = N >= 0] stays between 0 and max(N, 1): the first
    attempt is always made, and a task goes back to the queue only while
    its counter is below N.  A task with negative [repeats] goes back to
    the queue after every envelope that is not a cancellation, as long as
    neither the task nor the dispatcher is cancelled. *)
Theorem attempts_bounded_by_repeats :
  (forall parent n s t it,
     reach parent n s ->
     taskItems (shared s) !! t = Some it ->
     0 <= task_Repeats (ti_task it) ->
     0 <= ti_attempts it <= Z.max 1 (task_Repeats (ti_task it)))
  /\ (forall now r d it,
        IsStatus DispatcherStatusCancel d = false ->
        cancel r = false ->
        taskItems d !! taskItem r = Some it ->
        ti_status it <> TaskStatusCancel ->
        task_Repeats (ti_task it) < 0 ->
        exists d',
          doResultCollector_result now r d = Some d'
          /\ task_status (taskItem r) d' = TaskStatusRepeatWait
          /\ tasks d' = (Push (task_same_id d) (taskItem r) (tasks d)).1).
Proof.
  split.
  - intros parent n s t it R Hit Hrep.
    apply Inv_reach in R as [_ _ I3 _ _].
    assert (keys (shared s) !! t = Some (key it)) as Hk.
    { unfold keys. by rewrite list_lookup_fmap, Hit. }
    destruct (I3 _ _ Hk) as [_ B]. by apply B.
  - intros now r d it Hd Hc Hit Hst Hrep.
    destruct (doResultCollector_result_task now r d it Hd Hc Hit Hst)
      as (d' & Hd' & S).
    exists d'. split; [done|]. unfold task_settled in S.
    assert ((task_Repeats (ti_task it) <? 0) = true) as E by lia.
    rewrite E in S. cbn in S. destruct S as (_ & I & Q).
    unfold task_status. by rewrite I.
Qed.

Lemma attempts_bounded_by_repeats_witness :
  0 <= 1 <= Z.max 1 0
  /\ exists d',
       doResultCollector_result 300
         (mkResult 0 0 VNil (Some (errors_New "boom")) false)
         (sample_running (-1) 0 0) = Some d'
       /\ task_status 0 d' = TaskStatusRepeatWait
       /\ tasks d'
          = (Push (task_same_id (sample_running (-1) 0 0)) 0
               (tasks (sample_running (-1) 0 0))).1.
Proof.
  split.
  - apply (proj1 attempts_bounded_by_repeats None 6%nat sample_system 0%nat
             (mkTasksManagerItem (mkTask "t1" 0 0 0) TaskStatusProcess 1 None
                (Some 201) (Some 201) (Some 0%nat)));
      [apply sample_system_reach | vm_compute; reflexivity | cbn; lia].
  - apply (proj2 attempts_bounded_by_repeats 300
             (mkResult 0 0 VNil (Some (errors_New "boom")) false)
             (sample_running (-1) 0 0)
             (mkTasksManagerItem (mkTask "t1" (-1) 0 0) TaskStatusProcess 1 None
                (Some 201) (Some 201) (Some 0%nat)));
      vm_compute; (reflexivity || discriminate).
Defined.

(** C2, as stated, fails: a task with [repeats = 0] is attempted once. *)
Lemma task_with_zero_repeats_is_attempted :
  reach None 6 sample_system
  /\ task_Repeats_of 0 (shared sample_system) = 0
  /\ task_Attempts 0 (shared sample_system) = 1
  /\ ~ task_Attempts 0 (shared sample_system)
       <= task_Repeats_of 0 (shared sample_system).
Proof.
  split; [apply sample_system_reach|].
  repeat split; try (vm_compute; reflexivity). vm_compute. intros H. by apply H.
Qed.

Lemma doRunTask_start_by_statements now w t d :
  doRunTask_start now w t d
  = doRunTask_from_578 now w t (doRunTask_at_578 w t d).
Proof. reflexivity. Qed.

Lemma doRunTask_at_578_tasks w t d :
  taskItems (doRunTask_at_578 w t d) !! t
  = (fun it => ti_SetStatus TaskStatusProcess
                 (ti_SetAttempts (wrap64 (ti_attempts it + 1)) it))
      <$> taskItems d !! t
  /\ (forall q, q <> t ->
        taskItems (doRunTask_at_578 w t d) !! q = taskItems d !! q)
  /\ listeners (doRunTask_at_578 w t d)
     = listeners d
       ++ [EventWorkerStatusChanged w WorkerStatusProcess (worker_status w
             (worker_update (wi_SetTask (task_Task t d)) w d));
           EventTaskStatusChanged t TaskStatusProcess (task_status t d)]
  /\ setStatusTask_Metadata t TaskStatusProcess (doRunTask_at_576 w t d)
     = ti_Metadata <$> taskItems (doRunTask_at_578 w t d) !! t.
Proof.
  unfold doRunTask_at_578, doRunTask_at_576, setStatusTask_Metadata.
  cbv zeta. dsimpl. repeat split.
  - rewrite !list_lookup_alter_eq. by destruct (taskItems d !! t).
  - intros q Hq. by rewrite !list_lookup_alter_ne by done.
  - rewrite <- app_assoc. cbn. do 3 f_equal.
    rewrite list_lookup_alter_eq. by destruct (taskItems d !! t).
Qed.

Lemma Written_write n op c c' :
  Z.of_nat n < 2 ^ 63 - 1 ->
  Written n c -> write op c = Some c' -> Written (S n) c'.
Proof.
  intros Hn [N R Z0 U O V] H. destruct op; cbn in H.
  - simplify_eq. constructor; cbn; try done.
    + intros t x Hx. apply lookup_app_Some in Hx as [Hx|[_ Hx]].
      * specialize (R _ _ Hx). lia.
      * apply list_lookup_singleton_Some in Hx as [_ <-]. cbn. lia.
    + intros t x Hx. apply lookup_app_Some in Hx as [Hx|[_ Hx]]; [eauto|].
      by apply list_lookup_singleton_Some in Hx as [_ <-].
    + intros t x Hx. apply lookup_app_Some in Hx as [Hx|[_ Hx]]; [eauto|].
      apply list_lookup_singleton_Some in Hx as [_ <-]. by left.
    + intros t x Hx Ht. apply lookup_app_Some in Hx as [Hx|[Hl Hx]]; [eauto|].
      apply V in Ht. lia.
    + intros t Ht. apply V in Ht. rewrite length_app. lia.
  - unfold mem in H. case_bool_decide as Hin; [done|].
    destruct (cw_items c !! t) as [y|] eqn:E; [|done]. cbn in H. simplify_eq.
    pose proof (R _ _ E) as Ry.
    assert (wrap64 (y.1 + 1) = y.1 + 1) as Hw
      by (apply wrap64_small; unfold int64; lia).
    constructor; cbn.
    + by apply NoDup_cons.
    + intros q x Hx. destruct (decide (q = t)) as [->|Hq].
      * rewrite list_lookup_insert_eq in Hx by (by eapply lookup_lt_Some).
        simplify_eq. cbn. lia.
      * rewrite list_lookup_insert_ne in Hx by done.
        specialize (R _ _ Hx). lia.
    + intros q x Hx. destruct (decide (q = t)) as [->|Hq].
      * rewrite list_lookup_insert_eq in Hx by (by eapply lookup_lt_Some).
        simplify_eq. cbn. lia.
      * rewrite list_lookup_insert_ne in Hx by done. eauto.
    + intros q x Hx. destruct (decide (q = t)) as [->|Hq].
      * rewrite list_lookup_insert_eq in Hx by (by eapply lookup_lt_Some).
        simplify_eq. cbn. intros Hu. right. split; [|by left].
        destruct (U _ _ E Hu) as [?|[_ ?]]; [lia|done].
      * rewrite list_lookup_insert_ne in Hx by done. intros Hu.
        destruct (U _ _ Hx Hu) as [?|[? ?]]; [by left|right].
        split; [done|by right].
    + intros q x Hx Hq. destruct (decide (q = t)) as [->|Hqt].
      * rewrite list_lookup_insert_eq in Hx by (by eapply lookup_lt_Some).
        simplify_eq. cbn. lia.
      * rewrite list_lookup_insert_ne in Hx by done.
        apply elem_of_cons in Hq as [?|Hq]; [done|eauto].
    + intros q Hq. rewrite length_insert.
      apply elem_of_cons in Hq as [->|Hq]; [by eapply lookup_lt_Some|eauto].
  - unfold mem in H. case_bool_decide as Hin; [|done].
    destruct (cw_items c !! t) as [y|] eqn:E; [|done]. cbn in H. simplify_eq.
    assert (forall q, q ∈ without t (cw_open c) <-> q ∈ cw_open c /\ q <> t)
      as Hwo.
    { intros q. unfold without. rewrite list_elem_of_filter. tauto. }
    constructor; cbn.
    + unfold without. by apply NoDup_filter.
    + intros q x Hx. destruct (decide (q = t)) as [->|Hq].
      * rewrite list_lookup_insert_eq in Hx by (by eapply lookup_lt_Some).
        simplify_eq. cbn. specialize (R _ _ E). lia.
      * rewrite list_lookup_insert_ne in Hx by done.
        specialize (R _ _ Hx). lia.
    + intros q x Hx. destruct (decide (q = t)) as [->|Hq].
      * rewrite list_lookup_insert_eq in Hx by (by eapply lookup_lt_Some).
        simplify_eq. cbn. intros Hz. specialize (O _ _ E Hin). lia.
      * rewrite list_lookup_insert_ne in Hx by done. eauto.
    + intros q x Hx. destruct (decide (q = t)) as [->|Hq].
      * rewrite list_lookup_insert_eq in Hx by (by eapply lookup_lt_Some).
        simplify_eq. cbn. destruct (y.1 =? 1) eqn:E1; [done|].
        intros Hu. destruct (U _ _ E Hu) as [?|[? ?]]; [|lia].
        specialize (O _ _ E Hin). lia.
      * rewrite list_lookup_insert_ne in Hx by done. intros Hu.
        destruct (U _ _ Hx Hu) as [?|[? ?]]; [by left|right].
        split; [done|]. by apply Hwo.
    + intros q x Hx Hq. apply Hwo in Hq as [Hq Hqt].
      rewrite list_lookup_insert_ne in Hx by done. eauto.
    + intros q Hq. apply Hwo in Hq as [Hq _]. rewrite length_insert. eauto.
  - simplify_eq. constructor; try done.
    intros t x Hx. specialize (R _ _ Hx). lia.
Qed.

Lemma writes_snoc l op : writes (l ++ [op]) = writes l ≫= write op.
Proof. unfold writes. by rewrite foldl_app. Qed.

Lemma Written_writes l c :
  writes l = Some c -> Z.of_nat (length l) < 2 ^ 63 -> Written (length l) c.
Proof.
  revert c. induction l as [|op l IH] using rev_ind; intros c H Hn.
  - cbn in H. simplify_eq. constructor; cbn; try done; try by constructor.
    all: intros t; rewrite ?lookup_nil; try done.
    intros Ht. by apply not_elem_of_nil in Ht.
  - rewrite writes_snoc in H. rewrite length_app in *. cbn [length] in *.
    destruct (writes l) as [c0|] eqn:E; [|done]. cbn in H.
    replace (length l + 1)%nat with (S (length l)) by lia.
    eapply Written_write; [|apply IH; [done|lia]|done]. lia.
Qed.

Lemma write_575_580 items now u x :
  items !! u = Some x ->
  write (Write575 u) (mkCounters items []) ≫= write (Write580 now u)
  = Some (mkCounters
            (<[u := (wrap64 (x.1 + 1),
                     if wrap64 (x.1 + 1) =? 1 then Some now else x.2)]> items)
            []).
Proof.
  intros E. cbn. unfold mem.
  rewrite bool_decide_eq_false_2 by apply not_elem_of_nil.
  rewrite E. cbn. unfold mem.
  rewrite bool_decide_eq_true_2 by (by left).
  rewrite list_lookup_insert_eq by (by eapply lookup_lt_Some). cbn.
  rewrite list_insert_insert_eq. by case_decide.
Qed.

(** Every state of a run is a state of the writes, with no item between
    line 575 and line 582: a block of [doRunTask] is the two writes in a
    row. *)
Lemma reach_writes parent n s :
  reach parent n s ->
  exists l,
    writes l = Some (mkCounters (counter_of <$> keys (shared s)) [])
    /\ (length l <= 2 * n)%nat.
Proof.
  induction 1 as [|n s s' R (l & Hl & Hn) St].
  - exists []. split; [done|]. cbn. lia.
  - destruct (step_keys _ _ St) as [-> | u -> | now u Hu Hne].
    + exists l. split; [done|lia].
    + exists (l ++ [WriteNew]). rewrite writes_snoc, Hl, length_app. cbn.
      split; [by rewrite fmap_app|lia].
    + destruct (keys (shared s) !! u) as [x|] eqn:E.
      * exists (l ++ [Write575 u; Write580 now u]).
        rewrite length_app. cbn [length]. split; [|lia].
        replace (l ++ [Write575 u; Write580 now u])
          with ((l ++ [Write575 u]) ++ [Write580 now u])
          by (by rewrite <- app_assoc).
        rewrite !writes_snoc, Hl.
        pose proof (write_575_580 (counter_of <$> keys (shared s)) now u
                      (counter_of x)) as W.
        rewrite list_lookup_fmap, E in W. specialize (W eq_refl).
        etrans; [exact W|].
        do 2 f_equal.
        apply list_eq. intros q. destruct (decide (q = u)) as [->|Hq].
        -- rewrite list_lookup_insert_eq
             by (rewrite length_fmap; by eapply lookup_lt_Some).
           rewrite list_lookup_fmap, Hu. cbn. by destruct x as [[? ?] ?].
        -- rewrite !list_lookup_insert_ne by done.
           by rewrite !list_lookup_fmap, Hne.
      * exists l. split; [|lia]. rewrite Hl. do 3 f_equal.
        apply list_eq. intros q. destruct (decide (q = u)) as [->|Hq].
        -- by rewrite Hu, E.
        -- by rewrite Hne.
Qed.

(** C7, as the code has it.  [doRunTask] adds one to the attempts counter of
    the task (line 575; a 64-bit integer, below its maximum), then marks the
    task Process and hands the listeners the change with the metadata of
    the item (line 576), then stamps the first start exactly when the
    counter is 1, and the last start (lines 578-582).  Between line 575 and
    line 580 the item has the new counter and the first start it had: the
    metadata of line 576 shows that.  In the states between the blocks of a
    run (of fewer than 2^63 blocks) the counter of a task is 0 exactly when
    its first start is unset.  Write by write (fewer than 2^63 writes), for
    any order of the writes of the goroutines: a counter at 0 has no first
    start; an item that is not between line 575 and line 582 has its
    counter at 0 exactly when its first start is unset; an item that is
    there has a counter of 1 at least, and of 1 when its first start is
    unset.  Every state of a run is a state of the writes. *)
Theorem attempt_start_counts :
  (forall now w t d it,
     taskItems d !! t = Some it ->
     int64 (ti_attempts it + 1) ->
     taskItems (doRunTask_start now w t d).2 !! t
     = Some (mkTasksManagerItem (ti_task it) TaskStatusProcess
               (ti_attempts it + 1) (ti_allowStartAt it)
               (if ti_attempts it + 1 =? 1 then Some now
                else ti_firstStartedAt it)
               (Some now) (Some (doRunTask_start now w t d).1)))
  /\ (forall now w t d it,
        taskItems d !! t = Some it ->
        int64 (ti_attempts it + 1) ->
        doRunTask_start now w t d
        = doRunTask_from_578 now w t (doRunTask_at_578 w t d)
        /\ taskItems (doRunTask_at_578 w t d) !! t
           = Some (mkTasksManagerItem (ti_task it) TaskStatusProcess
                     (ti_attempts it + 1) (ti_allowStartAt it)
                     (ti_firstStartedAt it) (ti_lastStartedAt it)
                     (ti_cancel it))
        /\ setStatusTask_Metadata t TaskStatusProcess (doRunTask_at_576 w t d)
           = Some (mkTaskMetadata (task_Id (ti_task it)) TaskStatusProcess
                     (ti_attempts it + 1) (ti_firstStartedAt it)
                     (ti_lastStartedAt it))
        /\ last (listeners (doRunTask_at_578 w t d))
           = Some (EventTaskStatusChanged t TaskStatusProcess (ti_status it)))
  /\ (forall parent n s t it,
        reach parent n s ->
        Z.of_nat n < 2 ^ 63 ->
        taskItems (shared s) !! t = Some it ->
        (ti_attempts it = 0 <-> ti_firstStartedAt it = None))
  /\ (forall l c t x,
        writes l = Some c ->
        Z.of_nat (length l) < 2 ^ 63 ->
        cw_items c !! t = Some x ->
        (x.1 = 0 -> x.2 = None)
        /\ (t ∉ cw_open c -> (x.1 = 0 <-> x.2 = None))
        /\ (t ∈ cw_open c -> 1 <= x.1 /\ (x.2 = None -> x.1 = 1)))
  /\ (forall parent n s,
        reach parent n s ->
        exists l,
          writes l = Some (mkCounters (counter_of <$> keys (shared s)) [])
          /\ (length l <= 2 * n)%nat).
Proof.
  split; [|split; [|split; [|split]]].
  - intros now w t d it Hit Hrange.
    destruct (doRunTask_start now w t d) as [k d'] eqn:E.
    apply doRunTask_start_tasks in E as (_ & Hat & _). cbn [fst snd].
    rewrite Hat, Hit. cbn. unfold start_item. by rewrite wrap64_small.
  - intros now w t d it Hit Hrange.
    destruct (doRunTask_at_578_tasks w t d) as (Ht & _ & Hl & Hm).
    split; [apply doRunTask_start_by_statements|].
    split; [rewrite Ht, Hit; cbn; by rewrite wrap64_small|].
    split; [rewrite Hm, Ht, Hit; cbn; by rewrite wrap64_small|].
    rewrite Hl. rewrite (last_snoc _ (EventTaskStatusChanged _ _ _)) ||
      (change (?a ++ [?b; ?c]) with (a ++ [b] ++ [c]);
       rewrite app_assoc, last_snoc).
    unfold task_status. by rewrite Hit.
  - intros parent n s t it R Hn Hit.
    assert (keys (shared s) !! t = Some (key it)) as Hk.
    { unfold keys. by rewrite list_lookup_fmap, Hit. }
    by destruct (counted_reach _ _ _ R Hn _ _ Hk) as [_ H].
  - intros l c t x Hl Hn Hx.
    destruct (Written_writes _ _ Hl Hn) as [N R Z0 U O V].
    split; [eauto|]. split.
    + intros Hnot. split; [eauto|]. intros Hu.
      destruct (U _ _ Hx Hu) as [?|[_ ?]]; done.
    + intros Hin. split; [eauto|]. intros Hu.
      destruct (U _ _ Hx Hu) as [?|[? _]]; [|done].
      specialize (O _ _ Hx Hin). lia.
  - apply reach_writes.
Qed.

Lemma sample_launched_reach : reach None 5 sample_launched.
Proof.
  eapply reach_step; [eapply reach_step; [eapply reach_step; [eapply reach_step;
    [eapply reach_step; [apply reach_init|]|]|]|]|].
  - eapply (step_AddWorker _ 100 sample_worker). vm_compute. reflexivity.
  - eapply (step_AddTask _ (mkTask "t1" 0 0 0)); [|vm_compute; reflexivity].
    unfold int64. cbn. lia.
  - eapply step_Run_enter; [by left|by left|by left|vm_compute; reflexivity].
  - eapply step_dispatch_begin. reflexivity.
  - eapply step_to;
      [eapply (step_dispatch_signal _ 200 2); [reflexivity| |];
         vm_compute; reflexivity|].
    vm_compute. reflexivity.
Qed.

Lemma attempt_start_counts_witness :
  taskItems (doRunTask_start 401 0 0 (sample_running 3 0 0)).2 !! 0%nat
  = Some (mkTasksManagerItem (mkTask "t1" 3 0 0) TaskStatusProcess (1 + 1) None
            (if 1 + 1 =? 1 then Some 401 else Some 201) (Some 401)
            (Some (doRunTask_start 401 0 0 (sample_running 3 0 0)).1))
  /\ (doRunTask_start 201 0 0 (shared sample_launched)
      = doRunTask_from_578 201 0 0
          (doRunTask_at_578 0 0 (shared sample_launched))
      /\ taskItems (doRunTask_at_578 0 0 (shared sample_launched)) !! 0%nat
         = Some (mkTasksManagerItem (mkTask "t1" 0 0 0) TaskStatusProcess
                   (0 + 1) None None None None)
      /\ setStatusTask_Metadata 0 TaskStatusProcess
           (doRunTask_at_576 0 0 (shared sample_launched))
         = Some (mkTaskMetadata "t1" TaskStatusProcess (0 + 1) None None)
      /\ last (listeners (doRunTask_at_578 0 0 (shared sample_launched)))
         = Some (EventTaskStatusChanged 0 TaskStatusProcess TaskStatusWait))
  /\ (1 = 0 <-> Some 201 = @None Z)
  /\ ((1 = 0 -> @None Z = None)
      /\ (0%nat ∉ [0%nat] -> (1 = 0 <-> @None Z = None))
      /\ (0%nat ∈ [0%nat] -> 1 <= 1 /\ (@None Z = None -> 1 = 1)))
  /\ exists l,
       writes l
       = Some (mkCounters (counter_of <$> keys (shared sample_system)) [])
       /\ (length l <= 2 * 6)%nat.
Proof.
  split; [|split; [|split; [|split]]].
  - apply (proj1 attempt_start_counts 401 0%nat 0%nat (sample_running 3 0 0)
             (mkTasksManagerItem (mkTask "t1" 3 0 0) TaskStatusProcess 1 None
                (Some 201) (Some 201) (Some 0%nat)));
      [vm_compute; reflexivity | unfold int64; cbn; lia].
  - apply (proj1 (proj2 attempt_start_counts) 201 0%nat 0%nat
             (shared sample_launched)
             (mkTasksManagerItem (mkTask "t1" 0 0 0) TaskStatusWait 0 None
                None None None));
      [vm_compute; reflexivity | unfold int64; cbn; lia].
  - apply (proj1 (proj2 (proj2 attempt_start_counts)) None 6%nat sample_system
             0%nat
             (mkTasksManagerItem (mkTask "t1" 0 0 0) TaskStatusProcess 1 None
                (Some 201) (Some 201) (Some 0%nat)));
      [apply sample_system_reach | cbn; lia | vm_compute; reflexivity].
  - apply (proj1 (proj2 (proj2 (proj2 attempt_start_counts)))
             [WriteNew; Write575 0] (mkCounters [(1, None)] [0%nat]) 0%nat
             (1, None));
      [vm_compute; reflexivity | cbn; lia | reflexivity].
  - apply (proj2 (proj2 (proj2 (proj2 attempt_start_counts))) None 6%nat
             sample_system sample_system_reach).
Defined.

(** C7, as stated, fails: on the first attempt of a task, between the
    increment of line 575 and the stamp of line 580, the counter is 1 and
    the first start is unset, and this is the metadata the listeners are
    handed with the change to Process at line 576. *)
Lemma first_attempt_seen_unstamped :
  reach None 5 sample_launched
  /\ spawned sample_launched = [(0%nat, 0%nat)]
  /\ doRunTask_start 201 0 0 (shared sample_launched)
     = doRunTask_from_578 201 0 0
         (doRunTask_at_578 0 0 (shared sample_launched))
  /\ (exists it,
        taskItems (doRunTask_at_578 0 0 (shared sample_launched)) !! 0%nat
        = Some it
        /\ ti_attempts it = 1
        /\ ti_firstStartedAt it = None
        /\ ~ (ti_attempts it = 0 <-> ti_firstStartedAt it = None))
  /\ setStatusTask_Metadata 0 TaskStatusProcess
       (doRunTask_at_576 0 0 (shared sample_launched))
     = Some (mkTaskMetadata "t1" TaskStatusProcess 1 None None).
Proof.
  split; [apply sample_launched_reach|].
  split; [reflexivity|]. split; [reflexivity|].
  split; [|vm_compute; reflexivity].
  eexists. split; [vm_compute; reflexivity|]. cbn.
  repeat split; try done. intros [_ H]. by specialize (H eq_refl).
Qed.

(** * Further properties *)

(** ** The generated enumeration, there and back *)

Lemma IsATaskStatus_range i :
  TaskStatusEnum.IsATaskStatus i = true <-> 0 <= i < 7.
Proof.
  unfold TaskStatusEnum.IsATaskStatus, TaskStatusEnum._TaskStatusValues.
  cbn [existsb]. rewrite !orb_true_iff, !Z.eqb_eq. lia.
Qed.

Lemma String_fallback i :
  i < 0 \/ 7 <= i ->
  TaskStatusEnum.String i = "TaskStatus(" +:+ pretty i +:+ ")".
Proof.
  intros H. unfold TaskStatusEnum.String.
  replace ((i <? 0) || (i >=? Z.of_nat (length TaskStatusEnum._TaskStatusIndex) - 1))
    with true; [done|].
  symmetry. apply orb_true_iff. rewrite Z.ltb_lt, Z.geb_le. cbn. lia.
Qed.

Lemma app_paren_inj (s1 s2 : string) : s1 +:+ ")" = s2 +:+ ")" -> s1 = s2.
Proof.
  revert s2. induction s1 as [|c s1 IH]; intros [|c' s2]; cbn; try done.
  - intros [= _ H]. by destruct s2.
  - intros [= _ H]. by destruct s1.
  - intros [= -> H]. f_equal. by apply IH.
Qed.

(** X1.  Every value listed in the enumeration is read back from its name:
    [TaskStatusString] of [String i] returns [i] and no error. *)
Theorem TaskStatus_String_round_trip i :
  TaskStatusEnum.IsATaskStatus i = true ->
  TaskStatusEnum.TaskStatusString (TaskStatusEnum.String i) = (i, None).
Proof.
  intros H%IsATaskStatus_range.
  assert (i = 0 \/ i = 1 \/ i = 2 \/ i = 3 \/ i = 4 \/ i = 5 \/ i = 6) as Hi by lia.
  repeat destruct Hi as [->|Hi]; try subst i; vm_compute; reflexivity.
Qed.

Lemma TaskStatus_String_round_trip_witness :
  TaskStatusEnum.TaskStatusString (TaskStatusEnum.String 5) = (5, None).
Proof. apply (TaskStatus_String_round_trip 5). reflexivity. Defined.

(** X2.  A name [TaskStatusString] accepts is the name [String] renders the
    returned value with, and that value is listed in the enumeration. *)
Theorem TaskStatusString_inverse s v :
  TaskStatusEnum.TaskStatusString s = (v, None) ->
  TaskStatusEnum.String v = s /\ TaskStatusEnum.IsATaskStatus v = true.
Proof.
  unfold TaskStatusEnum.TaskStatusString, TaskStatusEnum._TaskStatusNameToValueMap.
  cbn [TaskStatusEnum.map_lookup].
  repeat match goal with
  | |- context [String.eqb ?a s] =>
      destruct (String.eqb_spec a s) as [<-|_];
      [intros [= <-]; split; vm_compute; reflexivity|]
  end.
  discriminate.
Qed.

Lemma TaskStatusString_inverse_witness :
  TaskStatusEnum.String 5 = "RepeatWait"
  /\ TaskStatusEnum.IsATaskStatus 5 = true.
Proof. apply (TaskStatusString_inverse "RepeatWait" 5). reflexivity. Defined.

(** X3.  [String] renders different values differently, inside the
    enumeration and outside of it. *)
Theorem TaskStatus_String_inj i j :
  TaskStatusEnum.String i = TaskStatusEnum.String j -> i = j.
Proof.
  assert (forall i, 0 <= i < 7 ->
            i = 0 \/ i = 1 \/ i = 2 \/ i = 3 \/ i = 4 \/ i = 5 \/ i = 6) as Hc by lia.
  destruct (decide (0 <= i < 7)) as [Hi|Hi], (decide (0 <= j < 7)) as [Hj|Hj].
  - apply Hc in Hi, Hj.
    repeat destruct Hi as [->|Hi]; try subst i;
      repeat destruct Hj as [->|Hj]; try subst j;
      vm_compute; first [reflexivity | discriminate].
  - rewrite (String_fallback j) by lia. apply Hc in Hi.
    repeat destruct Hi as [->|Hi]; try subst i; discriminate.
  - rewrite (String_fallback i) by lia. apply Hc in Hj.
    repeat destruct Hj as [->|Hj]; try subst j; discriminate.
  - rewrite (String_fallback i), (String_fallback j) by lia.
    intros [= H]. apply app_paren_inj in H. by apply (inj pretty).
Qed.

Lemma TaskStatus_String_inj_witness : 6 = 6.
Proof. apply (TaskStatus_String_inj 6 6). reflexivity. Defined.

(** X4.  A value outside the enumeration is rendered "TaskStatus(i)", and
    [TaskStatusString] does not accept that rendering: it returns 0 and the
    error "... does not belong to TaskStatus values". *)
Theorem TaskStatus_String_fallback i :
  TaskStatusEnum.IsATaskStatus i = false ->
  TaskStatusEnum.String i = "TaskStatus(" +:+ pretty i +:+ ")"
  /\ TaskStatusEnum.TaskStatusString (TaskStatusEnum.String i)
     = (0, Some (TaskStatusEnum.String i +:+ " does not belong to TaskStatus values")).
Proof.
  intros H. assert (i < 0 \/ 7 <= i) as Hi.
  { destruct (TaskStatusEnum.IsATaskStatus i) eqn:E; [done|].
    apply not_true_iff_false in E. rewrite IsATaskStatus_range in E. lia. }
  rewrite (String_fallback i Hi). split; [done|].
  reflexivity.
Qed.

Lemma TaskStatus_String_fallback_witness :
  TaskStatusEnum.String 7 = "TaskStatus(" +:+ pretty 7 +:+ ")"
  /\ TaskStatusEnum.TaskStatusString (TaskStatusEnum.String 7)
     = (0, Some (TaskStatusEnum.String 7 +:+ " does not belong to TaskStatus values")).
Proof. apply (TaskStatus_String_fallback 7). reflexivity. Defined.

(** ** Operations that leave the run alone *)

Lemma started_app l k : started (l ++ k) = started l ++ started k.
Proof. apply omap_app. Qed.

Lemma stopped_app l k : stopped (l ++ k) = stopped l ++ stopped k.
Proof. apply omap_app. Qed.

Lemma only_cancels_refl l : only_cancels l l.
Proof. apply Forall2_same_length_lookup. split; [done|]. intros; simplify_eq. auto. Qed.

Lemma dc_finish_idemp e c : dc_finish e (dc_finish e c) = dc_finish e c.
Proof. destruct c as [[x|] dl]; done. Qed.

Lemma only_cancels_trans l1 l2 l3 :
  only_cancels l1 l2 -> only_cancels l2 l3 -> only_cancels l1 l3.
Proof.
  unfold only_cancels. intros H1 H2.
  eapply Forall2_trans; [|exact H1|exact H2].
  intros x y z [->| ->] [->| ->]; auto. right. apply dc_finish_idemp.
Qed.

Lemma only_cancels_alter k l : only_cancels l (alter (dc_finish Canceled) k l).
Proof.
  apply Forall2_same_length_lookup. split; [by rewrite length_alter|].
  intros i x y Hx. destruct (decide (i = k)) as [->|Hne].
  - rewrite list_lookup_alter_eq, Hx. cbn. intros [= <-]. auto.
  - rewrite list_lookup_alter_ne by done. rewrite Hx. intros [= <-]. auto.
Qed.

Lemma Quiet_refl d : Quiet d d.
Proof. constructor; try done. apply only_cancels_refl. Qed.

Lemma Quiet_trans d1 d2 d3 : Quiet d1 d2 -> Quiet d2 d3 -> Quiet d1 d3.
Proof.
  intros [] []. constructor; try congruence; try lia.
  by eapply only_cancels_trans.
Qed.

Lemma Quiet_fields d d' :
  wg d' = wg d -> status d' = status d -> ctx d' = ctx d ->
  ctxs d' = ctxs d ->
  listeners d' = listeners d ->
  length (workerItems d') = length (workerItems d) ->
  length (taskItems d') = length (taskItems d) ->
  Quiet d d'.
Proof.
  intros ? ? ? C L ? ?. constructor; try done; try lia; try (by rewrite L).
  rewrite C. apply only_cancels_refl.
Qed.

Lemma Quiet_ctxCancel_derived k d : Quiet d (ctxCancel_derived k d).
Proof. constructor; try done. apply only_cancels_alter. Qed.

Lemma Quiet_task_update f p d : Quiet d (task_update f p d).
Proof. apply Quiet_fields; dsimpl; rewrite ?length_alter; done. Qed.

Lemma Quiet_worker_update f p d : Quiet d (worker_update f p d).
Proof. apply Quiet_fields; dsimpl; rewrite ?length_alter; done. Qed.

Lemma Quiet_setStatusTask p st d : Quiet d (setStatusTask p st d).
Proof.
  constructor; dsimpl; rewrite ?length_alter, ?started_app, ?stopped_app; cbn;
    rewrite ?app_nil_r; try done; apply only_cancels_refl.
Qed.

Lemma Quiet_setStatusWorker p st d : Quiet d (setStatusWorker p st d).
Proof.
  constructor; dsimpl; rewrite ?length_alter, ?started_app, ?stopped_app; cbn;
    rewrite ?app_nil_r; try done; apply only_cancels_refl.
Qed.

Lemma Quiet_tasks_Push p d : Quiet d (tasks_Push p d).1.
Proof.
  destruct (tasks_Push_frame p d) as (E1&E2&E3&E4&E5&E6&E7&E8&E9&E10).
  cbn zeta in *. apply Quiet_fields; congruence.
Qed.

Lemma Quiet_workers_Push p d : Quiet d (workers_Push p d).1.
Proof.
  destruct (workers_Push_frame p d) as (E1&E2&E3&E4&E5&E6&E7&E8&E9&E10).
  cbn zeta in *. apply Quiet_fields; congruence.
Qed.

Lemma Quiet_notifyAllowExecuteTasks d d' :
  notifyAllowExecuteTasks d = Some d' -> Quiet d d'.
Proof.
  destruct (notifyAllowExecuteTasks_returns d) as (n & -> & _).
  intros [= <-]. by apply Quiet_fields.
Qed.

Lemma Quiet_item_Cancel c d : Quiet d (item_Cancel c d).
Proof. destruct c; [apply Quiet_ctxCancel_derived|apply Quiet_refl]. Qed.

Lemma Quiet_AsyncTrigger e d :
  started [e] = [] -> stopped [e] = [] -> Quiet d (AsyncTrigger e d).
Proof.
  intros S T. constructor; cbn [AsyncTrigger wg status ctx listeners workerItems
    taskItems]; rewrite ?started_app, ?stopped_app, ?S, ?T, ?app_nil_r; try done.
  apply only_cancels_refl.
Qed.

Lemma Quiet_AddWorker now w d d' e : AddWorker now w d = Some (d', e) -> Quiet d d'.
Proof.
  unfold AddWorker.
  match goal with |- context [workers_Push ?p ?x] =>
    pose proof (Quiet_workers_Push p x) as Q;
    assert (Quiet d x) as Q0
      by (constructor; dsimpl; rewrite ?length_app; cbn; try done; try lia;
          apply only_cancels_refl);
    destruct (workers_Push p x) as [d1 [e1|]] end; cbn [fst] in *.
  - intros [= <- <-]. by eapply Quiet_trans.
  - destruct (notifyAllowExecuteTasks _) as [d2|] eqn:N; [|done].
    cbn. intros [= <- <-]. apply Quiet_notifyAllowExecuteTasks in N.
    eapply Quiet_trans; [|exact N]. eapply Quiet_trans; [exact Q0|].
    eapply Quiet_trans; [exact Q|]. by apply Quiet_AsyncTrigger.
Qed.

Lemma Quiet_tasks_Remove p d : Quiet d (tasks_Remove p d).
Proof. by apply Quiet_fields. Qed.

Lemma Quiet_workers_Remove p d : Quiet d (workers_Remove p d).
Proof. by apply Quiet_fields. Qed.

Ltac quiet_step :=
  first
    [ apply Quiet_refl
    | eapply Quiet_trans; [|apply Quiet_AsyncTrigger; reflexivity]
    | eapply Quiet_trans; [|apply Quiet_tasks_Remove]
    | eapply Quiet_trans; [|apply Quiet_workers_Remove]
    | eapply Quiet_trans; [|apply Quiet_task_update]
    | eapply Quiet_trans; [|apply Quiet_worker_update]
    | eapply Quiet_trans; [|apply Quiet_setStatusTask]
    | eapply Quiet_trans; [|apply Quiet_setStatusWorker]
    | eapply Quiet_trans; [|apply Quiet_item_Cancel]
    | eapply Quiet_trans; [|apply Quiet_tasks_Push]
    | eapply Quiet_trans; [|apply Quiet_workers_Push] ].

Ltac quiet := cbv zeta; repeat quiet_step.

Lemma Quiet_RemoveWorker w d : Quiet d (RemoveWorker w d).
Proof. unfold RemoveWorker. destruct (GetById _ _); quiet. Qed.

Lemma Quiet_RemoveTask t d : Quiet d (RemoveTask t d).
Proof. unfold RemoveTask. destruct (GetById _ _); quiet. Qed.

Lemma Quiet_AddTask t d d' e : AddTask t d = Some (d', e) -> Quiet d d'.
Proof.
  unfold AddTask.
  match goal with |- context [tasks_Push ?p ?x] =>
    pose proof (Quiet_tasks_Push p x) as Q;
    assert (Quiet d x) as Q0
      by (constructor; dsimpl; rewrite ?length_app; cbn; try done; try lia;
          apply only_cancels_refl);
    destruct (tasks_Push p x) as [d1 [e1|]] end; cbn [fst] in *.
  - intros [= <- <-]. by eapply Quiet_trans.
  - destruct (notifyAllowExecuteTasks _) as [d2|] eqn:N; [|done].
    cbn. intros [= <- <-]. apply Quiet_notifyAllowExecuteTasks in N.
    eapply Quiet_trans; [|exact N]. eapply Quiet_trans; [exact Q0|].
    eapply Quiet_trans; [exact Q|]. quiet.
Qed.

Lemma Quiet_collect_worker r d : Quiet d (collect_worker r d).
Proof. unfold collect_worker. cbv zeta. destruct (_ || _); quiet. Qed.

Lemma Quiet_collect_task now r d : Quiet d (collect_task now r d).
Proof.
  unfold collect_task. cbv zeta.
  destruct (_ && _); [|quiet]. destruct (retry_allowed _ _).
  - destruct (_ >? 0), (err r); quiet.
  - destruct (err r); quiet.
Qed.

(** What the collector reports: nothing while the dispatcher is in Cancel,
    and otherwise the stop of the execution of the envelope. *)
Lemma doResultCollector_result_reports now r d d' :
  doResultCollector_result now r d = Some d' ->
  wg d' = wg d /\ status d' = status d /\ ctx d' = ctx d
  /\ only_cancels (ctxs d) (ctxs d')
  /\ started (listeners d') = started (listeners d)
  /\ stopped (listeners d')
     = stopped (listeners d)
       ++ (if IsStatus DispatcherStatusCancel d then []
           else [(workerItem r, taskItem r)])
  /\ (length (workerItems d) <= length (workerItems d'))%nat
  /\ (length (taskItems d) <= length (taskItems d'))%nat.
Proof.
  unfold doResultCollector_result. cbv zeta.
  set (d1 := worker_update _ _ _).
  assert (Quiet d d1) as Q1 by (subst d1; quiet).
  assert (IsStatus DispatcherStatusCancel d1 = IsStatus DispatcherStatusCancel d) as ->.
  { unfold IsStatus. by rewrite (quiet_status _ _ Q1). }
  clearbody d1. destruct (IsStatus _ d).
  - intros [= <-]. destruct Q1. rewrite app_nil_r. done.
  - intros N. apply Quiet_notifyAllowExecuteTasks in N.
    match type of N with Quiet (AsyncTrigger ?e ?x) _ =>
      assert (Quiet d x) as Q2
        by (eapply Quiet_trans; [eapply Quiet_trans; [exact Q1|]|];
            [apply Quiet_collect_worker|apply Quiet_collect_task]);
      set (d2 := x) in *; clearbody d2 end.
    destruct N as [N1 N2 N3 Nc N4 N5 N6 N7], Q2 as [P1 P2 P3 Pc P4 P5 P6 P7].
    cbn [AsyncTrigger wg status ctx ctxs listeners workerItems taskItems] in *.
    rewrite started_app, stopped_app in *. cbn in N4, N5.
    rewrite N1, N2, N3, N4, N5, app_nil_r, P1, P2, P3, P4, P5.
    repeat split; try done; try lia. by eapply only_cancels_trans.
Qed.

Lemma Quiet_workers_Pull d o d1 : workers_Pull d = (o, d1) -> Quiet d d1.
Proof.
  unfold workers_Pull. destruct (PullOldest _ _ _). intros [= <- <-].
  by apply Quiet_fields.
Qed.

Lemma Quiet_tasks_Pull now d o d1 : tasks_Pull now d = (o, d1) -> Quiet d d1.
Proof.
  unfold tasks_Pull. destruct (PullFirst _ _). intros [= <- <-].
  by apply Quiet_fields.
Qed.

Lemma Quiet_push_back ow ot d : Quiet d (push_back ow ot d).
Proof. unfold push_back. destruct ow, ot; quiet. Qed.

(** What the dispatch step reports: the start of each execution it
    launches, in the order of the launches. *)
Lemma dispatch_run_reports now d launched d' :
  dispatch_run now d launched d' ->
  wg d' = wg d /\ status d' = status d /\ ctx d' = ctx d
  /\ only_cancels (ctxs d) (ctxs d')
  /\ started (listeners d') = started (listeners d) ++ launched
  /\ stopped (listeners d') = stopped (listeners d)
  /\ (length (workerItems d) <= length (workerItems d'))%nat
  /\ (length (taskItems d) <= length (taskItems d'))%nat.
Proof.
  induction 1 as [d w d1 t d2 launched d' Hw Ht Hrun IH
                 | d ow d1 ot d2 Hw Ht Hor].
  - apply Quiet_workers_Pull in Hw. apply Quiet_tasks_Pull in Ht.
    destruct (Quiet_trans _ _ _ Hw Ht) as [P1 P2 P3 Pc P4 P5 P6 P7].
    destruct IH as (I1 & I2 & I3 & Ic & I4 & I5 & I6 & I7).
    cbn [AsyncTrigger wg status ctx ctxs listeners workerItems taskItems] in *.
    rewrite started_app, stopped_app in *. cbn in I4, I5.
    rewrite I1, I2, I3, I4, I5, app_nil_r, P1, P2, P3, P4, P5, <- app_assoc.
    repeat split; try done; try lia. by eapply only_cancels_trans.
  - apply Quiet_workers_Pull in Hw. apply Quiet_tasks_Pull in Ht.
    destruct (Quiet_trans _ _ _ (Quiet_trans _ _ _ Hw Ht) (Quiet_push_back ow ot d2)).
    rewrite app_nil_r. done.
Qed.

Lemma doExecuteTasks_reports fuel now d d' launched :
  doExecuteTasks fuel now d = Some (d', launched) ->
  wg d' = wg d /\ status d' = status d /\ ctx d' = ctx d
  /\ only_cancels (ctxs d) (ctxs d')
  /\ started (listeners d') = started (listeners d) ++ launched
  /\ stopped (listeners d') = stopped (listeners d)
  /\ (length (workerItems d) <= length (workerItems d'))%nat
  /\ (length (taskItems d) <= length (taskItems d'))%nat.
Proof.
  unfold doExecuteTasks. destruct (negb _).
  - intros [= <- <-]. rewrite app_nil_r. repeat split; try done.
    apply only_cancels_refl.
  - intros H. by eapply dispatch_run_reports, doExecuteTasks_loop_run.
Qed.

Lemma Quiet_setStatusDispatcher st d :
  Quiet (set_status st d) (setStatusDispatcher st d).
Proof.
  constructor; cbn; rewrite ?started_app, ?stopped_app; cbn;
    rewrite ?app_nil_r; try done. apply only_cancels_refl.
Qed.

Lemma Run_enter_reports d d' :
  Run_enter d = Some (d', None) ->
  status d = DispatcherStatusWait /\ status d' = DispatcherStatusProcess
  /\ Quiet (set_status DispatcherStatusProcess d) d'.
Proof.
  unfold Run_enter, IsStatus. destruct (status d =? _) eqn:E; cbn; [|done].
  destruct (notifyAllowExecuteTasks _) as [d2|] eqn:N; [|done].
  cbn. intros [= <-]. apply Quiet_notifyAllowExecuteTasks in N.
  pose proof (Quiet_trans _ _ _ (Quiet_setStatusDispatcher _ d) N) as Q.
  split; [by apply Z.eqb_eq|]. split; [|done]. by rewrite (quiet_status _ _ Q).
Qed.

Lemma Quiet_foldl_setStatusTask st l d :
  Quiet d (foldl (fun d t => setStatusTask t st d) d l).
Proof.
  revert d. induction l as [|t l IH]; intros d; cbn [foldl]; [quiet|].
  eapply Quiet_trans; [|apply IH]. quiet.
Qed.

Lemma Quiet_foldl_setStatusWorker st l d :
  Quiet d (foldl (fun d w => setStatusWorker w st d) d l).
Proof.
  revert d. induction l as [|t l IH]; intros d; cbn [foldl]; [quiet|].
  eapply Quiet_trans; [|apply IH]. quiet.
Qed.

Lemma Run_cancel_reports d :
  Quiet (set_status DispatcherStatusCancel d) (Run_cancel d).
Proof.
  unfold Run_cancel. cbv zeta.
  eapply Quiet_trans; [|apply Quiet_foldl_setStatusTask].
  eapply Quiet_trans; [|apply Quiet_foldl_setStatusWorker].
  apply Quiet_setStatusDispatcher.
Qed.

Lemma Run_return_reports d d' e :
  Run_return d = Some (d', e) ->
  wg d = 0 /\ Quiet (set_status DispatcherStatusWait d) d'.
Proof.
  unfold Run_return. destruct (wg d =? 0) eqn:E; [|done]. intros [= <- <-].
  split; [by apply Z.eqb_eq|]. apply Quiet_setStatusDispatcher.
Qed.

Lemma doRunTask_start_frame now w t d k d' :
  doRunTask_start now w t d = (k, d') ->
  status d' = status d
  /\ workers d' = workers d
  /\ allowExecuteTasks d' = allowExecuteTasks d
  /\ length (workerItems d') = length (workerItems d)
  /\ listeners d'
     = listeners d
       ++ [EventWorkerStatusChanged w WorkerStatusProcess (worker_status w d);
           EventTaskStatusChanged t TaskStatusProcess (task_status t d)].
Proof.
  unfold doRunTask_start. cbv zeta.
  destruct (task_Attempts _ _ =? 1), (task_Timeout_of _ _ >? 0);
    intros [= <- <-]; dsimpl; rewrite ?length_alter, ?list_lookup_alter_eq,
      ?list_lookup_alter_ne, <- ?app_assoc; repeat split; try done;
    by destruct (workerItems d !! w), (taskItems d !! t).
Qed.

Lemma doRunTask_start_reports now w t d k d' :
  doRunTask_start now w t d = (k, d') ->
  k = length (ctxs d)
  /\ wg d' = wg d + 1 /\ status d' = status d /\ ctx d' = ctx d
  /\ ctxs d'
     = ctxs d ++ [mkDerived (ctx d)
                    (if task_Timeout_of t d >? 0
                     then Some (now + task_Timeout_of t d) else None)]
  /\ started (listeners d') = started (listeners d)
  /\ stopped (listeners d') = stopped (listeners d).
Proof.
  intros E.
  destruct (doRunTask_start_frame _ _ _ _ _ _ E) as (F1 & _ & _ & F4 & F5).
  destruct (doRunTask_start_ctx _ _ _ _ _ _ E) as (C1 & C2 & C3 & _).
  rewrite F5, started_app, stopped_app. cbn. rewrite !app_nil_r.
  repeat split; try done.
  clear -E. revert E. unfold doRunTask_start. cbv zeta.
  destruct (task_Attempts _ _ =? 1); intros [= <- <-]; dsimpl;
    rewrite ?list_lookup_alter_eq; destruct (taskItems d !! t); cbn;
    try done; by destruct (_ >? 0).
Qed.

Lemma Quiet_doRunTask_exit k d : Quiet (set_wg (wg d - 1) d) (doRunTask_exit k d).
Proof.
  unfold doRunTask_exit. cbv zeta. constructor; try done.
  apply only_cancels_alter.
Qed.

Lemma doRunTask_exit_frame k d :
  let d' := doRunTask_exit k d in
  status d' = status d /\ ctx d' = ctx d /\ workers d' = workers d
  /\ tasks d' = tasks d /\ workerItems d' = workerItems d
  /\ taskItems d' = taskItems d /\ listeners d' = listeners d
  /\ allowExecuteTasks d' = allowExecuteTasks d
  /\ wg d' = wg d - 1
  /\ ctxs d' = alter (dc_finish Canceled) k (ctxs d).
Proof. unfold doRunTask_exit. by dsimpl. Qed.

(** ** The wait group, the status, the reports and the contexts over a run *)

Lemma only_cancels_Forall (P : Derived -> Prop) l l' :
  (forall c, P c -> P (dc_finish Canceled c)) ->
  only_cancels l l' -> Forall P l -> Forall P l'.
Proof.
  intros HP H. induction H as [|c c' l l' [->| ->] H IH]; intros HF; [done| |];
    inversion HF; subst; constructor; auto.
Qed.

Lemma only_cancels_root l l' :
  only_cancels l l' ->
  Forall (fun c => dc_err c <> None) l -> Forall (fun c => dc_err c <> None) l'.
Proof. apply only_cancels_Forall. intros [[e|] dl]; cbn; done. Qed.

Lemma only_cancels_deadline root l l' :
  only_cancels l l' ->
  Forall (deadline_justified root) l -> Forall (deadline_justified root) l'.
Proof.
  apply only_cancels_Forall. unfold deadline_justified.
  intros [[e|] dl]; cbn; [done|]. intros _ [=].
Qed.

Lemma only_cancels_length l l' : only_cancels l l' -> length l' = length l.
Proof. intros H. symmetry. by eapply Forall2_length. Qed.

(** A block that leaves the goroutines where they stand. *)
Lemma Accounted_same s d' r :
  Accounted s ->
  wg d' = wg (shared s) ->
  status d' = status_of_run r ->
  ctx d' = ctx (shared s) ->
  only_cancels (ctxs (shared s)) (ctxs d') ->
  started (listeners d') = started (listeners (shared s)) ->
  stopped (listeners d') = stopped (listeners (shared s)) ->
  Accounted (mkSystem d' r (collector s) (dispatch s) (spawned s) (inflight s)).
Proof.
  intros [A1 A2 A3 A4 A5 A6 A7] Q1 Q2 Q3 Q4 Q5 Q6.
  constructor; unfold registered, held_pair in *;
    cbn [shared run collector dispatch spawned inflight] in *; try done.
  - by rewrite Q1.
  - by rewrite Q5, Q6.
  - rewrite Q3. intros H. by eapply only_cancels_root; [|apply A5].
  - rewrite Q3. by eapply only_cancels_deadline.
  - intros a Ha. rewrite (only_cancels_length _ _ Q4). by apply A7.
Qed.

Lemma Accounted_quiet s d' :
  Accounted s -> Quiet (shared s) d' -> Accounted (with_shared d' s).
Proof.
  intros A Q. pose proof (acc_status _ A) as A2.
  destruct Q. apply Accounted_same; try done. congruence.
Qed.

Lemma Accounted_initial parent : Accounted (initial parent).
Proof.
  constructor; cbn; try done; try (by constructor);
    try (intros a r H; by inversion H); intros a H; by inversion H.
Qed.

Lemma doRunTask_select_pair c k w t done d r :
  doRunTask_select c k w t done d = Some r ->
  (forall r', done = Some r' -> workerItem r' = w /\ taskItem r' = t) ->
  workerItem r = w /\ taskItem r = t.
Proof.
  destruct c; cbn; [|by auto].
  destruct (ctxs d !! k ≫= dc_err); cbn; [|done]. by intros [= <-].
Qed.

Lemma run_goroutine_pair w t o r :
  run_goroutine w t o = Some r -> workerItem r = w /\ taskItem r = t.
Proof.
  destruct o as [res e|v]; cbn; [by intros [= <-]|].
  destruct v; intros H; by simplify_eq.
Qed.

(** The root context ends: the derived contexts end with it. *)
Lemma Accounted_ctx_done s e :
  e = Canceled \/ e = DeadlineExceeded ->
  Accounted s -> Accounted (with_shared (ctx_done e (shared s)) s).
Proof.
  intros He A. unfold ctx_done. destruct (ctx (shared s)) eqn:E.
  { destruct s. exact A. }
  destruct A as [A1 A2 A3 A4 A5 A6 A7].
  constructor; unfold registered, held_pair in *;
    cbn [with_shared set_ctx wg status ctx ctxs listeners shared run collector
         dispatch spawned inflight] in *; try done.
  - intros _. apply Forall_fmap, Forall_true. by intros [[x|] dl].
  - apply Forall_fmap. eapply Forall_impl; [exact A6|].
    unfold deadline_justified. intros [[x|] dl]; cbn.
    + intros H Hx. destruct (H Hx) as [?|Hr]; [auto|]. by rewrite E in Hr.
    + intros _ [= ->]. auto.
  - intros a Ha. rewrite length_fmap. by apply A7.
Qed.

Lemma Accounted_step s s' : Accounted s -> step s s' -> Accounted s'.
Proof.
  intros I St. destruct St.
  - (* AddWorker *) eapply Accounted_quiet, Quiet_AddWorker; eauto.
  - apply Accounted_quiet, Quiet_RemoveWorker; done.
  - eapply Accounted_quiet, Quiet_AddTask; eauto.
  - apply Accounted_quiet, Quiet_RemoveTask; done.
  - (* Cancel *) apply Accounted_ctx_done; auto.
  - by apply Accounted_ctx_done.
  - (* a deadline passes *)
    match goal with H : ctxs _ !! _ = _ |- _ => rename H into Hk end.
    match goal with H : dc_deadline _ = _ |- _ => rename H into Hd end.
    destruct I as [A1 A2 A3 A4 A5 A6 A7].
    constructor; unfold registered, held_pair in *;
      cbn [with_shared set_ctx wg status ctx ctxs listeners shared run collector
           dispatch spawned inflight] in *; try done.
    + intros H. apply Forall_lookup. intros j x.
      destruct (decide (j = k)) as [->|Hne].
      * rewrite list_lookup_alter_eq, Hk. cbn. intros [= <-].
        by destruct c as [[x|] dl].
      * rewrite list_lookup_alter_ne by done. intros Hx.
        by apply (Forall_lookup_1 _ _ _ _ (A5 H) Hx).
    + apply Forall_lookup. intros j x.
      destruct (decide (j = k)) as [->|Hne].
      * rewrite list_lookup_alter_eq, Hk. cbn. intros [= <-].
        pose proof (Forall_lookup_1 _ _ _ _ A6 Hk) as J.
        unfold deadline_justified in *. destruct c as [[x|] dl]; cbn in *; [done|].
        intros _. left. by rewrite Hd.
      * rewrite list_lookup_alter_ne by done. intros Hx.
        by apply (Forall_lookup_1 _ _ _ _ A6 Hx).
    + intros a Ha. rewrite length_alter. by apply A7.
  - (* Run_enter *)
    match goal with H : Run_enter _ = _ |- _ =>
      apply Run_enter_reports in H as (_ & S & Q) end.
    pose proof (Accounted_same s d' RunAwaitsCtx I (quiet_wg _ _ Q) S (quiet_ctx _ _ Q)
                  (quiet_ctxs _ _ Q) (quiet_started _ _ Q) (quiet_stopped _ _ Q))
      as [A1 A2 A3 A4 A5 A6 A7].
    constructor; unfold registered, held_pair in *;
      cbn [shared run collector dispatch spawned inflight] in *; try done.
    + rewrite A1.
      repeat match goal with H : goroutine_free _ _ |- _ => destruct H as [->| ->] end;
        done.
    + etrans; [|exact A3].
      repeat match goal with H : goroutine_free _ _ |- _ => destruct H as [->| ->] end;
        done.
  - (* Run_cancel *)
    pose proof (Run_cancel_reports (shared s)) as Q.
    apply (Accounted_same s _ RunAwaitsWg I (quiet_wg _ _ Q)); apply Q.
  - (* Run_return *)
    match goal with H : Run_return _ = _ |- _ =>
      apply Run_return_reports in H as (_ & Q) end.
    apply (Accounted_same s _ RunReturned I (quiet_wg _ _ Q)); apply Q.
  - (* collector_begin *)
    match goal with H : collector s = _ |- _ => rename H into Hc end.
    destruct I as [A1 A2 A3 A4 A5 A6 A7].
    constructor; unfold registered, held_pair in *;
      cbn [set_wg wg status ctx ctxs listeners shared run collector dispatch
           spawned inflight] in *; try done.
    + rewrite A1, Hc. lia.
    + by rewrite Hc in A3.
  - match goal with H : collector s = _ |- _ => rename H into Hc end.
    destruct I as [A1 A2 A3 A4 A5 A6 A7].
    constructor; unfold registered, held_pair in *;
      cbn [set_wg wg status ctx ctxs listeners shared run collector dispatch
           spawned inflight] in *; try done.
    + rewrite A1, Hc. lia.
    + by rewrite Hc in A3.
  - (* collector_result *)
    match goal with H : doResultCollector_result _ _ _ = _ |- _ =>
      apply doResultCollector_result_reports in H as (Q1&Q2&Q3&Qc&Q4&Q5&_) end.
    match goal with H : collector s = _ |- _ => rename H into Hc end.
    destruct I as [A1 A2 A3 A4 A5 A6 A7].
    constructor; unfold registered, held_pair in *;
      cbn [shared run collector dispatch spawned inflight] in *; try done.
    + rewrite Q1, A1, Hc. done.
    + by rewrite Q2.
    + rewrite Q4, Q5, Hc in *. etrans; [|exact A3]. rewrite app_nil_r.
      destruct (IsStatus _ _); solve_submseteq.
    + rewrite Q3. intros Hroot. by eapply only_cancels_root; [|apply A5].
    + rewrite Q3. by eapply only_cancels_deadline.
    + intros a Ha. rewrite (only_cancels_length _ _ Qc). by apply A7.
  - (* dispatch_begin *)
    match goal with H : dispatch s = _ |- _ => rename H into Hc end.
    destruct I as [A1 A2 A3 A4 A5 A6 A7].
    constructor; unfold registered, held_pair in *;
      cbn [set_wg wg status ctx ctxs listeners shared run collector dispatch
           spawned inflight] in *; try done.
    rewrite A1, Hc. lia.
  - match goal with H : dispatch s = _ |- _ => rename H into Hc end.
    destruct I as [A1 A2 A3 A4 A5 A6 A7].
    constructor; unfold registered, held_pair in *;
      cbn [set_wg wg status ctx ctxs listeners shared run collector dispatch
           spawned inflight] in *; try done.
    rewrite A1, Hc. lia.
  - (* dispatch_signal *)
    match goal with H : doExecuteTasks _ _ _ = _ |- _ =>
      apply doExecuteTasks_reports in H as (Q1&Q2&Q3&Qc&Q4&Q5&_) end.
    destruct I as [A1 A2 A3 A4 A5 A6 A7].
    cbn [set_allowExecuteTasks wg status ctx ctxs listeners] in *.
    constructor; unfold registered, held_pair in *;
      cbn [shared run collector dispatch spawned inflight] in *; try done.
    + by rewrite Q1.
    + by rewrite Q2.
    + rewrite Q4, Q5.
      etrans; [|apply submseteq_app; [exact A3|reflexivity]]. solve_submseteq.
    + rewrite Q3. intros Hroot. by eapply only_cancels_root; [|apply A5].
    + rewrite Q3. by eapply only_cancels_deadline.
    + intros a Ha. rewrite (only_cancels_length _ _ Qc). by apply A7.
  - match goal with H : doExecuteTasks _ _ _ = _ |- _ =>
      apply doExecuteTasks_reports in H as (Q1&Q2&Q3&Qc&Q4&Q5&_) end.
    destruct I as [A1 A2 A3 A4 A5 A6 A7].
    constructor; unfold registered, held_pair in *;
      cbn [shared run collector dispatch spawned inflight] in *; try done.
    + by rewrite Q1.
    + by rewrite Q2.
    + rewrite Q4, Q5.
      etrans; [|apply submseteq_app; [exact A3|reflexivity]]. solve_submseteq.
    + rewrite Q3. intros Hroot. by eapply only_cancels_root; [|apply A5].
    + rewrite Q3. by eapply only_cancels_deadline.
    + intros a Ha. rewrite (only_cancels_length _ _ Qc). by apply A7.
  - (* doRunTask_start *)
    match goal with H : doRunTask_start _ _ _ _ = _ |- _ =>
      apply doRunTask_start_reports in H as (-> & Q1 & Q2 & Q3 & Qc & Q4 & Q5) end.
    match goal with H : spawned s !! _ = _ |- _ => rename H into Hs end.
    destruct I as [A1 A2 A3 A4 A5 A6 A7].
    constructor; unfold registered, held_pair in *;
      cbn [shared run collector dispatch spawned inflight] in *; try done.
    + rewrite Q1, A1, length_app. cbn. lia.
    + by rewrite Q2.
    + rewrite Q4, Q5. etrans; [|exact A3].
      rewrite fmap_app. cbn [fmap list_fmap pair_of at_worker at_task].
      apply Permutation_submseteq.
      rewrite (delete_Permutation (spawned s) i (w, t) Hs) at 2.
      solve_Permutation.
    + intros a r Ha. apply elem_of_app in Ha as [Ha|Ha]; [by apply A4|].
      apply list_elem_of_singleton in Ha as ->. done.
    + rewrite Q3, Qc. intros Hroot. apply Forall_app. split; [by apply A5|].
      by apply Forall_singleton.
    + rewrite Q3, Qc. apply Forall_app. split; [done|].
      apply Forall_singleton. unfold deadline_justified. cbn. auto.
    + rewrite Qc, length_app. cbn. intros a Ha.
      apply elem_of_app in Ha as [Ha|Ha]; [apply A7 in Ha; lia|].
      apply list_elem_of_singleton in Ha as ->. cbn. lia.
  - (* goroutine *)
    match goal with H : inflight s !! _ = _ |- _ => rename H into Hi end.
    destruct I as [A1 A2 A3 A4 A5 A6 A7].
    assert (forall a', a' ∈ <[i:=mkAttempt (at_worker a) (at_task a) (at_ctx a) true
                               (run_goroutine (at_worker a) (at_task a) o)]> (inflight s) ->
              a' ∈ inflight s
              \/ a' = mkAttempt (at_worker a) (at_task a) (at_ctx a) true
                        (run_goroutine (at_worker a) (at_task a) o)) as Hin.
    { intros a' Ha. apply list_elem_of_lookup in Ha as [j Hj].
      destruct (decide (j = i)) as [->|Hne].
      - rewrite list_lookup_insert_eq in Hj by (by eapply lookup_lt_Some).
        right. congruence.
      - rewrite list_lookup_insert_ne in Hj by done.
        left. by eapply list_elem_of_lookup_2. }
    constructor; unfold registered, held_pair in *;
      cbn [shared run collector dispatch spawned inflight] in *; try done.
    + by rewrite length_insert.
    + rewrite list_fmap_insert. cbn [pair_of at_worker at_task].
      rewrite list_insert_id; [done|]. by rewrite list_lookup_fmap, Hi.
    + intros a' r Ha. apply Hin in Ha as [Ha| ->]; [by apply A4|].
      cbn. apply run_goroutine_pair.
    + intros a' Ha. apply Hin in Ha as [Ha| ->]; [by apply A7|].
      cbn. apply A7. by eapply list_elem_of_lookup_2.
  - (* send *)
    match goal with H : inflight s !! _ = _ |- _ => rename H into Hi end.
    match goal with H : collector s = _ |- _ => rename H into Hc end.
    destruct I as [A1 A2 A3 A4 A5 A6 A7].
    match goal with H : doRunTask_select _ _ _ _ _ _ = _ |- _ =>
      apply doRunTask_select_pair in H as [Hw Ht];
      [|intros r' Hr'; apply (A4 a); [by eapply list_elem_of_lookup_2|done]] end.
    pose proof (Quiet_doRunTask_exit (at_ctx a) (shared s)) as Q.
    pose proof (quiet_wg _ _ Q) as Q1. pose proof (quiet_ctx _ _ Q) as Q3.
    pose proof (quiet_ctxs _ _ Q) as Qc.
    pose proof (quiet_started _ _ Q) as Q4. pose proof (quiet_stopped _ _ Q) as Q5.
    clear Q. cbn [set_wg wg status ctx ctxs listeners] in *.
    assert (forall a', a' ∈ delete i (inflight s) -> a' ∈ inflight s) as Hin.
    { intros a' Ha. eapply elem_of_submseteq; [exact Ha|].
      apply sublist_submseteq, sublist_delete. }
    constructor; unfold registered, held_pair in *;
      cbn [shared run collector dispatch spawned inflight] in *; try done.
    + rewrite Q1, A1, Hc, length_delete by (by eexists).
      apply lookup_lt_Some in Hi. lia.
    + rewrite Q4, Q5, Hw, Ht. etrans; [|exact A3]. rewrite Hc, app_nil_r.
      apply Permutation_submseteq.
      rewrite (fmap_Permutation pair_of _ _ (delete_Permutation _ i a Hi)).
      cbn [fmap list_fmap]. unfold pair_of at 2. solve_Permutation.
    + intros a' r' Ha. apply A4. by apply Hin.
    + rewrite Q3. intros Hroot. by eapply only_cancels_root; [|apply A5].
    + rewrite Q3. by eapply only_cancels_deadline.
    + intros a' Ha. rewrite (only_cancels_length _ _ Qc). by apply A7, Hin.
Qed.

Lemma Accounted_reach parent n s : reach parent n s -> Accounted s.
Proof.
  induction 1; [apply Accounted_initial|by eapply Accounted_step].
Qed.

(** X13.  In every state of a run the wait group counts the goroutines
    between their [wg.Add(1)] and their [wg.Done()]: the collector and the
    dispatch loop once they have begun, and the calls of [doRunTask] at
    their [select].  It is never negative. *)
Theorem wait_group_counts_goroutines parent n s :
  reach parent n s ->
  wg (shared s) = registered s /\ 0 <= wg (shared s).
Proof.
  intros R. apply Accounted_reach in R as [A1 _ _ _ _ _ _]. split; [done|].
  rewrite A1. unfold registered.
  destruct (collector s) as [[]|], (dispatch s) as [[]|]; lia.
Qed.

Lemma wait_group_counts_goroutines_witness :
  wg (shared sample_system) = registered sample_system
  /\ 0 <= wg (shared sample_system).
Proof.
  apply (wait_group_counts_goroutines None 6%nat sample_system sample_system_reach).
Defined.

(** X14.  [Run] gets past [d.wg.Wait()] exactly when no goroutine is
    counted: no call of [doRunTask] is in flight, the collector holds no
    envelope, and the collector and the dispatch loop have returned or not
    begun. *)
Theorem Run_returns_when_drained parent n s :
  reach parent n s ->
  (Run_return (shared s) <> None <-> registered s = 0)
  /\ (Run_return (shared s) <> None ->
      inflight s = [] /\ held_pair s = []
      /\ collector s <> Some CollectorSelect
      /\ dispatch s <> Some DispatchSelect).
Proof.
  intros R. apply Accounted_reach in R as [A1 _ _ _ _ _ _].
  assert (Run_return (shared s) <> None <-> registered s = 0) as H.
  { unfold Run_return. rewrite <- A1.
    destruct (Z.eqb_spec (wg (shared s)) 0); split; try done. }
  split; [done|]. intros H0. apply H in H0. unfold registered, held_pair in *.
  destruct (collector s) as [[]|], (dispatch s) as [[]|], (inflight s);
    cbn in *; try lia; done.
Qed.

Lemma Run_returns_when_drained_witness :
  (Run_return (shared sample_system) <> None <-> registered sample_system = 0)
  /\ (Run_return (shared sample_system) <> None ->
      inflight sample_system = [] /\ held_pair sample_system = []
      /\ collector sample_system <> Some CollectorSelect
      /\ dispatch sample_system <> Some DispatchSelect).
Proof.
  apply (Run_returns_when_drained None 6%nat sample_system sample_system_reach).
Defined.

(** X15.  In every state of a run the status of the dispatcher is the one
    of the place [Run] stands at: Wait before [Run] and after its return,
    Process while it waits for the root context, Cancel while it waits for
    the wait group. *)
Theorem status_follows_Run parent n s :
  reach parent n s ->
  status (shared s) = status_of_run (run s)
  /\ (IsStatus DispatcherStatusProcess (shared s) = true <-> run s = RunAwaitsCtx).
Proof.
  intros R. apply Accounted_reach in R as [_ A2 _ _ _ _ _]. split; [done|].
  unfold IsStatus. rewrite A2. by destruct (run s).
Qed.

Lemma status_follows_Run_witness :
  status (shared sample_system) = status_of_run (run sample_system)
  /\ (IsStatus DispatcherStatusProcess (shared sample_system) = true
      <-> run sample_system = RunAwaitsCtx).
Proof.
  apply (status_follows_Run None 6%nat sample_system sample_system_reach).
Defined.

(** X16.  The guard of [Run] is a test of the status (line 302) followed by
    a store (line 306).  A call that tests while the status is not Wait
    returns the error "Dispatcher is running" and changes nothing: so does
    a call that tests in a state of a run whose accepted call waits for the
    root context or for the wait group.  From a dispatcher in Wait, a call
    alone is accepted, and a second call that tests after the store of the
    first is refused; but two calls that both test before either stores are
    both accepted, and when their two [setStatusDispatcher] follow one
    another the listeners are handed the change to Process twice, from Wait
    and from Process. *)
Theorem Run_guard_is_test_then_store :
  (forall d,
     IsStatus DispatcherStatusWait d = false ->
     Run_run [0%nat] [EntryAtCheck] d = Some ([EntryRefused], d)
     /\ Run_enter d = Some (d, Some (errors_New "Dispatcher is running")))
  /\ (forall parent n s,
        reach parent n s ->
        run s = RunAwaitsCtx \/ run s = RunAwaitsWg ->
        Run_run [0%nat] [EntryAtCheck] (shared s)
        = Some ([EntryRefused], shared s))
  /\ (forall d,
        IsStatus DispatcherStatusWait d = true ->
        Run_run [0; 0]%nat [EntryAtCheck] d
        = Some ([EntryAccepted], setStatusDispatcher DispatcherStatusProcess d)
        /\ Run_enter d
           = (d' ← notifyAllowExecuteTasks
                     (setStatusDispatcher DispatcherStatusProcess d);
              Some (d', None))
        /\ Run_run [0; 0; 1]%nat [EntryAtCheck; EntryAtCheck] d
           = Some ([EntryAccepted; EntryRefused],
                   setStatusDispatcher DispatcherStatusProcess d)
        /\ Run_run [0; 1; 0; 1]%nat [EntryAtCheck; EntryAtCheck] d
           = Some ([EntryAccepted; EntryAccepted],
                   setStatusDispatcher DispatcherStatusProcess
                     (setStatusDispatcher DispatcherStatusProcess d))
        /\ listeners (setStatusDispatcher DispatcherStatusProcess
                        (setStatusDispatcher DispatcherStatusProcess d))
           = listeners d
             ++ [EventDispatcherStatusChanged DispatcherStatusProcess
                   DispatcherStatusWait;
                 EventDispatcherStatusChanged DispatcherStatusProcess
                   DispatcherStatusProcess]).
Proof.
  split; [|split].
  - intros d H. unfold Run_enter. cbn. by rewrite H.
  - intros parent n s R Hrun.
    apply Accounted_reach in R as [_ A2 _ _ _ _ _].
    cbn. unfold IsStatus. rewrite A2.
    by destruct Hrun as [-> | ->].
  - intros d H.
    assert (forall x, IsStatus DispatcherStatusWait
              (setStatusDispatcher DispatcherStatusProcess x) = false) as H'
      by reflexivity.
    split; [|split; [|split; [|split]]].
    + cbn [Run_run Run_op mbind option_bind lookup list_lookup].
      rewrite H. reflexivity.
    + unfold Run_enter. by rewrite H.
    + cbn [Run_run Run_op mbind option_bind lookup list_lookup].
      rewrite H. cbn [negb list_insert insert lookup list_lookup
                      mbind option_bind Run_run Run_op].
      rewrite H'. reflexivity.
    + cbn [Run_run Run_op mbind option_bind lookup list_lookup].
      rewrite H. cbn [negb list_insert insert lookup list_lookup
                      mbind option_bind Run_run Run_op].
      rewrite H. reflexivity.
    + unfold setStatusDispatcher. dsimpl. rewrite <- app_assoc. cbn.
      unfold IsStatus in H. apply Z.eqb_eq in H. by rewrite H.
Qed.

Lemma Run_guard_is_test_then_store_witness :
  (Run_run [0%nat] [EntryAtCheck] (shared sample_system)
   = Some ([EntryRefused], shared sample_system)
   /\ Run_enter (shared sample_system)
      = Some (shared sample_system,
              Some (errors_New "Dispatcher is running")))
  /\ Run_run [0%nat] [EntryAtCheck] (shared sample_system)
     = Some ([EntryRefused], shared sample_system)
  /\ (Run_run [0; 0]%nat [EntryAtCheck] NewSimpleDispatcher
      = Some ([EntryAccepted],
              setStatusDispatcher DispatcherStatusProcess NewSimpleDispatcher)
      /\ Run_enter NewSimpleDispatcher
         = (d' ← notifyAllowExecuteTasks
                   (setStatusDispatcher DispatcherStatusProcess
                      NewSimpleDispatcher);
            Some (d', None))
      /\ Run_run [0; 0; 1]%nat [EntryAtCheck; EntryAtCheck] NewSimpleDispatcher
         = Some ([EntryAccepted; EntryRefused],
                 setStatusDispatcher DispatcherStatusProcess
                   NewSimpleDispatcher)
      /\ Run_run [0; 1; 0; 1]%nat [EntryAtCheck; EntryAtCheck] NewSimpleDispatcher
         = Some ([EntryAccepted; EntryAccepted],
                 setStatusDispatcher DispatcherStatusProcess
                   (setStatusDispatcher DispatcherStatusProcess
                      NewSimpleDispatcher))
      /\ listeners (setStatusDispatcher DispatcherStatusProcess
                      (setStatusDispatcher DispatcherStatusProcess
                         NewSimpleDispatcher))
         = listeners NewSimpleDispatcher
           ++ [EventDispatcherStatusChanged DispatcherStatusProcess
                 DispatcherStatusWait;
               EventDispatcherStatusChanged DispatcherStatusProcess
                 DispatcherStatusProcess]).
Proof.
  split; [|split].
  - apply (proj1 Run_guard_is_test_then_store (shared sample_system)).
    vm_compute. reflexivity.
  - apply (proj1 (proj2 Run_guard_is_test_then_store) None 6%nat sample_system
             sample_system_reach).
    by left.
  - apply (proj2 (proj2 Run_guard_is_test_then_store) NewSimpleDispatcher).
    vm_compute. reflexivity.
Defined.

(** X17.  In every state of a run, the executions reported as stopped, the
    launched ones that have not begun, the ones in flight and the one whose
    envelope the collector holds are, pair by pair of worker and task,
    among the executions reported as started: no stop without its own
    start, and no execution without one. *)
Theorem stops_match_starts parent n s :
  reach parent n s ->
  stopped (listeners (shared s)) ++ spawned s ++ (pair_of <$> inflight s)
    ++ held_pair s
  ⊆+ started (listeners (shared s))
  /\ stopped (listeners (shared s)) ⊆+ started (listeners (shared s)).
Proof.
  intros R. apply Accounted_reach in R as [_ _ A3 _ _ _ _]. split; [done|].
  etrans; [|exact A3]. apply submseteq_inserts_r. done.
Qed.

Lemma stops_match_starts_witness :
  stopped (listeners (shared sample_system)) ++ spawned sample_system
    ++ (pair_of <$> inflight sample_system) ++ held_pair sample_system
  ⊆+ started (listeners (shared sample_system))
  /\ stopped (listeners (shared sample_system))
     ⊆+ started (listeners (shared sample_system)).
Proof.
  apply (stops_match_starts None 6%nat sample_system sample_system_reach).
Defined.

(** X21.  In every state of a run, once [Cancel] has been called the
    [ctx.Done()] case is ready for every call of [doRunTask] in flight: each
    can send its envelope, flagged as a cancellation exactly when the error
    of its context is [context.Canceled]. *)
Theorem Cancel_reaches_every_attempt parent n s a :
  reach parent n s ->
  a ∈ inflight s ->
  exists e,
    doRunTask_select CaseCtxDone (at_ctx a) (at_worker a) (at_task a) (at_done a)
      (Cancel (shared s)).1
    = Some (mkResult (at_worker a) (at_task a) VNil (Some e) (error_eqb e Canceled)).
Proof.
  intros R Ha. apply Accounted_reach in R as [_ _ _ _ A5 _ A7].
  apply A7 in Ha. apply lookup_lt_is_Some in Ha as [c Hc].
  unfold Cancel, ctx_done, doRunTask_select.
  destruct (ctx (shared s)) as [e0|] eqn:E; cbn [fst].
  - assert (Some e0 <> @None error) as Hne by done.
    pose proof (Forall_lookup_1 _ _ _ _ (A5 Hne) Hc) as Hd.
    rewrite Hc. destruct c as [[e|] dl]; cbn in *; [by exists e|done].
  - cbn. rewrite list_lookup_fmap, Hc. cbn.
    destruct c as [[e|] dl]; cbn; [by exists e|by exists Canceled].
Qed.

Lemma Cancel_reaches_every_attempt_witness :
  exists e,
    doRunTask_select CaseCtxDone 0 0 0 None (Cancel (shared sample_system)).1
    = Some (mkResult 0 0 VNil (Some e) (error_eqb e Canceled)).
Proof.
  apply (Cancel_reaches_every_attempt None 6%nat sample_system
           (mkAttempt 0 0 0 false None) sample_system_reach).
  vm_compute. constructor.
Defined.

Lemma sample_timed_out_system_reach : reach None 7 sample_timed_out_system.
Proof.
  eapply reach_step; [eapply reach_step; [eapply reach_step; [eapply reach_step;
    [eapply reach_step; [eapply reach_step; [eapply reach_step;
      [apply reach_init|]|]|]|]|]|]|].
  - eapply (step_AddWorker _ 100 sample_worker). vm_compute. reflexivity.
  - eapply (step_AddTask _ (mkTask "t1" 1 0 5)); [|vm_compute; reflexivity].
    unfold int64. cbn. lia.
  - eapply step_Run_enter; [by left|by left|by left|vm_compute; reflexivity].
  - eapply step_dispatch_begin. reflexivity.
  - eapply (step_dispatch_signal _ 200 2); [reflexivity| |];
      vm_compute; reflexivity.
  - eapply step_to;
      [eapply (step_doRunTask_start _ 201 0 0 0); vm_compute; reflexivity|].
    vm_compute. reflexivity.
  - eapply step_to;
      [eapply (step_deadline _ 0 (mkDerived None (Some 206)) 206 206);
       [vm_compute; reflexivity|reflexivity|lia]|].
    vm_compute. reflexivity.
Qed.

(** X22.  [doRunTask] derives a context with the deadline [now + timeout]
    when the task's timeout is positive and one without deadline otherwise;
    and in every state of a run, a derived context that ended with
    [DeadlineExceeded] has a deadline, unless the root context ended with
    the deadline of its parent. *)
Theorem deadline_needs_timeout :
  (forall now w t d,
     ctxs (doRunTask_start now w t d).2 !! (doRunTask_start now w t d).1
     = Some (mkDerived (ctx d)
               (if task_Timeout_of t d >? 0
                then Some (now + task_Timeout_of t d) else None)))
  /\ (forall parent n s k c,
        reach parent n s ->
        ctxs (shared s) !! k = Some c ->
        dc_err c = Some DeadlineExceeded ->
        dc_deadline c <> None \/ ctx (shared s) = Some DeadlineExceeded).
Proof.
  split.
  - intros now w t d. destruct (doRunTask_start now w t d) as [k d'] eqn:E.
    cbn [fst snd].
    apply doRunTask_start_reports in E as (-> & _ & _ & _ & -> & _).
    by rewrite lookup_app_r, Nat.sub_diag by lia.
  - intros parent n s k c R Hk Hc.
    apply Accounted_reach in R as [_ _ _ _ _ A6 _].
    by apply (Forall_lookup_1 _ _ _ _ A6 Hk).
Qed.

Lemma deadline_needs_timeout_witness :
  ctxs (doRunTask_start 201 0 0 (sample_started 1 0 5)).2
    !! (doRunTask_start 201 0 0 (sample_started 1 0 5)).1
  = Some (mkDerived (ctx (sample_started 1 0 5))
            (if task_Timeout_of 0 (sample_started 1 0 5) >? 0
             then Some (201 + task_Timeout_of 0 (sample_started 1 0 5))
             else None))
  /\ (Some 206 <> @None Z
      \/ ctx (shared sample_timed_out_system) = Some DeadlineExceeded).
Proof.
  split.
  - apply (proj1 deadline_needs_timeout 201 0%nat 0%nat (sample_started 1 0 5)).
  - apply (proj2 deadline_needs_timeout None 7%nat sample_timed_out_system 0%nat
             (mkDerived (Some DeadlineExceeded) (Some 206))
             sample_timed_out_system_reach); vm_compute; reflexivity.
Defined.

(** ** Adding and removing tasks and workers *)

(** What a notification leaves in the channel. *)
Lemma notifyAllowExecuteTasks_signal d d' :
  notifyAllowExecuteTasks d = Some d' ->
  allowExecuteTasks d'
  = (if IsStatus DispatcherStatusProcess d && (allowExecuteTasks d =? 0)%nat
     then 1 else allowExecuteTasks d)%nat
  /\ d' = set_allowExecuteTasks (allowExecuteTasks d') d.
Proof.
  unfold notifyAllowExecuteTasks, notify_check, notify_send, chan_send,
    allowExecuteTasks_cap.
  destruct (IsStatus _ d); cbn.
  - destruct (allowExecuteTasks d) as [|n] eqn:E; cbn.
    + by intros [= <-].
    + intros [= <-]. split; [done|]. destruct d; cbn in *. by subst.
  - intros [= <-]. split; [done|]. by destruct d.
Qed.

(** X5.  [AddTask] always makes a new item for the task, in Wait and never
    attempted.  When the manager rejects the push, [AddTask] returns its
    error and neither tells the listeners nor signals the dispatch loop;
    otherwise the task waits at the end of the queue, the listeners are
    handed [TaskAdd], and a dispatcher in Process has a signal pending. *)
Theorem AddTask_outcome task d d' e :
  AddTask task d = Some (d', e) ->
  let item := length (taskItems d) in
  taskItems d' = taskItems d ++ [NewTasksManagerItem task TaskStatusWait]
  /\ workers d' = workers d
  /\ match e with
     | Some _ =>
         tasks d' = tasks d
         /\ listeners d' = listeners d
         /\ allowExecuteTasks d' = allowExecuteTasks d
     | None =>
         m_queue (tasks d') = m_queue (tasks d) ++ [item]
         /\ listeners d' = listeners d ++ [EventTaskAdd item]
         /\ allowExecuteTasks d'
            = (if IsStatus DispatcherStatusProcess d
                  && (allowExecuteTasks d =? 0)%nat
               then 1 else allowExecuteTasks d)%nat
     end.
Proof.
  unfold AddTask, tasks_Push, Push. cbv zeta.
  cbn [tasks taskItems set_taskItems].
  destruct (mem _ _ || _) eqn:E1; cbn [fst snd].
  - intros [= <- <-]. cbn. by destruct d.
  - destruct (notifyAllowExecuteTasks _) as [d2|] eqn:N; [|done].
    cbn. intros [= <- <-].
    apply notifyAllowExecuteTasks_signal in N as [N1 ->].
    rewrite N1. cbn. done.
Qed.

Lemma AddTask_outcome_witness :
  let d := sample_started 1 0 0 in
  let d' := state_of (AddTask (mkTask "t2" 1 0 0) d) in
  taskItems d'
  = taskItems d ++ [NewTasksManagerItem (mkTask "t2" 1 0 0) TaskStatusWait]
  /\ workers d' = workers d
  /\ m_queue (tasks d') = m_queue (tasks d) ++ [length (taskItems d)]
  /\ listeners d' = listeners d ++ [EventTaskAdd (length (taskItems d))]
  /\ allowExecuteTasks d'
     = (if IsStatus DispatcherStatusProcess d && (allowExecuteTasks d =? 0)%nat
        then 1 else allowExecuteTasks d)%nat.
Proof.
  apply (AddTask_outcome (mkTask "t2" 1 0 0) (sample_started 1 0 0)
           (state_of (AddTask (mkTask "t2" 1 0 0) (sample_started 1 0 0))) None).
  vm_compute. reflexivity.
Defined.

Lemma GetById_Some has_id m p :
  GetById has_id m = Some p -> p ∈ m_items m /\ has_id p = true.
Proof.
  unfold GetById. intros H. apply find_some in H as [H1 H2].
  by apply list_elem_of_In in H1.
Qed.

Lemma GetById_None has_id m :
  GetById has_id m = None -> forall p, p ∈ m_items m -> has_id p = false.
Proof.
  unfold GetById. intros H p Hp. apply (find_none _ _ H). by apply list_elem_of_In.
Qed.

Lemma alter_as_insert {A} (f : A -> A) i (l : list A) x :
  l !! i = Some x -> alter f i l = <[i := f x]> l.
Proof.
  intros H. apply list_eq. intros j. destruct (decide (j = i)) as [->|Hne].
  - rewrite list_lookup_alter_eq, H.
    by rewrite list_lookup_insert_eq by (by eapply lookup_lt_Some).
  - by rewrite list_lookup_alter_ne, list_lookup_insert_ne.
Qed.

(** [RemoveTask] on a task that is managed. *)
Lemma RemoveTask_found task d item :
  GetById (task_has_id (task_Id task) d) (tasks d) = Some item ->
  let d' := RemoveTask task d in
  exists it,
    taskItems d !! item = Some it
    /\ task_Id (ti_task it) = task_Id task
    /\ taskItems d' = <[item := ti_SetStatus TaskStatusCancel it]> (taskItems d)
    /\ tasks d' = Remove item (tasks d)
    /\ ctxs d' = match ti_cancel it with
                 | Some k => alter (dc_finish Canceled) k (ctxs d)
                 | None => ctxs d
                 end
    /\ listeners d'
       = listeners d ++ [EventTaskStatusChanged item TaskStatusCancel (ti_status it);
                         EventTaskRemove item]
    /\ workers d' = workers d /\ workerItems d' = workerItems d
    /\ status d' = status d /\ ctx d' = ctx d /\ wg d' = wg d
    /\ allowExecuteTasks d' = allowExecuteTasks d.
Proof.
  intros G. unfold RemoveTask. rewrite G.
  apply GetById_Some in G as [Hin Hid]. unfold task_has_id in Hid.
  destruct (taskItems d !! item) as [it|] eqn:Hit; [|done].
  apply String.eqb_eq in Hid. exists it.
  split; [done|]. split; [done|].
  assert (taskItems (setStatusTask item TaskStatusCancel d) !! item
          = Some (ti_SetStatus TaskStatusCancel it)) as Hit'.
  { dsimpl. by rewrite list_lookup_alter_eq, Hit. }
  rewrite Hit'. cbn [mbind option_bind ti_SetStatus ti_cancel].
  rewrite <- (alter_as_insert (ti_SetStatus TaskStatusCancel) _ _ _ Hit).
  destruct (ti_cancel it); dsimpl; cbn; unfold task_status;
    rewrite Hit, <- app_assoc; done.
Qed.

(** [RemoveWorker] on a worker that is managed. *)
Lemma RemoveWorker_found worker d item :
  GetById (worker_has_id (worker_Id worker) d) (workers d) = Some item ->
  let d' := RemoveWorker worker d in
  exists wi,
    workerItems d !! item = Some wi
    /\ worker_Id (wi_worker wi) = worker_Id worker
    /\ workerItems d'
       = <[item := wi_SetTask None (wi_SetStatus WorkerStatusCancel wi)]> (workerItems d)
    /\ workers d' = Remove item (workers d)
    /\ ctxs d' = match wi_cancel wi with
                 | Some k => alter (dc_finish Canceled) k (ctxs d)
                 | None => ctxs d
                 end
    /\ listeners d'
       = listeners d ++ [EventWorkerStatusChanged item WorkerStatusCancel (wi_status wi);
                         EventWorkerRemove item]
    /\ tasks d' = tasks d /\ taskItems d' = taskItems d
    /\ status d' = status d /\ ctx d' = ctx d /\ wg d' = wg d
    /\ allowExecuteTasks d' = allowExecuteTasks d.
Proof.
  intros G. unfold RemoveWorker. rewrite G.
  apply GetById_Some in G as [Hin Hid]. unfold worker_has_id in Hid.
  destruct (workerItems d !! item) as [wi|] eqn:Hit; [|done].
  apply String.eqb_eq in Hid. exists wi.
  split; [done|]. split; [done|].
  assert (workerItems (setStatusWorker item WorkerStatusCancel d) !! item
          = Some (wi_SetStatus WorkerStatusCancel wi)) as Hit'.
  { dsimpl. by rewrite list_lookup_alter_eq, Hit. }
  rewrite Hit'. cbn [mbind option_bind wi_SetStatus wi_cancel].
  rewrite <- (alter_as_insert (fun x => wi_SetTask None (wi_SetStatus WorkerStatusCancel x))
                _ _ _ Hit).
  destruct (wi_cancel wi); dsimpl; cbn; unfold worker_status;
    rewrite Hit, <- app_assoc;
    (split; [apply list_alter_alter_eq|done]).
Qed.

(** X6.  [RemoveTask] of a task no managed item has the id of changes
    nothing.  Otherwise the first managed item with that id is set to
    [TaskStatusCancel], the context of its attempt in flight (if any) is
    cancelled, the item leaves the manager, and the listeners are handed the
    status change and then [TaskRemove]; the workers are left alone. *)
Theorem RemoveTask_outcome task d :
  match GetById (task_has_id (task_Id task) d) (tasks d) with
  | None =>
      (forall p it, p ∈ m_items (tasks d) -> taskItems d !! p = Some it ->
                    task_Id (ti_task it) <> task_Id task)
      /\ RemoveTask task d = d
  | Some item =>
      let d' := RemoveTask task d in
      exists it,
        taskItems d !! item = Some it
        /\ task_Id (ti_task it) = task_Id task
        /\ task_status item d' = TaskStatusCancel
        /\ (item ∉ m_items (tasks d')) /\ (item ∉ m_queue (tasks d'))
        /\ ctxs d' = match ti_cancel it with
                     | Some k => alter (dc_finish Canceled) k (ctxs d)
                     | None => ctxs d
                     end
        /\ listeners d'
           = listeners d ++ [EventTaskStatusChanged item TaskStatusCancel (ti_status it);
                             EventTaskRemove item]
        /\ workers d' = workers d /\ workerItems d' = workerItems d
  end.
Proof.
  destruct (GetById _ _) as [item|] eqn:G.
  - destruct (RemoveTask_found _ _ _ G)
      as (it & Hit & Hid & Hi & Ht & Hc & Hl & Hw & Hwi & _).
    cbv zeta in *. exists it. unfold task_status.
    rewrite Hi, Ht, list_lookup_insert_eq by (by eapply lookup_lt_Some).
    repeat split; try done; apply Remove_gone.
  - split; [|by unfold RemoveTask; rewrite G]. intros p it Hp Hit.
    apply (GetById_None _ _ G) in Hp. unfold task_has_id in Hp. rewrite Hit in Hp.
    by apply String.eqb_neq in Hp.
Qed.

(** X7.  [RemoveTask] of a task whose attempt is in flight: the [ctx.Done()]
    case of the attempt's [select] is ready with a cancellation envelope,
    and when the collector has processed it the task is still in Cancel and
    not managed, while the worker is settled like after any cancellation
    (back in Wait and in the pool unless it is itself in Cancel). *)
Theorem RemoveTask_cancels_attempt task now w t k c it wi done d :
  GetById (task_has_id (task_Id task) d) (tasks d) = Some t ->
  taskItems d !! t = Some it ->
  ti_cancel it = Some k ->
  ctxs d !! k = Some c ->
  dc_err c = None ->
  workerItems d !! w = Some wi ->
  IsStatus DispatcherStatusCancel d = false ->
  let d1 := RemoveTask task d in
  let r := mkResult w t VNil (Some Canceled) true in
  doRunTask_select CaseCtxDone k w t done d1 = Some r
  /\ exists d2,
       doResultCollector_result now r (doRunTask_exit k d1) = Some d2
       /\ task_status t d2 = TaskStatusCancel
       /\ (t ∉ m_items (tasks d2)) /\ (t ∉ m_queue (tasks d2))
       /\ task_status_changes t (listeners d2)
          = task_status_changes t (listeners d)
            ++ [(TaskStatusCancel, ti_status it)]
       /\ worker_settled r (doRunTask_exit k d1) wi d2.
Proof.
  intros G Hit Hk Hc He Hwi Hd. cbv zeta.
  destruct (RemoveTask_found _ _ _ G)
    as (it' & Hit' & _ & Hi & Ht & Hcs & Hl & Hw & Hwis & Hs & _).
  cbv zeta in *. assert (it' = it) as -> by congruence.
  rewrite Hk in Hcs.
  split.
  { unfold doRunTask_select. rewrite Hcs, list_lookup_alter_eq, Hc. cbn.
    by rewrite He. }
  destruct (doRunTask_exit_frame k (RemoveTask task d))
    as (X1 & X2 & X3 & X4 & X5 & X6 & X7 & _).
  set (dx := doRunTask_exit k (RemoveTask task d)) in *. cbv zeta in *.
  clearbody dx.
  assert (IsStatus DispatcherStatusCancel dx = false) as Hdx.
  { unfold IsStatus in *. by rewrite X1, Hs. }
  assert (taskItems dx !! t = Some (ti_SetStatus TaskStatusCancel it)) as Htx.
  { rewrite X6, Hi. apply list_lookup_insert_eq. by eapply lookup_lt_Some. }
  assert (workerItems dx !! w = Some wi) as Hwx by (by rewrite X5, Hwis).
  destruct (doResultCollector_result_cancelled now
              (mkResult w t VNil (Some Canceled) true) dx _ Hdx eq_refl Htx)
    as (d2 & E2 & L2 & I2 & T2).
  destruct (doResultCollector_result_worker now
              (mkResult w t VNil (Some Canceled) true) dx wi Hdx Hwx)
    as (d2' & E2' & W2).
  assert (d2' = d2) as -> by congruence.
  exists d2. cbn [taskItem] in *. unfold task_status.
  rewrite I2, T2, X4, Ht, L2, X7, Hl, task_status_changes_app. cbn.
  destruct (decide (t = t)); [|done].
  repeat split; try done; apply Remove_gone.
Qed.

Lemma RemoveTask_cancels_attempt_witness :
  let d := sample_running 1 0 0 in
  let d1 := RemoveTask (mkTask "t1" 1 0 0) d in
  let r := mkResult 0 0 VNil (Some Canceled) true in
  doRunTask_select CaseCtxDone 0 0 0 None d1 = Some r
  /\ exists d2,
       doResultCollector_result 300 r (doRunTask_exit 0 d1) = Some d2
       /\ task_status 0 d2 = TaskStatusCancel
       /\ (0%nat ∉ m_items (tasks d2)) /\ (0%nat ∉ m_queue (tasks d2))
       /\ task_status_changes 0 (listeners d2)
          = task_status_changes 0 (listeners d)
            ++ [(TaskStatusCancel, TaskStatusProcess)]
       /\ worker_settled r (doRunTask_exit 0 d1)
            (mkWorkersManagerItem sample_worker WorkerStatusProcess 100
               (Some (mkTask "t1" 1 0 0)) (Some 0%nat)) d2.
Proof.
  apply (RemoveTask_cancels_attempt (mkTask "t1" 1 0 0) 300 0 0 0
           (mkDerived None None)
           (mkTasksManagerItem (mkTask "t1" 1 0 0) TaskStatusProcess 1 None
              (Some 201) (Some 201) (Some 0%nat))
           (mkWorkersManagerItem sample_worker WorkerStatusProcess 100
              (Some (mkTask "t1" 1 0 0)) (Some 0%nat))
           None (sample_running 1 0 0)); vm_compute; reflexivity.
Defined.

(** X8.  [RemoveWorker] of a worker whose attempt is in flight, the
    cancellation being seen first: the worker stays in Cancel and out of the
    manager, and the collector leaves the task exactly as it was (its
    status, no status event, not pushed, not removed): the task stays
    managed without waiting for another attempt. *)
Theorem RemoveWorker_leaves_task worker now w t k c it wi done d :
  GetById (worker_has_id (worker_Id worker) d) (workers d) = Some w ->
  workerItems d !! w = Some wi ->
  wi_cancel wi = Some k ->
  ctxs d !! k = Some c ->
  dc_err c = None ->
  taskItems d !! t = Some it ->
  IsStatus DispatcherStatusCancel d = false ->
  let d1 := RemoveWorker worker d in
  let r := mkResult w t VNil (Some Canceled) true in
  doRunTask_select CaseCtxDone k w t done d1 = Some r
  /\ exists d2,
       doResultCollector_result now r (doRunTask_exit k d1) = Some d2
       /\ worker_status w d2 = WorkerStatusCancel
       /\ (w ∉ m_items (workers d2)) /\ (w ∉ m_queue (workers d2))
       /\ taskItems d2 !! t = Some (ti_SetCancel None it)
       /\ tasks d2 = tasks d
       /\ task_status_changes t (listeners d2)
          = task_status_changes t (listeners d).
Proof.
  intros G Hwi Hk Hc He Hit Hd. cbv zeta.
  destruct (RemoveWorker_found _ _ _ G)
    as (wi' & Hwi' & _ & Hi & Hw & Hcs & Hl & Ht & Htis & Hs & _).
  cbv zeta in *. assert (wi' = wi) as -> by congruence.
  rewrite Hk in Hcs.
  split.
  { unfold doRunTask_select. rewrite Hcs, list_lookup_alter_eq, Hc. cbn.
    by rewrite He. }
  destruct (doRunTask_exit_frame k (RemoveWorker worker d))
    as (X1 & X2 & X3 & X4 & X5 & X6 & X7 & _).
  set (dx := doRunTask_exit k (RemoveWorker worker d)) in *. cbv zeta in *.
  clearbody dx.
  assert (IsStatus DispatcherStatusCancel dx = false) as Hdx.
  { unfold IsStatus in *. by rewrite X1, Hs. }
  assert (taskItems dx !! t = Some it) as Htx by (by rewrite X6, Htis).
  assert (workerItems dx !! w
          = Some (wi_SetTask None (wi_SetStatus WorkerStatusCancel wi))) as Hwx.
  { rewrite X5, Hi. apply list_lookup_insert_eq. by eapply lookup_lt_Some. }
  destruct (doResultCollector_result_cancelled now
              (mkResult w t VNil (Some Canceled) true) dx _ Hdx eq_refl Htx)
    as (d2 & E2 & L2 & I2 & T2).
  destruct (doResultCollector_result_worker now
              (mkResult w t VNil (Some Canceled) true) dx _ Hdx Hwx)
    as (d2' & E2' & W2).
  assert (d2' = d2) as -> by congruence.
  exists d2. unfold worker_settled in W2. cbn in W2. destruct W2 as (_ & W2 & W3).
  cbn [taskItem] in *. unfold worker_status.
  rewrite W2, W3, X3, Hw, I2, T2, X4, Ht, L2, X7, Hl, task_status_changes_app.
  cbn. rewrite app_nil_r.
  repeat split; try done; apply Remove_gone.
Qed.

Lemma RemoveWorker_leaves_task_witness :
  let d := sample_running 1 0 0 in
  let d1 := RemoveWorker sample_worker d in
  let r := mkResult 0 0 VNil (Some Canceled) true in
  doRunTask_select CaseCtxDone 0 0 0 None d1 = Some r
  /\ exists d2,
       doResultCollector_result 300 r (doRunTask_exit 0 d1) = Some d2
       /\ worker_status 0 d2 = WorkerStatusCancel
       /\ (0%nat ∉ m_items (workers d2)) /\ (0%nat ∉ m_queue (workers d2))
       /\ taskItems d2 !! 0%nat
          = Some (ti_SetCancel None
                    (mkTasksManagerItem (mkTask "t1" 1 0 0) TaskStatusProcess 1
                       None (Some 201) (Some 201) (Some 0%nat)))
       /\ tasks d2 = tasks d
       /\ task_status_changes 0 (listeners d2)
          = task_status_changes 0 (listeners d).
Proof.
  apply (RemoveWorker_leaves_task sample_worker 300 0 0 0
           (mkDerived None None)
           (mkTasksManagerItem (mkTask "t1" 1 0 0) TaskStatusProcess 1 None
              (Some 201) (Some 201) (Some 0%nat))
           (mkWorkersManagerItem sample_worker WorkerStatusProcess 100
              (Some (mkTask "t1" 1 0 0)) (Some 0%nat))
           None (sample_running 1 0 0)); vm_compute; reflexivity.
Defined.

(** ** What the collector reports, and a second Cancel *)

(** X9.  While the dispatcher is in Cancel the collector drops an envelope:
    no listener is told, no status, manager or signal changes.  Otherwise
    the last thing the listeners are handed is the [TaskExecuteStop] of the
    envelope, with its result and error, exactly one stop is added and no
    start, and a dispatcher in Process has a signal pending afterwards. *)
Theorem collector_reports_stop now r d d' :
  doResultCollector_result now r d = Some d' ->
  if IsStatus DispatcherStatusCancel d
  then
    listeners d' = listeners d /\ workers d' = workers d /\ tasks d' = tasks d
    /\ allowExecuteTasks d' = allowExecuteTasks d
    /\ (forall p, task_status p d' = task_status p d)
    /\ (forall p, worker_status p d' = worker_status p d)
  else
    last (listeners d')
    = Some (EventTaskExecuteStop (taskItem r) (workerItem r) (result r) (err r))
    /\ stopped (listeners d')
       = stopped (listeners d) ++ [(workerItem r, taskItem r)]
    /\ started (listeners d') = started (listeners d)
    /\ allowExecuteTasks d'
       = (if IsStatus DispatcherStatusProcess d && (allowExecuteTasks d =? 0)%nat
          then 1 else allowExecuteTasks d)%nat.
Proof.
  intros H.
  destruct (doResultCollector_result_reports _ _ _ _ H) as (_&_&_&_&Q4&Q5&_).
  revert H. unfold doResultCollector_result. cbv zeta.
  destruct (collector_prefix_frame r d) as (P1 & P2 & P3 & P4 & P5 & P6).
  set (d1 := worker_update _ _ _) in *. cbv zeta in *.
  assert (allowExecuteTasks d1 = allowExecuteTasks d) as P7 by (subst d1; by dsimpl).
  clearbody d1. unfold IsStatus in *. rewrite P1.
  destruct (status d =? DispatcherStatusCancel).
  - intros [= <-]. unfold task_status, worker_status. rewrite P5, P6.
    repeat split; try done; intros p.
    + destruct (decide (p = taskItem r)) as [->|Hne].
      * rewrite list_lookup_alter_eq. by destruct (taskItems d !! taskItem r).
      * by rewrite list_lookup_alter_ne.
    + destruct (decide (p = workerItem r)) as [->|Hne].
      * rewrite list_lookup_alter_eq. by destruct (workerItems d !! workerItem r).
      * by rewrite list_lookup_alter_ne.
  - destruct (collect_worker_frame r d1) as (_&W2&_&_&_&_&W7&_).
    set (d2 := collect_worker r d1) in *. cbv zeta in *. clearbody d2.
    destruct (collect_task_frame now r d2) as (_&T2&_&_&_&_&T7&_).
    set (d3 := collect_task now r d2) in *. cbv zeta in *. clearbody d3.
    intros N. apply notifyAllowExecuteTasks_signal in N as [N1 N2].
    rewrite N1, N2. unfold IsStatus.
    cbn [AsyncTrigger set_allowExecuteTasks listeners status allowExecuteTasks].
    rewrite last_snoc, T2, W2, P1, T7, W7, P7.
    rewrite N2 in Q4, Q5.
    cbn [AsyncTrigger set_allowExecuteTasks listeners] in Q4, Q5.
    done.
Qed.

Lemma collector_reports_stop_witness :
  let r := mkResult 0 0 (VString "ok") None false in
  let d := doRunTask_exit 0 (sample_running 1 0 0) in
  let d' := from_option id d (doResultCollector_result 300 r d) in
  last (listeners d') = Some (EventTaskExecuteStop 0 0 (VString "ok") None)
  /\ stopped (listeners d') = stopped (listeners d) ++ [(0%nat, 0%nat)]
  /\ started (listeners d') = started (listeners d)
  /\ allowExecuteTasks d'
     = (if IsStatus DispatcherStatusProcess d && (allowExecuteTasks d =? 0)%nat
        then 1 else allowExecuteTasks d)%nat.
Proof.
  apply (collector_reports_stop 300 (mkResult 0 0 (VString "ok") None false)
           (doRunTask_exit 0 (sample_running 1 0 0))).
  vm_compute. reflexivity.
Defined.

(** X10.  A second [Cancel] changes nothing and returns the same error.
    [Cancel] ends every derived context when the root context was not done,
    leaves a context that was done with the error it had, and touches
    nothing but the contexts. *)
Theorem Cancel_is_idempotent d :
  Cancel (Cancel d).1 = Cancel d
  /\ (ctx d = None -> Forall (fun c => dc_err c <> None) (ctxs (Cancel d).1))
  /\ (forall k c, ctxs d !! k = Some c -> dc_err c <> None ->
        ctxs (Cancel d).1 !! k = Some c)
  /\ length (ctxs (Cancel d).1) = length (ctxs d)
  /\ wg (Cancel d).1 = wg d /\ status (Cancel d).1 = status d
  /\ workers (Cancel d).1 = workers d /\ tasks (Cancel d).1 = tasks d
  /\ workerItems (Cancel d).1 = workerItems d
  /\ taskItems (Cancel d).1 = taskItems d
  /\ listeners (Cancel d).1 = listeners d
  /\ allowExecuteTasks (Cancel d).1 = allowExecuteTasks d.
Proof.
  unfold Cancel, ctx_done. destruct (ctx d) as [e|] eqn:E; cbn [fst snd].
  - rewrite E. repeat split; try done. by rewrite E.
  - cbn. repeat split; try done.
    + intros _. apply Forall_fmap, Forall_true. by intros [[x|] dl].
    + intros k c Hk Hc. rewrite list_lookup_fmap, Hk. cbn.
      by destruct c as [[x|] dl].
    + by rewrite length_fmap.
Qed.

(** ** One call of [doRunTask], one dispatch step *)

(** X11.  A call of [doRunTask] that gets to send sends one envelope, for
    its own worker and task: from [done] what the task function's goroutine
    put there, never flagged as a cancellation; from [ctx.Done()] an
    envelope without result whose error is the context's and whose cancel
    flag is set exactly for [context.Canceled].  At its return the wait
    group is where it was, the context of the attempt is done, and the
    listeners were handed the two status changes to Process. *)
Theorem doRunTask_sends_one_envelope now w t o c d r d' :
  doRunTask now w t o c d = Some (r, d') ->
  workerItem r = w /\ taskItem r = t
  /\ match c with
     | CaseDone =>
         o ≫= run_goroutine w t = Some r /\ cancel r = false
     | CaseCtxDone =>
         result r = VNil /\ err r <> None
         /\ (cancel r = true <-> err r = Some Canceled)
     end
  /\ wg d' = wg d
  /\ (exists x, ctxs d' !! length (ctxs d) = Some x /\ dc_err x <> None)
  /\ length (ctxs d') = S (length (ctxs d))
  /\ status d' = status d /\ ctx d' = ctx d
  /\ workers d' = workers d /\ tasks d' = tasks d
  /\ listeners d'
     = listeners d
       ++ [EventWorkerStatusChanged w WorkerStatusProcess (worker_status w d);
           EventTaskStatusChanged t TaskStatusProcess (task_status t d)].
Proof.
  unfold doRunTask.
  destruct (doRunTask_start now w t d) as [k d1] eqn:E.
  set (done := o ≫= run_goroutine w t).
  destruct (doRunTask_select c k w t done d1) as [r1|] eqn:Es; [|done].
  cbn. intros [= <- <-].
  assert (workerItem r1 = w /\ taskItem r1 = t) as [Hw Ht].
  { eapply doRunTask_select_pair; [exact Es|]. intros r' Hr'. subst done.
    destruct o as [o|]; [by eapply run_goroutine_pair|done]. }
  split; [done|]. split; [done|]. split.
  { destruct c; cbn in Es.
    - destruct (ctxs d1 !! k ≫= dc_err) as [e|]; [|done].
      injection Es as <-. cbn. split; [done|]. split; [done|].
      split; [intros H; by destruct e|by intros [= ->]].
    - split; [done|]. subst done.
      clear Hw Ht.
      destruct o as [[res e|[|n|str]]|]; cbn in Es; try done;
        by injection Es as <-. }
  destruct (doRunTask_start_frame _ _ _ _ _ _ E) as (F1 & F2 & _ & _ & F5).
  destruct (doRunTask_start_tasks _ _ _ _ _ _ E) as (T1 & _).
  destruct (doRunTask_start_ctx _ _ _ _ _ _ E) as (-> & C2 & C3 & dl & C4).
  destruct (doRunTask_exit_frame (length (ctxs d)) d1)
    as (X1 & X2 & X3 & X4 & _ & _ & X7 & _ & X9 & X10).
  cbv zeta in *. rewrite X1, X2, X3, X4, X7, X9, X10, F1, F2, F5, T1, C2, C3, C4.
  rewrite length_alter, length_app, list_lookup_alter_eq,
    lookup_app_r, Nat.sub_diag by lia. cbn.
  repeat split; try done; try lia.
  eexists. split; [reflexivity|]. by destruct (ctx d).
Qed.

Lemma doRunTask_sends_one_envelope_witness :
  let d := from_option fst NewSimpleDispatcher
             (doExecuteTasks 2 200 (sample_started 1 0 0)) in
  let r := mkResult 0 0 (VString "ok") None false in
  let d' := doRunTask_exit 0 (sample_running 1 0 0) in
  workerItem r = 0%nat /\ taskItem r = 0%nat
  /\ (Some (Returned (VString "ok") None) ≫= run_goroutine 0 0 = Some r
      /\ cancel r = false)
  /\ wg d' = wg d
  /\ (exists x, ctxs d' !! length (ctxs d) = Some x /\ dc_err x <> None)
  /\ length (ctxs d') = S (length (ctxs d))
  /\ status d' = status d /\ ctx d' = ctx d
  /\ workers d' = workers d /\ tasks d' = tasks d
  /\ listeners d'
     = listeners d
       ++ [EventWorkerStatusChanged 0 WorkerStatusProcess (worker_status 0 d);
           EventTaskStatusChanged 0 TaskStatusProcess (task_status 0 d)].
Proof.
  apply (doRunTask_sends_one_envelope 201 0 0
           (Some (Returned (VString "ok") None)) CaseDone
           (from_option fst NewSimpleDispatcher
              (doExecuteTasks 2 200 (sample_started 1 0 0)))).
  vm_compute. reflexivity.
Defined.

Lemma dispatch_run_launches now d launched d' :
  dispatch_run now d launched d' ->
  listeners d'
  = listeners d ++ ((fun p => EventTaskExecuteStart p.2 p.1) <$> launched)
  /\ workerItems d' = workerItems d /\ taskItems d' = taskItems d
  /\ Forall (fun p => p.1 ∈ m_queue (workers d)
                      /\ worker_status p.1 d = WorkerStatusWait
                      /\ p.2 ∈ m_queue (tasks d)
                      /\ task_eligible now d p.2 = true) launched.
Proof.
  induction 1 as [d w d1 t d2 launched d' Hw Ht Hrun (IH1 & IH2 & IH3 & IH4)
                 | d ow d1 ot d2 Hw Ht Hor].
  - apply workers_Pull_Some in Hw as (Hwq & Hwe & ->).
    apply tasks_Pull_Some in Ht as (Htq & Hte & ->).
    cbn [AsyncTrigger set_tasks set_workers listeners workerItems taskItems
         workers tasks m_queue m_items] in *.
    rewrite IH1, IH2, IH3, <- app_assoc. repeat split; try done.
    constructor.
    + cbn. repeat split; try done.
      unfold worker_eligible, worker_IsStatus in Hwe. by apply Z.eqb_eq in Hwe.
    + eapply Forall_impl; [exact IH4|]. intros [w' t'] (H1 & H2 & H3 & H4).
      cbn in *. repeat split; try done.
      * eapply elem_of_submseteq; [exact H1|apply without_submseteq].
      * eapply elem_of_submseteq; [exact H3|apply without_submseteq].
  - assert (Quiet d (push_back ow ot d2)) as Q.
    { eapply Quiet_trans; [eapply Quiet_trans|apply Quiet_push_back];
        [by eapply Quiet_workers_Pull|by eapply Quiet_tasks_Pull]. }
    cbn. rewrite app_nil_r.
    assert (listeners d2 = listeners d /\ workerItems d2 = workerItems d
            /\ taskItems d2 = taskItems d) as (L & W & T).
    { destruct ow, ot;
        repeat match goal with
        | H : workers_Pull _ = (Some _, _) |- _ => apply workers_Pull_Some in H as (_&_&->)
        | H : workers_Pull _ = (None, _) |- _ => apply workers_Pull_None in H as (->&_)
        | H : tasks_Pull _ _ = (Some _, _) |- _ => apply tasks_Pull_Some in H as (_&_&->)
        | H : tasks_Pull _ _ = (None, _) |- _ => apply tasks_Pull_None in H as (->&_)
        end; done. }
    unfold push_back.
    destruct ow as [w|], ot as [t|]; cbv zeta;
      repeat match goal with
      | |- context [tasks_Push ?p ?x] =>
          destruct (tasks_Push_frame p x) as (_&_&_&_&_&E6&E7&E8&_);
          cbv zeta in *; rewrite ?E6, ?E7, ?E8; clear E6 E7 E8
      | |- context [workers_Push ?p ?x] =>
          destruct (workers_Push_frame p x) as (_&_&_&_&_&E6&E7&E8&_);
          cbv zeta in *; rewrite ?E6, ?E7, ?E8; clear E6 E7 E8
      end; done.
Qed.

(** X12.  The dispatch step hands the listeners one [TaskExecuteStart] per
    launch, in the order of the launches, and nothing else; it changes no
    item; every launched worker waited in the pool in Wait and every
    launched task waited in the queue and was eligible at the time of the
    step; outside Process nothing is launched. *)
Theorem doExecuteTasks_launches fuel now d d' launched :
  doExecuteTasks fuel now d = Some (d', launched) ->
  listeners d'
  = listeners d ++ ((fun p => EventTaskExecuteStart p.2 p.1) <$> launched)
  /\ workerItems d' = workerItems d /\ taskItems d' = taskItems d
  /\ Forall (fun p => p.1 ∈ m_queue (workers d)
                      /\ worker_status p.1 d = WorkerStatusWait
                      /\ p.2 ∈ m_queue (tasks d)
                      /\ task_eligible now d p.2 = true) launched
  /\ (IsStatus DispatcherStatusProcess d = false -> d' = d /\ launched = []).
Proof.
  unfold doExecuteTasks. destruct (IsStatus _ d); cbn [negb].
  - intros H. apply doExecuteTasks_loop_run, dispatch_run_launches in H.
    destruct H as (?&?&?&?). done.
  - intros [= <- <-]. cbn. by rewrite app_nil_r.
Qed.

Lemma doExecuteTasks_launches_witness :
  let d := sample_started 1 0 0 in
  let d' := from_option fst d (doExecuteTasks 2 200 d) in
  listeners d' = listeners d ++ [EventTaskExecuteStart 0 0]
  /\ workerItems d' = workerItems d /\ taskItems d' = taskItems d
  /\ Forall (fun p => p.1 ∈ m_queue (workers d)
                      /\ worker_status p.1 d = WorkerStatusWait
                      /\ p.2 ∈ m_queue (tasks d)
                      /\ task_eligible 200 d p.2 = true) [(0%nat, 0%nat)]
  /\ (IsStatus DispatcherStatusProcess d = false ->
      d' = d /\ [(0%nat, 0%nat)] = []).
Proof.
  apply (doExecuteTasks_launches 2 200 (sample_started 1 0 0)
           (from_option fst (sample_started 1 0 0)
              (doExecuteTasks 2 200 (sample_started 1 0 0)))
           [(0%nat, 0%nat)]).
  vm_compute. reflexivity.
Defined.

(** ** Every task and every worker in one place *)

(** X18.  In every state of a run a task is in one place at most: waiting
    in the queue, launched, in flight, or in the envelope the collector
    holds; it is never queued while it executes, nor executed twice at
    once. *)
Theorem task_is_in_one_place parent n s :
  reach parent n s ->
  NoDup (queue (shared s) ++ (spawned s).*2 ++ (at_task <$> inflight s) ++ held s)
  /\ (forall t, t ∈ queue (shared s) ->
        (t ∉ (spawned s).*2) /\ (t ∉ at_task <$> inflight s) /\ (t ∉ held s)).
Proof.
  intros R. apply Inv_reach in R as [I1 _ _ _ _]. split; [done|].
  unfold live in I1. apply NoDup_app in I1 as (_ & H & _).
  intros t Ht. specialize (H t Ht). rewrite !elem_of_app in H. tauto.
Qed.

Lemma task_is_in_one_place_witness :
  NoDup (queue (shared sample_system) ++ (spawned sample_system).*2
           ++ (at_task <$> inflight sample_system) ++ held sample_system)
  /\ (forall t, t ∈ queue (shared sample_system) ->
        (t ∉ (spawned sample_system).*2)
        /\ (t ∉ at_task <$> inflight sample_system)
        /\ (t ∉ held sample_system)).
Proof.
  apply (task_is_in_one_place None 6%nat sample_system sample_system_reach).
Defined.

Lemma notifyAllowExecuteTasks_workers d d' :
  notifyAllowExecuteTasks d = Some d' ->
  workerItems d' = workerItems d /\ workers d' = workers d.
Proof.
  destruct (notifyAllowExecuteTasks_returns d) as (n & -> & _).
  by intros [= <-].
Qed.

Lemma AddWorker_pool now w d d' e :
  AddWorker now w d = Some (d', e) ->
  workerItems d' = workerItems d ++ [NewWorkersManagerItem now w WorkerStatusWait]
  /\ (pool d' = pool d \/ pool d' = pool d ++ [length (workerItems d)]).
Proof.
  unfold AddWorker, workers_Push, pool.
  match goal with |- context [Push ?f ?p ?m] =>
    assert (m_queue (Push f p m).1 = m_queue m
            \/ m_queue (Push f p m).1 = m_queue m ++ [p]) as Hq
      by (unfold Push; destruct (_ || _); cbn; auto);
    destruct (Push f p m) as [m1 [e1|]] end; cbn [fst] in *.
  - intros [= <- <-]. by dsimpl.
  - destruct (notifyAllowExecuteTasks _) as [d2|] eqn:N; [|done].
    cbn. intros [= <- <-]. apply notifyAllowExecuteTasks_workers in N as [-> ->].
    by dsimpl.
Qed.

Lemma RemoveWorker_pool w d :
  length (workerItems (RemoveWorker w d)) = length (workerItems d)
  /\ pool (RemoveWorker w d) ⊆+ pool d.
Proof.
  destruct (GetById (worker_has_id (worker_Id w) d) (workers d)) as [item|] eqn:G.
  - destruct (RemoveWorker_found _ _ _ G) as (wi & _ & _ & Hi & Hw & _).
    cbv zeta in *. unfold pool. rewrite Hi, Hw, length_insert. split; [done|].
    apply without_submseteq.
  - unfold RemoveWorker. by rewrite G.
Qed.

Lemma AddTask_workers t d d' e :
  AddTask t d = Some (d', e) ->
  workerItems d' = workerItems d /\ workers d' = workers d.
Proof.
  unfold AddTask.
  match goal with |- context [tasks_Push ?p ?x] =>
    destruct (tasks_Push_frame p x) as (_&_&_&_&E5&E6&_);
    destruct (tasks_Push p x) as [d1 [e1|]] end; cbn zeta in *; cbn [fst] in *.
  - intros [= <- <-]. by rewrite E5, E6.
  - destruct (notifyAllowExecuteTasks _) as [d2|] eqn:N; [|done].
    cbn. intros [= <- <-]. apply notifyAllowExecuteTasks_workers in N as [-> ->].
    dsimpl. by rewrite E5, E6.
Qed.

Lemma RemoveTask_workers t d :
  workerItems (RemoveTask t d) = workerItems d
  /\ workers (RemoveTask t d) = workers d.
Proof.
  destruct (GetById (task_has_id (task_Id t) d) (tasks d)) as [item|] eqn:G.
  - by destruct (RemoveTask_found _ _ _ G) as (it & _ & _ & _ & _ & _ & _ & Hw & Hi & _).
  - unfold RemoveTask. by rewrite G.
Qed.

Lemma Run_enter_workers d d' e :
  Run_enter d = Some (d', e) ->
  workerItems d' = workerItems d /\ workers d' = workers d.
Proof.
  unfold Run_enter. destruct (negb _); [by intros [= <- <-]|].
  destruct (notifyAllowExecuteTasks _) as [d2|] eqn:N; [|done].
  cbn. intros [= <- <-]. by apply notifyAllowExecuteTasks_workers in N as [-> ->].
Qed.

Lemma Run_cancel_workers d :
  length (workerItems (Run_cancel d)) = length (workerItems d)
  /\ workers (Run_cancel d) = workers d.
Proof.
  split; [|apply Run_cancel_marks].
  unfold Run_cancel. cbn zeta.
  match goal with |- context [foldl ?f (foldl ?g ?x ?k) ?l] =>
    destruct (foldl_setStatusTask_frame WorkerStatusCancel l (foldl g x k))
      as (_&_&_&_&_&_&E&_);
    destruct (foldl_setStatusWorker_frame WorkerStatusCancel k x)
      as (_&_&_&_&_&_&_&_&E') end.
  cbn zeta in *. by rewrite E, E'.
Qed.

(** The collector on the pool: the worker of the envelope is appended
    unless it waits there already. *)
Lemma doResultCollector_result_pool now r d d' :
  doResultCollector_result now r d = Some d' ->
  length (workerItems d') = length (workerItems d)
  /\ (pool d' = pool d
      \/ (pool d' = pool d ++ [workerItem r] /\ workerItem r ∉ pool d)).
Proof.
  unfold doResultCollector_result. cbv zeta.
  destruct (collector_prefix_frame r d) as (P1 & P2 & P3 & P4 & P5 & P6).
  set (d1 := worker_update _ _ _) in *. cbv zeta in *. clearbody d1.
  destruct (IsStatus _ d1).
  { intros [= <-]. unfold pool. rewrite P3, P6, length_alter. auto. }
  intros N. apply notifyAllowExecuteTasks_workers in N as [Ni Nw].
  cbn [AsyncTrigger workerItems workers] in Ni, Nw.
  destruct (collect_task_frame now r (collect_worker r d1)) as (_&_&_&_&T5&T6&_).
  cbv zeta in *. unfold pool. rewrite Ni, Nw, T5, T6. clear Ni Nw T5 T6.
  unfold collect_worker. cbv zeta. destruct (_ || _).
  - match goal with |- context [workers_Push ?p ?x] =>
      destruct (workers_Push_frame p x) as (_&_&_&_&_&E6&_&_&_&E10) end.
    cbv zeta in *. rewrite E6, E10. dsimpl.
    rewrite !length_alter, P6, length_alter, P3. split; [done|].
    match goal with |- context [Push ?f ?p ?m] =>
      destruct (Push_queue f p m) as [->|[-> ?]] end; auto.
  - dsimpl. rewrite length_alter, P6, length_alter, P3. auto.
Qed.

(** The dispatch step on the pool: the workers that wait afterwards
    together with the launched ones are among those that waited before,
    each once. *)
Lemma dispatch_run_pool now d launched d' :
  dispatch_run now d launched d' ->
  workerItems d' = workerItems d
  /\ pool d' ++ launched.*1 ⊆+ pool d.
Proof.
  induction 1 as [d w d1 t d2 launched d' Hw Ht Hrun [IHi IHq]
                 | d ow d1 ot d2 Hw Ht Hor].
  - apply workers_Pull_Some in Hw as (Hin & _ & ->).
    apply tasks_Pull_Some in Ht as (_ & _ & ->).
    unfold pool in *. dsimpl. split; [done|].
    cbn [fmap list_fmap fst].
    etrans; [apply Permutation_submseteq; symmetry; apply Permutation_middle|].
    etrans; [apply submseteq_skip, IHq|]. by apply without_cons_submseteq.
  - cbn [fmap list_fmap]. rewrite app_nil_r. unfold push_back, pool.
    assert (workerItems d2 = workerItems d1 /\ workers d2 = workers d1) as [Ei2 Ew2].
    { destruct ot as [t|].
      - apply tasks_Pull_Some in Ht as (_ & _ & ->). done.
      - apply tasks_Pull_None in Ht as [-> _]. done. }
    set (d3 := match ow with Some w => (workers_Push w d2).1 | None => d2 end).
    assert (workerItems (match ot with Some t => (tasks_Push t d3).1 | None => d3 end)
            = workerItems d3
            /\ workers (match ot with Some t => (tasks_Push t d3).1 | None => d3 end)
               = workers d3) as [-> ->].
    { destruct ot as [t|]; [|done].
      by destruct (tasks_Push_frame t d3) as (_&_&_&_&E5&E6&_). }
    subst d3. destruct ow as [w|].
    + apply workers_Pull_Some in Hw as (Hin & _ & ->).
      destruct (workers_Push_frame w d2) as (_&_&_&_&_&E6&_&_&_&E10).
      cbv zeta in *. rewrite E6, E10, Ei2, Ew2. cbn. split; [done|].
      match goal with |- context [Push ?f w ?m] =>
        destruct (Push_queue f w m) as [->|[-> _]] end; cbn.
      * apply without_submseteq.
      * etrans; [apply Permutation_submseteq; symmetry; apply Permutation_cons_append|].
        by apply without_cons_submseteq.
    + apply workers_Pull_None in Hw as [-> _]. by rewrite Ei2, Ew2.
Qed.

Lemma doExecuteTasks_pool fuel now d d' launched :
  doExecuteTasks fuel now d = Some (d', launched) ->
  workerItems d' = workerItems d
  /\ pool d' ++ launched.*1 ⊆+ pool d.
Proof.
  unfold doExecuteTasks. destruct (negb _).
  - intros [= <- <-]. cbn. by rewrite app_nil_r.
  - intros H. by eapply dispatch_run_pool, doExecuteTasks_loop_run.
Qed.

(** A block after which the workers that wait or execute are among those
    that did before, each once. *)
Lemma Pooled_preserved s s' :
  Pooled s ->
  (length (workerItems (shared s)) <= length (workerItems (shared s')))%nat ->
  pool (shared s') ++ busy s' ⊆+ pool (shared s) ++ busy s ->
  Pooled s'.
Proof.
  intros [P1 P2] L H. constructor.
  - by eapply submseteq_NoDup.
  - intros w Hw. eapply Nat.lt_le_trans; [|exact L].
    apply P2. by eapply elem_of_submseteq.
Qed.

Lemma Pooled_same s d' r c dsp :
  Pooled s ->
  length (workerItems d') = length (workerItems (shared s)) ->
  workers d' = workers (shared s) ->
  match c with Some (CollectorHolds r) => [workerItem r] | _ => [] end
  = held_worker s ->
  Pooled (mkSystem d' r c dsp (spawned s) (inflight s)).
Proof.
  intros P L W H. apply (Pooled_preserved s); [done|cbn; lia|].
  unfold pool, busy, held_worker in *. cbn. by rewrite W, H.
Qed.

Lemma Pooled_initial parent : Pooled (initial parent).
Proof. constructor; cbn; [constructor|]. intros w H. by inversion H. Qed.

Lemma Pooled_step s s' : Accounted s -> Pooled s -> step s s' -> Pooled s'.
Proof.
  intros A P St. destruct St.
  - (* AddWorker *)
    match goal with H : AddWorker _ _ _ = _ |- _ =>
      apply AddWorker_pool in H as [Hi Hq] end.
    destruct P as [P1 P2].
    assert (length (workerItems (shared s)) ∉ pool (shared s) ++ busy s) as Hfresh.
    { intros H. apply P2 in H. lia. }
    assert (pool d' ++ busy (with_shared d' s) ≡ₚ pool (shared s) ++ busy s
            \/ pool d' ++ busy (with_shared d' s)
               ≡ₚ length (workerItems (shared s)) :: (pool (shared s) ++ busy s))
      as Hp.
    { unfold busy, held_worker. cbn [with_shared shared collector spawned inflight].
      destruct Hq as [-> | ->]; [by left|right]. solve_Permutation. }
    constructor; cbn [with_shared shared].
    + destruct Hp as [-> | ->]; [done|]. by apply NoDup_cons.
    + fold (busy (with_shared d' s)). intros x Hx. rewrite Hi, length_app. cbn.
      destruct Hp as [Hp | Hp]; rewrite Hp in Hx.
      * apply P2 in Hx. lia.
      * apply elem_of_cons in Hx as [->|Hx]; [lia|]. apply P2 in Hx. lia.
  - (* RemoveWorker *)
    destruct (RemoveWorker_pool w (shared s)) as [L Q].
    apply (Pooled_preserved s); [done|cbn; lia|].
    unfold busy, held_worker. cbn. by apply submseteq_app.
  - match goal with H : AddTask _ _ = _ |- _ =>
      apply AddTask_workers in H as [Hi Hw] end.
    apply Pooled_same; try done. by rewrite Hi.
  - destruct (RemoveTask_workers t (shared s)) as [Hi Hw].
    apply Pooled_same; try done. by rewrite Hi.
  - apply Pooled_same; try done; unfold Cancel, ctx_done;
      by destruct (ctx (shared s)).
  - apply Pooled_same; try done; unfold ctx_done; by destruct (ctx (shared s)).
  - by apply Pooled_same.
  - (* Run_enter *)
    match goal with H : Run_enter _ = _ |- _ =>
      apply Run_enter_workers in H as [Hi Hw] end.
    apply (Pooled_preserved s); [done|cbn; by rewrite Hi|].
    unfold pool, busy, held_worker. cbn. rewrite Hw, app_nil_r.
    repeat apply submseteq_app; try done. by apply submseteq_inserts_r.
  - destruct (Run_cancel_workers (shared s)) as [Hi Hw].
    by apply Pooled_same.
  - match goal with H : Run_return _ = _ |- _ =>
      unfold Run_return in H; destruct (wg (shared s) =? 0); [|done];
      injection H as <- <- end.
    by apply Pooled_same.
  - match goal with H : collector s = _ |- _ => rename H into Hc end.
    apply Pooled_same; try done. unfold held_worker. by rewrite Hc.
  - match goal with H : collector s = _ |- _ => rename H into Hc end.
    apply Pooled_same; try done. unfold held_worker. by rewrite Hc.
  - (* collector_result *)
    match goal with H : collector s = _ |- _ => rename H into Hc end.
    match goal with H : doResultCollector_result _ _ _ = _ |- _ =>
      apply doResultCollector_result_pool in H as [L Q] end.
    apply (Pooled_preserved s); [done|cbn; lia|].
    unfold busy, held_worker. cbn. rewrite Hc, app_nil_r.
    destruct Q as [-> | [-> _]]; solve_submseteq.
  - match goal with H : dispatch s = _ |- _ => rename H into Hc end.
    by apply Pooled_same.
  - by apply Pooled_same.
  - (* dispatch_signal *)
    match goal with H : doExecuteTasks _ _ _ = _ |- _ =>
      apply doExecuteTasks_pool in H as [L Q] end.
    apply (Pooled_preserved s); [done|cbn; by rewrite L|].
    unfold busy, held_worker, pool in *. cbn in *. rewrite fmap_app.
    etrans; [|apply submseteq_app; [exact Q|reflexivity]]. solve_submseteq.
  - match goal with H : doExecuteTasks _ _ _ = _ |- _ =>
      apply doExecuteTasks_pool in H as [L Q] end.
    apply (Pooled_preserved s); [done|cbn; by rewrite L|].
    unfold busy, held_worker, pool in *. cbn in *. rewrite fmap_app.
    etrans; [|apply submseteq_app; [exact Q|reflexivity]]. solve_submseteq.
  - (* doRunTask_start *)
    match goal with H : doRunTask_start _ _ _ _ = _ |- _ =>
      apply doRunTask_start_frame in H as (_ & Hw & _ & L & _) end.
    match goal with H : spawned s !! _ = _ |- _ => rename H into Hs end.
    apply (Pooled_preserved s); [done|cbn; lia|].
    unfold busy, held_worker, pool. cbn. rewrite Hw, fmap_app. cbn.
    apply Permutation_submseteq.
    rewrite (fmap_Permutation fst _ _ (delete_Permutation _ i (w, t) Hs)).
    cbn. solve_Permutation.
  - (* goroutine *)
    match goal with H : inflight s !! _ = _ |- _ => rename H into Hi end.
    apply (Pooled_preserved s); [done|done|].
    unfold busy, held_worker. cbn. rewrite list_fmap_insert. cbn.
    rewrite list_insert_id; [done|]. by rewrite list_lookup_fmap, Hi.
  - (* send *)
    match goal with H : inflight s !! _ = _ |- _ => rename H into Hi end.
    match goal with H : collector s = _ |- _ => rename H into Hc end.
    match goal with H : doRunTask_select _ _ _ _ _ _ = _ |- _ =>
      apply doRunTask_select_pair in H as [Hw Ht];
      [|intros r' Hr'; apply (acc_done _ A a);
        [by eapply list_elem_of_lookup_2|done]] end.
    destruct (doRunTask_exit_frame (at_ctx a) (shared s)) as (_&_&X3&_&X5&_).
    cbv zeta in *.
    apply (Pooled_preserved s); [done|cbn [shared]; by rewrite X5|].
    unfold busy, held_worker, pool.
    cbn [shared collector spawned inflight]. rewrite X3, Hc, Hw, app_nil_r.
    apply Permutation_submseteq.
    rewrite (fmap_Permutation at_worker _ _ (delete_Permutation _ i a Hi)).
    cbn. solve_Permutation.
Qed.

Lemma Pooled_reach parent n s : reach parent n s -> Pooled s.
Proof.
  induction 1 as [|n s s' R IH St]; [apply Pooled_initial|].
  eapply Pooled_step; [by eapply Accounted_reach|exact IH|exact St].
Qed.

(** X19.  In every state of a run a worker item is in one place at most:
    waiting in the pool, launched, in flight, or in the envelope the
    collector holds; no worker runs two tasks at once, and none waits in
    the pool while it runs one. *)
Theorem worker_is_in_one_place parent n s :
  reach parent n s ->
  NoDup (pool (shared s) ++ (spawned s).*1 ++ (at_worker <$> inflight s)
           ++ held_worker s)
  /\ (forall w, w ∈ pool (shared s) ->
        (w ∉ (spawned s).*1) /\ (w ∉ at_worker <$> inflight s)
        /\ (w ∉ held_worker s)).
Proof.
  intros R. apply Pooled_reach in R as [P1 _]. split; [done|].
  unfold busy in P1. apply NoDup_app in P1 as (_ & H & _).
  intros w Hw. specialize (H w Hw). rewrite !elem_of_app in H. tauto.
Qed.

Lemma worker_is_in_one_place_witness :
  NoDup (pool (shared sample_system) ++ (spawned sample_system).*1
           ++ (at_worker <$> inflight sample_system) ++ held_worker sample_system)
  /\ (forall w, w ∈ pool (shared sample_system) ->
        (w ∉ (spawned sample_system).*1)
        /\ (w ∉ at_worker <$> inflight sample_system)
        /\ (w ∉ held_worker sample_system)).
Proof.
  apply (worker_is_in_one_place None 6%nat sample_system sample_system_reach).
Defined.

(** X20.  Over a block of a run (of fewer than 2^63 - 1 blocks) an item
    stays where it is, keeps its task, and its attempts counter stays or
    grows by one; a first start that is set is never overwritten. *)
Theorem task_record_is_stable parent n s s' t it :
  reach parent n s ->
  Z.of_nat n < 2 ^ 63 - 1 ->
  step s s' ->
  taskItems (shared s) !! t = Some it ->
  exists it',
    taskItems (shared s') !! t = Some it'
    /\ ti_task it' = ti_task it
    /\ (ti_attempts it' = ti_attempts it \/ ti_attempts it' = ti_attempts it + 1)
    /\ (ti_firstStartedAt it <> None ->
        ti_firstStartedAt it' = ti_firstStartedAt it).
Proof.
  intros R Hn St Hit.
  assert (keys (shared s) !! t = Some (key it)) as Hk.
  { unfold keys. by rewrite list_lookup_fmap, Hit. }
  assert (counted n (key it)) as [C1 C2] by (eapply counted_reach; eauto; lia).
  cbn in C1, C2.
  assert (forall x, keys (shared s') !! t = Some x ->
            exists it', taskItems (shared s') !! t = Some it' /\ key it' = x) as Hex.
  { unfold keys. intros x. rewrite list_lookup_fmap.
    destruct (taskItems (shared s') !! t) as [it'|]; cbn; [|done].
    intros [= <-]. eauto. }
  destruct (step_keys _ _ St) as [E | u E | now u Hu Hne].
  - rewrite E in Hex. destruct (Hex _ Hk) as (it' & Hit' & [= K1 K2 K3]).
    exists it'. rewrite K1, K2, K3. auto.
  - rewrite E in Hex. destruct (Hex (key it)) as (it' & Hit' & [= K1 K2 K3]).
    { by apply lookup_app_l_Some. }
    exists it'. rewrite K1, K2, K3. auto.
  - destruct (decide (t = u)) as [<-|Htu].
    + rewrite Hk in Hu. cbn in Hu.
      destruct (Hex _ Hu) as (it' & Hit' & K). exists it'. split; [done|].
      unfold start_key, key in K. cbn in K. injection K as K1 K2 K3.
      rewrite wrap64_small in K2, K3 by (unfold int64; lia).
      rewrite K1, K2, K3. repeat split; auto.
      intros Hf. destruct (ti_attempts it + 1 =? 1) eqn:E1; [|done].
      apply Z.eqb_eq in E1. assert (ti_attempts it = 0) as H0 by lia.
      by apply C2 in H0.
    + rewrite Hne in Hex by done.
      destruct (Hex _ Hk) as (it' & Hit' & [= K1 K2 K3]).
      exists it'. rewrite K1, K2, K3. auto.
Qed.

Lemma task_record_is_stable_witness :
  exists it',
    taskItems (shared (with_shared (Cancel (shared sample_system)).1 sample_system))
      !! 0%nat = Some it'
    /\ ti_task it' = mkTask "t1" 0 0 0
    /\ (ti_attempts it' = 1 \/ ti_attempts it' = 1 + 1)
    /\ (Some 201 <> None -> ti_firstStartedAt it' = Some 201).
Proof.
  apply (task_record_is_stable None 6%nat sample_system
           (with_shared (Cancel (shared sample_system)).1 sample_system) 0%nat
           (mkTasksManagerItem (mkTask "t1" 0 0 0) TaskStatusProcess 1 None
              (Some 201) (Some 201) (Some 0%nat)));
    [apply sample_system_reach | cbn; lia | apply step_Cancel
    | vm_compute; reflexivity].
Defined.

(** ** The status changes that are reported *)

Lemma replay_app s l k :
  replay s (l ++ k) = replay s l ≫= fun s' => replay s' k.
Proof.
  revert s. induction l as [|[new last] l IH]; intros s; cbn; [done|].
  destruct (last =? s); [apply IH|done].
Qed.

Lemma dispatcher_status_changes_app l k :
  dispatcher_status_changes (l ++ k)
  = dispatcher_status_changes l ++ dispatcher_status_changes k.
Proof. apply omap_app. Qed.

(** An operation that touches neither the items, nor the listeners, nor
    the status, nor what the managers hold. *)
Lemma Logged_same d d' :
  taskItems d' = taskItems d -> workerItems d' = workerItems d ->
  listeners d' = listeners d -> status d' = status d ->
  (forall p, p ∈ m_items (tasks d') ++ m_queue (tasks d') ->
             p ∈ m_items (tasks d) ++ m_queue (tasks d)) ->
  (forall p, p ∈ m_items (workers d') ++ m_queue (workers d') ->
             p ∈ m_items (workers d) ++ m_queue (workers d)) ->
  Logged d -> Logged d'.
Proof.
  intros E1 E2 E3 E4 S1 S2 [L1 L2 L3 L4 L5 L6 L7].
  constructor; rewrite ?E1, ?E2, ?E3, ?E4; auto.
Qed.

Lemma Logged_task_update f p d :
  (forall it, ti_status (f it) = ti_status it) ->
  Logged d -> Logged (task_update f p d).
Proof.
  intros Hf [L1 L2 L3 L4 L5 L6 L7].
  constructor; cbn [task_update set_taskItems taskItems workerItems listeners
                    status tasks workers]; rewrite ?length_alter; auto.
  intros q it. destruct (decide (q = p)) as [->|Hne].
  - rewrite list_lookup_alter_eq. destruct (taskItems d !! p) as [x|] eqn:E; [|done].
    cbn. intros [= <-]. rewrite Hf. by apply L1.
  - rewrite list_lookup_alter_ne by done. apply L1.
Qed.

Lemma Logged_worker_update f p d :
  (forall wi, wi_status (f wi) = wi_status wi) ->
  Logged d -> Logged (worker_update f p d).
Proof.
  intros Hf [L1 L2 L3 L4 L5 L6 L7].
  constructor; cbn [worker_update set_workerItems taskItems workerItems listeners
                    status tasks workers]; rewrite ?length_alter; auto.
  intros q it. destruct (decide (q = p)) as [->|Hne].
  - rewrite list_lookup_alter_eq. destruct (workerItems d !! p) as [x|] eqn:E; [|done].
    cbn. intros [= <-]. rewrite Hf. by apply L3.
  - rewrite list_lookup_alter_ne by done. apply L3.
Qed.

Lemma task_status_changes_one q p st last :
  task_status_changes q [EventTaskStatusChanged p st last]
  = if decide (p = q) then [(st, last)] else [].
Proof. cbn. by destruct (decide (p = q)). Qed.

Lemma worker_status_changes_one q p st last :
  worker_status_changes q [EventWorkerStatusChanged p st last]
  = if decide (p = q) then [(st, last)] else [].
Proof. cbn. by destruct (decide (p = q)). Qed.

Lemma Logged_setStatusTask p st d :
  (p < length (taskItems d))%nat ->
  Logged d -> Logged (setStatusTask p st d).
Proof.
  intros Hp [L1 L2 L3 L4 L5 L6 L7].
  constructor; cbn [setStatusTask AsyncTrigger task_update set_taskItems taskItems
                    workerItems listeners status tasks workers];
    rewrite ?length_alter; try done.
  - intros q it. rewrite task_status_changes_app, task_status_changes_one.
    destruct (decide (p = q)) as [->|Hne].
    + rewrite list_lookup_alter_eq. unfold task_status.
      destruct (taskItems d !! q) as [x|] eqn:E; [|done].
      cbn. intros [= <-]. rewrite replay_app, (L1 _ _ E). cbn.
      by rewrite Z.eqb_refl.
    + rewrite list_lookup_alter_ne, app_nil_r by done. apply L1.
  - intros q Hq. rewrite task_status_changes_app, task_status_changes_one.
    destruct (decide (p = q)) as [->|Hne]; [lia|].
    rewrite app_nil_r. by apply L2.
  - intros q wi. rewrite worker_status_changes_app. cbn. rewrite app_nil_r. apply L3.
  - intros q. rewrite worker_status_changes_app. cbn. rewrite app_nil_r. apply L4.
  - rewrite dispatcher_status_changes_app. cbn. by rewrite app_nil_r.
Qed.

Lemma Logged_setStatusWorker p st d :
  (p < length (workerItems d))%nat ->
  Logged d -> Logged (setStatusWorker p st d).
Proof.
  intros Hp [L1 L2 L3 L4 L5 L6 L7].
  constructor; cbn [setStatusWorker AsyncTrigger worker_update set_workerItems
                    taskItems workerItems listeners status tasks workers];
    rewrite ?length_alter; try done.
  - intros q it. rewrite task_status_changes_app. cbn. rewrite app_nil_r. apply L1.
  - intros q. rewrite task_status_changes_app. cbn. rewrite app_nil_r. apply L2.
  - intros q it. rewrite worker_status_changes_app, worker_status_changes_one.
    destruct (decide (p = q)) as [->|Hne].
    + rewrite list_lookup_alter_eq. unfold worker_status.
      destruct (workerItems d !! q) as [x|] eqn:E; [|done].
      cbn. intros [= <-]. rewrite replay_app, (L3 _ _ E). cbn.
      by rewrite Z.eqb_refl.
    + rewrite list_lookup_alter_ne, app_nil_r by done. apply L3.
  - intros q Hq. rewrite worker_status_changes_app, worker_status_changes_one.
    destruct (decide (p = q)) as [->|Hne]; [lia|].
    rewrite app_nil_r. by apply L4.
  - rewrite dispatcher_status_changes_app. cbn. by rewrite app_nil_r.
Qed.

Lemma Logged_setStatusDispatcher st d :
  Logged d -> Logged (setStatusDispatcher st d).
Proof.
  intros [L1 L2 L3 L4 L5 L6 L7].
  constructor; cbn [setStatusDispatcher AsyncTrigger set_status taskItems
                    workerItems listeners status tasks workers]; try done.
  - intros q it. rewrite task_status_changes_app. cbn. rewrite app_nil_r. apply L1.
  - intros q. rewrite task_status_changes_app. cbn. rewrite app_nil_r. apply L2.
  - intros q wi. rewrite worker_status_changes_app. cbn. rewrite app_nil_r. apply L3.
  - intros q. rewrite worker_status_changes_app. cbn. rewrite app_nil_r. apply L4.
  - rewrite dispatcher_status_changes_app, replay_app, L5. cbn.
    by rewrite Z.eqb_refl.
Qed.

(** An event that is not a status change. *)
Lemma Logged_AsyncTrigger e d :
  (forall p, task_status_changes p [e] = []) ->
  (forall p, worker_status_changes p [e] = []) ->
  dispatcher_status_changes [e] = [] ->
  Logged d -> Logged (AsyncTrigger e d).
Proof.
  intros E1 E2 E3 [L1 L2 L3 L4 L5 L6 L7].
  constructor; cbn [AsyncTrigger taskItems workerItems listeners status tasks
                    workers]; try done.
  - intros q it. rewrite task_status_changes_app, E1, app_nil_r. apply L1.
  - intros q. rewrite task_status_changes_app, E1, app_nil_r. apply L2.
  - intros q wi. rewrite worker_status_changes_app, E2, app_nil_r. apply L3.
  - intros q. rewrite worker_status_changes_app, E2, app_nil_r. apply L4.
  - by rewrite dispatcher_status_changes_app, E3, app_nil_r.
Qed.

Lemma Push_holds f p m q :
  q ∈ m_items (Push f p m).1 ++ m_queue (Push f p m).1 ->
  q = p \/ q ∈ m_items m ++ m_queue m.
Proof.
  unfold Push. destruct (_ || _); cbn; [auto|].
  destruct (mem p (m_items m)); rewrite !elem_of_app, ?list_elem_of_singleton; tauto.
Qed.

Lemma Remove_holds p m q :
  q ∈ m_items (Remove p m) ++ m_queue (Remove p m) -> q ∈ m_items m ++ m_queue m.
Proof.
  unfold Remove, without. cbn. rewrite !elem_of_app, !list_elem_of_filter. tauto.
Qed.

Lemma Logged_tasks_Push p d :
  (p < length (taskItems d))%nat -> Logged d -> Logged (tasks_Push p d).1.
Proof.
  intros Hp L. destruct (tasks_Push_frame p d) as (_&E2&_&_&E5&E6&E7&E8&_&E10).
  cbv zeta in *. destruct L as [L1 L2 L3 L4 L5 L6 L7].
  constructor; rewrite ?E2, ?E5, ?E6, ?E7, ?E8, ?E10; auto.
  intros q Hq. apply Push_holds in Hq as [->|Hq]; auto.
Qed.

Lemma Logged_workers_Push p d :
  (p < length (workerItems d))%nat -> Logged d -> Logged (workers_Push p d).1.
Proof.
  intros Hp L. destruct (workers_Push_frame p d) as (_&E2&_&_&E5&E6&E7&E8&_&E10).
  cbv zeta in *. destruct L as [L1 L2 L3 L4 L5 L6 L7].
  constructor; rewrite ?E2, ?E5, ?E6, ?E7, ?E8, ?E10; auto.
  intros q Hq. apply Push_holds in Hq as [->|Hq]; auto.
Qed.

Lemma Logged_tasks_Remove p d : Logged d -> Logged (tasks_Remove p d).
Proof.
  apply Logged_same; try done. intros q. apply Remove_holds.
Qed.

Lemma Logged_workers_Remove p d : Logged d -> Logged (workers_Remove p d).
Proof.
  apply Logged_same; try done. intros q. apply Remove_holds.
Qed.

Lemma Logged_item_Cancel c d : Logged d -> Logged (item_Cancel c d).
Proof. destruct c; by apply Logged_same. Qed.

Lemma Logged_notifyAllowExecuteTasks d d' :
  notifyAllowExecuteTasks d = Some d' -> Logged d -> Logged d'.
Proof.
  destruct (notifyAllowExecuteTasks_returns d) as (n & -> & _).
  intros [= <-]. by apply Logged_same.
Qed.

Lemma Logged_initial parent : Logged (NewSimpleDispatcherWithContext parent).
Proof.
  constructor; cbn; try done; intros p; try (intros x; by rewrite lookup_nil);
    intros H; by inversion H.
Qed.

Ltac logged_step :=
  first
    [ assumption
    | apply Logged_AsyncTrigger; [done|done|done|]
    | apply Logged_tasks_Remove
    | apply Logged_workers_Remove
    | apply Logged_item_Cancel
    | apply Logged_task_update; [done|]
    | apply Logged_worker_update; [done|]
    | apply Logged_setStatusDispatcher ].

Ltac logged := cbv zeta; repeat logged_step.

(** A new item, made in Wait, of which nothing was reported. *)
Lemma Logged_new_worker now w d :
  Logged d ->
  Logged (set_workerItems
            (workerItems d ++ [NewWorkersManagerItem now w WorkerStatusWait]) d).
Proof.
  intros [L1 L2 L3 L4 L5 L6 L7].
  constructor; cbn [set_workerItems taskItems workerItems listeners status tasks
                    workers]; try done.
  - intros p wi Hp. apply lookup_app_Some in Hp as [Hp|[Hlen Hp]]; [by apply L3|].
    apply list_lookup_singleton_Some in Hp as [_ <-]. by rewrite L4.
  - intros p. rewrite length_app. cbn. intros Hp. apply L4. lia.
  - intros p Hp. rewrite length_app. apply L7 in Hp. lia.
Qed.

Lemma Logged_new_task t d :
  Logged d ->
  Logged (set_taskItems (taskItems d ++ [NewTasksManagerItem t TaskStatusWait]) d).
Proof.
  intros [L1 L2 L3 L4 L5 L6 L7].
  constructor; cbn [set_taskItems taskItems workerItems listeners status tasks
                    workers]; try done.
  - intros p it Hp. apply lookup_app_Some in Hp as [Hp|[Hlen Hp]]; [by apply L1|].
    apply list_lookup_singleton_Some in Hp as [_ <-]. by rewrite L2.
  - intros p. rewrite length_app. cbn. intros Hp. apply L2. lia.
  - intros p Hp. rewrite length_app. apply L6 in Hp. lia.
Qed.

Lemma Logged_AddWorker now w d d' e :
  AddWorker now w d = Some (d', e) -> Logged d -> Logged d'.
Proof.
  intros H L. apply (Logged_new_worker now w) in L. revert H. unfold AddWorker.
  match goal with |- context [workers_Push ?p ?x] =>
    pose proof (Logged_workers_Push p x) as Q;
    destruct (workers_Push p x) as [d1 [e1|]] end; cbn [fst] in *.
  - intros [= <- <-]. apply Q; [|done]. cbn. rewrite length_app. cbn. lia.
  - destruct (notifyAllowExecuteTasks _) as [d2|] eqn:N; [|done].
    cbn. intros [= <- <-]. eapply Logged_notifyAllowExecuteTasks; [exact N|].
    logged. apply Q; [|done]. cbn. rewrite length_app. cbn. lia.
Qed.

Lemma Logged_AddTask t d d' e :
  AddTask t d = Some (d', e) -> Logged d -> Logged d'.
Proof.
  intros H L. apply (Logged_new_task t) in L. revert H. unfold AddTask.
  match goal with |- context [tasks_Push ?p ?x] =>
    pose proof (Logged_tasks_Push p x) as Q;
    destruct (tasks_Push p x) as [d1 [e1|]] end; cbn [fst] in *.
  - intros [= <- <-]. apply Q; [|done]. cbn. rewrite length_app. cbn. lia.
  - destruct (notifyAllowExecuteTasks _) as [d2|] eqn:N; [|done].
    cbn. intros [= <- <-]. eapply Logged_notifyAllowExecuteTasks; [exact N|].
    logged. apply Q; [|done]. cbn. rewrite length_app. cbn. lia.
Qed.

Lemma Logged_RemoveWorker w d : Logged d -> Logged (RemoveWorker w d).
Proof.
  intros L. unfold RemoveWorker.
  destruct (GetById _ _) as [item|] eqn:G; [|done].
  apply GetById_Some in G as [_ G]. unfold worker_has_id in G.
  destruct (workerItems d !! item) as [wi|] eqn:E; [|done].
  apply lookup_lt_Some in E. logged. by apply Logged_setStatusWorker.
Qed.

Lemma Logged_RemoveTask t d : Logged d -> Logged (RemoveTask t d).
Proof.
  intros L. unfold RemoveTask.
  destruct (GetById _ _) as [item|] eqn:G; [|done].
  apply GetById_Some in G as [_ G]. unfold task_has_id in G.
  destruct (taskItems d !! item) as [wi|] eqn:E; [|done].
  apply lookup_lt_Some in E. logged. by apply Logged_setStatusTask.
Qed.

Lemma Logged_Run_enter d d' e : Run_enter d = Some (d', e) -> Logged d -> Logged d'.
Proof.
  unfold Run_enter. destruct (negb _); [by intros [= <- <-]|].
  destruct (notifyAllowExecuteTasks _) as [d2|] eqn:N; [|done].
  cbn. intros [= <- <-] L. eapply Logged_notifyAllowExecuteTasks; [exact N|].
  logged.
Qed.

Lemma Logged_foldl_setStatusTask st l d :
  Forall (fun p => (p < length (taskItems d))%nat) l ->
  Logged d -> Logged (foldl (fun d t => setStatusTask t st d) d l).
Proof.
  revert d. induction l as [|t l IH]; intros d Hl L; cbn [foldl]; [done|].
  inversion Hl as [|? ? Ht Hl']; subst. apply IH.
  - cbn [setStatusTask AsyncTrigger task_update set_taskItems taskItems].
    by rewrite length_alter.
  - by apply Logged_setStatusTask.
Qed.

Lemma Logged_foldl_setStatusWorker st l d :
  Forall (fun p => (p < length (workerItems d))%nat) l ->
  Logged d -> Logged (foldl (fun d w => setStatusWorker w st d) d l).
Proof.
  revert d. induction l as [|t l IH]; intros d Hl L; cbn [foldl]; [done|].
  inversion Hl as [|? ? Ht Hl']; subst. apply IH.
  - cbn [setStatusWorker AsyncTrigger worker_update set_workerItems workerItems].
    by rewrite length_alter.
  - by apply Logged_setStatusWorker.
Qed.

Lemma Logged_Run_cancel d : Logged d -> Logged (Run_cancel d).
Proof.
  intros L. unfold Run_cancel. cbv zeta.
  set (d1 := setStatusDispatcher DispatcherStatusCancel d).
  assert (Logged d1) as L1 by (by apply Logged_setStatusDispatcher).
  clearbody d1.
  destruct (foldl_setStatusWorker_frame WorkerStatusCancel (GetAll (workers d1)) d1)
    as (_&_&_&_&_&B6&B7&_).
  assert (Logged (foldl (fun d w => setStatusWorker w WorkerStatusCancel d) d1
                    (GetAll (workers d1)))) as L2.
  { apply Logged_foldl_setStatusWorker; [|done]. apply Forall_forall. intros p Hp.
    apply (log_workers _ L1). apply elem_of_app. by left. }
  set (d2 := foldl _ d1 (GetAll (workers d1))) in *. cbv zeta in *. clearbody d2.
  apply Logged_foldl_setStatusTask; [|done]. apply Forall_forall. intros p Hp.
  apply (log_tasks _ L2). apply elem_of_app. by left.
Qed.

Lemma Logged_Run_return d d' e : Run_return d = Some (d', e) -> Logged d -> Logged d'.
Proof.
  unfold Run_return. destruct (wg d =? 0); [|done]. intros [= <- <-] L. logged.
Qed.

Lemma Logged_collect_worker r d :
  (workerItem r < length (workerItems d))%nat ->
  Logged d -> Logged (collect_worker r d).
Proof.
  intros Hw L. unfold collect_worker. cbv zeta. destruct (_ || _); [|logged].
  apply Logged_workers_Push.
  { cbn [setStatusWorker AsyncTrigger worker_update set_workerItems workerItems].
    by rewrite !length_alter. }
  apply Logged_setStatusWorker.
  { cbn [worker_update set_workerItems workerItems]. by rewrite !length_alter. }
  logged.
Qed.

Lemma Logged_collect_task now r d :
  (taskItem r < length (taskItems d))%nat ->
  Logged d -> Logged (collect_task now r d).
Proof.
  intros Ht L. unfold collect_task. cbv zeta. destruct (_ && _); [|done].
  set (d1 := match err r with
             | Some _ => setStatusTask (taskItem r) TaskStatusFail d
             | None => setStatusTask (taskItem r) TaskStatusSuccess d
             end).
  assert (Logged d1 /\ length (taskItems d1) = length (taskItems d)) as [L1 E1].
  { subst d1. destruct (err r); (split; [by apply Logged_setStatusTask|]);
      cbn [setStatusTask AsyncTrigger task_update set_taskItems taskItems];
      by rewrite length_alter. }
  clearbody d1. destruct (retry_allowed _ d1); [|logged].
  set (d2 := if _ >? 0 then _ else d1).
  assert (Logged d2 /\ length (taskItems d2) = length (taskItems d)) as [L2 E2].
  { subst d2. destruct (_ >? 0); [|done]. split; [logged|].
    cbn [task_update set_taskItems taskItems]. by rewrite length_alter. }
  clearbody d2. apply Logged_tasks_Push.
  { cbn [setStatusTask AsyncTrigger task_update set_taskItems taskItems].
    rewrite length_alter. lia. }
  apply Logged_setStatusTask; [lia|done].
Qed.

Lemma Logged_doResultCollector_result now r d d' :
  doResultCollector_result now r d = Some d' ->
  (workerItem r < length (workerItems d))%nat ->
  (taskItem r < length (taskItems d))%nat ->
  Logged d -> Logged d'.
Proof.
  unfold doResultCollector_result. cbv zeta. intros H Hw Ht L.
  set (d1 := worker_update _ _ _) in *.
  assert (Logged d1) as L1 by (subst d1; logged).
  assert (length (workerItems d1) = length (workerItems d)
          /\ length (taskItems d1) = length (taskItems d)) as [E1 E2].
  { subst d1. dsimpl. by rewrite !length_alter. }
  clearbody d1. destruct (IsStatus _ d1); [by injection H as <-|].
  eapply Logged_notifyAllowExecuteTasks; [exact H|].
  apply Logged_AsyncTrigger; [done|done|done|].
  apply Logged_collect_task.
  - destruct (collect_worker_frame r d1) as (_&_&_&_&_&W6&_). cbv zeta in W6.
    rewrite W6. lia.
  - apply Logged_collect_worker; [lia|done].
Qed.

Lemma Logged_workers_Pull d o d1 : workers_Pull d = (o, d1) -> Logged d -> Logged d1.
Proof.
  unfold workers_Pull, PullOldest.
  destruct (first_by _ _); intros [= <- <-]; apply Logged_same; try done.
  cbn. intros p. rewrite !elem_of_app. unfold without.
  rewrite list_elem_of_filter. tauto.
Qed.

Lemma Logged_tasks_Pull now d o d1 :
  tasks_Pull now d = (o, d1) -> Logged d -> Logged d1.
Proof.
  unfold tasks_Pull, PullFirst.
  destruct (find _ _); intros [= <- <-]; apply Logged_same; try done.
  cbn. intros p. rewrite !elem_of_app. unfold without.
  rewrite list_elem_of_filter. tauto.
Qed.

Lemma Logged_dispatch_run now d launched d' :
  dispatch_run now d launched d' -> Logged d -> Logged d'.
Proof.
  induction 1 as [d w d1 t d2 launched d' Hw Ht Hrun IH
                 | d ow d1 ot d2 Hw Ht Hor]; intros L.
  - apply IH. apply Logged_AsyncTrigger; [done|done|done|].
    eapply Logged_tasks_Pull; [exact Ht|]. by eapply Logged_workers_Pull.
  - assert (forall w, ow = Some w -> (w < length (workerItems d2))%nat) as Vw.
    { intros w ->. pose proof Hw as Hw'.
      apply workers_Pull_Some in Hw as (Hin & _ & _).
      apply Quiet_workers_Pull in Hw'. apply Quiet_tasks_Pull in Ht.
      pose proof (quiet_workerItems _ _ (Quiet_trans _ _ _ Hw' Ht)).
      assert (w < length (workerItems d))%nat; [|lia].
      apply (log_workers _ L). apply elem_of_app. by right. }
    assert (Logged d1) as L1 by (by eapply Logged_workers_Pull).
    assert (forall t, ot = Some t -> (t < length (taskItems d2))%nat) as Vt.
    { intros t ->. pose proof Ht as Ht'.
      apply tasks_Pull_Some in Ht as (Hin & _ & _).
      apply Quiet_tasks_Pull in Ht'.
      pose proof (quiet_taskItems _ _ Ht').
      assert (t < length (taskItems d1))%nat; [|lia].
      apply (log_tasks _ L1). apply elem_of_app. by right. }
    assert (Logged d2) as L2 by (by eapply Logged_tasks_Pull).
    unfold push_back. destruct ow as [w|], ot as [t|]; try done.
    + apply Logged_tasks_Push.
      * destruct (workers_Push_frame w d2) as (_&_&_&_&_&_&E7&_). cbv zeta in E7.
        rewrite E7. by apply Vt.
      * apply Logged_workers_Push; [by apply Vw|done].
    + apply Logged_workers_Push; [by apply Vw|done].
    + apply Logged_tasks_Push; [by apply Vt|done].
Qed.

Lemma Logged_doExecuteTasks fuel now d d' launched :
  doExecuteTasks fuel now d = Some (d', launched) -> Logged d -> Logged d'.
Proof.
  unfold doExecuteTasks. destruct (negb _).
  - by intros [= <- <-].
  - intros H. by eapply Logged_dispatch_run, doExecuteTasks_loop_run.
Qed.

Lemma Logged_doRunTask_start now w t d k d' :
  doRunTask_start now w t d = (k, d') ->
  (w < length (workerItems d))%nat ->
  (t < length (taskItems d))%nat ->
  Logged d -> Logged d'.
Proof.
  unfold doRunTask_start. intros H Hw Ht L.
  set (d0 := set_wg (wg d + 1) d) in H.
  assert (Logged d0) as L0 by (by apply (Logged_same d)).
  assert (length (workerItems d0) = length (workerItems d)
          /\ length (taskItems d0) = length (taskItems d)) as [Ew Et] by done.
  clearbody d0. rewrite <- Ew in Hw. rewrite <- Et in Ht. clear Ew Et L d.
  cbv zeta in H.
  set (d1 := setStatusWorker w WorkerStatusProcess _) in H.
  assert (Logged d1) as L1.
  { subst d1. apply Logged_setStatusWorker; [|logged].
    cbn [worker_update set_workerItems workerItems]. by rewrite length_alter. }
  assert (length (taskItems d1) = length (taskItems d0)) as Et by done.
  clearbody d1. rewrite <- Et in Ht. clear Et Hw L0 d0.
  set (d2 := setStatusTask t TaskStatusProcess _) in H.
  assert (Logged d2) as L2.
  { subst d2. apply Logged_setStatusTask; [|logged].
    cbn [task_update set_taskItems taskItems]. by rewrite length_alter. }
  clearbody d2. clear Ht L1 d1.
  set (d3 := if task_Attempts t d2 =? 1 then _ else d2) in H.
  assert (Logged d3) as L3 by (subst d3; destruct (_ =? 1); logged).
  clearbody d3. clear L2 d2.
  set (d4 := task_update (ti_SetLastStartedAt now) t d3) in H.
  assert (Logged d4) as L4 by (subst d4; logged).
  clearbody d4. clear L3 d3.
  injection H as <- <-. logged. by apply (Logged_same d4).
Qed.

Lemma Logged_step s s' :
  Inv s -> Pooled s -> Logged (shared s) -> step s s' -> Logged (shared s').
Proof.
  intros I P L St. destruct St; cbn [with_shared shared].
  - by eapply Logged_AddWorker.
  - by apply Logged_RemoveWorker.
  - by eapply Logged_AddTask.
  - by apply Logged_RemoveTask.
  - unfold Cancel, ctx_done. destruct (ctx (shared s)); [done|].
    by apply (Logged_same (shared s)).
  - unfold ctx_done. destruct (ctx (shared s)); [done|].
    by apply (Logged_same (shared s)).
  - by apply (Logged_same (shared s)).
  - by eapply Logged_Run_enter.
  - by apply Logged_Run_cancel.
  - by eapply Logged_Run_return.
  - by apply (Logged_same (shared s)).
  - by apply (Logged_same (shared s)).
  - (* collector_result *)
    match goal with H : collector s = _ |- _ => rename H into Hc end.
    eapply Logged_doResultCollector_result; [eassumption| | |done].
    + apply (pooled_valid _ P). unfold busy, held_worker. rewrite Hc.
      rewrite !elem_of_app. right. right. right. by left.
    + pose proof (inv_valid _ I (taskItem r)) as V. unfold keys in V.
      rewrite length_fmap in V. apply V. unfold live, held. rewrite Hc.
      rewrite !elem_of_app. right. right. right. by left.
  - by apply (Logged_same (shared s)).
  - by apply (Logged_same (shared s)).
  - eapply Logged_doExecuteTasks; [eassumption|]. by apply (Logged_same (shared s)).
  - by eapply Logged_doExecuteTasks.
  - (* doRunTask_start *)
    match goal with H : spawned s !! _ = _ |- _ => rename H into Hs end.
    eapply Logged_doRunTask_start; [eassumption| | |done].
    + apply (pooled_valid _ P). unfold busy. rewrite !elem_of_app. right. left.
      apply list_elem_of_fmap. exists (w, t). split; [done|].
      by eapply list_elem_of_lookup_2.
    + pose proof (inv_valid _ I t) as V. unfold keys in V.
      rewrite length_fmap in V. apply V. unfold live. rewrite !elem_of_app.
      right. left. apply list_elem_of_fmap. exists (w, t). split; [done|].
      by eapply list_elem_of_lookup_2.
  - done.
  - by apply (Logged_same (shared s)).
Qed.

Lemma Logged_reach parent n s : reach parent n s -> Logged (shared s).
Proof.
  induction 1 as [|n s s' R IH St]; [apply Logged_initial|].
  eapply Logged_step; [by eapply Inv_reach|by eapply Pooled_reach|exact IH|exact St].
Qed.

(** X23.  [setStatusTask] reads the status of the item, stores the new one,
    and then hands the listeners the change from the status it read, as
    three operations (lines 660-663).  A call alone does what the one block
    [setStatusTask] does, and when the reported changes of the item replay
    from Wait to its status before the call, they replay to the new status
    after it.  Two calls on one item that both read before either stores
    (as [RemoveTask], on the goroutine of its caller, and the collector
    can) report the same previous status; the item ends with the status of
    the later store, and the reported changes no longer replay when the
    first new status differs from the status that was read. *)
Theorem setStatusTask_reports_what_it_read t st1 st2 d it :
  taskItems d !! t = Some it ->
  setStatusTask_run [0; 0; 0]%nat t [(st1, SetAtRead)] d
  = Some ([(st1, SetReturned)], setStatusTask t st1 d)
  /\ (replay TaskStatusWait (task_status_changes t (listeners d))
      = Some (ti_status it) ->
      replay TaskStatusWait
        (task_status_changes t (listeners (setStatusTask t st1 d)))
      = Some st1)
  /\ exists d',
       setStatusTask_run [0; 1; 0; 0; 1; 1]%nat t
         [(st1, SetAtRead); (st2, SetAtRead)] d
       = Some ([(st1, SetReturned); (st2, SetReturned)], d')
       /\ task_status t d' = st2
       /\ listeners d'
          = listeners d
            ++ [EventTaskStatusChanged t st1 (ti_status it);
                EventTaskStatusChanged t st2 (ti_status it)]
       /\ (st1 <> ti_status it ->
           replay TaskStatusWait (task_status_changes t (listeners d))
           = Some (ti_status it) ->
           replay TaskStatusWait (task_status_changes t (listeners d'))
           = None).
Proof.
  intros Hit.
  assert (task_status t d = ti_status it) as Hst
    by (unfold task_status; by rewrite Hit).
  split; [|split].
  - reflexivity.
  - intros Hr. cbn [setStatusTask AsyncTrigger listeners].
    rewrite task_status_changes_app, task_status_changes_one.
    rewrite decide_True by done.
    rewrite replay_app. cbn [task_update set_taskItems listeners].
    rewrite Hr. cbn. by rewrite Hst, Z.eqb_refl.
  - eexists. split; [reflexivity|].
    split; [|split].
    + unfold task_status. dsimpl. rewrite !list_lookup_alter_eq, Hit. done.
    + dsimpl. rewrite <- app_assoc. cbn. by rewrite Hst.
    + intros Hne Hr. dsimpl.
      rewrite !task_status_changes_app, !task_status_changes_one.
      rewrite !decide_True by done.
      rewrite <- app_assoc, replay_app, Hr. cbn.
      rewrite Hst, Z.eqb_refl.
      destruct (ti_status it =? st1) eqn:E; [|done].
      apply Z.eqb_eq in E. congruence.
Qed.

Lemma setStatusTask_reports_what_it_read_witness :
  setStatusTask_run [0; 0; 0]%nat 0
    [(TaskStatusCancel, SetAtRead)] (shared sample_system)
  = Some ([(TaskStatusCancel, SetReturned)],
          setStatusTask 0 TaskStatusCancel (shared sample_system))
  /\ replay TaskStatusWait
       (task_status_changes 0
          (listeners (setStatusTask 0 TaskStatusCancel
                        (shared sample_system))))
     = Some TaskStatusCancel
  /\ exists d',
       setStatusTask_run [0; 1; 0; 0; 1; 1]%nat 0
         [(TaskStatusCancel, SetAtRead); (TaskStatusFail, SetAtRead)]
         (shared sample_system)
       = Some ([(TaskStatusCancel, SetReturned);
                (TaskStatusFail, SetReturned)], d')
       /\ task_status 0 d' = TaskStatusFail
       /\ listeners d'
          = listeners (shared sample_system)
            ++ [EventTaskStatusChanged 0 TaskStatusCancel TaskStatusProcess;
                EventTaskStatusChanged 0 TaskStatusFail TaskStatusProcess]
       /\ replay TaskStatusWait (task_status_changes 0 (listeners d'))
          = None.
Proof.
  destruct (setStatusTask_reports_what_it_read 0%nat TaskStatusCancel
              TaskStatusFail (shared sample_system)
              (mkTasksManagerItem (mkTask "t1" 0 0 0) TaskStatusProcess 1 None
                 (Some 201) (Some 201) (Some 0%nat)) eq_refl)
    as (H1 & H2 & d' & H3 & H4 & H5 & H6).
  split; [exact H1|]. split; [apply H2; reflexivity|].
  exists d'. split; [exact H3|]. split; [exact H4|]. split; [exact H5|].
  apply H6; [discriminate|reflexivity].
Defined.

(** ** What [GetTasks] lists *)

Lemma omap_ext_elem {A B} (f g : A -> option B) (l : list A) :
  (forall x, x ∈ l -> f x = g x) -> omap f l = omap g l.
Proof.
  induction l as [|x l IH]; intros H; [done|]. cbn.
  rewrite (H x) by (by left). rewrite IH; [done|].
  intros y Hy. apply H. by right.
Qed.

Lemma AddTask_GetTasks parent n s task d' e :
  reach parent n s ->
  AddTask task (shared s) = Some (d', e) ->
  GetTasks d' = GetTasks (shared s) ++ (if e is None then [task] else [])
  /\ GetWorkers d' = GetWorkers (shared s).
Proof.
  intros R H. apply Logged_reach in R as [_ _ _ _ _ L6 _].
  assert (forall p, p ∈ m_items (tasks (shared s)) ->
            (p < length (taskItems (shared s)))%nat) as V.
  { intros p Hp. apply L6, elem_of_app. by left. }
  destruct (AddTask_workers _ _ _ _ H) as [Wi Wm].
  split; [|unfold GetWorkers; by rewrite Wi, Wm].
  revert H. unfold AddTask, tasks_Push, Push. cbv zeta.
  cbn [tasks taskItems set_taskItems].
  set (item := length (taskItems (shared s))).
  assert (mem item (m_items (tasks (shared s))) = false) as Hmem.
  { unfold mem. apply bool_decide_eq_false. intros Hin. apply V in Hin.
    subst item. lia. }
  assert (forall l : list nat, (forall p, p ∈ l -> (p < length (taskItems (shared s)))%nat) ->
            omap (fun p => ti_task <$>
                    (taskItems (shared s)
                       ++ [NewTasksManagerItem task TaskStatusWait]) !! p) l
            = omap (fun p => ti_task <$> taskItems (shared s) !! p) l) as Hsame.
  { intros l Hl. apply omap_ext_elem. intros p Hp.
    by rewrite lookup_app_l by (by apply Hl). }
  destruct (mem _ _ || _) eqn:E1; cbn [fst snd].
  - intros [= <- <-]. unfold GetTasks, GetAll. cbn. rewrite app_nil_r.
    by apply Hsame.
  - destruct (notifyAllowExecuteTasks _) as [d2|] eqn:N; [|done].
    cbn. intros [= <- <-].
    apply notifyAllowExecuteTasks_tasks in N as [Ni Nt].
    unfold GetTasks, GetAll. rewrite Ni, Nt. cbn. rewrite Hmem, omap_app.
    rewrite Hsame by done. cbn.
    by rewrite lookup_app_r, Nat.sub_diag by (subst item; lia).
Qed.

(** X24.  In every state of a run, [GetTasks] after an accepted [AddTask]
    returns the tasks it returned before and the new task, each as often as
    before and the new one once more, in some order; after a rejected one
    it returns what it returned before.  [GetWorkers] returns the same
    workers before and after. *)
Theorem AddTask_is_listed parent n s task d' e :
  reach parent n s ->
  AddTask task (shared s) = Some (d', e) ->
  GetTasks d' ≡ₚ GetTasks (shared s) ++ (if e is None then [task] else [])
  /\ GetWorkers d' ≡ₚ GetWorkers (shared s).
Proof.
  intros R H. destruct (AddTask_GetTasks _ _ _ _ _ _ R H) as [-> ->]. done.
Qed.

Lemma AddTask_is_listed_witness :
  GetTasks (state_of (AddTask (mkTask "t2" 1 0 0) (shared sample_system)))
  ≡ₚ GetTasks (shared sample_system) ++ [mkTask "t2" 1 0 0]
  /\ GetWorkers (state_of (AddTask (mkTask "t2" 1 0 0) (shared sample_system)))
     ≡ₚ GetWorkers (shared sample_system).
Proof.
  apply (AddTask_is_listed None 6%nat sample_system (mkTask "t2" 1 0 0)
           (state_of (AddTask (mkTask "t2" 1 0 0) (shared sample_system))) None
           sample_system_reach).
  vm_compute. reflexivity.
Defined.

(** ** The worker, for any client and as the dispatcher uses it *)

Import worker.

Lemma exec_snoc l a s : exec (l ++ [a]) s = exec l s ≫= step a.
Proof. unfold exec. by rewrite foldl_app. Qed.

Lemma reach_ind_step (P : System -> Prop) :
  P initial ->
  (forall a s s', reach s -> P s -> step a s = Some s' -> P s') ->
  forall s, reach s -> P s.
Proof.
  intros H0 HS s [l Hl]. revert s Hl.
  induction l as [|a l IH] using rev_ind; intros s Hl.
  - cbn in Hl. by simplify_eq.
  - rewrite exec_snoc in Hl. destruct (exec l initial) as [s0|] eqn:E; [|done].
    cbn in Hl. eapply HS; [by exists l| by apply IH | done].
Qed.

Ltac wsimpl :=
  cbn [m heap execs runs killers procs fns reported panicked
       set_m set_heap set_execs set_runs set_killers set_procs set_fns
       set_reported panic Run_at Proc_at Fn_at
       status task kill newTask killTask wg
       setStatus setTask set_kill set_newTask set_killTask wg_Add Reset
       GetStatus GetTask] in *.

Lemma step_alive a s s' :
  step a s = Some s' -> wg (m s) = alive s -> wg (m s') = alive s'.
Proof.
  unfold step, alive. destruct (panicked s); [done|].
  destruct a; intros H Hw;
    repeat (first [ progress simplify_option_eq | progress wsimpl
                  | case_match ]);
    try (unfold Run_step, Proc_step, Proc_select_step, Fn_step in *);
    repeat (first [ progress simplify_option_eq | progress wsimpl
                  | case_match ]);
    rewrite ?length_insert, ?length_app, ?length_delete by eauto;
    cbn [length]; try lia.
  all: repeat match goal with H : _ !! _ = Some _ |- _ =>
         apply lookup_lt_Some in H end; lia.
Qed.

Lemma heap_write (h : list Tasker) t tk v :
  h !! t = Some tk -> <[t := v]> h !! t = Some v.
Proof. intros H. apply list_lookup_insert_eq. by eapply lookup_lt_Some. Qed.

Lemma heap_grow (h : list Tasker) t tk v :
  h !! t = Some tk -> (h ++ [v]) !! t = Some tk.
Proof. intros H. by apply lookup_app_l_Some. Qed.

Lemma Begun_begin now before : Begun before (processTask_begin now before).
Proof.
  unfold processTask_begin, expected_attempts.
  destruct before as [st ? ? ? ? ? ? ?]; destruct st; by constructor.
Qed.

Lemma Begun_finished now before tk :
  Begun before tk -> Begun before (SetFinishedAt now tk).
Proof. by intros []; constructor. Qed.

Lemma Decided_finished now before tk :
  Decided before tk -> Decided before (SetFinishedAt now tk).
Proof. by intros []; constructor. Qed.

Lemma Decided_result r before tk :
  Begun before tk -> Decided before (on_result r tk).
Proof.
  intros []. unfold on_result.
  destruct (snd r); constructor; cbn; try done; auto.
Qed.

Lemma Decided_error err before tk :
  Begun before tk -> Decided before (on_error err tk).
Proof. intros []. constructor; cbn; try done; auto. Qed.

Lemma Decided_timer before tk :
  Begun before tk -> 0 < t_timeout before -> Decided before (on_timer tk).
Proof. intros [] ?. constructor; cbn; try done; auto. Qed.

Lemma Fok_finished now t tk fl :
  Fok t tk fl -> Fok t (SetFinishedAt now tk) fl.
Proof. intros []; by constructor. Qed.

Lemma Fok_decided t tk tk' fl :
  t_finishedAt tk' = t_finishedAt tk -> Fok t tk fl -> Fok t tk' fl.
Proof. intros E []; constructor; by rewrite ?E. Qed.

Lemma Fok_result r t tk fl : Fok t tk fl -> Fok t (on_result r tk) fl.
Proof. apply Fok_decided. unfold on_result. by destruct (snd r). Qed.

Lemma Fok_error err t tk fl : Fok t tk fl -> Fok t (on_error err tk) fl.
Proof. by apply Fok_decided. Qed.

Lemma Fok_timer t tk fl : Fok t tk fl -> Fok t (on_timer tk) fl.
Proof. by apply Fok_decided. Qed.

Create HintDb cycle.

#[local] Hint Constructors Entering Fok Winding Returning : cycle.

#[local] Hint Resolve heap_write heap_grow Begun_begin Begun_finished
  Decided_finished Decided_result Decided_error Decided_timer
  Fok_finished Fok_result Fok_error Fok_timer : cycle.

Ltac wunfold :=
  cbv [m heap execs runs killers procs fns reported panicked
       set_m set_heap set_execs set_runs set_killers set_procs set_fns
       set_reported panic Run_at Proc_at Fn_at
       status task kill newTask killTask wg
       setStatus setTask set_kill set_newTask set_killTask wg_Add Reset
       GetStatus GetTask]; cbn.

Ltac crunch :=
  repeat first
    [ discriminate
    | progress simplify_eq
    | progress (cbn in * |-)
    | match goal with
      | H : context [ (_ :: _) !! ?i ] |- _ => is_var i; destruct i
      | H : context [ [] !! _ ] |- _ => rewrite lookup_nil in H
      | H : (match ?x with _ => _ end) = Some _ |- _ => destruct x eqn:?
      | H : (?x ≫= _) = Some _ |- _ => destruct x eqn:?
      | H : (0 <? _) = true |- _ => apply Z.ltb_lt in H
      | H : Proc_select_step _ ?c _ _ _ _ = _ |- _ =>
          unfold Proc_select_step in H; destruct c
      end ].

Lemma Cycle_step a c s c' s' :
  Cycle c s -> client a c s = Some c' -> step a s = Some s' -> Cycle c' s'.
Proof.
  intros HC Hc Hs.
  destruct HC;
    repeat match goal with
           | H : Entering _ _ |- _ => destruct H
           | H : Winding _ _ _ |- _ => destruct H
           | H : Returning _ |- _ => destruct H
           | H : Fok _ _ _ |- _ => destruct H
           end.
  all: destruct a; cbn in Hc; simplify_option_eq.
  all: unfold step in Hs; cbn in Hs.
  all: try (crunch; wunfold;
            try match goal with
                | H : Begun _ ?tk |- context [t_timeout ?tk] =>
                    rewrite (begun_timeout _ _ H)
                end;
            solve [econstructor; eauto with cycle; cbn; lia]).
Qed.

Lemma Cycle_initial : Cycle Idle initial.
Proof. constructor. Qed.

Lemma used_exec_snoc l a cs :
  used_exec (l ++ [a]) cs = used_exec l cs ≫= used_step a.
Proof. unfold used_exec. by rewrite foldl_app. Qed.

Lemma Cycle_used_reach c s : used_reach c s -> Cycle c s.
Proof.
  intros [l Hl]. revert c s Hl.
  induction l as [|a l IH] using rev_ind; intros c s Hl.
  - cbn in Hl. simplify_eq. apply Cycle_initial.
  - rewrite used_exec_snoc in Hl.
    destruct (used_exec l (Idle, initial)) as [[c0 s0]|] eqn:E; [|done].
    cbn in Hl. unfold used_step in Hl. cbn in Hl.
    destruct (client a c0 s0) as [c1|] eqn:Ec; [|done]. cbn in Hl.
    destruct (step a s0) as [s1|] eqn:Es; [|done]. cbn in Hl. simplify_eq.
    eapply Cycle_step; [by apply IH|done|done].
Qed.

Lemma used_reach_reach c s : used_reach c s -> reach s.
Proof.
  intros [l Hl]. exists l. revert c s Hl.
  induction l as [|a l IH] using rev_ind; intros c s Hl.
  - cbn in Hl. by simplify_eq.
  - rewrite used_exec_snoc in Hl. rewrite exec_snoc.
    destruct (used_exec l (Idle, initial)) as [[c0 s0]|] eqn:E; [|done].
    rewrite (IH c0 s0 eq_refl). cbn in Hl |- *. unfold used_step in Hl.
    cbn in Hl. destruct (client a c0 s0); [|done]. cbn in Hl.
    destruct (step a s0); [|done]. cbn in Hl. by simplify_eq.
Qed.

Lemma sample_busy_reach : reach sample_busy.
Proof. exists sample_trace. reflexivity. Qed.

Lemma sample_reported_reach :
  used_reach (Reported 0 sample_task) sample_reported.
Proof. exists (sample_trace ++ sample_finish). reflexivity. Qed.

(** X25.  Whatever the clients of a [Workman] do, in every state it can
    reach its wait group counts the goroutines of [processTask] and of the
    tasks' functions that have not ended; so a call of [Run] gets past
    [m.wg.Wait()] only when none of them is left: [Run] does not return, and
    the worker is not sent on [done], while a function still runs, also
    after a timeout. *)
Theorem Workman_wait_group_counts s :
  reach s ->
  wg (m s) = Z.of_nat (length (procs s) + length (fns s))
  /\ (forall i s',
        runs s !! i = Some Run_Wait -> step (Run_next i) s = Some s' ->
        procs s = [] /\ fns s = [] /\ runs s' !! i = Some Run_deferred).
Proof.
  intros R.
  assert (wg (m s) = alive s) as Hw.
  { induction R as [|a s0 s1 _ IH Hs] using reach_ind_step; [done|].
    by eapply step_alive. }
  split; [done|]. intros i s' Hi Hs. unfold step in Hs.
  destruct (panicked s); [done|]. cbn in Hs. rewrite Hi in Hs. cbn in Hs.
  destruct (wg (m s) =? 0) eqn:E; [|done]. apply Z.eqb_eq in E.
  rewrite E in Hw. unfold alive in Hw.
  destruct (procs s), (fns s); cbn in Hw; try lia. simplify_eq.
  repeat split. cbn. apply list_lookup_insert_eq. by eapply lookup_lt_Some.
Qed.

Lemma Workman_wait_group_counts_witness :
  wg (m sample_busy)
  = Z.of_nat (length (procs sample_busy) + length (fns sample_busy))
  /\ (forall i s',
        runs sample_busy !! i = Some Run_Wait ->
        step (Run_next i) sample_busy = Some s' ->
        procs sample_busy = [] /\ fns sample_busy = []
        /\ runs s' !! i = Some Run_deferred).
Proof. apply (Workman_wait_group_counts sample_busy sample_busy_reach). Defined.

(** X26.  Used as [Dispatcher.Run] uses it ([go w.Run()], one [SendTask],
    [Reset] after the worker came back on [done], never [Kill]): when the
    worker is received from [done] it is at rest.  Its status is Wait, so the
    next [Run] is not refused, [GetTask()] is the task that was sent, none of
    its goroutines is left, the wait group is at zero, and [kill],
    [killTask] and [newTask] are empty, the signal [processTask] sends to end
    [Run] included. *)
Theorem worker_at_rest_when_reported t before s :
  used_reach (Reported t before) s ->
  GetStatus (m s) = WorkerStatusWait
  /\ GetTask (m s) = Some t
  /\ runs s = [] /\ procs s = [] /\ fns s = []
  /\ wg (m s) = 0
  /\ kill (m s) = 0%nat /\ killTask (m s) = 0%nat /\ newTask (m s) = []
  /\ Run_refuses (m s) = None.
Proof.
  intros R. apply Cycle_used_reach in R. inversion R; subst. by repeat split.
Qed.

Lemma worker_at_rest_when_reported_witness :
  GetStatus (m sample_reported) = WorkerStatusWait
  /\ GetTask (m sample_reported) = Some 0%nat
  /\ runs sample_reported = [] /\ procs sample_reported = []
  /\ fns sample_reported = []
  /\ wg (m sample_reported) = 0
  /\ kill (m sample_reported) = 0%nat /\ killTask (m sample_reported) = 0%nat
  /\ newTask (m sample_reported) = []
  /\ Run_refuses (m sample_reported) = None.
Proof.
  apply (worker_at_rest_when_reported 0%nat sample_task sample_reported
           sample_reported_reach).
Defined.

(** X27.  Used as [Dispatcher.Run] uses it: when the worker is received from
    [done], the task that was sent has ended as Success, Fail or
    FailByTimeout (never Kill, never left in Process), as FailByTimeout only
    if its timeout is positive; its attempts counter is one more than before
    if it waited for a repeat and 1 otherwise; its repeats and duration are
    the old ones unless it succeeded; its start and finish times are set. *)
Theorem task_outcome_when_reported t before s :
  used_reach (Reported t before) s ->
  exists tk,
    heap s !! t = Some tk
    /\ (t_status tk = TaskStatusSuccess \/ t_status tk = TaskStatusFail
        \/ t_status tk = TaskStatusFailByTimeout)
    /\ (t_status tk = TaskStatusFailByTimeout -> 0 < t_timeout before)
    /\ t_attempts tk
       = match t_status before with
         | TaskStatusRepeatWait => wrap64 (t_attempts before + 1)
         | _ => 1
         end
    /\ t_timeout tk = t_timeout before
    /\ (t_status tk <> TaskStatusSuccess ->
        t_repeats tk = t_repeats before /\ t_duration tk = t_duration before)
    /\ t_startedAt tk <> None /\ t_finishedAt tk <> None.
Proof.
  intros R. apply Cycle_used_reach in R. inversion R; subst.
  match goal with H : Decided _ _ |- _ => destruct H end.
  unfold expected_attempts in *. eexists. split; [done|]. tauto.
Qed.

Lemma task_outcome_when_reported_witness :
  exists tk,
    heap sample_reported !! 0%nat = Some tk
    /\ (t_status tk = TaskStatusSuccess \/ t_status tk = TaskStatusFail
        \/ t_status tk = TaskStatusFailByTimeout)
    /\ (t_status tk = TaskStatusFailByTimeout -> 0 < t_timeout sample_task)
    /\ t_attempts tk
       = match t_status sample_task with
         | TaskStatusRepeatWait => wrap64 (t_attempts sample_task + 1)
         | _ => 1
         end
    /\ t_timeout tk = t_timeout sample_task
    /\ (t_status tk <> TaskStatusSuccess ->
        t_repeats tk = t_repeats sample_task
        /\ t_duration tk = t_duration sample_task)
    /\ t_startedAt tk <> None /\ t_finishedAt tk <> None.
Proof.
  apply (task_outcome_when_reported 0%nat sample_task sample_reported
           sample_reported_reach).
Defined.

(** X28.  Used as [Dispatcher.Run] uses it, in every state: no nil task is
    dereferenced, nothing waits in [killTask], there is at most one goroutine
    in [Run], one of [processTask] and one of a function; [Run] is never
    refused at its entry; when [Run] takes the signal from [kill] the status
    is Wait already, so it never sends on [killTask]; and a worker that was
    reset is at rest. *)
Theorem worker_in_use_is_safe c s :
  used_reach c s ->
  panicked s = false
  /\ killTask (m s) = 0%nat
  /\ (length (runs s) <= 1 /\ length (procs s) <= 1 /\ length (fns s) <= 1)%nat
  /\ (forall i, runs s !! i = Some Run_enter -> Run_refuses (m s) = None)
  /\ (forall i, runs s !! i = Some Run_ifBusy ->
        GetStatus (m s) = WorkerStatusWait)
  /\ (c = Idle -> runs s = [] /\ procs s = [] /\ fns s = []
                  /\ kill (m s) = 0%nat /\ newTask (m s) = []).
Proof.
  intros R. apply Cycle_used_reach in R.
  destruct R;
    repeat match goal with
           | H : Entering _ _ |- _ => destruct H
           | H : Winding _ _ _ |- _ => destruct H
           | H : Returning _ |- _ => destruct H
           | H : Fok _ _ _ |- _ => destruct H
           end;
    cbn; repeat split; try done; try lia;
    intros [|[|i]]; cbn; by intros.
Qed.

Lemma worker_in_use_is_safe_witness :
  panicked sample_reported = false
  /\ killTask (m sample_reported) = 0%nat
  /\ (length (runs sample_reported) <= 1
      /\ length (procs sample_reported) <= 1
      /\ length (fns sample_reported) <= 1)%nat
  /\ (forall i, runs sample_reported !! i = Some Run_enter ->
        Run_refuses (m sample_reported) = None)
  /\ (forall i, runs sample_reported !! i = Some Run_ifBusy ->
        GetStatus (m sample_reported) = WorkerStatusWait)
  /\ (Reported 0%nat sample_task = Idle ->
      runs sample_reported = [] /\ procs sample_reported = []
      /\ fns sample_reported = []
      /\ kill (m sample_reported) = 0%nat /\ newTask (m sample_reported) = []).
Proof.
  apply (worker_in_use_is_safe (Reported 0%nat sample_task) sample_reported
           sample_reported_reach).
Defined.

(** ** The dispatcher of package [dispatcher]: where its loop stops for good *)

Import dispatcher.

Lemma count_insert {A} (P : A -> bool) (l : list A) j x y :
  l !! j = Some x ->
  (length (filter (fun a => P a = true) (<[j := y]> l))
   + (if P x then 1 else 0)
   = length (filter (fun a => P a = true) l) + (if P y then 1 else 0))%nat.
Proof.
  revert j. induction l as [|a l IH]; intros [|j] H; try done; cbn in H.
  - simplify_eq. change (<[0%nat:=y]> (x :: l)) with (y :: l).
    rewrite !filter_cons.
    destruct (P x) eqn:Ex, (P y) eqn:Ey;
      repeat case_decide; try congruence; cbn; lia.
  - change (<[S j:=y]> (a :: l)) with (a :: <[j:=y]> l).
    rewrite !filter_cons. specialize (IH j H).
    case_decide; cbn; lia.
Qed.

Lemma count_delete {A} (P : A -> bool) (l : list A) i x :
  l !! i = Some x ->
  (length (filter (fun a => P a = true) (delete i l))
   + (if P x then 1 else 0)
   = length (filter (fun a => P a = true) l))%nat.
Proof.
  revert i. induction l as [|a l IH]; intros [|i] H; try done; cbn in H.
  - simplify_eq. change (delete 0%nat (x :: l)) with l.
    rewrite filter_cons.
    destruct (P x) eqn:Ex; case_decide; try congruence; cbn; lia.
  - change (delete (S i) (a :: l)) with (a :: delete i l).
    rewrite !filter_cons. specialize (IH i H).
    case_decide; cbn; lia.
Qed.

Lemma count_none {A} (P : A -> bool) (l : list A) j x :
  length (filter (fun a => P a = true) l) = 0%nat ->
  l !! j = Some x -> P x = false.
Proof.
  intros H Hj. apply length_zero_iff_nil in H.
  destruct (P x) eqn:E; [|done].
  assert (x ∈ filter (fun a => P a = true) l) as Hin.
  { apply list_elem_of_filter. split; [done|]. by eapply list_elem_of_lookup_2. }
  rewrite H in Hin. by apply not_elem_of_nil in Hin.
Qed.

Lemma immediate_grow h tk l :
  (immediate h l <= immediate (h ++ [tk]) l)%nat.
Proof.
  unfold immediate. induction l as [|t l IH]; [done|].
  rewrite !filter_cons.
  assert (is_immediate h t = true -> is_immediate (h ++ [tk]) t = true) as Hm.
  { unfold is_immediate. destruct (h !! t) as [x|] eqn:E; [|done].
    by rewrite (lookup_app_l_Some _ _ _ _ E). }
  repeat case_decide; cbn; try lia. by destruct Hm.
Qed.

Lemma exec_snoc_d l a s : exec (l ++ [a]) s = exec l s ≫= step a.
Proof. unfold exec. by rewrite foldl_app. Qed.

Lemma exec_ind_d (P : System -> Prop) s0 :
  P s0 ->
  (forall a s s', P s -> step a s = Some s' -> P s') ->
  forall l s, exec l s0 = Some s -> P s.
Proof.
  intros H0 HS l. induction l as [|a l IH] using rev_ind; intros s Hl.
  - cbn in Hl. by simplify_eq.
  - rewrite exec_snoc_d in Hl. destruct (exec l s0) as [s1|] eqn:E; [|done].
    cbn in Hl. eapply HS; [by apply IH|done].
Qed.

Ltac dsimp :=
  cbn [d heap main flows adders killers running leaving panicked
       set_d set_heap set_main set_flows set_adders set_killers set_running
       set_leaving panic
       status workersBusy workers tasks waitTasks doneTask quit wg
       setStatus set_workersBusy set_workers set_tasks set_waitTasks
       SetTaskDoneChannel set_quit wg_Add] in *.

Lemma Run_refuses_None x :
  Run_refuses x = None -> status x <> DispatcherStatusProcess.
Proof.
  unfold Run_refuses.
  destruct (status x =? DispatcherStatusProcess) eqn:E; [done|].
  intros _. by apply Z.eqb_neq in E.
Qed.

Lemma immediate_app h l t :
  immediate h (l ++ [t])
  = (immediate h l + (if is_immediate h t then 1 else 0))%nat.
Proof.
  unfold immediate. rewrite filter_app, length_app. f_equal.
  rewrite filter_cons, filter_nil. destruct (is_immediate h t);
    case_decide; try done.
Qed.

Lemma free_app fl f :
  length (filter (fun f => is_free f = true) (fl ++ [f]))
  = (length (filter (fun f => is_free f = true) fl)
     + (if is_free f then 1 else 0))%nat.
Proof.
  rewrite filter_app, length_app. f_equal.
  rewrite filter_cons, filter_nil. destruct (is_free f); case_decide; done.
Qed.

Ltac counts :=
  try match goal with
      | |- context [immediate (?h ++ [?tk]) ?l] =>
          pose proof (immediate_grow h tk l)
      end;
  try match goal with
      | H : ?fl !! ?j = Some ?f |- context [<[?j := ?y]> ?fl] =>
          pose proof (count_insert is_free fl j f y H)
      end;
  try match goal with
      | H : ?l !! ?i = Some ?t |- context [immediate ?h (delete ?i ?l)] =>
          pose proof (count_delete (is_immediate h) l i t H);
          unfold is_immediate in *
      end;
  rewrite ?immediate_app, ?free_app;
  repeat match goal with
         | H : ?h !! ?t = Some _ |- _ => rewrite H in *
         | H : (0 <? ?z) = _ |- _ => rewrite H in *
         end;
  unfold immediate in *; cbn [is_free negb] in *;
  repeat match goal with
         | |- context [if ?b then _ else _] => destruct b
         end;
  try lia.

Lemma Blocked_step a s s' :
  Blocked s -> step a s = Some s' ->
  Blocked s' /\ running s' = running s
  /\ workersBusy (d s') = workersBusy (d s).
Proof.
  unfold Blocked, step, free. intros B H.
  destruct (panicked s); [done|].
  destruct s as [x h mn fl ad ki ru le pa]. dsimp.
  destruct mn; try done; destruct B as [Hst B].
  all: assert ((status x =? DispatcherStatusProcess) = true
               \/ (status x =? DispatcherStatusProcess) = false) as [Eb|Eb]
         by (destruct (status x =? DispatcherStatusProcess); auto);
       try (apply Z.eqb_eq in Eb; congruence);
       try (apply Z.eqb_neq in Eb; congruence).
  all: destruct a; dsimp;
       unfold Main_step, Main_AddTask, add, Run_refuses, Kill_refuses in H;
       dsimp; rewrite ?Eb in H.
  all: repeat first [ discriminate | done | progress simplify_option_eq
                    | progress dsimp | case_match ].
  all: try (repeat split; try done; dsimp; try lia; fail).
  all: try (repeat split; try done; dsimp; counts; fail).
  - exfalso. cbn in B. lia.
  - match goal with
    | H : waitTasks x !! i = Some ?t, E : h !! ?t = Some ?tk,
      E2 : (0 <? _) = true |- _ =>
        pose proof (count_delete (is_immediate h) _ i t H) as Hc;
        assert (is_immediate h t = false) as Ei
          by (unfold is_immediate; by rewrite E, E2);
        rewrite Ei in Hc
    end.
    unfold immediate in *. repeat split; try done. lia.
  - match goal with
    | H : waitTasks x !! i = Some ?t, E : h !! ?t = Some ?tk,
      E2 : (0 <? _) = false |- _ =>
        pose proof (count_delete (is_immediate h) _ i t H) as Hc;
        assert (is_immediate h t = true) as Ei
          by (unfold is_immediate; by rewrite E, E2);
        rewrite Ei in Hc
    end.
    unfold immediate in *. repeat split; try done. lia.
Qed.

Lemma Processing_step a s s' :
  Processing s -> step a s = Some s' -> Processing s'.
Proof.
  unfold Processing, step. intros B H.
  destruct (panicked s); [done|].
  destruct s as [x h mn fl ad ki ru le pa]. dsimp.
  destruct a; dsimp;
    unfold Main_step, Main_AddTask, add, Run_refuses, Kill_refuses in H;
    dsimp;
    repeat first [ discriminate | done | progress simplify_option_eq
                 | progress dsimp | case_match ].
Qed.

Lemma Processing_reach s : reach s -> Processing s.
Proof.
  intros [l Hl]. eapply (exec_ind_d Processing initial); [done| |exact Hl].
  intros a s1 s2. apply Processing_step.
Qed.

Lemma Repeating_step t a s s' :
  Repeating t s -> step a s = Some s' ->
  Repeating t s' /\ running s' = running s
  /\ workersBusy (d s') = workersBusy (d s).
Proof.
  unfold Repeating, step, free. intros [F B] H.
  destruct (panicked s); [done|].
  destruct s as [x h mn fl ad ki ru le pa]. dsimp.
  destruct mn; try done.
  - destruct B as (-> & Hst & tk & Htk & Hw & Hd).
    assert ((0 <? worker.t_duration tk) = false) as Hd' by (apply Z.ltb_ge; lia).
    assert ((status x =? DispatcherStatusProcess) = true) as Eb
      by (by apply Z.eqb_eq).
    destruct a; dsimp;
      unfold Main_step, Main_AddTask, add, Run_refuses, Kill_refuses in H;
      dsimp; rewrite ?Eb in H;
      try (rewrite Htk in H; cbn in H; rewrite Hw in H;
           rewrite list_lookup_insert_eq in H by (by eapply lookup_lt_Some);
           cbn in H; rewrite Hd', Eb in H).
    all: repeat first [ discriminate | done | progress simplify_option_eq
                      | progress dsimp | case_match ].
    all: try match goal with
             | H : _ !! _ = Some Flow_newQueue |- _ =>
                 by apply (count_none is_free _ _ _ F) in H
             end.
    all: try match goal with
             | E : <[_ := _]> _ !! _ = Some _ |- _ =>
                 rewrite list_lookup_insert_eq in E
                   by (by eapply lookup_lt_Some);
                 simplify_eq; cbn in *; congruence
             end.
    all: repeat split; try done; dsimp; eauto 10 using heap_grow.
  - subst.
    destruct a; dsimp;
      unfold Main_step, Main_AddTask, add, Run_refuses, Kill_refuses in H;
      dsimp.
    all: repeat first [ discriminate | done | progress simplify_option_eq
                      | progress dsimp | case_match ].
    all: try match goal with
             | H : _ !! _ = Some Flow_newQueue |- _ =>
                 by apply (count_none is_free _ _ _ F) in H
             end.
    all: repeat split; try done.
Qed.

(** X29.  A call of [Run] that finds two or more waiting tasks to send at
    once (added before it, with a duration that is not positive), counted
    beyond the quota goroutines left waiting by earlier calls, never gets to
    its [select]: whatever happens afterwards it is at its [setStatus], in
    the loop over [d.waitTasks], or at [d.newQueue <- t] inside
    [d.AddTask]; no task is handed to a worker and [workersBusy] does not
    move. *)
Theorem Run_blocks_on_waiting_tasks s s1 l s2 :
  main s = Main_none ->
  Run_refuses (d s) = None ->
  (2 + free s <= immediate (heap s) (waitTasks (d s)))%nat ->
  step call_Run s = Some s1 ->
  exec l s1 = Some s2 ->
  draining (main s2) = true
  /\ running s2 = running s
  /\ workersBusy (d s2) = workersBusy (d s).
Proof.
  intros Hm Hr Hi H1 H2.
  assert (Blocked s1 /\ running s1 = running s
          /\ workersBusy (d s1) = workersBusy (d s)) as HB.
  { unfold step in H1. destruct (panicked s); [done|].
    rewrite Hr, Hm in H1. simplify_eq. unfold Blocked. cbn.
    repeat split; [by apply Run_refuses_None|done]. }
  assert (Blocked s2 /\ running s2 = running s
          /\ workersBusy (d s2) = workersBusy (d s)) as (B & ? & ?).
  { eapply (exec_ind_d
              (fun x => Blocked x /\ running x = running s
                        /\ workersBusy (d x) = workersBusy (d s)) s1 HB);
      [|exact H2].
    intros a sa sb (B & Er & Ew) Hs.
    destruct (Blocked_step _ _ _ B Hs) as (? & ? & ?).
    repeat split; [done|congruence|congruence]. }
  repeat split; try done. unfold Blocked in B. by destruct (main s2).
Qed.

Lemma Run_blocks_on_waiting_tasks_witness :
  draining (main (default initial
     (exec [Main_next; Main_Pop 0; newQueue_main 0; Main_Pop 0]
        (default initial (step call_Run sample_two_waiting))))) = true
  /\ running (default initial
       (exec [Main_next; Main_Pop 0; newQueue_main 0; Main_Pop 0]
          (default initial (step call_Run sample_two_waiting))))
     = running sample_two_waiting
  /\ workersBusy (d (default initial
       (exec [Main_next; Main_Pop 0; newQueue_main 0; Main_Pop 0]
          (default initial (step call_Run sample_two_waiting)))))
     = workersBusy (d sample_two_waiting).
Proof.
  apply (Run_blocks_on_waiting_tasks sample_two_waiting
           (default initial (step call_Run sample_two_waiting))
           [Main_next; Main_Pop 0; newQueue_main 0; Main_Pop 0]);
    vm_compute; first [reflexivity | lia].
Defined.

(** X30.  When [Run] takes a worker from [doneWorker] while no quota
    goroutine waits for a task (a task was handed out and no worker was left
    free), [doneTask] is not set, and the worker's task is to be repeated
    ([repeats] is -1 or above [attempts]) with a duration that is not
    positive, the loop never gets back to its [select]: it stays at
    [d.newQueue <- t] inside [d.AddTask(t)], [workersBusy] is not taken
    down, and no later task, worker or [quit] is handled. *)
Theorem repeat_blocks_the_loop s i t tk s1 l s2 :
  reach s ->
  main s = Main_select ->
  free s = 0%nat ->
  doneTask (d s) = false ->
  running s !! i = Some t ->
  repeat_wanted tk = true ->
  worker.t_duration tk <= 0 ->
  step (doneWorker i tk) s = Some s1 ->
  exec l s1 = Some s2 ->
  (main s2 = Main_repeats t \/ main s2 = Main_repeat t)
  /\ free s2 = 0%nat
  /\ running s2 = running s1
  /\ workersBusy (d s2) = workersBusy (d s).
Proof.
  intros R Hm Hf Hc Hi Hw Hd H1 H2.
  apply Processing_reach in R. unfold Processing in R. rewrite Hm in R.
  assert (Repeating t s1 /\ running s1 = running s1
          /\ workersBusy (d s1) = workersBusy (d s)) as HB.
  { unfold step in H1. destruct (panicked s); [done|].
    rewrite Hm, Hi in H1. cbn in H1.
    destruct (heap s !! t) as [tk0|] eqn:Et; [|done]. cbn in H1.
    rewrite Hc in H1. simplify_eq. unfold Repeating. cbn.
    repeat split; try done. exists tk. split; [|done].
    apply list_lookup_insert_eq. by eapply lookup_lt_Some. }
  assert (Repeating t s2 /\ running s2 = running s1
          /\ workersBusy (d s2) = workersBusy (d s)) as ([F B] & ? & ?).
  { eapply (exec_ind_d
              (fun x => Repeating t x /\ running x = running s1
                        /\ workersBusy (d x) = workersBusy (d s)) s1 HB);
      [|exact H2].
    intros a sa sb (B & Er & Ew) Hs.
    destruct (Repeating_step _ _ _ _ B Hs) as (? & ? & ?).
    split; [done|split; congruence]. }
  split; [|by repeat split].
  destruct (main s2); try done; [left|right]; f_equal; by destruct B.
Qed.

Lemma sample_saturated_reach : reach sample_saturated.
Proof.
  exists [ new_task worker.sample_task; call_AddWorker; call_Run;
           Main_next; Main_next; call_AddTask 0; newQueue_adder 0 0;
           executeQueue 0 ].
  reflexivity.
Qed.

Lemma repeat_blocks_the_loop_witness :
  (main (default initial
     (exec [Main_next; call_AddWorker]
        (default initial
           (step (doneWorker 0 (worker.SetRepeats (-1) worker.sample_task))
              sample_saturated)))) = Main_repeats 0
   \/ main (default initial
        (exec [Main_next; call_AddWorker]
           (default initial
              (step (doneWorker 0 (worker.SetRepeats (-1) worker.sample_task))
                 sample_saturated)))) = Main_repeat 0)
  /\ free (default initial
       (exec [Main_next; call_AddWorker]
          (default initial
             (step (doneWorker 0 (worker.SetRepeats (-1) worker.sample_task))
                sample_saturated)))) = 0%nat
  /\ running (default initial
       (exec [Main_next; call_AddWorker]
          (default initial
             (step (doneWorker 0 (worker.SetRepeats (-1) worker.sample_task))
                sample_saturated))))
     = running (default initial
         (step (doneWorker 0 (worker.SetRepeats (-1) worker.sample_task))
            sample_saturated))
  /\ workersBusy (d (default initial
       (exec [Main_next; call_AddWorker]
          (default initial
             (step (doneWorker 0 (worker.SetRepeats (-1) worker.sample_task))
                sample_saturated)))))
     = workersBusy (d sample_saturated).
Proof.
  apply (repeat_blocks_the_loop sample_saturated 0%nat 0%nat
           (worker.SetRepeats (-1) worker.sample_task)
           (default initial
              (step (doneWorker 0 (worker.SetRepeats (-1) worker.sample_task))
                 sample_saturated))
           [Main_next; call_AddWorker] _ sample_saturated_reach);
    vm_compute; first [reflexivity | by intros].
Defined.
